(** * Al Ghazal back office: status machine, document consistency and
      financial derivation

    A shallow embedding of the request handlers of
    [controllers/projectController.ts], [controllers/estimationController.ts],
    the quotation controller, the work-completion controller, the [Mailer]
    class and the Mongoose schemas of [models/projectModel.ts],
    [models/estimationModel.ts] and [models/workCompletionModel.ts].

    Conventions of the embedding.
    - A JavaScript [number] is an IEEE 754 binary64 value, a primitive
      [float]: [+], [-], [*] and [/] round as the processor does and
      overflow to an infinity, comparisons with [NaN] are false.  JSON has no
      notation for [NaN], so no request body carries one; [1e999] is read
      as [Infinity], so [NaN] can still arise in the arithmetic.  What
      Mongoose does with a [NaN] assigned to a [Number] path is not part of
      the embedding: the statements about a derived amount are made where
      the amount is a number.
    - A MongoDB collection is the list of its documents in insertion order;
      [findOne] returns the first match.
    - An [async] handler is a function from the world (collections and the
      [console.error] stream) to an outcome and a new world.  A rejected
      promise keeps every write made before the throw: no handler of the
      repository opens a transaction.
    - Mongoose behaviour used by the handlers: [doc.save()] validates the
      whole document against its schema, then runs the [pre("save")] hooks,
      then writes; [Model.findByIdAndUpdate] writes without validation unless
      [runValidators] is set, in which case the validators of the updated
      paths run; [populate] yields [null] for a reference that resolves to no
      document.
    - Identifiers are assumed to cast to [ObjectId]; request bodies are typed
      records whose optional members are [option]s.  The body of
      [updateProject], which goes to MongoDB as an update document, has the
      paths of the schema and, of the update operators, those on the number
      path [progress]. *)

From Stdlib Require Import String List ZArith QArith Bool Lia.
From Stdlib Require Import DecimalString Qround.
From Stdlib Require DecimalNat DecimalFacts.
From Stdlib Require Import Floats.
Import ListNotations.
Open Scope string_scope.

(** ** JavaScript values and truthiness *)

Module JS.

Definition number := float.

(** The number an integer literal denotes: the nearest binary64 value. *)
Definition num (z : Z) : number := SF2Prim (binary_normalize prec emax z 0 false).

(** [x === y], [x < y] and [x <= y] on numbers. *)
Definition eqb (x y : number) : bool := PrimFloat.eqb x y.

Definition ltb (x y : number) : bool := PrimFloat.ltb x y.

Definition leb (x y : number) : bool := PrimFloat.leb x y.

(** [!!s] for a string and [!!n] for a number: [0], [-0] and [NaN] are
    falsy. *)
Definition truthy_string (s : string) : bool := negb (s =? "").
Definition truthy_number (n : number) : bool := negb (eqb n (num 0)) && eqb n n.

(** [!!x] for a member that may be [undefined]. *)
Definition truthy {A} (t : A -> bool) (o : option A) : bool :=
  match o with Some a => t a | None => false end.

(** [x || d]. *)
Definition or_else {A} (t : A -> bool) (o : option A) (d : A) : A :=
  match o with
  | Some a => if t a then a else d
  | None => d
  end.

(** [x == null]. *)
Definition is_nullish {A} (o : option A) : bool :=
  match o with Some _ => false | None => true end.

(** [String(n)] for a non-negative integer and [padStart(w, "0")]. *)
Definition string_of_nat (n : nat) : string :=
  NilZero.string_of_uint (Nat.to_uint n).

Fixpoint repeat_string (s : string) (n : nat) : string :=
  match n with O => "" | S k => s ++ repeat_string s k end.

Definition padStart (w : nat) (s : string) : string :=
  repeat_string "0" (w - String.length s) ++ s.

(** [s.trim()] on ASCII text: the white space is the space and the
    control characters from tab to carriage return. *)
Definition is_space (c : Ascii.ascii) : bool :=
  let n := Ascii.nat_of_ascii c in
  Nat.eqb n 32 || (Nat.leb 9 n && Nat.leb n 13).

Fixpoint trim_start (s : string) : string :=
  match s with
  | String c rest => if is_space c then trim_start rest else s
  | EmptyString => EmptyString
  end.

Fixpoint reverse_onto (s acc : string) : string :=
  match s with
  | String c rest => reverse_onto rest (String c acc)
  | EmptyString => acc
  end.

Definition trim (s : string) : string :=
  reverse_onto (trim_start (reverse_onto (trim_start s) "")) "".

(** [s.includes(sub)]. *)
Definition str_includes (sub s : string) : bool :=
  match String.index 0 sub s with Some _ => true | None => false end.

End JS.

Definition ObjectId := string.

(** What a rejected promise carries: an [ApiError] thrown by a handler (a
    numeric status and a message, which the error boundary mirrors in the
    response), or an error raised by Mongoose, the driver or the runtime,
    which the boundary answers with 500. *)
Inductive Error : Type :=
| ApiError (statusCode : Z) (message : string)
| ValidationError (model : string)
| MongoServerError (index : string)
| TypeError (message : string)
| TransportError.

Inductive Outcome (A : Type) : Type :=
| Resolved (a : A)
| Rejected (e : Error).
Arguments Resolved {A} a.
Arguments Rejected {A} e.

(** [new ApiResponse(statusCode, data, message)]. *)
Record ApiResponse (A : Type) : Type := mkApiResponse {
  statusCode : Z;
  data : A;
  message : string
}.
Arguments mkApiResponse {A}.
Arguments statusCode {A}.
Arguments data {A}.
Arguments message {A}.

(** ** The schemas *)

Module ProjectModel.

Record IProject : Type := mkProject {
  _id : ObjectId;
  projectName : string;
  projectDescription : option string;
  client : ObjectId;
  siteAddress : string;
  siteLocation : string;
  status : string;
  projectNumber : string;
  progress : JS.number;
  createdBy : option ObjectId;
  updatedBy : option ObjectId;
  assignedTo : option ObjectId
}.

(** [enum] of the [status] path. *)
Definition statusEnum : list string :=
  [ "draft"; "estimation_prepared"; "quotation_sent"; "lpo_received";
    "work_started"; "in_progress"; "work_completed"; "invoice_sent";
    "on_hold"; "cancelled" ].

Definition valid_status (s : string) : bool :=
  existsb (String.eqb s) statusEnum.

Definition valid_progress (p : JS.number) : bool :=
  JS.leb (JS.num 0) p && JS.leb p (JS.num 100).

Definition maxlength (n : nat) (s : option string) : bool :=
  match s with Some x => Nat.leb (String.length x) n | None => true end.

(** Document validation as [save] runs it: [required], [maxlength],
    [enum], [min] and [max] of every path. *)
Definition validate (p : IProject) : bool :=
  JS.truthy_string (projectName p)
  && maxlength 100 (Some (projectName p))
  && maxlength 500 (projectDescription p)
  && JS.truthy_string (client p)
  && JS.truthy_string (siteAddress p)
  && JS.truthy_string (siteLocation p)
  && valid_status (status p)
  && valid_progress (progress p)
  && negb (JS.is_nullish (createdBy p))
  && JS.truthy_string (projectNumber p).

(** The update operators of MongoDB on a [Number] path: [$inc], [$mul],
    [$min] and [$max].  Update validators do not run on them. *)
Inductive NumberOperator : Type :=
| Inc (n : JS.number)
| Mul (n : JS.number)
| Min (n : JS.number)
| Max (n : JS.number).

Definition operate (op : NumberOperator) (x : JS.number) : JS.number :=
  match op with
  | Inc n => (x + n)%float
  | Mul n => (x * n)%float
  | Min n => if JS.ltb n x then n else x
  | Max n => if JS.ltb x n then n else x
  end.

(** The update document of a [findByIdAndUpdate] call, once cast: the
    paths of the schema it sets and the operator it applies to [progress],
    the one [Number] path.  The controllers of the repository set [status],
    [progress] and [updatedBy] themselves ([mkUpdate]); [updateProject]
    hands over the body of the request. *)
Record Update : Type := mkFullUpdate {
  set_projectName : option string;
  set_projectDescription : option string;
  set_client : option ObjectId;
  set_siteAddress : option string;
  set_siteLocation : option string;
  set_status : option string;
  set_projectNumber : option string;
  set_progress : option JS.number;
  set_createdBy : option ObjectId;
  set_updatedBy : option ObjectId;
  set_assignedTo : option ObjectId;
  op_progress : option NumberOperator
}.

Abbreviation mkUpdate s p u :=
  (mkFullUpdate None None None None None s None p None u None None).

(** An update that sets a path and applies an operator to it: the server
    refuses it. *)
Definition conflicting (u : Update) : bool :=
  match set_progress u, op_progress u with
  | Some _, Some _ => true
  | _, _ => false
  end.

Definition or_kept {A} (new : option A) (old : A) : A :=
  match new with Some a => a | None => old end.

Definition or_kept_opt {A} (new : option A) (old : option A) : option A :=
  match new with Some a => Some a | None => old end.

Definition apply_update (u : Update) (p : IProject) : IProject :=
  {| _id := _id p;
     projectName := or_kept (set_projectName u) (projectName p);
     projectDescription := or_kept_opt (set_projectDescription u) (projectDescription p);
     client := or_kept (set_client u) (client p);
     siteAddress := or_kept (set_siteAddress u) (siteAddress p);
     siteLocation := or_kept (set_siteLocation u) (siteLocation p);
     status := match set_status u with Some s => s | None => status p end;
     projectNumber := or_kept (set_projectNumber u) (projectNumber p);
     progress := match set_progress u with
                 | Some x => x
                 | None =>
                     match op_progress u with
                     | Some op => operate op (progress p)
                     | None => progress p
                     end
                 end;
     createdBy := or_kept_opt (set_createdBy u) (createdBy p);
     updatedBy := match set_updatedBy u with Some x => Some x | None => updatedBy p end;
     assignedTo := or_kept_opt (set_assignedTo u) (assignedTo p) |}.

(** [required] on a string path that the update sets. *)
Definition required_if_set (o : option string) : bool :=
  match o with Some s => JS.truthy_string s | None => true end.

(** Update validators ([runValidators: true]): the validators of the
    paths the update sets. *)
Definition validate_update (u : Update) : bool :=
  match set_status u with Some s => valid_status s | None => true end
  && match set_progress u with Some x => valid_progress x | None => true end
  && required_if_set (set_projectName u)
  && maxlength 100 (set_projectName u)
  && maxlength 500 (set_projectDescription u)
  && required_if_set (set_client u)
  && required_if_set (set_siteAddress u)
  && required_if_set (set_siteLocation u)
  && required_if_set (set_projectNumber u).

Definition with_status (s : string) (p : IProject) : IProject :=
  apply_update (mkUpdate (Some s) None None) p.

Definition with_assignedTo (a : ObjectId) (p : IProject) : IProject :=
  {| _id := _id p;
     projectName := projectName p;
     projectDescription := projectDescription p;
     client := client p;
     siteAddress := siteAddress p;
     siteLocation := siteLocation p;
     status := status p;
     projectNumber := projectNumber p;
     progress := progress p;
     createdBy := createdBy p;
     updatedBy := updatedBy p;
     assignedTo := Some a |}.

End ProjectModel.

Module EstimationItem.

(** [IEstimationItem]: a material or a terms line. *)
Record t : Type := mk {
  description : string;
  quantity : option JS.number;
  unitPrice : option JS.number;
  total : option JS.number
}.

End EstimationItem.

Module LabourItem.

(** [ILabourItem]. *)
Record t : Type := mk {
  designation : string;
  days : option JS.number;
  price : option JS.number;
  total : option JS.number
}.

End LabourItem.

Module EstimationModel.

Record IEstimation : Type := mkEstimation {
  _id : ObjectId;
  project : option ObjectId;
  estimationNumber : string;
  workStartDate : Z;
  workEndDate : Z;
  validUntil : Z;
  paymentDueBy : JS.number;
  subject : option string;
  materials : list EstimationItem.t;
  labour : list LabourItem.t;
  termsAndConditions : list EstimationItem.t;
  estimatedAmount : JS.number;
  quotationAmount : option JS.number;
  commissionAmount : option JS.number;
  profit : option JS.number;
  preparedBy : option ObjectId;
  checkedBy : option ObjectId;
  approvedBy : option ObjectId;
  isChecked : bool;
  isApproved : bool;
  approvalComment : option string
}.

(** [required: true, min: 0] and plain [min: 0] on a number path. *)
Definition required_min0 (o : option JS.number) : bool :=
  match o with Some x => JS.leb (JS.num 0) x | None => false end.

Definition optional_min0 (o : option JS.number) : bool :=
  match o with Some x => JS.leb (JS.num 0) x | None => true end.

(** [estimationItemSchema] and [labourItemSchema]. *)
Definition valid_item (i : EstimationItem.t) : bool :=
  JS.truthy_string (EstimationItem.description i)
  && required_min0 (EstimationItem.quantity i)
  && required_min0 (EstimationItem.unitPrice i)
  && required_min0 (EstimationItem.total i).

Definition valid_labour (i : LabourItem.t) : bool :=
  JS.truthy_string (LabourItem.designation i)
  && required_min0 (LabourItem.days i)
  && required_min0 (LabourItem.price i)
  && required_min0 (LabourItem.total i).

(** Document validation of [estimationSchema], the custom validator of
    [workEndDate] included. *)
Definition validate (e : IEstimation) : bool :=
  JS.truthy JS.truthy_string (project e)
  && JS.truthy_string (estimationNumber e)
  && (workStartDate e <? workEndDate e)%Z
  && JS.leb (JS.num 0) (paymentDueBy e)
  && forallb valid_item (materials e)
  && forallb valid_labour (labour e)
  && forallb valid_item (termsAndConditions e)
  && JS.leb (JS.num 0) (estimatedAmount e)
  && optional_min0 (quotationAmount e)
  && optional_min0 (commissionAmount e)
  && negb (JS.is_nullish (preparedBy e)).

(** [items.reduce((sum, item) => sum + (item.total || 0), 0)]. *)
Definition itemsTotal (items : list EstimationItem.t) : JS.number :=
  fold_left
    (fun sum item =>
       (sum + JS.or_else JS.truthy_number (EstimationItem.total item) (JS.num 0))%float)
    items (JS.num 0).

Definition labourTotal (items : list LabourItem.t) : JS.number :=
  fold_left
    (fun sum item =>
       (sum + JS.or_else JS.truthy_number (LabourItem.total item) (JS.num 0))%float)
    items (JS.num 0).

(** [estimationSchema.pre("save")]. *)
Definition pre_save (e : IEstimation) : IEstimation :=
  let amount :=
    (itemsTotal (materials e) + labourTotal (labour e)
     + itemsTotal (termsAndConditions e))%float in
  {| _id := _id e;
     project := project e;
     estimationNumber := estimationNumber e;
     workStartDate := workStartDate e;
     workEndDate := workEndDate e;
     validUntil := validUntil e;
     paymentDueBy := paymentDueBy e;
     subject := subject e;
     materials := materials e;
     labour := labour e;
     termsAndConditions := termsAndConditions e;
     estimatedAmount := amount;
     quotationAmount := quotationAmount e;
     commissionAmount := commissionAmount e;
     profit :=
       match quotationAmount e with
       | Some q =>
           if JS.truthy_number q
           then Some (q - amount
                      - JS.or_else JS.truthy_number (commissionAmount e) (JS.num 0))%float
           else profit e
       | None => profit e
       end;
     preparedBy := preparedBy e;
     checkedBy := checkedBy e;
     approvedBy := approvedBy e;
     isChecked := isChecked e;
     isApproved := isApproved e;
     approvalComment := approvalComment e |}.

Definition same_opt (a b : option ObjectId) : bool :=
  match a, b with
  | Some x, Some y => x =? y
  | None, None => true
  | _, _ => false
  end.

(** The two [unique: true] indexes.  An insert is checked against every
    document of the collection; a write to an existing document is checked
    on the keys it changes, against every other document. *)
Definition project_free (docs : list IEstimation) (e : IEstimation) : bool :=
  forallb (fun d => (_id d =? _id e) || negb (same_opt (project d) (project e))) docs.

Definition number_free (docs : list IEstimation) (e : IEstimation) : bool :=
  forallb (fun d => (_id d =? _id e)
                    || negb (estimationNumber d =? estimationNumber e)) docs.

Definition unique_on_insert (docs : list IEstimation) (e : IEstimation) : bool :=
  project_free docs e && number_free docs e.

Definition unique_on_write (docs : list IEstimation) (e : IEstimation) : bool :=
  match find (fun d => _id d =? _id e) docs with
  | Some old =>
      (same_opt (project old) (project e) || project_free docs e)
      && ((estimationNumber old =? estimationNumber e) || number_free docs e)
  | None => true
  end.

End EstimationModel.

Module QuotationModel.

Record UploadData : Type := mkUpload { url : string; key : string }.

Record Item : Type := mkItem {
  description : option string;
  quantity : option JS.number;
  unitPrice : option JS.number;
  totalPrice : option JS.number;
  image : option UploadData
}.

(** Modelled from the spec: [models/quotationModel.ts] is missing.  A
    quotation holds scope of work, items (each with an optional uploaded
    image), terms, the VAT percentage and the derived [subtotal],
    [vatAmount] and [total]; [netAmount] is the member
    [generateInvoiceData] reads.  [Quotation.create] stores the members it
    is given. *)
Record IQuotation : Type := mkQuotation {
  _id : ObjectId;
  project : option ObjectId;
  estimation : option ObjectId;
  quotationNumber : string;
  date : Z;
  validUntil : Z;
  scopeOfWork : option (list string);
  items : list Item;
  termsAndConditions : list string;
  vatPercentage : JS.number;
  subtotal : option JS.number;
  vatAmount : option JS.number;
  total : option JS.number;
  netAmount : option JS.number;
  preparedBy : option ObjectId
}.

End QuotationModel.

Module LPOModel.
(** Modelled from the spec: [models/lpoModel.ts] is missing.  An LPO is the
    purchase order a client issues for a project; the handlers read its
    number. *)
Record ILPO : Type := mkLPO {
  _id : ObjectId;
  project : ObjectId;
  lpoNumber : option string
}.
End LPOModel.

Module CommentModel.

Inductive Content : Type :=
| Text (s : string)
| ProgressUpdated (from to : JS.number).

(** Modelled from the spec: [models/commentModel.ts] is missing.  A comment
    is an append-only activity-log entry tied to a project, with an
    action-type tag and an optional progress snapshot; [Comment.create]
    appends it. *)
Record IComment : Type := mkComment {
  content : Content;
  user : option ObjectId;
  project : option ObjectId;
  actionType : string;
  progress : option JS.number
}.

End CommentModel.

Module ClientModel.
Record IClient : Type := mkClient {
  _id : ObjectId;
  clientName : string;
  clientAddress : string;
  pincode : string;
  mobileNumber : string;
  trnNumber : string
}.
End ClientModel.

Module UserModel.
Record IUser : Type := mkUser {
  _id : ObjectId;
  email : string;
  firstName : string;
  lastName : string;
  role : string
}.
End UserModel.

(** ** The world a handler runs in *)

Record World : Type := mkWorld {
  projects : list ProjectModel.IProject;
  estimations : list EstimationModel.IEstimation;
  quotations : list QuotationModel.IQuotation;
  lpos : list LPOModel.ILPO;
  clients : list ClientModel.IClient;
  users : list UserModel.IUser;
  comments : list CommentModel.IComment;
  console_error : list string;
  next_oid : nat
}.

Definition with_projects (ps : list ProjectModel.IProject) (w : World) : World :=
  mkWorld ps (estimations w) (quotations w) (lpos w) (clients w) (users w)
          (comments w) (console_error w) (next_oid w).

Definition with_estimations (es : list EstimationModel.IEstimation) (w : World) : World :=
  mkWorld (projects w) es (quotations w) (lpos w) (clients w) (users w)
          (comments w) (console_error w) (next_oid w).

Definition with_quotations (qs : list QuotationModel.IQuotation) (w : World) : World :=
  mkWorld (projects w) (estimations w) qs (lpos w) (clients w) (users w)
          (comments w) (console_error w) (next_oid w).

Definition with_comments (cs : list CommentModel.IComment) (w : World) : World :=
  mkWorld (projects w) (estimations w) (quotations w) (lpos w) (clients w) (users w)
          cs (console_error w) (next_oid w).

Definition with_console_error (l : list string) (w : World) : World :=
  mkWorld (projects w) (estimations w) (quotations w) (lpos w) (clients w) (users w)
          (comments w) l (next_oid w).

Definition with_next_oid (n : nat) (w : World) : World :=
  mkWorld (projects w) (estimations w) (quotations w) (lpos w) (clients w) (users w)
          (comments w) (console_error w) n.

(** ** Asynchronous handlers: state passing with rejection *)

Definition Async (A : Type) : Type := World -> Outcome A * World.

Definition ret {A} (a : A) : Async A := fun w => (Resolved a, w).

Definition throw {A} (e : Error) : Async A := fun w => (Rejected e, w).

Definition bind {A B} (m : Async A) (k : A -> Async B) : Async B :=
  fun w =>
    match m w with
    | (Resolved a, w') => k a w'
    | (Rejected e, w') => (Rejected e, w')
    end.

(** [try { m } catch (e) { h e }]. *)
Definition try_catch {A} (m : Async A) (h : Error -> Async A) : Async A :=
  fun w =>
    match m w with
    | (Resolved a, w') => (Resolved a, w')
    | (Rejected e, w') => h e w'
    end.

Definition read {A} (f : World -> A) : Async A := fun w => (Resolved (f w), w).

Definition write (f : World -> World) : Async unit := fun w => (Resolved tt, f w).

(** [if (c) throw e]. *)
Definition throw_if (c : bool) (e : Error) : Async unit :=
  if c then throw e else ret tt.

Declare Scope async_scope.
Delimit Scope async_scope with async.
Notation "x <- m ;; k" := (bind m (fun x => k))
  (at level 100, m at next level, right associativity) : async_scope.
Notation "m ;;; k" := (bind m (fun _ => k))
  (at level 100, right associativity) : async_scope.
Open Scope async_scope.

Definition console_error_log (line : string) : Async unit :=
  write (fun w => with_console_error (console_error w ++ [line]) w).

(** ** The external collaborators *)

(** The recipient and the subject of a notification; the template
    parameters, the plain-text fallback and the headers play no part in the
    control flow. *)
Record EmailOptions : Type := mkEmail {
  to : string;
  subject : string
}.

Record File : Type := mkFile {
  fieldname : string;
  originalname : string
}.

(** What the handlers call but the repository does not define: the
    [ObjectId] syntax check of the driver, the document-number generator of
    [utils/documentNumbers] (a function of the collections, the project and
    the prefix), the object-storage upload, the SMTP transport (whether the
    [n]-th send of a request goes through) and the wall clock. *)
Record Collaborators : Type := mkCollaborators {
  ObjectId_isValid : string -> bool;
  generateRelatedDocumentNumber : World -> ObjectId -> string -> string;
  uploadItemImage : File -> Outcome (option QuotationModel.UploadData);
  sendMail : nat -> EmailOptions -> bool;
  now : Z;
  getFullYear : nat
}.

(** ** Model statics: queries and writes *)

Module Project.
Import ProjectModel.

Definition findById (id : ObjectId) : Async (option IProject) :=
  read (fun w => find (fun p => _id p =? id) (projects w)).

Definition replace (p : IProject) (docs : list IProject) : list IProject :=
  map (fun d => if _id d =? _id p then p else d) docs.

(** [project.save()] on a document loaded from the collection. *)
Definition save (p : IProject) : Async unit :=
  if validate p
  then write (fun w => with_projects (replace p (projects w)) w)
  else throw (ValidationError "Project").

(** The [unique: true] index on [projectNumber], for a write to the
    document [id] that sets the number. *)
Definition unique_on_update (id : ObjectId) (number_ : option string)
           (docs : list IProject) : bool :=
  match number_ with
  | Some n => forallb (fun d => (_id d =? id) || negb (projectNumber d =? n)) docs
  | None => true
  end.

(** [Project.findByIdAndUpdate(id, u, { new: true, runValidators })]. *)
Definition findByIdAndUpdate (id : ObjectId) (u : Update) (runValidators : bool)
  : Async (option IProject) :=
  if runValidators && negb (validate_update u)
  then throw (ValidationError "Project")
  else if conflicting u
  then throw (MongoServerError "ConflictingUpdateOperators")
  else
    (found <- findById id ;;
     match found with
     | None => ret None
     | Some p =>
         docs <- read projects ;;
         if unique_on_update id (set_projectNumber u) docs
         then (write (fun w => with_projects (replace (apply_update u p) (projects w)) w) ;;;
               ret (Some (apply_update u p)))
         else throw (MongoServerError "E11000 duplicate key")
     end).

End Project.

Module Comment.
(** [Comment.create(c)]. *)
Definition create (c : CommentModel.IComment) : Async unit :=
  write (fun w => with_comments (comments w ++ [c]) w).
End Comment.

Module User.
Import UserModel.

Definition findById (id : ObjectId) : Async (option IUser) :=
  read (fun w => find (fun u => _id u =? id) (users w)).

(** [User.find({ role })]. *)
Definition find_role (r : string) : Async (list IUser) :=
  read (fun w => filter (fun u => role u =? r) (users w)).

End User.

Module Client.
Import ClientModel.
Definition findById (id : ObjectId) : Async (option IClient) :=
  read (fun w => find (fun c => _id c =? id) (clients w)).
End Client.

Module Quotation.
Import QuotationModel.

(** [Quotation.findOne({ project })]. *)
Definition findOne (projectId : ObjectId) : Async (option IQuotation) :=
  read (fun w =>
          find (fun q => match project q with
                         | Some p => p =? projectId
                         | None => false
                         end) (quotations w)).

Definition countDocuments : Async nat :=
  read (fun w => List.length (quotations w)).

End Quotation.

Module LPO.
Import LPOModel.
Definition findOne (projectId : ObjectId) : Async (option ILPO) :=
  read (fun w => find (fun l => project l =? projectId) (lpos w)).
End LPO.

(** ** [utils/mailer]: [Mailer.sendEmail] *)

Module Mailer.
Section Mailer.
Context (ext : Collaborators).

(** The [n]-th [sendEmail] of a request: a transport failure is logged
    and thrown again. *)
Definition sendEmail (n : nat) (options : EmailOptions) : Async unit :=
  if sendMail ext n options
  then ret tt
  else (console_error_log "Error sending email:" ;;; throw TransportError).

End Mailer.
End Mailer.

(** ** [controllers/projectController.ts] *)

Module ProjectController.

Import ProjectModel.

(** Status transition validation. *)
Definition validStatusTransitions : list (string * list string) :=
  [ ("draft", ["estimation_prepared"]);
    ("estimation_prepared", ["quotation_sent"; "on_hold"; "cancelled"]);
    ("quotation_sent",
      ["quotation_approved"; "quotation_rejected"; "on_hold"; "cancelled"]);
    ("quotation_approved", ["contract_signed"; "on_hold"; "cancelled"]);
    ("contract_signed", ["work_started"; "on_hold"; "cancelled"]);
    ("work_started", ["in_progress"; "on_hold"; "cancelled"]);
    ("in_progress", ["work_completed"; "on_hold"; "cancelled"]);
    ("work_completed", ["quality_check"; "on_hold"]);
    ("quality_check", ["client_handover"; "work_completed"]);
    ("client_handover", ["final_invoice_sent"; "on_hold"]);
    ("final_invoice_sent", ["payment_received"; "on_hold"]);
    ("payment_received", ["project_closed"]);
    ("on_hold", ["in_progress"; "work_started"; "cancelled"]);
    ("cancelled", []);
    ("project_closed", []) ].

Fixpoint own_property (k : string) (o : list (string * list string))
  : option (list string) :=
  match o with
  | [] => None
  | (k', v) :: rest => if k' =? k then Some v else own_property k rest
  end.

(** The table is an object literal, so a key it does not own is still
    looked up on [Object.prototype]. *)
Definition Object_prototype : list string :=
  [ "constructor"; "toString"; "toLocaleString"; "valueOf";
    "hasOwnProperty"; "isPrototypeOf"; "propertyIsEnumerable";
    "__proto__"; "__defineGetter__"; "__defineSetter__";
    "__lookupGetter__"; "__lookupSetter__" ].

Definition inherited (k : string) : bool :=
  existsb (String.eqb k) Object_prototype.

(** Whether [to] is listed for [from] in the table. *)
Definition isTransitionAllowed (from to : string) : bool :=
  match own_property from validStatusTransitions with
  | Some targets => existsb (String.eqb to) targets
  | None => false
  end.

(** [validStatusTransitions[from]?.includes(to)], as a boolean: an own
    key answers by its array, a missing key short-circuits to [undefined],
    and an inherited member has no [includes] to call. *)
Definition includes (from to : string) : Async bool :=
  match own_property from validStatusTransitions with
  | Some targets => ret (existsb (String.eqb to) targets)
  | None =>
      if inherited from
      then throw (TypeError "validStatusTransitions[project.status]?.includes is not a function")
      else ret false
  end.

Definition invalid_transition (from to : string) : Error :=
  ApiError 400 ("Invalid status transition from " ++ from ++ " to " ++ to).

Definition out_of_range (p : JS.number) : bool :=
  JS.ltb p (JS.num 0) || JS.ltb (JS.num 100) p.

(** [req.body] of [updateProject], which the handler forwards whole to
    [findByIdAndUpdate]: a JSON object whose members are paths of
    [projectSchema], each of the type of its path.  Strict mode drops a
    member the schema does not declare, and the handler overwrites
    [updatedBy].  [body_progress_operator] is an update operator on
    [progress] in the body, as in [{ "$inc": { "progress": 5 } }], which
    Mongoose passes on beside the paths. *)
Record UpdateProjectBody : Type := mkUpdateProjectBody {
  body_projectName : option string;
  body_projectDescription : option string;
  body_client : option ObjectId;
  body_siteAddress : option string;
  body_siteLocation : option string;
  body_status : option string;
  body_projectNumber : option string;
  body_progress : option JS.number;
  body_createdBy : option ObjectId;
  body_assignedTo : option ObjectId;
  body_progress_operator : option NumberOperator
}.

Section Updating.
(** [String.prototype.trim], the setter of the [trim: true] paths. *)
Context (trim : string -> string).

(** The update document Mongoose casts the body to. *)
Definition cast_update (body : UpdateProjectBody) (userId : option ObjectId)
  : Update :=
  mkFullUpdate
    (option_map trim (body_projectName body))
    (option_map trim (body_projectDescription body))
    (body_client body)
    (option_map trim (body_siteAddress body))
    (option_map trim (body_siteLocation body))
    (body_status body)
    (option_map trim (body_projectNumber body))
    (body_progress body)
    (body_createdBy body)
    userId
    (body_assignedTo body)
    (body_progress_operator body).

Definition updateProject (id : ObjectId) (body : UpdateProjectBody)
           (userId : option ObjectId)
  : Async (ApiResponse (option IProject)) :=
  found <- Project.findById id ;;
  match found with
  | None => throw (ApiError 404 "Project not found")
  | Some project =>
      throw_if (match body_progress body with
                | Some p => out_of_range p
                | None => false
                end)
               (ApiError 400 "Progress must be between 0 and 100") ;;;
      match body_status body with
      | Some to =>
          if JS.truthy_string to
          then (listed <- includes (status project) to ;;
                throw_if (negb listed) (invalid_transition (status project) to))
          else ret tt
      | None => ret tt
      end ;;;
      updatedProject <-
        Project.findByIdAndUpdate id (cast_update body userId) true ;;
      ret (mkApiResponse 200 updatedProject "Project updated successfully")
  end.

End Updating.

Definition updateProjectStatus (id : ObjectId) (status_ : option string)
           (userId : option ObjectId)
  : Async (ApiResponse (option IProject)) :=
  match status_ with
  | None => throw (ApiError 400 "Status is required")
  | Some to =>
      throw_if (negb (JS.truthy_string to)) (ApiError 400 "Status is required") ;;;
      found <- Project.findById id ;;
      match found with
      | None => throw (ApiError 404 "Project not found")
      | Some project =>
          listed <- includes (status project) to ;;
          throw_if (negb listed) (invalid_transition (status project) to) ;;;
          updatedProject <-
            Project.findByIdAndUpdate id (mkUpdate (Some to) None userId) false ;;
          ret (mkApiResponse 200 updatedProject "Project status updated successfully")
      end
  end.

(** The two in-memory assignments of [updateProjectProgress]; both test
    the progress the document was loaded with. *)
Definition advance_lpo_received (project : IProject) : IProject :=
  if JS.leb (JS.num 0) (progress project) && (status project =? "lpo_received")
  then with_status "work_started" project
  else project.

Definition advance_work_started (project : IProject) : IProject :=
  if JS.ltb (JS.num 0) (progress project) && (status project =? "work_started")
  then with_status "in_progress" project
  else project.

Definition updateProjectProgress (id : ObjectId) (progress_ : option JS.number)
           (comment : option string) (userId : option ObjectId)
  : Async (ApiResponse (option IProject)) :=
  match progress_ with
  | None => throw (ApiError 400 "Progress must be between 0 and 100")
  | Some p =>
      throw_if (out_of_range p)
               (ApiError 400 "Progress must be between 0 and 100") ;;;
      found <- Project.findById id ;;
      match found with
      | None => throw (ApiError 404 "Project not found")
      | Some loaded =>
          let project := advance_work_started (advance_lpo_received loaded) in
          let updateData :=
            mkUpdate
              (if JS.eqb p (JS.num 100) && negb (status project =? "work_completed")
               then Some "work_completed" else None)
              (Some p) userId in
          Project.save project ;;;
          updatedProject <- Project.findByIdAndUpdate id updateData false ;;
          (if JS.truthy JS.truthy_string comment || negb (JS.eqb p (progress project))
           then Comment.create
                  (CommentModel.mkComment
                     (match comment with
                      | Some c =>
                          if JS.truthy_string c then CommentModel.Text c
                          else CommentModel.ProgressUpdated (progress project) p
                      | None => CommentModel.ProgressUpdated (progress project) p
                      end)
                     userId (Some id) "progress_update" (Some p))
           else ret tt) ;;;
          ret (mkApiResponse 200 updatedProject "Project progress updated successfully")
      end
  end.

Section Handlers.
Context (ext : Collaborators).

Definition assignProject (id : ObjectId) (assignedTo_ : option ObjectId)
  : Async (ApiResponse unit) :=
  match assignedTo_ with
  | None => throw (ApiError 400 "AssignedTo is required")
  | Some engineerId =>
      throw_if (negb (JS.truthy_string engineerId) || negb (JS.truthy_string id))
               (ApiError 400 "AssignedTo is required") ;;;
      found <- Project.findById id ;;
      match found with
      | None => throw (ApiError 400 "Project not found")
      | Some project =>
          engineer_ <- User.findById engineerId ;;
          match engineer_ with
          | None => throw (ApiError 400 "Engineer not found")
          | Some engineer =>
              Project.save (with_assignedTo engineerId project) ;;;
              try_catch
                (Mailer.sendEmail ext 0
                   (mkEmail (UserModel.email engineer)
                            ("Project Assignment: " ++ projectName project)) ;;;
                 ret (mkApiResponse 200 tt
                        "Project assigned and notification sent successfully"))
                (fun emailError =>
                   console_error_log "Email sending failed:" ;;;
                   ret (mkApiResponse 200 tt
                          "Project assigned successfully but notification email failed to send"))
          end
      end
  end.

(** The invoice payload; the invoice number, the dates and the constant
    vendor block, which depend on the clock, a random draw or nothing at
    all, are left out. *)
Record Product : Type := mkProduct {
  sno : nat;
  product_description : string;
  qty : JS.number;
  product_unitPrice : JS.number;
  product_total : JS.number
}.

Record Summary : Type := mkSummary {
  amount : JS.number;
  vat : JS.number;
  totalReceivable : JS.number
}.

Record Vendee : Type := mkVendee {
  vendee_name : string;
  contactPerson : string;
  poBox : string;
  address : string;
  phone : string;
  trn : string;
  grnNumber : string
}.

Record InvoiceData : Type := mkInvoiceData {
  invoice_id : ObjectId;
  orderNumber : string;
  vendee : Vendee;
  invoice_subject : string;
  amountInWords : string;
  products : list Product;
  summary : Summary;
  preparedBy : ObjectId * string * string
}.

(** Enhanced number to words conversion: the body is a stub in the
    source. *)
Definition convertToWords (n : JS.number) : string :=
  if JS.eqb n (JS.num 0) then "Zero UAE Dirhams" else " UAE Dirhams".

Fixpoint map_index {A B} (f : A -> nat -> B) (i : nat) (l : list A) : list B :=
  match l with
  | [] => []
  | a :: rest => f a i :: map_index f (S i) rest
  end.

Definition or_string (s d : string) : string :=
  if JS.truthy_string s then s else d.

Definition or_number (o : option JS.number) : JS.number :=
  JS.or_else JS.truthy_number o (JS.num 0).

Definition generateInvoiceData (projectId : string)
  : Async (ApiResponse InvoiceData) :=
  throw_if (negb (JS.truthy_string projectId) || negb (ObjectId_isValid ext projectId))
           (ApiError 400 "Valid project ID is required") ;;;
  found <- Project.findById projectId ;;
  match found with
  | None => throw (ApiError 404 "Project not found")
  | Some project =>
      (* populate("client"), populate("createdBy"), populate("assignedTo") *)
      client_ <- Client.findById (client project) ;;
      createdBy_ <- match createdBy project with
                    | Some u => User.findById u
                    | None => ret None
                    end ;;
      assignedTo_ <- match assignedTo project with
                     | Some u => User.findById u
                     | None => ret None
                     end ;;
      quotation_ <- Quotation.findOne projectId ;;
      match quotation_ with
      | None => throw (ApiError 404 "Quotation not found for this project")
      | Some quotation =>
          lpo_ <- LPO.findOne projectId ;;
          match lpo_ with
          | None => throw (ApiError 404 "LPO not found for this project")
          | Some lpo =>
              throw_if (Nat.eqb (List.length (QuotationModel.items quotation)) 0)
                       (ApiError 400 "Quotation items are required") ;;;
              match client_ with
              | None =>
                  throw (TypeError "Cannot read properties of null (reading 'clientName')")
              | Some c =>
                  let grn := JS.or_else JS.truthy_string (LPOModel.lpoNumber lpo) "N/A" in
                  let vendeeInfo :=
                    mkVendee
                      (or_string (ClientModel.clientName c) "IMDAAD LLC")
                      (match assignedTo_ with
                       | Some a =>
                           "Mr. " ++ UserModel.firstName a ++ " " ++ UserModel.lastName a
                       | None => "N/A"
                       end)
                      "18220"
                      (or_string (ClientModel.clientAddress c) "DUBAI - UAE")
                      (or_string (ClientModel.mobileNumber c) "(04) 812 8888")
                      (or_string (ClientModel.trnNumber c) "100236819700003")
                      grn in
                  let products_ :=
                    map_index
                      (fun item index =>
                         mkProduct (index + 1)
                           (JS.or_else JS.truthy_string
                              (QuotationModel.description item) "N/A")
                           (or_number (QuotationModel.quantity item))
                           (or_number (QuotationModel.unitPrice item))
                           (or_number (QuotationModel.totalPrice item)))
                      0 (QuotationModel.items quotation) in
                  match createdBy_ with
                  | None =>
                      throw (TypeError "Cannot read properties of null (reading '_id')")
                  | Some creator =>
                      ret (mkApiResponse 200
                             (mkInvoiceData
                                (_id project)
                                grn
                                vendeeInfo
                                (or_string
                                   (match QuotationModel.scopeOfWork quotation with
                                    | Some l => String.concat ", " l
                                    | None => ""
                                    end) "N/A")
                                (convertToWords
                                   (or_number (QuotationModel.netAmount quotation)))
                                products_
                                (mkSummary
                                   (or_number (QuotationModel.subtotal quotation))
                                   (or_number (QuotationModel.vatAmount quotation))
                                   (or_number (QuotationModel.netAmount quotation)))
                                (UserModel._id creator,
                                 UserModel.firstName creator,
                                 UserModel.lastName creator))
                             "Invoice data generated successfully")
                  end
              end
          end
      end
  end.

End Handlers.
End ProjectController.

(** ** [Estimation] statics *)

Module Estimation.
Import EstimationModel.

Definition findById (id : ObjectId) : Async (option IEstimation) :=
  read (fun w => find (fun e => _id e =? id) (estimations w)).

(** [Estimation.findOne({ project })]. *)
Definition findOne (projectId : ObjectId) : Async (option IEstimation) :=
  read (fun w => find (fun e => same_opt (project e) (Some projectId)) (estimations w)).

Definition replace (e : IEstimation) (docs : list IEstimation) : list IEstimation :=
  map (fun d => if _id d =? _id e then e else d) docs.

(** [estimation.save()]: validation, the [pre("save")] hook, the write
    under the unique indexes.  The hook mutates the document, so the
    caller goes on with the document as written. *)
Definition save (e : IEstimation) : Async IEstimation :=
  if validate e
  then
    (docs <- read estimations ;;
     if unique_on_write docs (pre_save e)
     then (write (fun w => with_estimations (replace (pre_save e) (estimations w)) w) ;;;
           ret (pre_save e))
     else throw (MongoServerError "E11000 duplicate key"))
  else throw (ValidationError "Estimation").

(** [Estimation.create(doc)]: a fresh [_id], then as [save], inserting. *)
Definition create (mk : ObjectId -> IEstimation) : Async IEstimation :=
  n <- read next_oid ;;
  write (fun w => with_next_oid (S n) w) ;;;
  let e := mk ("oid" ++ JS.string_of_nat n) in
  if validate e
  then
    (docs <- read estimations ;;
     if unique_on_insert docs (pre_save e)
     then (write (fun w => with_estimations (estimations w ++ [pre_save e]) w) ;;;
           ret (pre_save e))
     else throw (MongoServerError "E11000 duplicate key"))
  else throw (ValidationError "Estimation").

Definition findByIdAndDelete (id : ObjectId) : Async unit :=
  write (fun w =>
           with_estimations (filter (fun e => negb (_id e =? id)) (estimations w)) w).

End Estimation.

(** ** [controllers/estimationController.ts] *)

Module ItemInput.

(** A material or terms line of a request body: the stored members and
    the unit of measure the controller asks for. *)
Record t : Type := mk {
  description : string;
  uom : string;
  quantity : option JS.number;
  unitPrice : option JS.number;
  total : option JS.number
}.

Definition with_total (x : JS.number) (i : t) : t :=
  mk (description i) (uom i) (quantity i) (unitPrice i) (Some x).

(** Casting to [estimationItemSchema] drops [uom], which the schema does
    not declare. *)
Definition cast (i : t) : EstimationItem.t :=
  EstimationItem.mk (description i) (quantity i) (unitPrice i) (total i).

End ItemInput.

Module EstimationController.

Import EstimationModel.

Definition labour_with_total (x : JS.number) (i : LabourItem.t) : LabourItem.t :=
  LabourItem.mk (LabourItem.designation i) (LabourItem.days i)
                (LabourItem.price i) (Some x).

(** The validation loops of [createEstimation]: the first offending item
    throws, every item before it has had its [total] assigned. *)
Fixpoint check_items (msg : string) (items : list ItemInput.t)
  : Outcome (list ItemInput.t) :=
  match items with
  | [] => Resolved []
  | item :: rest =>
      match ItemInput.quantity item, ItemInput.unitPrice item with
      | Some q, Some u =>
          if negb (JS.truthy_string (ItemInput.description item))
             || negb (JS.truthy_string (ItemInput.uom item))
          then Rejected (ApiError 400 msg)
          else
            match check_items msg rest with
            | Resolved rest' => Resolved (ItemInput.with_total (q * u)%float item :: rest')
            | Rejected e => Rejected e
            end
      | _, _ => Rejected (ApiError 400 msg)
      end
  end.

Fixpoint check_labour (msg : string) (items : list LabourItem.t)
  : Outcome (list LabourItem.t) :=
  match items with
  | [] => Resolved []
  | item :: rest =>
      match LabourItem.days item, LabourItem.price item with
      | Some d, Some p =>
          if negb (JS.truthy_string (LabourItem.designation item))
          then Rejected (ApiError 400 msg)
          else
            match check_labour msg rest with
            | Resolved rest' => Resolved (labour_with_total (d * p)%float item :: rest')
            | Rejected e => Rejected e
            end
      | _, _ => Rejected (ApiError 400 msg)
      end
  end.

Definition lift {A} (o : Outcome A) : Async A :=
  match o with Resolved a => ret a | Rejected e => throw e end.

Definition or_nil {A} (o : option (list A)) : list A :=
  match o with Some l => l | None => [] end.

(** [req.body] of [createEstimation]; the three dates are numbers, the
    milliseconds [new Date] counts from the epoch. *)
Record CreateEstimationBody : Type := mkCreateBody {
  body_project : option ObjectId;
  body_workStartDate : option Z;
  body_workEndDate : option Z;
  body_validUntil : option Z;
  body_paymentDueBy : option JS.number;
  body_materials : option (list ItemInput.t);
  body_labour : option (list LabourItem.t);
  body_termsAndConditions : option (list ItemInput.t);
  body_quotationAmount : option JS.number;
  body_commissionAmount : option JS.number;
  body_subject : option string
}.

Section Handlers.
Context (ext : Collaborators).

Definition createEstimation (body : CreateEstimationBody) (userId : option ObjectId)
  : Async (ApiResponse IEstimation) :=
  match body_project body, body_workStartDate body, body_workEndDate body,
        body_validUntil body, body_paymentDueBy body with
  | Some projectId, Some workStart, Some workEnd, Some valid, Some due =>
      throw_if (negb (JS.truthy_string projectId)
                || (workStart =? 0)%Z || (workEnd =? 0)%Z || (valid =? 0)%Z
                || negb (JS.truthy_number due))
               (ApiError 400 "Required fields are missing") ;;;
      existingEstimation <- Estimation.findOne projectId ;;
      match existingEstimation with
      | Some _ =>
          throw (ApiError 400
            "Only one estimation is allowed per project. Update the existing estimation instead.")
      | None =>
          materials_ <- lift (check_items
            "Material items require description, uom, quantity, and unitPrice"
            (or_nil (body_materials body))) ;;
          labour_ <- lift (check_labour
            "Labour items require designation, days, and price"
            (or_nil (body_labour body))) ;;
          terms_ <- lift (check_items
            "Terms items require description, uom, quantity, and unitPrice"
            (or_nil (body_termsAndConditions body))) ;;
          throw_if (Nat.eqb (List.length materials_) 0
                    && Nat.eqb (List.length labour_) 0
                    && Nat.eqb (List.length terms_) 0)
                   (ApiError 400
                      "At least one item (materials, labour, or terms) is required") ;;;
          estimationNumber_ <-
            read (fun w => generateRelatedDocumentNumber ext w projectId "EST") ;;
          estimation <-
            Estimation.create
              (fun oid =>
                 mkEstimation oid (Some projectId) estimationNumber_
                   workStart workEnd valid due (body_subject body)
                   (map ItemInput.cast materials_) labour_
                   (map ItemInput.cast terms_)
                   (JS.num 0) (body_quotationAmount body)
                   (body_commissionAmount body) None
                   userId None None false false None) ;;
          Project.findByIdAndUpdate projectId
            (ProjectModel.mkUpdate (Some "estimation_prepared") None None) false ;;;
          ret (mkApiResponse 201 estimation "Estimation created successfully")
      end
  | _, _, _, _, _ => throw (ApiError 400 "Required fields are missing")
  end.

Definition with_approval (approved : bool) (by_ : option ObjectId)
           (comment : option string) (e : IEstimation) : IEstimation :=
  mkEstimation (_id e) (project e) (estimationNumber e) (workStartDate e)
    (workEndDate e) (validUntil e) (paymentDueBy e) (subject e) (materials e)
    (labour e) (termsAndConditions e) (estimatedAmount e) (quotationAmount e)
    (commissionAmount e) (profit e) (preparedBy e) (checkedBy e)
    by_ (isChecked e) approved comment.

Definition with_check (checked : bool) (by_ : option ObjectId)
           (comment : option string) (e : IEstimation) : IEstimation :=
  mkEstimation (_id e) (project e) (estimationNumber e) (workStartDate e)
    (workEndDate e) (validUntil e) (paymentDueBy e) (subject e) (materials e)
    (labour e) (termsAndConditions e) (estimatedAmount e) (quotationAmount e)
    (commissionAmount e) (profit e) (preparedBy e) by_
    (approvedBy e) checked (isApproved e) comment.

Definition with_project (p : option ObjectId) (e : IEstimation) : IEstimation :=
  mkEstimation (_id e) p (estimationNumber e) (workStartDate e)
    (workEndDate e) (validUntil e) (paymentDueBy e) (subject e) (materials e)
    (labour e) (termsAndConditions e) (estimatedAmount e) (quotationAmount e)
    (commissionAmount e) (profit e) (preparedBy e) (checkedBy e)
    (approvedBy e) (isChecked e) (isApproved e) (approvalComment e).

(** [Project.findByIdAndUpdate(estimation.project, u)]; a [null]
    reference matches no document. *)
Definition update_project_of (ref : option ObjectId) (u : ProjectModel.Update)
  : Async unit :=
  match ref with
  | Some projectId => Project.findByIdAndUpdate projectId u false ;;; ret tt
  | None => ret tt
  end.

Definition approveEstimation (id : ObjectId) (comment : option string)
           (isApproved_ : option bool) (userId_ : option ObjectId)
  : Async (ApiResponse IEstimation) :=
  match userId_ with
  | None => throw (ApiError 401 "Unauthorized")
  | Some userId =>
      throw_if (negb (JS.truthy_string userId)) (ApiError 401 "Unauthorized") ;;;
      match isApproved_ with
      | None => throw (ApiError 400 "isApproved must be a boolean")
      | Some approve =>
          found <- Estimation.findById id ;;
          match found with
          | None => throw (ApiError 404 "Estimation not found")
          | Some estimation =>
              throw_if (negb (isChecked estimation))
                (ApiError 400 "Estimation must be checked before approval/rejection") ;;;
              throw_if (isApproved estimation && approve)
                (ApiError 400 "Estimation is already approved") ;;;
              Comment.create
                (CommentModel.mkComment
                   (CommentModel.Text
                      (JS.or_else JS.truthy_string comment
                         ("Estimation " ++ (if approve then "approved" else "rejected"))))
                   (Some userId) (project estimation)
                   (if approve then "approval" else "rejection") None) ;;;
              saved <- Estimation.save
                         (with_approval approve
                            (if approve then Some userId else None)
                            comment estimation) ;;
              update_project_of (project estimation)
                (ProjectModel.mkUpdate
                   (Some (if approve then "quotation_approved" else "quotation_rejected"))
                   None (Some userId)) ;;;
              ret (mkApiResponse 200 saved
                     ("Estimation " ++ (if approve then "approved" else "rejected")
                      ++ " successfully"))
          end
      end
  end.

(** [Promise.all(superAdmins.map(admin => mailer.sendEmail(...)))]: every
    send is started; the combined promise rejects when one of them does. *)
Fixpoint send_all (n : nat) (mails : list EmailOptions) : Async bool :=
  match mails with
  | [] => ret true
  | m :: rest =>
      sent <- try_catch (Mailer.sendEmail ext n m ;;; ret true) (fun _ => ret false) ;;
      others <- send_all (S n) rest ;;
      ret (sent && others)
  end.

Definition markAsChecked (id : ObjectId) (comment : option string)
           (isChecked_ : option bool) (userId_ : option ObjectId)
  : Async (ApiResponse IEstimation) :=
  match userId_ with
  | None => throw (ApiError 401 "Unauthorized")
  | Some userId =>
      throw_if (negb (JS.truthy_string userId)) (ApiError 401 "Unauthorized") ;;;
      match isChecked_ with
      | None => throw (ApiError 400 "isChecked must be a boolean")
      | Some check =>
          found <- Estimation.findById id ;;
          match found with
          | None => throw (ApiError 404 "Estimation not found")
          | Some loaded =>
              (* populate("project"): the document reads [null] in
                 [estimation.project] when the project is gone; the
                 path is not modified, and [save] validates and keeps
                 the stored reference *)
              populated <- match project loaded with
                           | Some p => Project.findById p
                           | None => ret None
                           end ;;
              let ref := match populated with
                         | Some p => Some (ProjectModel._id p)
                         | None => None
                         end in
              let estimation := loaded in
              throw_if (isChecked estimation && check)
                (ApiError 400 "Estimation is already checked") ;;;
              Comment.create
                (CommentModel.mkComment
                   (CommentModel.Text
                      (JS.or_else JS.truthy_string comment
                         ("Estimation "
                          ++ (if check then "checked" else "rejected during check"))))
                   (Some userId) ref
                   (if check then "check" else "rejection") None) ;;;
              saved <- Estimation.save
                         (with_check check
                            (if check then Some userId else None)
                            (if JS.truthy JS.truthy_string comment
                             then comment else approvalComment estimation)
                            estimation) ;;
              (if negb check
               then update_project_of ref
                      (ProjectModel.mkUpdate (Some "draft") None (Some userId))
               else ret tt) ;;;
              (if check
               then
                 (superAdmins <- User.find_role "super_admin" ;;
                  checkedByUser <- User.findById userId ;;
                  delivered <-
                    match ref with
                    | Some _ =>
                        send_all 0
                          (map (fun admin =>
                                  mkEmail (UserModel.email admin)
                                          ("Estimation Checked: "
                                           ++ estimationNumber saved))
                               superAdmins)
                    | None =>
                        (* [estimation.project._id] throws in the callback
                           of every admin, before [sendEmail] is called *)
                        ret (Nat.eqb (List.length superAdmins) 0)
                    end ;;
                  if delivered then ret tt
                  else console_error_log
                         "Failed to send notification email to super admin:")
               else ret tt) ;;;
              ret (mkApiResponse 200 (with_project ref saved)
                     ("Estimation " ++ (if check then "checked" else "rejected")
                      ++ " successfully"))
          end
      end
  end.

(** The members of an update body that [estimationSchema] declares. *)
Record UpdateEstimationBody : Type := mkUpdateBody {
  upd_project : option ObjectId;
  upd_estimationNumber : option string;
  upd_workStartDate : option Z;
  upd_workEndDate : option Z;
  upd_validUntil : option Z;
  upd_paymentDueBy : option JS.number;
  upd_subject : option string;
  upd_materials : option (list ItemInput.t);
  upd_labour : option (list LabourItem.t);
  upd_termsAndConditions : option (list ItemInput.t);
  upd_estimatedAmount : option JS.number;
  upd_quotationAmount : option JS.number;
  upd_commissionAmount : option JS.number;
  upd_profit : option JS.number;
  upd_preparedBy : option ObjectId;
  upd_checkedBy : option ObjectId;
  upd_approvedBy : option ObjectId;
  upd_isChecked : option bool;
  upd_isApproved : option bool;
  upd_approvalComment : option string
}.

(** The total loops of [updateEstimation]: a line without [uom] throws;
    the total is assigned when both factors are truthy. *)
Definition retotal_item (item : ItemInput.t) : ItemInput.t :=
  match ItemInput.quantity item, ItemInput.unitPrice item with
  | Some q, Some u =>
      if JS.truthy_number q && JS.truthy_number u
      then ItemInput.with_total (q * u)%float item else item
  | _, _ => item
  end.

Fixpoint retotal_items (msg : string) (items : list ItemInput.t)
  : Outcome (list ItemInput.t) :=
  match items with
  | [] => Resolved []
  | item :: rest =>
      if negb (JS.truthy_string (ItemInput.uom item))
      then Rejected (ApiError 400 msg)
      else
        match retotal_items msg rest with
        | Resolved rest' => Resolved (retotal_item item :: rest')
        | Rejected e => Rejected e
        end
  end.

Definition retotal_labour (items : list LabourItem.t) : list LabourItem.t :=
  map (fun item =>
         match LabourItem.days item, LabourItem.price item with
         | Some d, Some p =>
             if JS.truthy_number d && JS.truthy_number p
             then labour_with_total (d * p)%float item else item
         | _, _ => item
         end) items.

Definition retotal_opt (msg : string) (o : option (list ItemInput.t))
  : Outcome (option (list ItemInput.t)) :=
  match o with
  | Some items =>
      match retotal_items msg items with
      | Resolved l => Resolved (Some l)
      | Rejected e => Rejected e
      end
  | None => Resolved None
  end.

Definition pick {A} (new : option A) (old : A) : A :=
  match new with Some a => a | None => old end.

Definition pick_opt {A} (new : option A) (old : option A) : option A :=
  match new with Some a => Some a | None => old end.

(** [estimation.set(updateData)] once [isApproved], [approvedBy],
    [estimatedAmount] and [profit] have been deleted from the body. *)
Definition set (materials_ terms_ : option (list ItemInput.t))
           (labour_ : option (list LabourItem.t))
           (u : UpdateEstimationBody) (e : IEstimation) : IEstimation :=
  mkEstimation (_id e)
    (pick_opt (upd_project u) (project e))
    (pick (upd_estimationNumber u) (estimationNumber e))
    (pick (upd_workStartDate u) (workStartDate e))
    (pick (upd_workEndDate u) (workEndDate e))
    (pick (upd_validUntil u) (validUntil e))
    (pick (upd_paymentDueBy u) (paymentDueBy e))
    (pick_opt (upd_subject u) (subject e))
    (pick (option_map (map ItemInput.cast) materials_) (materials e))
    (pick labour_ (labour e))
    (pick (option_map (map ItemInput.cast) terms_) (termsAndConditions e))
    (estimatedAmount e)
    (pick_opt (upd_quotationAmount u) (quotationAmount e))
    (pick_opt (upd_commissionAmount u) (commissionAmount e))
    (profit e)
    (pick_opt (upd_preparedBy u) (preparedBy e))
    (pick_opt (upd_checkedBy u) (checkedBy e))
    (approvedBy e)
    (pick (upd_isChecked u) (isChecked e))
    (isApproved e)
    (pick_opt (upd_approvalComment u) (approvalComment e)).

Definition updateEstimation (id : ObjectId) (updateData : UpdateEstimationBody)
  : Async (ApiResponse IEstimation) :=
  found <- Estimation.findById id ;;
  match found with
  | None => throw (ApiError 404 "Estimation not found")
  | Some loaded =>
      throw_if (isApproved loaded) (ApiError 400 "Cannot update approved estimation") ;;;
      let estimation :=
        if isChecked loaded
        then with_check false None None loaded
        else loaded in
      materials_ <- lift (retotal_opt "UOM is required for material items"
                                      (upd_materials updateData)) ;;
      terms_ <- lift (retotal_opt "UOM is required for terms items"
                                  (upd_termsAndConditions updateData)) ;;
      let labour_ := option_map retotal_labour (upd_labour updateData) in
      saved <- Estimation.save (set materials_ terms_ labour_ updateData estimation) ;;
      ret (mkApiResponse 200 saved "Estimation updated successfully")
  end.

Definition deleteEstimation (id : ObjectId) : Async (ApiResponse unit) :=
  found <- Estimation.findById id ;;
  match found with
  | None => throw (ApiError 404 "Estimation not found")
  | Some estimation =>
      throw_if (isApproved estimation)
               (ApiError 400 "Cannot delete approved estimation") ;;;
      Estimation.findByIdAndDelete id ;;;
      ret (mkApiResponse 200 tt "Estimation deleted successfully")
  end.

End Handlers.
End EstimationController.

(** ** The quotation controller *)

Module QuotationController.

Import QuotationModel.

(** An item of the parsed form data: numeric [quantity] and [unitPrice]. *)
Record ItemData : Type := mkItemData {
  item_description : option string;
  item_quantity : JS.number;
  item_unitPrice : JS.number
}.

Inductive ItemsMember : Type :=
| ItemsAbsent
| ItemsArray (items : list ItemData)
| ItemsOther.

(** [JSON.parse(req.body.data)]. *)
Record QuotationData : Type := mkQuotationData {
  data_project : ObjectId;
  data_validUntil : Z;
  data_scopeOfWork : option (list string);
  data_items : ItemsMember;
  data_termsAndConditions : option (list string);
  data_vatPercentage : option JS.number
}.

(** [req.files] when it is an array, and the parsed [req.body.data] when
    it is well-formed JSON. *)
Record Request : Type := mkRequest {
  files : option (list File);
  body_data : option QuotationData;
  userId : option ObjectId
}.

Definition image_field (index : nat) : string :=
  "items[" ++ JS.string_of_nat index ++ "][image]".

Section Handlers.
Context (ext : Collaborators).

Definition generateQuotationNumber : Async string :=
  count <- Quotation.countDocuments ;;
  ret ("QTN-" ++ JS.string_of_nat (getFullYear ext) ++ "-"
       ++ JS.padStart 4 (JS.string_of_nat (count + 1))).

(** The body of the [items.map] callback. *)
Definition processItem (fs : list File) (item : ItemData) (index : nat)
  : Outcome Item :=
  let totalPrice_ := (item_quantity item * item_unitPrice item)%float in
  let stored img :=
    mkItem (item_description item) (Some (item_quantity item))
           (Some (item_unitPrice item)) (Some totalPrice_) img in
  match find (fun f => fieldname f =? image_field index) fs with
  | Some imageFile =>
      match uploadItemImage ext imageFile with
      | Resolved uploadData => Resolved (stored uploadData)
      | Rejected e => Rejected e
      end
  | None => Resolved (stored None)
  end.

Fixpoint processItems (fs : list File) (index : nat) (items : list ItemData)
  : Outcome (list Item) :=
  match items with
  | [] => Resolved []
  | item :: rest =>
      match processItem fs item index, processItems fs (S index) rest with
      | Resolved i, Resolved l => Resolved (i :: l)
      | Rejected e, _ => Rejected e
      | _, Rejected e => Rejected e
      end
  end.

Definition item_totalPrice (i : Item) : JS.number :=
  match totalPrice i with Some x => x | None => JS.num 0 end.

(** [processedItems.reduce((sum, item) => sum + item.totalPrice, 0)]. *)
Definition subtotal_of (items : list Item) : JS.number :=
  fold_left (fun sum item => (sum + item_totalPrice item)%float) items (JS.num 0).

Definition vatAmount_of (subtotal_ vatPercentage_ : JS.number) : JS.number :=
  (subtotal_ * (vatPercentage_ / JS.num 100))%float.

Definition createQuotation (req : Request) : Async (ApiResponse IQuotation) :=
  match files req with
  | None => throw (ApiError 400 "No files were uploaded")
  | Some fs =>
      match body_data req with
      | None => throw (ApiError 400 "Invalid JSON data format")
      | Some jsonData =>
          let vatPercentage_ :=
            match data_vatPercentage jsonData with
            | Some v => v
            | None => JS.num 5
            end in
          match data_items jsonData with
          | ItemsOther => throw (ApiError 400 "Items must be an array")
          | other =>
              let items_ := match other with ItemsArray l => l | _ => [] end in
              let projectId := data_project jsonData in
              exists_ <- Quotation.findOne projectId ;;
              throw_if (negb (JS.is_nullish exists_))
                       (ApiError 400 "Project already has a quotation") ;;;
              estimation_ <- Estimation.findOne projectId ;;
              processedItems <- EstimationController.lift (processItems fs 0 items_) ;;
              let subtotal_ := subtotal_of processedItems in
              let vatAmount_ := vatAmount_of subtotal_ vatPercentage_ in
              let total_ := (subtotal_ + vatAmount_)%float in
              quotationNumber_ <- generateQuotationNumber ;;
              n <- read next_oid ;;
              write (fun w => with_next_oid (S n) w) ;;;
              let quotation :=
                mkQuotation ("oid" ++ JS.string_of_nat n) (Some projectId)
                  (option_map EstimationModel._id estimation_)
                  quotationNumber_ (now ext) (data_validUntil jsonData)
                  (Some (match data_scopeOfWork jsonData with
                         | Some l => l | None => [] end))
                  processedItems
                  (match data_termsAndConditions jsonData with
                   | Some l => l | None => [] end)
                  vatPercentage_ (Some subtotal_) (Some vatAmount_) (Some total_)
                  None (userId req) in
              write (fun w => with_quotations (quotations w ++ [quotation]) w) ;;;
              Project.findByIdAndUpdate projectId
                (ProjectModel.mkUpdate (Some "quotation_sent") None None) false ;;;
              ret (mkApiResponse 201 quotation "Quotation created")
          end
      end
  end.

End Handlers.
End QuotationController.

(** ** [controllers/projectController.ts]: creating, reading and deleting *)

Module ProjectHandlers.

Import ProjectModel.

(** [Project.findByIdAndDelete(id)]. *)
Definition findByIdAndDelete (id : ObjectId) : Async unit :=
  write (fun w => with_projects (filter (fun p => negb (_id p =? id)) (projects w)) w).

(** The [unique: true] index on [projectNumber]. *)
Definition number_free (docs : list IProject) (p : IProject) : bool :=
  forallb (fun d => negb (projectNumber d =? projectNumber p)) docs.

(** [Project.create(doc)]: a fresh [_id], validation, the insertion under
    the unique index. *)
Definition create (mk : ObjectId -> IProject) : Async IProject :=
  n <- read next_oid ;;
  write (fun w => with_next_oid (S n) w) ;;;
  let p := mk ("oid" ++ JS.string_of_nat n) in
  if validate p
  then
    (docs <- read projects ;;
     if number_free docs p
     then (write (fun w => with_projects (projects w ++ [p]) w) ;;; ret p)
     else throw (MongoServerError "E11000 duplicate key"))
  else throw (ValidationError "Project").

Record CreateProjectBody : Type := mkCreateProjectBody {
  new_projectName : option string;
  new_projectDescription : option string;
  new_client : option ObjectId;
  new_siteAddress : option string;
  new_siteLocation : option string
}.

Section Creation.
(** [String.prototype.trim], which the [trim: true] paths of the schema
    apply on assignment, and [generateProjectNumber] of
    [utils/documentNumbers], a function of the collections. *)
Context (trim : string -> string) (generateProjectNumber : World -> string).

Definition createProject (body : CreateProjectBody) (userId : option ObjectId)
  : Async (ApiResponse IProject) :=
  match new_projectName body, new_client body,
        new_siteAddress body, new_siteLocation body with
  | Some projectName_, Some client_, Some siteAddress_, Some siteLocation_ =>
      throw_if (negb (JS.truthy_string projectName_)
                || negb (JS.truthy_string client_)
                || negb (JS.truthy_string siteAddress_)
                || negb (JS.truthy_string siteLocation_))
               (ApiError 400 "Required fields are missing") ;;;
      clientExists <- Client.findById client_ ;;
      match clientExists with
      | None => throw (ApiError 404 "Client not found")
      | Some _ =>
          projectNumber_ <- read generateProjectNumber ;;
          project <-
            create (fun oid =>
                      mkProject oid (trim projectName_)
                        (option_map trim (new_projectDescription body))
                        client_ (trim siteAddress_) (trim siteLocation_)
                        "draft" (trim projectNumber_) (JS.num 0)
                        userId None None) ;;
          ret (mkApiResponse 201 project "Project created successfully")
      end
  | _, _, _, _ => throw (ApiError 400 "Required fields are missing")
  end.

End Creation.

(** [populate] of a reference to a user. *)
Definition populate_user (ref : option ObjectId) : Async (option UserModel.IUser) :=
  match ref with
  | Some u => User.findById u
  | None => ret None
  end.

(** The payload of [getProject]: the project with its populated
    references, and what the handler adds. *)
Record ProjectDetails : Type := mkProjectDetails {
  details_project : IProject;
  details_client : option ClientModel.IClient;
  details_createdBy : option UserModel.IUser;
  details_updatedBy : option UserModel.IUser;
  details_assignedTo : option UserModel.IUser;
  estimationId : option ObjectId;
  quotationId : option ObjectId;
  lpoId : option ObjectId;
  details_isChecked : bool;
  details_isApproved : bool
}.

Definition getProject (id : ObjectId) : Async (ApiResponse ProjectDetails) :=
  found <- Project.findById id ;;
  match found with
  | None => throw (ApiError 404 "Project not found")
  | Some project =>
      client_ <- Client.findById (client project) ;;
      createdBy_ <- populate_user (createdBy project) ;;
      updatedBy_ <- populate_user (updatedBy project) ;;
      assignedTo_ <- populate_user (assignedTo project) ;;
      estimation <- Estimation.findOne id ;;
      quotation <- Quotation.findOne id ;;
      Lpo <- LPO.findOne id ;;
      ret (mkApiResponse 200
             (mkProjectDetails project client_ createdBy_ updatedBy_ assignedTo_
                (option_map EstimationModel._id estimation)
                (option_map QuotationModel._id quotation)
                (option_map LPOModel._id Lpo)
                (match estimation with
                 | Some e => EstimationModel.isChecked e
                 | None => false
                 end)
                (match estimation with
                 | Some e => EstimationModel.isApproved e
                 | None => false
                 end))
             "Project retrieved successfully")
  end.

(** Whether a comment is a progress update of the project. *)
Definition is_progress_update (projectId : ObjectId) (c : CommentModel.IComment) : bool :=
  match CommentModel.project c with
  | Some p => p =? projectId
  | None => false
  end
  && (CommentModel.actionType c =? "progress_update").

(** [Comment.find({ project, actionType }).populate("user").sort({ createdAt: -1 })]:
    the collection being in insertion order, the newest comes first. *)
Definition getProjectProgressUpdates (projectId : ObjectId)
  : Async (ApiResponse (list (CommentModel.IComment * option UserModel.IUser))) :=
  progressUpdates <-
    read (fun w =>
            map (fun c => (c, match CommentModel.user c with
                              | Some u => find (fun x => UserModel._id x =? u) (users w)
                              | None => None
                              end))
                (rev (filter (is_progress_update projectId) (comments w)))) ;;
  ret (mkApiResponse 200 progressUpdates
         "Project progress updates retrieved successfully").

Definition deleteProject (id : ObjectId) : Async (ApiResponse unit) :=
  found <- Project.findById id ;;
  match found with
  | None => throw (ApiError 404 "Project not found")
  | Some project =>
      throw_if (negb (status project =? "draft"))
               (ApiError 400 "Cannot delete project that has already started") ;;;
      findByIdAndDelete id ;;;
      ret (mkApiResponse 200 tt "Project deleted successfully")
  end.

End ProjectHandlers.

(** ** Paginated listings *)

Module Listing.

(** [req.query] of [getProjects] and [getEngineerProjects]: [query_page]
    and [query_limit] are what [parseInt] reads in the two strings, [None]
    standing for [NaN]. *)
Record Query : Type := mkQuery {
  query_page : option Z;
  query_limit : option Z;
  query_status : option string;
  query_client : option string;
  query_search : option string
}.

(** The filter handed to the collection. *)
Record Filter : Type := mkFilter {
  filter_assignedTo : option ObjectId;
  filter_status : option string;
  filter_client : option string;
  filter_search : option string
}.

Record Pagination : Type := mkPagination {
  total : nat;
  page : Z;
  limit : Z;
  totalPages : Z;
  hasNextPage : bool;
  hasPreviousPage : bool
}.

(** [parseInt(s) || d]: [NaN] and [0] give way to the default. *)
Definition or_default (parsed : option Z) (d : Z) : Z :=
  match parsed with
  | Some n => if (n =? 0)%Z then d else n
  | None => d
  end.

(** A member of the query that is set and not empty. *)
Definition given (o : option string) : option string :=
  match o with
  | Some s => if JS.truthy_string s then Some s else None
  | None => None
  end.

Definition build_filter (assignedTo_ : option ObjectId) (q : Query) : Filter :=
  mkFilter assignedTo_ (given (query_status q)) (given (query_client q))
           (given (query_search q)).

(** [Math.ceil(total / limit)]. *)
Definition ceil_quotient (total_ : nat) (limit_ : Z) : Z :=
  Qceiling (inject_Z (Z.of_nat total_) / inject_Z limit_).

Definition pagination (total_ : nat) (page_ limit_ : Z) : Pagination :=
  mkPagination total_ page_ limit_
    (ceil_quotient total_ limit_)
    (page_ * limit_ <? Z.of_nat total_)%Z
    (1 <? page_)%Z.

Section Engine.
(** The query engine of the collection: [countDocuments(filter)], and
    [find(filter)] with its populated references, [skip], [limit] and the
    sort on [createdAt]; the search is a case-insensitive regular
    expression. *)
Context (countDocuments : Filter -> World -> nat)
        (find_page : Filter -> Z -> Z -> World -> Outcome (list ProjectModel.IProject)).

Definition list_projects (filter_ : Filter) (q : Query)
  : Async (ApiResponse (list ProjectModel.IProject * Pagination)) :=
  let page_ := or_default (query_page q) 1 in
  let limit_ := or_default (query_limit q) 10 in
  let skip := ((page_ - 1) * limit_)%Z in
  total_ <- read (countDocuments filter_) ;;
  projects_ <- (fun w => (find_page filter_ skip limit_ w, w)) ;;
  ret (mkApiResponse 200 (projects_, pagination total_ page_ limit_)
         "Projects retrieved successfully").

Definition getProjects (q : Query)
  : Async (ApiResponse (list ProjectModel.IProject * Pagination)) :=
  list_projects (build_filter None q) q.

Definition getEngineerProjects (userId : option ObjectId) (q : Query)
  : Async (ApiResponse (list ProjectModel.IProject * Pagination)) :=
  match userId with
  | None => throw (ApiError 401 "Unauthorized access")
  | Some engineerId =>
      throw_if (negb (JS.truthy_string engineerId))
               (ApiError 401 "Unauthorized access") ;;;
      list_projects (build_filter (Some engineerId) q) q
  end.

End Engine.
End Listing.

(** ** [controllers/estimationController.ts]: reading *)

Module EstimationHandlers.

Import EstimationModel.

(** An estimation with its populated users. *)
Record Populated : Type := mkPopulated {
  doc : IEstimation;
  populated_preparedBy : option UserModel.IUser;
  populated_checkedBy : option UserModel.IUser;
  populated_approvedBy : option UserModel.IUser
}.

Definition populate (e : IEstimation) : Async Populated :=
  preparedBy_ <- ProjectHandlers.populate_user (preparedBy e) ;;
  checkedBy_ <- ProjectHandlers.populate_user (checkedBy e) ;;
  approvedBy_ <- ProjectHandlers.populate_user (approvedBy e) ;;
  ret (mkPopulated e preparedBy_ checkedBy_ approvedBy_).

Fixpoint populate_all (l : list IEstimation) : Async (list Populated) :=
  match l with
  | [] => ret []
  | e :: rest =>
      p <- populate e ;;
      ps <- populate_all rest ;;
      ret (p :: ps)
  end.

(** The filter of [getEstimationsByProject]: the project, and the flag
    the [status] member of the query asks for. *)
Definition matches (projectId : ObjectId) (status_ : option string) (e : IEstimation)
  : bool :=
  same_opt (project e) (Some projectId)
  && match status_ with
     | Some s =>
         (if s =? "checked" then isChecked e else true)
         && (if s =? "approved" then isApproved e else true)
         && (if s =? "pending" then negb (isChecked e) else true)
     | None => true
     end.

Definition getEstimationsByProject (projectId : ObjectId) (status_ : option string)
  : Async (ApiResponse (list Populated)) :=
  found <- read (fun w => rev (filter (matches projectId status_) (estimations w))) ;;
  estimations_ <- populate_all found ;;
  ret (mkApiResponse 200 estimations_ "Estimations retrieved successfully").

(** The payload of [getEstimationDetails]: the populated estimation, its
    populated project and the client looked up from it. *)
Record Details : Type := mkDetails {
  of_estimation : Populated;
  of_project : ProjectModel.IProject;
  of_client : option ClientModel.IClient
}.

Definition getEstimationDetails (id : ObjectId) : Async (ApiResponse Details) :=
  found <- Estimation.findById id ;;
  match found with
  | None => throw (ApiError 404 "Estimation not found")
  | Some loaded =>
      project_ <- match project loaded with
                  | Some p => Project.findById p
                  | None => ret None
                  end ;;
      estimationE <- populate loaded ;;
      match project_ with
      | None => throw (ApiError 400 "Client information not found")
      | Some p =>
          throw_if (negb (JS.truthy_string (ProjectModel.client p)))
                   (ApiError 400 "Client information not found") ;;;
          client_ <- Client.findById (ProjectModel.client p) ;;
          ret (mkApiResponse 200 (mkDetails estimationE p client_)
                 "Estimation details retrieved")
      end
  end.

End EstimationHandlers.

(** ** The quotation controller: reading and deleting *)

Module QuotationHandlers.

Import QuotationModel.

(** A quotation with its populated project and author. *)
Record Populated : Type := mkPopulated {
  doc : IQuotation;
  populated_project : option ProjectModel.IProject;
  populated_preparedBy : option UserModel.IUser
}.

Definition getQuotationByProject (projectId : ObjectId)
  : Async (ApiResponse Populated) :=
  found <- Quotation.findOne projectId ;;
  match found with
  | None => throw (ApiError 404 "Quotation not found")
  | Some quotation =>
      project_ <- match project quotation with
                  | Some p => Project.findById p
                  | None => ret None
                  end ;;
      preparedBy_ <- ProjectHandlers.populate_user (preparedBy quotation) ;;
      ret (mkApiResponse 200 (mkPopulated quotation project_ preparedBy_)
             "Quotation retrieved")
  end.

(** [Quotation.findByIdAndDelete(id)]: the document it removed. *)
Definition findByIdAndDelete (id : ObjectId) : Async (option IQuotation) :=
  found <- read (fun w => find (fun q => _id q =? id) (quotations w)) ;;
  write (fun w =>
           with_quotations (filter (fun q => negb (_id q =? id)) (quotations w)) w) ;;;
  ret found.

Section Storage.
(** [deleteFileFromS3] of [utils/uploadConf]: whether the deletion of a
    key goes through. *)
Context (deleteFileFromS3 : string -> Outcome unit).

(** [item.image?.key ? deleteFileFromS3(item.image.key) : Promise.resolve()]. *)
Definition delete_image (item : Item) : Outcome unit :=
  match image item with
  | Some uploaded =>
      if JS.truthy_string (key uploaded)
      then deleteFileFromS3 (key uploaded)
      else Resolved tt
  | None => Resolved tt
  end.

(** [Promise.all(quotation.items.map(...))]: every deletion is started;
    the combined promise rejects when one of them does. *)
Fixpoint delete_images (items_ : list Item) : Outcome unit :=
  match items_ with
  | [] => Resolved tt
  | item :: rest =>
      match delete_image item, delete_images rest with
      | Resolved _, Resolved _ => Resolved tt
      | Rejected e, _ => Rejected e
      | _, Rejected e => Rejected e
      end
  end.

Definition deleteQuotation (id : ObjectId) : Async (ApiResponse unit) :=
  deleted <- findByIdAndDelete id ;;
  match deleted with
  | None => throw (ApiError 404 "Quotation not found")
  | Some quotation =>
      EstimationController.lift (delete_images (items quotation)) ;;;
      EstimationController.update_project_of (project quotation)
        (ProjectModel.mkUpdate (Some "estimation_prepared") None None) ;;;
      ret (mkApiResponse 200 tt "Quotation deleted")
  end.

End Storage.
End QuotationHandlers.

(** ** [models/workCompletionModel.ts] and the work-completion controller *)

Module WorkCompletionModel.

(** An image of a work completion; [uploadedAt] plays no part in the
    handlers. *)
Record IWorkCompletionImage : Type := mkImage {
  image_id : ObjectId;
  title : string;
  imageUrl : string;
  s3Key : string;
  description : string
}.

Record IWorkCompletion : Type := mkWorkCompletion {
  _id : ObjectId;
  project : ObjectId;
  images : list IWorkCompletionImage;
  createdBy : option ObjectId
}.

(** [workCompletionImageSchema]: the three required strings. *)
Definition valid_image (i : IWorkCompletionImage) : bool :=
  JS.truthy_string (title i) && JS.truthy_string (imageUrl i)
  && JS.truthy_string (s3Key i).

(** Document validation of [workCompletionSchema]. *)
Definition validate (c : IWorkCompletion) : bool :=
  JS.truthy_string (project c)
  && forallb valid_image (images c)
  && negb (JS.is_nullish (createdBy c)).

Definition with_images (l : list IWorkCompletionImage) (c : IWorkCompletion)
  : IWorkCompletion :=
  mkWorkCompletion (_id c) (project c) l (createdBy c).

End WorkCompletionModel.

Module WorkCompletion.

Import WorkCompletionModel.

(** The collection of work completions, in insertion order, and the
    counter of the identifiers handed out to documents and images. *)
Record Store : Type := mkStore {
  completions : list IWorkCompletion;
  next_id : nat
}.

(** A handler of the controller: from a store to an outcome and a new
    store; a rejection keeps the writes made before it. *)
Definition Run (A : Type) : Type := Store -> Outcome A * Store.

Definition pure {A} (a : A) : Run A := fun s => (Resolved a, s).

Definition fail {A} (e : Error) : Run A := fun s => (Rejected e, s).

Definition and_then {A B} (m : Run A) (k : A -> Run B) : Run B :=
  fun s =>
    match m s with
    | (Resolved a, s') => k a s'
    | (Rejected e, s') => (Rejected e, s')
    end.

Definition fail_if (c : bool) (e : Error) : Run unit :=
  if c then fail e else pure tt.

Definition lift {A} (o : Outcome A) : Run A :=
  match o with Resolved a => pure a | Rejected e => fail e end.

Definition fresh_id : Run ObjectId :=
  fun s => (Resolved ("oid" ++ JS.string_of_nat (next_id s)),
            mkStore (completions s) (S (next_id s))).

(** [WorkCompletion.findOne({ project })], [WorkCompletion.findById(id)]
    and [findOne({ project }).sort({ createdAt: -1 })], which returns the
    match inserted last. *)
Definition findOne (projectId : ObjectId) : Run (option IWorkCompletion) :=
  fun s => (Resolved (find (fun c => project c =? projectId) (completions s)), s).

Definition findById (id : ObjectId) : Run (option IWorkCompletion) :=
  fun s => (Resolved (find (fun c => _id c =? id) (completions s)), s).

Definition findLatest (projectId : ObjectId) : Run (option IWorkCompletion) :=
  fun s => (Resolved (find (fun c => project c =? projectId) (rev (completions s))), s).

(** [WorkCompletion.create({ project, createdBy })]. *)
Definition create (projectId : ObjectId) (userId : option ObjectId)
  : Run IWorkCompletion :=
  and_then fresh_id (fun oid =>
    let c := mkWorkCompletion oid projectId [] userId in
    if validate c
    then (fun s => (Resolved c, mkStore (completions s ++ [c]) (next_id s)))
    else fail (ValidationError "WorkCompletion")).

(** [workCompletion.save()] on a document loaded from the collection. *)
Definition save (c : IWorkCompletion) : Run IWorkCompletion :=
  if validate c
  then (fun s =>
          (Resolved c,
           mkStore (map (fun d => if _id d =? _id c then c else d) (completions s))
                   (next_id s)))
  else fail (ValidationError "WorkCompletion").

(** A member of a multipart body that may be absent, one string or an
    array of strings. *)
Inductive Field : Type :=
| Absent
| One (s : string)
| Many (l : list string).

(** [Array.isArray(x) ? x : [x]] after the default [[]]. *)
Definition to_array (f : Field) : list string :=
  match f with
  | Absent => []
  | One s => [s]
  | Many l => l
  end.

(** What [uploadWorkCompletionImagesToS3] resolves with. *)
Record UploadResults : Type := mkUploadResults {
  success : bool;
  uploadData : option (list QuotationModel.UploadData)
}.

Section Handlers.
(** [String.prototype.trim], and the two functions of [utils/uploadConf]:
    the upload of a batch of files and the deletion of a key, which
    resolves with a [success] flag. *)
Context (trim : string -> string)
        (uploadWorkCompletionImagesToS3 : list File -> Outcome UploadResults)
        (deleteFileFromS3 : string -> Outcome bool).

(** [createWorkCompletion]; the project is looked up in the world. *)
Definition createWorkCompletion (w : World) (projectId : option ObjectId)
           (userId : option ObjectId) : Run (ApiResponse IWorkCompletion) :=
  match projectId with
  | None => fail (ApiError 400 "Project ID is required")
  | Some pid =>
      and_then (fail_if (negb (JS.truthy_string pid))
                        (ApiError 400 "Project ID is required")) (fun _ =>
      match find (fun p => ProjectModel._id p =? pid) (projects w) with
      | None => fail (ApiError 404 "Project not found")
      | Some _ =>
          and_then (create pid userId) (fun workCompletion =>
          pure (mkApiResponse 201 workCompletion
                  "Work completion created successfully"))
      end)
  end.

(** The [files.map] of [uploadWorkCompletionImages]: one image per file,
    with the title, the upload and the description of the same index; a
    file without upload data is a [TypeError]. *)
Fixpoint new_images (files : list File) (titles descriptions : list string)
         (uploaded : list QuotationModel.UploadData)
  : Outcome (list (ObjectId -> IWorkCompletionImage)) :=
  match files with
  | [] => Resolved []
  | _ :: files' =>
      match uploaded with
      | [] =>
          Rejected (TypeError "Cannot read properties of undefined (reading 'url')")
      | data_ :: uploaded' =>
          match new_images files' (tl titles) (tl descriptions) uploaded' with
          | Resolved rest =>
              Resolved
                ((fun oid =>
                    mkImage oid (hd "" titles)
                      (QuotationModel.url data_) (QuotationModel.key data_)
                      (hd "" descriptions)) :: rest)
          | Rejected e => Rejected e
          end
      end
  end.

(** The pushed subdocuments receive their identifiers. *)
Fixpoint with_ids (l : list (ObjectId -> IWorkCompletionImage))
  : Run (list IWorkCompletionImage) :=
  match l with
  | [] => pure []
  | mk :: rest =>
      and_then fresh_id (fun oid =>
      and_then (with_ids rest) (fun others =>
      pure (mk oid :: others)))
  end.

Definition blank (title_ : string) : bool :=
  negb (JS.truthy_string title_) || negb (JS.truthy_string (trim title_)).

Definition uploadWorkCompletionImages (projectId : ObjectId)
           (files : option (list File)) (titles descriptions : Field)
           (userId : option ObjectId) : Run (ApiResponse IWorkCompletion) :=
  and_then (fail_if (negb (JS.truthy_string projectId))
                    (ApiError 400 "Project ID is required")) (fun _ =>
  match files with
  | None => fail (ApiError 400 "No images uploaded")
  | Some fs =>
      and_then (fail_if (Nat.eqb (List.length fs) 0)
                        (ApiError 400 "No images uploaded")) (fun _ =>
      let titlesArray := to_array titles in
      let descriptionsArray := to_array descriptions in
      and_then (fail_if (negb (Nat.eqb (List.length titlesArray) (List.length fs)))
                        (ApiError 400 "Number of titles must match number of images"))
               (fun _ =>
      and_then (fail_if (existsb blank titlesArray)
                        (ApiError 400 "All images must have a non-empty title"))
               (fun _ =>
      and_then (findOne projectId) (fun found =>
      and_then
        (match found with
         | None => create projectId userId
         | Some existing =>
             match createdBy existing with
             | None =>
                 fail (TypeError
                         "Cannot read properties of undefined (reading 'toString')")
             | Some owner =>
                 if match userId with
                    | Some u => negb (owner =? u)
                    | None => true
                    end
                 then fail (ApiError 403 "Not authorized to update this work completion")
                 else pure existing
             end
         end) (fun workCompletion =>
      match uploadWorkCompletionImagesToS3 fs with
      | Rejected e => fail e
      | Resolved uploadResults =>
          match success uploadResults, uploadData uploadResults with
          | true, Some uploaded =>
              and_then (lift (new_images fs titlesArray descriptionsArray uploaded))
                       (fun newImages =>
              and_then (with_ids newImages) (fun pushed =>
              and_then (save (with_images (images workCompletion ++ pushed)
                                          workCompletion)) (fun saved =>
              pure (mkApiResponse 200 saved "Images uploaded successfully"))))
          | _, _ => fail (ApiError 500 "Failed to upload images to S3")
          end
      end)))))
  end).

Definition getProjectWorkCompletionImages (projectId : ObjectId)
  : Run (ApiResponse (list IWorkCompletionImage)) :=
  and_then (fail_if (negb (JS.truthy_string projectId))
                    (ApiError 400 "Project ID is required")) (fun _ =>
  and_then (findLatest projectId) (fun workCompletion =>
  match workCompletion with
  | None => pure (mkApiResponse 200 [] "No work completion images found")
  | Some c =>
      pure (mkApiResponse 200 (images c)
              "Work completion images retrieved successfully")
  end)).

(** [images.findIndex(...)], with the image at the index it returns, and
    [images.splice(imageIndex, 1)]. *)
Fixpoint findIndex (imageId : ObjectId) (l : list IWorkCompletionImage)
  : option (nat * IWorkCompletionImage) :=
  match l with
  | [] => None
  | i :: rest =>
      if image_id i =? imageId then Some (0%nat, i)
      else option_map (fun found => (S (fst found), snd found)) (findIndex imageId rest)
  end.

Fixpoint splice (index : nat) (l : list IWorkCompletionImage)
  : list IWorkCompletionImage :=
  match l, index with
  | [], _ => []
  | _ :: rest, O => rest
  | i :: rest, S k => i :: splice k rest
  end.

Definition deleteWorkCompletionImage (workCompletionId imageId : ObjectId)
           (userId : option ObjectId) : Run (ApiResponse IWorkCompletion) :=
  and_then (fail_if (negb (JS.truthy_string workCompletionId)
                     || negb (JS.truthy_string imageId))
                    (ApiError 400 "Work completion ID and image ID are required"))
           (fun _ =>
  and_then (findById workCompletionId) (fun found =>
  match found with
  | None => fail (ApiError 404 "Work completion not found")
  | Some workCompletion =>
      match createdBy workCompletion with
      | None =>
          fail (TypeError "Cannot read properties of undefined (reading 'toString')")
      | Some owner =>
          if match userId with
             | Some u => negb (owner =? u)
             | None => true
             end
          then fail (ApiError 403 "Not authorized to modify this work completion")
          else
            match findIndex imageId (images workCompletion) with
            | None => fail (ApiError 404 "Image not found")
            | Some (imageIndex, imageToDelete) =>
                match deleteFileFromS3 (s3Key imageToDelete) with
                | Rejected e => fail e
                | Resolved false =>
                    fail (ApiError 500 "Failed to delete image from S3")
                | Resolved true =>
                    and_then
                      (save (with_images
                               (splice imageIndex (images workCompletion))
                               workCompletion)) (fun saved =>
                    pure (mkApiResponse 200 saved "Image deleted successfully"))
                end
            end
      end
  end)).

End Handlers.
End WorkCompletion.

(** ** Observations on a world, and sample data *)

(** The sign a binary64 value carries; [NaN] carries none.  A number
    whose sign is [false] is [+0], positive or [+Infinity]. *)
Definition sign_is (s : bool) (f : spec_float) : Prop :=
  match f with
  | S754_zero s' | S754_infinity s' | S754_finite s' _ _ => s' = s
  | S754_nan => False
  end.

Definition stored_project (id : ObjectId) (w : World) : option ProjectModel.IProject :=
  find (fun p => ProjectModel._id p =? id) (projects w).

Definition stored_estimation (id : ObjectId) (w : World)
  : option EstimationModel.IEstimation :=
  find (fun e => EstimationModel._id e =? id) (estimations w).

Definition stored_status (id : ObjectId) (w : World) : option string :=
  option_map ProjectModel.status (stored_project id w).

(** The status [updateProjectProgress] leaves in the collection. *)
Definition progress_outcome (p : ProjectModel.IProject) (newp : JS.number) : string :=
  let advanced :=
    ProjectModel.status
      (ProjectController.advance_work_started (ProjectController.advance_lpo_received p)) in
  if JS.eqb newp (JS.num 100) && negb (advanced =? "work_completed")
  then "work_completed" else advanced.

(** Whether every send of a batch goes through, and the lines
    [Mailer.sendEmail] writes for those that do not. *)
Fixpoint all_sent (ext : Collaborators) (n : nat) (mails : list EmailOptions) : bool :=
  match mails with
  | [] => true
  | m :: rest => sendMail ext n m && all_sent ext (S n) rest
  end.

Fixpoint transport_errors (ext : Collaborators) (n : nat) (mails : list EmailOptions)
  : list string :=
  match mails with
  | [] => []
  | m :: rest =>
      (if sendMail ext n m then [] else ["Error sending email:"])
      ++ transport_errors ext (S n) rest
  end.

Definition quotation_of (projectId : ObjectId) (w : World)
  : option QuotationModel.IQuotation :=
  find (fun q => match QuotationModel.project q with
                 | Some p => p =? projectId
                 | None => false
                 end) (quotations w).

Definition lpo_of (projectId : ObjectId) (w : World) : option LPOModel.ILPO :=
  find (fun l => LPOModel.project l =? projectId) (lpos w).

Definition stored_client (id : ObjectId) (w : World) : option ClientModel.IClient :=
  find (fun c => ClientModel._id c =? id) (clients w).

Definition stored_user (id : ObjectId) (w : World) : option UserModel.IUser :=
  find (fun u => UserModel._id u =? id) (users w).

(** Whether every line of an optional array of a body names its unit of
    measure. *)
Definition lines_with_uom (o : option (list ItemInput.t)) : bool :=
  match o with
  | Some items => forallb (fun i => JS.truthy_string (ItemInput.uom i)) items
  | None => true
  end.

(** The estimation [findOne] returns for a project, and all the
    estimations that reference it. *)
Definition estimation_of (projectId : ObjectId) (w : World)
  : option EstimationModel.IEstimation :=
  find (fun e => EstimationModel.same_opt (EstimationModel.project e) (Some projectId))
       (estimations w).

Definition estimations_for (projectId : ObjectId) (w : World)
  : list EstimationModel.IEstimation :=
  filter (fun e => EstimationModel.same_opt (EstimationModel.project e) (Some projectId))
         (estimations w).

(** The sum of all item totals of an estimation, added line after line
    from 0 as [reduce] does, each addition rounding; and what it means for
    a line to carry the product of its two factors. *)
Definition item_total (i : EstimationItem.t) : JS.number :=
  match EstimationItem.total i with Some t => t | None => JS.num 0 end.

Definition labour_item_total (i : LabourItem.t) : JS.number :=
  match LabourItem.total i with Some t => t | None => JS.num 0 end.

Definition sum (l : list JS.number) : JS.number :=
  fold_left PrimFloat.add l (JS.num 0).

Definition sum_of_item_totals (e : EstimationModel.IEstimation) : JS.number :=
  (sum (map item_total (EstimationModel.materials e))
   + sum (map labour_item_total (EstimationModel.labour e))
   + sum (map item_total (EstimationModel.termsAndConditions e)))%float.







(** A creation body one of whose required members is absent or falsy: an
    empty project identifier, a date of 0, a payment term that is 0 or no
    number. *)
Definition falsy_date (o : option Z) : Prop := o = None \/ o = Some 0%Z.

Definition missing_required_member
    (body : EstimationController.CreateEstimationBody) : Prop :=
  EstimationController.body_project body = None
  \/ EstimationController.body_project body = Some ""
  \/ falsy_date (EstimationController.body_workStartDate body)
  \/ falsy_date (EstimationController.body_workEndDate body)
  \/ falsy_date (EstimationController.body_validUntil body)
  \/ EstimationController.body_paymentDueBy body = None
  \/ (exists due,
        EstimationController.body_paymentDueBy body = Some due
        /\ JS.truthy_number due = false).

(** A stored quotation item that carries the product of its factors. *)
Definition priced_quotation_item (i : QuotationModel.Item) : Prop :=
  exists q u,
    QuotationModel.quantity i = Some q
    /\ QuotationModel.unitPrice i = Some u
    /\ QuotationModel.totalPrice i = Some (q * u)%float.

(** A stored quotation item that carries a line of the request: its
    description, its two factors and their product. *)
Definition quotation_line_of (i : QuotationController.ItemData)
    (s : QuotationModel.Item) : Prop :=
  QuotationModel.description s = QuotationController.item_description i
  /\ QuotationModel.quantity s = Some (QuotationController.item_quantity i)
  /\ QuotationModel.unitPrice s = Some (QuotationController.item_unitPrice i)
  /\ QuotationModel.totalPrice s
     = Some (QuotationController.item_quantity i
             * QuotationController.item_unitPrice i)%float.

(** The lines and the VAT percentage a request asks for: [items = []] and
    [vatPercentage = 5] are the defaults of the destructuring. *)
Definition requested_items (d : QuotationController.QuotationData)
  : list QuotationController.ItemData :=
  match QuotationController.data_items d with
  | QuotationController.ItemsArray l => l
  | _ => []
  end.

Definition requested_vat (d : QuotationController.QuotationData) : JS.number :=
  match QuotationController.data_vatPercentage d with
  | Some v => v
  | None => JS.num 5
  end.

(** A handler preserves a property of the world when every run from a
    world that has it ends, resolved or rejected, in a world that has it. *)
Definition preserves {A} (P : World -> Prop) (m : Async A) : Prop :=
  forall w o w', m w = (o, w') -> P w -> P w'.

(** A property of every stored estimation; in particular that it passes
    [estimationSchema], and that its amounts are the derived ones. *)
Definition all_estimations (Q : EstimationModel.IEstimation -> Prop) (w : World) : Prop :=
  Forall Q (estimations w).

Definition estimations_valid : World -> Prop :=
  all_estimations (fun e => EstimationModel.validate e = true).


(** The identifiers of the stored estimations are distinct and none is one
    the collection will hand out later; no project has two estimations. *)
Definition ids_fresh (w : World) : Prop :=
  NoDup (map EstimationModel._id (estimations w))
  /\ forall e n,
       In e (estimations w) -> (next_oid w <= n)%nat ->
       EstimationModel._id e <> "oid" ++ JS.string_of_nat n.

Definition one_per_project (w : World) : Prop :=
  forall projectId, (List.length (estimations_for projectId w) <= 1)%nat.

Definition estimations_keyed (w : World) : Prop :=
  ids_fresh w /\ one_per_project w.

(** A property of the world that every handler writing estimations, and
    [createQuotation], preserves. *)
Definition kept_by_every_handler (ext : Collaborators) (P : World -> Prop) : Prop :=
  (forall body userId,
      preserves P (EstimationController.createEstimation ext body userId))
  /\ (forall id comment isApproved_ userId,
         preserves P (EstimationController.approveEstimation id comment isApproved_ userId))
  /\ (forall id comment isChecked_ userId,
         preserves P (EstimationController.markAsChecked ext id comment isChecked_ userId))
  /\ (forall id updateData,
         preserves P (EstimationController.updateEstimation id updateData))
  /\ (forall id, preserves P (EstimationController.deleteEstimation id))
  /\ (forall req, preserves P (QuotationController.createQuotation ext req)).

(** The notifications [markAsChecked] addresses to the super admins. *)
Definition check_notifications (w : World) (estimationNumber_ : string)
  : list EmailOptions :=
  map (fun admin => mkEmail (UserModel.email admin)
                            ("Estimation Checked: " ++ estimationNumber_))
      (filter (fun u => UserModel.role u =? "super_admin") (users w)).

Module Sample.

Definition pid : ObjectId := "650000000000000000000001".
Definition cid : ObjectId := "650000000000000000000002".
Definition uid : ObjectId := "650000000000000000000003".
Definition eid : ObjectId := "650000000000000000000004".
Definition admin_id : ObjectId := "650000000000000000000005".

(** Collaborators that work, and the same with the SMTP transport down. *)
Definition ext : Collaborators :=
  mkCollaborators
    (fun s => Nat.eqb (String.length s) 24)
    (fun _ _ prefix => prefix ++ "-2025-0001")
    (fun f => Resolved (Some (QuotationModel.mkUpload
                                ("https://storage/" ++ originalname f)
                                (originalname f))))
    (fun _ _ => true)
    0%Z 2025.

Definition ext_mail_down : Collaborators :=
  mkCollaborators (ObjectId_isValid ext) (generateRelatedDocumentNumber ext)
    (uploadItemImage ext) (fun _ _ => false) (now ext) (getFullYear ext).

Definition project_in (status_ : string) (progress_ : Z) : ProjectModel.IProject :=
  ProjectModel.mkProject pid "Villa fit-out" None cid "Plot 12" "Dubai"
    status_ "PRJ-2025-0001" (JS.num progress_) (Some uid) None None.

Definition engineer : UserModel.IUser :=
  UserModel.mkUser uid "engineer@example.com" "Asha" "Nair" "engineer".

Definition super_admin : UserModel.IUser :=
  UserModel.mkUser admin_id "admin@example.com" "Omar" "Said" "super_admin".

Definition the_client : ClientModel.IClient :=
  ClientModel.mkClient cid "Imdaad" "Dubai" "123456" "+971 4 000000" "100200300".

(** A world holding one project and the people around it. *)
Definition world (status_ : string) (progress_ : Z) : World :=
  mkWorld [project_in status_ progress_] [] [] [] [the_client]
          [engineer; super_admin] [] [] 0.

(** The estimation of the running example: two units of material at 50,
    three days of labour at 20, no terms; quoted 200 with a commission
    of 10. *)
Definition cable : EstimationItem.t :=
  EstimationItem.mk "Cable" (Some (JS.num 2)) (Some (JS.num 50)) (Some (JS.num 100)).

Definition electrician : LabourItem.t :=
  LabourItem.mk "Electrician" (Some (JS.num 3)) (Some (JS.num 20)) (Some (JS.num 60)).

Definition estimation_in (checked approved : bool) : EstimationModel.IEstimation :=
  EstimationModel.mkEstimation eid (Some pid) "EST-2025-0001" 100%Z 200%Z 300%Z
    (JS.num 30) None [cable] [electrician] [] (JS.num 160)
    (Some (JS.num 200)) (Some (JS.num 10)) (Some (JS.num 30))
    (Some uid) (if checked then Some uid else None)
    (if approved then Some admin_id else None) checked approved None.

(** The sample world once the project has its estimation. *)
Definition estimated (status_ : string) (checked approved : bool) : World :=
  with_estimations [estimation_in checked approved] (world status_ 0).

(** The sample estimation, not checked, once its project has been
    deleted. *)
Definition orphaned : World :=
  with_projects [] (estimated "draft" false false).

Definition quotation_with (items_ : list QuotationModel.Item)
           (netAmount_ : option JS.number) : QuotationModel.IQuotation :=
  QuotationModel.mkQuotation "650000000000000000000006" (Some pid) (Some eid)
    "QTN-2025-0001" 0%Z 300%Z (Some ["Electrical works"]) items_ []
    (JS.num 5) (Some (JS.num 1000)) (Some (JS.num 50)) (Some (JS.num 1050))
    netAmount_ (Some uid).

Definition wiring : QuotationModel.Item :=
  QuotationModel.mkItem (Some "Wiring") (Some (JS.num 10)) (Some (JS.num 100))
    (Some (JS.num 1000)) None.

Definition the_lpo : LPOModel.ILPO :=
  LPOModel.mkLPO "650000000000000000000007" pid (Some "LPO-77").

(** The sample world with a quotation and an LPO, and the same after
    [deleteClient] has removed the client of the project. *)
Definition invoiceable : World :=
  mkWorld [project_in "work_completed" 100] [] [quotation_with [wiring] (Some (JS.num 1050))]
          [the_lpo] [the_client] [engineer; super_admin] [] [] 0.

Definition invoiceable_without_client : World :=
  mkWorld [project_in "work_completed" 100] [] [quotation_with [wiring] (Some (JS.num 1050))]
          [the_lpo] [] [engineer; super_admin] [] [] 0.

(** A body of [updateProject] that carries a status, a progress or
    both, and nothing else. *)
Definition project_body (status_ : option string) (progress_ : option JS.number)
  : ProjectController.UpdateProjectBody :=
  ProjectController.mkUpdateProjectBody None None None None None status_ None
    progress_ None None None.

Definition trim : string -> string := JS.trim.

(** Update bodies: an empty one, and one whose single material line
    names no unit of measure. *)
Definition update_with (materials_ : option (list ItemInput.t))
  : EstimationController.UpdateEstimationBody :=
  EstimationController.mkUpdateBody None None None None None None None
    materials_ None None None None None None None None None None None None.

Definition cable_without_uom : ItemInput.t :=
  ItemInput.mk "Cable" "" (Some (JS.num 2)) (Some (JS.num 50)) None.

Definition cable_by_metre : ItemInput.t :=
  ItemInput.mk "Cable" "m" (Some (JS.num 4)) (Some (JS.num 50)) None.

(** The creation body of the running example, for a given quotation
    amount. *)
Definition creation_body_quoting (quotationAmount_ : option JS.number)
  : EstimationController.CreateEstimationBody :=
  EstimationController.mkCreateBody (Some pid) (Some 100%Z) (Some 200%Z) (Some 300%Z)
    (Some (JS.num 30))
    (Some [ItemInput.mk "Cable" "m" (Some (JS.num 2)) (Some (JS.num 50)) None])
    (Some [LabourItem.mk "Electrician" (Some (JS.num 3)) (Some (JS.num 20)) None])
    (Some [])
    quotationAmount_ (Some (JS.num 10)) None.

Definition creation_body : EstimationController.CreateEstimationBody :=
  creation_body_quoting (Some (JS.num 200)).

(** A quotation request: ten units at 100, one image, the default VAT. *)
Definition quotation_request : QuotationController.Request :=
  QuotationController.mkRequest
    (Some [mkFile "items[0][image]" "panel.png"])
    (Some (QuotationController.mkQuotationData pid 300%Z (Some ["Electrical works"])
             (QuotationController.ItemsArray
                [QuotationController.mkItemData (Some "Wiring") (JS.num 10) (JS.num 100)])
             None None))
    (Some uid).

End Sample.

(** A stored project that passes every validator of its schema but,
    possibly, the enumeration of [status]; and a world whose projects all
    do. *)
Definition sound_apart_from_status (p : ProjectModel.IProject) : bool :=
  ProjectModel.validate (ProjectModel.with_status "draft" p).

Definition projects_sound (w : World) : Prop :=
  Forall (fun p => sound_apart_from_status p = true) (projects w).

(** Observations on a store: identifiers are distinct and none is one the
    store will hand out later; a project has at most one work completion. *)
Definition store_keyed (s : WorkCompletion.Store) : Prop :=
  (forall x y,
      In x (WorkCompletion.completions s) -> In y (WorkCompletion.completions s) ->
      WorkCompletionModel._id x = WorkCompletionModel._id y -> x = y)
  /\ (forall x n,
        In x (WorkCompletion.completions s) -> (WorkCompletion.next_id s <= n)%nat ->
        WorkCompletionModel._id x <> "oid" ++ JS.string_of_nat n).

Definition single_for (projectId : ObjectId) (s : WorkCompletion.Store) : Prop :=
  forall x y,
    In x (WorkCompletion.completions s) -> In y (WorkCompletion.completions s) ->
    WorkCompletionModel.project x = projectId ->
    WorkCompletionModel.project y = projectId -> x = y.

(** What a handler may do to the collection on behalf of a user: add one
    record of the user under the next identifier, and replace one record
    of the user by a record of the user with the same identifier. *)
Definition written_for (userId : option ObjectId) (s s' : WorkCompletion.Store)
  : Prop :=
  exists base,
    (base = WorkCompletion.completions s
     \/ exists t,
         WorkCompletionModel.createdBy t = userId
         /\ WorkCompletionModel._id t
            = "oid" ++ JS.string_of_nat (WorkCompletion.next_id s)
         /\ base = (WorkCompletion.completions s ++ [t])%list)
    /\ (WorkCompletion.completions s' = base
        \/ exists target d,
            In target base
            /\ WorkCompletionModel.createdBy target = userId
            /\ WorkCompletionModel.createdBy d = userId
            /\ WorkCompletion.completions s'
               = map (fun x => if WorkCompletionModel._id x
                                  =? WorkCompletionModel._id target
                               then d else x) base).

(** * Properties of the handlers *)

(** ** Numbers *)

(** Comparisons of binary64 values, through their specification. *)
Lemma compare_cont_opp m m' :
  Pos.compare_cont Eq m' m = CompOpp (Pos.compare_cont Eq m m').
Proof. rewrite Pos.compare_cont_antisym. reflexivity. Qed.

Lemma SFcompare_antisym a b :
  SFcompare b a = option_map CompOpp (SFcompare a b).
Proof.
  destruct a as [s|s| |s m e], b as [s'|s'| |s' m' e']; cbn;
    try (destruct s; reflexivity); try (destruct s'; reflexivity);
    try (destruct s, s'; reflexivity); try reflexivity.
  destruct s, s'; cbn; try reflexivity;
    rewrite (Z.compare_antisym e e'); destruct (e ?= e')%Z; cbn; try reflexivity;
    rewrite (compare_cont_opp m m'); try reflexivity.
Qed.

Lemma SFcompare_none a b :
  SFcompare a b = None -> a = S754_nan \/ b = S754_nan.
Proof.
  destruct a as [s|s| |s m e], b as [s'|s'| |s' m' e']; cbn; intros H;
    try discriminate; auto.
Qed.

Lemma compare_number x y :
  JS.eqb x x = true -> JS.eqb y y = true ->
  exists c, SFcompare (Prim2SF x) (Prim2SF y) = Some c.
Proof.
  unfold JS.eqb. rewrite !eqb_spec. unfold SFeqb. intros Hx Hy.
  destruct (SFcompare (Prim2SF x) (Prim2SF y)) as [c|] eqn:E; [eauto|].
  apply SFcompare_none in E. destruct E as [E|E]; rewrite E in *; discriminate.
Qed.

(** [!(x < y)] is [y <= x] for numbers. *)
Lemma ltb_false_leb x y :
  JS.eqb x x = true -> JS.eqb y y = true ->
  JS.ltb x y = false -> JS.leb y x = true.
Proof.
  intros Hx Hy. destruct (compare_number x y Hx Hy) as [c Hc].
  unfold JS.ltb, JS.leb. rewrite ltb_spec, leb_spec. unfold SFltb, SFleb.
  rewrite (SFcompare_antisym (Prim2SF x) (Prim2SF y)), Hc.
  destruct c; cbn; congruence.
Qed.

Lemma SFeqb_refl a : a <> S754_nan -> SFeqb a a = true.
Proof.
  unfold SFeqb. destruct a as [s|s| |s m e]; cbn; intros H;
    try (destruct s; reflexivity); [congruence|].
  rewrite Z.compare_refl, Pos.compare_cont_refl. destruct s; reflexivity.
Qed.

Lemma number_iff x : JS.eqb x x = true <-> Prim2SF x <> S754_nan.
Proof.
  unfold JS.eqb. rewrite eqb_spec. split.
  - intros H E. rewrite E in H. discriminate.
  - apply SFeqb_refl.
Qed.

Lemma leb_number x y : JS.leb x y = true -> JS.eqb x x = true /\ JS.eqb y y = true.
Proof.
  unfold JS.leb. rewrite leb_spec, !number_iff. unfold SFleb.
  intros H. split; intros E; rewrite E in H;
    [|destruct (Prim2SF x) as [s|s| |s m e]]; discriminate.
Qed.

Lemma ltb_number x y : JS.ltb x y = true -> JS.eqb x x = true /\ JS.eqb y y = true.
Proof.
  unfold JS.ltb. rewrite ltb_spec, !number_iff. unfold SFltb.
  intros H. split; intros E; rewrite E in H;
    [|destruct (Prim2SF x) as [s|s| |s m e]]; discriminate.
Qed.


(** [0 <= x] read on the value: a zero, a positive number or [+Infinity]. *)
Lemma zero_is_zero : Prim2SF (JS.num 0) = S754_zero false.
Proof. reflexivity. Qed.

Lemma nonneg_cases x :
  JS.leb (JS.num 0) x = true <->
  match Prim2SF x with
  | S754_zero _ | S754_infinity false | S754_finite false _ _ => True
  | _ => False
  end.
Proof.
  unfold JS.leb. rewrite leb_spec, zero_is_zero.
  destruct (Prim2SF x) as [s|s| |s m e]; cbn; try destruct s; cbn;
    split; intros H; try reflexivity; try exact I; try discriminate; try contradiction.
Qed.

Lemma positive_cases x :
  JS.ltb (JS.num 0) x = true <->
  match Prim2SF x with
  | S754_infinity false | S754_finite false _ _ => True
  | _ => False
  end.
Proof.
  unfold JS.ltb. rewrite ltb_spec, zero_is_zero.
  destruct (Prim2SF x) as [s|s| |s m e]; cbn; try destruct s; cbn;
    split; intros H; try reflexivity; try exact I; try discriminate; try contradiction.
Qed.

Lemma zero_cases x :
  JS.eqb x (JS.num 0) = true <-> exists s, Prim2SF x = S754_zero s.
Proof.
  unfold JS.eqb. rewrite eqb_spec, zero_is_zero.
  destruct (Prim2SF x) as [s|s| |s m e]; cbn; try destruct s; cbn;
    split; intros H; try reflexivity; try discriminate; eauto;
    destruct H as [? H]; discriminate.
Qed.

Lemma zero_not_positive x :
  JS.eqb x (JS.num 0) = true -> JS.ltb (JS.num 0) x = false.
Proof.
  rewrite zero_cases. intros [s Hs].
  destruct (JS.ltb (JS.num 0) x) eqn:E; [|reflexivity].
  apply positive_cases in E. rewrite Hs in E. contradiction.
Qed.

(** [x === c] for a finite [c] other than zero: the same number. *)
Lemma eqb_finite x c s m e :
  Prim2SF c = S754_finite s m e -> JS.eqb x c = true -> x = c.
Proof.
  intros Hc. unfold JS.eqb. rewrite eqb_spec, Hc. unfold SFeqb. intros H.
  apply Prim2SF_inj. rewrite Hc.
  destruct (Prim2SF x) as [s'|s'| |s' m' e']; cbn in H;
    try discriminate; try (destruct s'; discriminate); try (destruct s; discriminate).
  destruct s', s; try discriminate;
    destruct (Z.compare_spec e' e) as [He| |]; try discriminate;
    destruct (Pos.compare_cont Eq m' m) eqn:Hm; try discriminate;
    apply Pos.compare_eq in Hm; subst; reflexivity.
Qed.

(** A number that is [>= 0] is [0] or [> 0], and not both. *)
Lemma nonneg_split x :
  JS.leb (JS.num 0) x = true ->
  (JS.eqb x (JS.num 0) = true /\ JS.ltb (JS.num 0) x = false)
  \/ (JS.eqb x (JS.num 0) = false /\ JS.ltb (JS.num 0) x = true).
Proof.
  rewrite nonneg_cases. unfold JS.eqb, JS.ltb. rewrite eqb_spec, ltb_spec, zero_is_zero.
  destruct (Prim2SF x) as [s|s| |s m e]; cbn; try destruct s; cbn; intros H;
    try contradiction; auto.
Qed.

Lemma positive_nonneg x : JS.ltb (JS.num 0) x = true -> JS.leb (JS.num 0) x = true.
Proof.
  rewrite positive_cases, nonneg_cases.
  destruct (Prim2SF x) as [s|s| |s m e]; try destruct s; auto.
Qed.

(** Rounding keeps the sign: a mantissa that is not negative stays so
    through the shifts and the rounding to nearest. *)
Lemma shr_1_nonneg mrs : (0 <= shr_m mrs)%Z -> (0 <= shr_m (shr_1 mrs))%Z.
Proof.
  destruct mrs as [m r s]. cbn [shr_m]. intros H.
  destruct m as [|p|p]; [cbn; lia| |lia].
  destruct p; cbn; lia.
Qed.

Lemma iter_shr_1_nonneg p : forall mrs,
  (0 <= shr_m mrs)%Z -> (0 <= shr_m (iter_pos shr_1 p mrs))%Z.
Proof.
  induction p as [p IH|p IH|]; intros mrs H; cbn [iter_pos].
  - apply IH, IH, shr_1_nonneg, H.
  - apply IH, IH, H.
  - apply shr_1_nonneg, H.
Qed.

Lemma shr_fexp_nonneg m e l :
  (0 <= m)%Z -> (0 <= shr_m (fst (shr_fexp prec emax m e l)))%Z.
Proof.
  intros H. unfold shr_fexp, shr.
  assert (H0 : (0 <= shr_m (shr_record_of_loc m l))%Z)
    by (destruct l as [|[| |]]; exact H).
  destruct (_ - e)%Z; cbn [fst]; try exact H0.
  apply iter_shr_1_nonneg, H0.
Qed.

Lemma round_nearest_even_nonneg m l :
  (0 <= m)%Z -> (0 <= round_nearest_even m l)%Z.
Proof.
  intros H. unfold round_nearest_even.
  destruct l as [|[| |]]; try destruct (Z.even m); lia.
Qed.

Lemma binary_round_aux_sign sx mx ex lx :
  (0 <= mx)%Z -> sign_is sx (binary_round_aux prec emax sx mx ex lx).
Proof.
  intros H. unfold binary_round_aux.
  pose proof (shr_fexp_nonneg mx ex lx H) as H1.
  destruct (shr_fexp prec emax mx ex lx) as [mrs' e']. cbn [fst] in H1.
  pose proof (shr_fexp_nonneg _ e' loc_Exact
                (round_nearest_even_nonneg _ (loc_of_shr_record mrs') H1)) as H2.
  destruct (shr_fexp prec emax _ e' loc_Exact) as [mrs'' e'']. cbn [fst] in H2.
  destruct (shr_m mrs'') as [|p|p]; [reflexivity| |lia].
  destruct (e'' <=? _)%Z; reflexivity.
Qed.

Lemma binary_round_sign sx mx ex : sign_is sx (binary_round prec emax sx mx ex).
Proof.
  unfold binary_round. destruct (shl_align _ _ _) as [mz ez].
  apply binary_round_aux_sign. lia.
Qed.

(** Sums of numbers that are not negative: never [NaN], never negative,
    and [-0] only when both terms are. *)
Lemma SFadd_plus a b :
  sign_is false a ->
  match b with
  | S754_zero _ | S754_infinity false | S754_finite false _ _ => True
  | _ => False
  end ->
  sign_is false (SF64add a b).
Proof.
  unfold SF64add, SFadd.
  destruct a as [s|s| |s m e]; cbn [sign_is]; intros Ha; try contradiction; subst s;
    destruct b as [s'|s'| |s' m' e']; try destruct s'; intros Hb; try contradiction;
    try reflexivity.
  cbn [cond_Zopp]. unfold binary_normalize.
  destruct (shl_align m e (Z.min e e')) as [ma ea].
  destruct (shl_align m' e' (Z.min e e')) as [mb eb]. cbn [fst Z.add].
  apply binary_round_sign.
Qed.

Lemma SFadd_minus_zero a :
  sign_is false a -> SF64add a (S754_zero true) = SF64add a (S754_zero false).
Proof.
  destruct a as [s|s| |s m e]; cbn [sign_is]; intros Ha; try contradiction; subst s;
    reflexivity.
Qed.

Lemma plus_nonneg x : sign_is false (Prim2SF x) -> JS.leb (JS.num 0) x = true.
Proof.
  rewrite nonneg_cases. destruct (Prim2SF x) as [s|s| |s m e]; cbn;
    intros H; try contradiction; subst; exact I.
Qed.

Lemma zero_plus : sign_is false (Prim2SF (JS.num 0)).
Proof. reflexivity. Qed.

Lemma add_plus x y :
  sign_is false (Prim2SF x) -> JS.leb (JS.num 0) y = true ->
  sign_is false (Prim2SF (x + y)%float).
Proof.
  intros Hx Hy. rewrite add_spec. apply SFadd_plus; [exact Hx|].
  apply nonneg_cases. exact Hy.
Qed.

Lemma add_plus_plus x y :
  sign_is false (Prim2SF x) -> sign_is false (Prim2SF y) ->
  sign_is false (Prim2SF (x + y)%float).
Proof. intros Hx Hy. apply add_plus; [exact Hx|apply plus_nonneg, Hy]. Qed.

(** [x || 0] for a number. *)
Lemma or_zero_truthy x : JS.truthy_number x = true ->
  JS.or_else JS.truthy_number (Some x) (JS.num 0) = x.
Proof. intros H. cbn. rewrite H. reflexivity. Qed.

Lemma falsy_nonneg x :
  JS.leb (JS.num 0) x = true -> JS.truthy_number x = false ->
  exists s, Prim2SF x = S754_zero s.
Proof.
  intros Hx H. unfold JS.truthy_number in H.
  destruct (leb_number _ _ Hx) as [_ Hn]. rewrite Hn, andb_true_r in H.
  apply negb_false_iff in H. apply zero_cases. exact H.
Qed.

(** Adding [t || 0] instead of [t] to a sum that started from 0. *)
Lemma add_or_zero x t :
  sign_is false (Prim2SF x) -> JS.leb (JS.num 0) t = true ->
  (x + JS.or_else JS.truthy_number (Some t) (JS.num 0))%float = (x + t)%float.
Proof.
  intros Hx Ht. cbn [JS.or_else].
  destruct (JS.truthy_number t) eqn:E; [reflexivity|].
  destruct (falsy_nonneg t Ht E) as [s Hs].
  apply Prim2SF_inj. rewrite !add_spec, Hs, zero_is_zero.
  destruct s; [symmetry; apply SFadd_minus_zero; exact Hx|reflexivity].
Qed.

(** ** Lookups and the monad *)

Lemma truthy_string_true (s : string) : JS.truthy_string s = true <-> s <> "".
Proof.
  unfold JS.truthy_string.
  destruct (String.eqb_spec s ""); simpl; split; intros; congruence.
Qed.

Lemma project_find_id id l p :
  find (fun d => ProjectModel._id d =? id) l = Some p -> ProjectModel._id p = id.
Proof.
  intros H. apply find_some in H. destruct H as [_ H].
  now apply String.eqb_eq in H.
Qed.

Lemma project_find_replace id l p p' :
  find (fun d => ProjectModel._id d =? id) l = Some p ->
  ProjectModel._id p' = id ->
  find (fun d => ProjectModel._id d =? id) (Project.replace p' l) = Some p'.
Proof.
  intros H Hid. induction l as [|d l IH]; simpl in *; [discriminate|].
  rewrite Hid.
  destruct (ProjectModel._id d =? id) eqn:E.
  - simpl. rewrite Hid, String.eqb_refl. reflexivity.
  - simpl. rewrite E. apply IH. exact H.
Qed.

Lemma estimation_find_id id l e :
  find (fun d => EstimationModel._id d =? id) l = Some e -> EstimationModel._id e = id.
Proof.
  intros H. apply find_some in H. destruct H as [_ H].
  now apply String.eqb_eq in H.
Qed.

Lemma estimation_find_replace id l e e' :
  find (fun d => EstimationModel._id d =? id) l = Some e ->
  EstimationModel._id e' = id ->
  find (fun d => EstimationModel._id d =? id) (Estimation.replace e' l) = Some e'.
Proof.
  intros H Hid. induction l as [|d l IH]; simpl in *; [discriminate|].
  rewrite Hid.
  destruct (EstimationModel._id d =? id) eqn:E.
  - simpl. rewrite Hid, String.eqb_refl. reflexivity.
  - simpl. rewrite E. apply IH. exact H.
Qed.

(** What [Project.findByIdAndUpdate] does to a document that exists. *)
Lemma findByIdAndUpdate_found id u rv w p :
  stored_project id w = Some p ->
  (rv && negb (ProjectModel.validate_update u)) = false ->
  Project.unique_on_update id (ProjectModel.set_projectNumber u) (projects w) = true ->
  ProjectModel.conflicting u = false ->
  Project.findByIdAndUpdate id u rv w
  = (Resolved (Some (ProjectModel.apply_update u p)),
     with_projects (Project.replace (ProjectModel.apply_update u p) (projects w)) w)
  /\ stored_project id
       (with_projects (Project.replace (ProjectModel.apply_update u p) (projects w)) w)
     = Some (ProjectModel.apply_update u p).
Proof.
  intros Hf Hv Hu Hc. unfold Project.findByIdAndUpdate. rewrite Hv, Hc.
  unfold bind, Project.findById, read, write, ret.
  unfold stored_project in Hf. rewrite Hf, Hu. split; [reflexivity|].
  unfold stored_project. simpl.
  apply project_find_replace with (p := p); [exact Hf|].
  simpl. eapply project_find_id; eauto.
Qed.

(** The table, read as a relation, and the lookup the handlers make. *)
Lemma includes_listed from to w :
  ProjectController.inherited from = false ->
  ProjectController.includes from to w
  = (Resolved (ProjectController.isTransitionAllowed from to), w).
Proof.
  intros H. unfold ProjectController.includes, ProjectController.isTransitionAllowed.
  destruct (ProjectController.own_property from ProjectController.validStatusTransitions);
    [reflexivity|].
  rewrite H. reflexivity.
Qed.

(** ** The status transition table (C1) *)


Lemma updateProjectStatus_accepts w id p to userId :
  stored_project id w = Some p ->
  to <> "" ->
  ProjectController.inherited (ProjectModel.status p) = false ->
  ProjectController.isTransitionAllowed (ProjectModel.status p) to = true ->
  exists r w',
    ProjectController.updateProjectStatus id (Some to) userId w = (Resolved r, w')
    /\ statusCode r = 200%Z
    /\ stored_status id w' = Some to.
Proof.
  intros Hf Hto Hin Hyes.
  unfold ProjectController.updateProjectStatus, bind, throw_if.
  apply truthy_string_true in Hto. rewrite Hto. simpl.
  unfold Project.findById, read. pose proof Hf as Hf'. unfold stored_project in Hf'.
  rewrite Hf'. rewrite (includes_listed _ _ _ Hin), Hyes. simpl.
  destruct (findByIdAndUpdate_found id (ProjectModel.mkUpdate (Some to) None userId)
              false w p Hf eq_refl eq_refl eq_refl) as [Hrun Hst].
  rewrite Hrun. simpl. do 2 eexists. split; [reflexivity|]. split; [reflexivity|].
  unfold stored_status. rewrite Hst. reflexivity.
Qed.



Lemma out_of_range_valid x :
  JS.eqb x x = true ->
  ProjectController.out_of_range x = false -> ProjectModel.valid_progress x = true.
Proof.
  unfold ProjectController.out_of_range, ProjectModel.valid_progress.
  intros Hx H. apply orb_false_elim in H. destruct H as [H0 H100].
  apply andb_true_intro. split; apply ltb_false_leb; auto.
Qed.






(** The status-enumeration drift: the table lists
    [quotation_sent -> quotation_approved], the schema enumeration does not
    hold [quotation_approved], and [updateProject] runs the update
    validators, so the listed transition is refused there while
    [updateProjectStatus] writes it. *)
Fact updateProject_enum_drift :
  ProjectController.isTransitionAllowed "quotation_sent" "quotation_approved" = true
  /\ ProjectController.updateProject Sample.trim Sample.pid
       (Sample.project_body (Some "quotation_approved") None) None
       (Sample.world "quotation_sent" 0)
     = (Rejected (ValidationError "Project"), Sample.world "quotation_sent" 0)
  /\ stored_status Sample.pid
       (snd (ProjectController.updateProjectStatus Sample.pid
               (Some "quotation_approved") None (Sample.world "quotation_sent" 0)))
     = Some "quotation_approved".
Proof. repeat split; reflexivity. Qed.

(** Members beside the status decide too: on a draft project, a body
    that asks for the listed [estimation_prepared] and carries a project
    name of 101 characters is refused by the validator of the name, and a
    body that asks for it and adds 200 to the progress with [$inc] is
    accepted, the stored progress leaving 0..100. *)
Fact updateProject_other_members :
  ProjectController.isTransitionAllowed "draft" "estimation_prepared" = true
  /\ ProjectController.updateProject Sample.trim Sample.pid
       (ProjectController.mkUpdateProjectBody (Some (JS.repeat_string "x" 101)) None
          None None None (Some "estimation_prepared") None None None None None)
       (Some Sample.uid) (Sample.world "draft" 0)
     = (Rejected (ValidationError "Project"), Sample.world "draft" 0)
  /\ (exists r w',
        ProjectController.updateProject Sample.trim Sample.pid
          (ProjectController.mkUpdateProjectBody None None None None None
             (Some "estimation_prepared") None None None None
             (Some (ProjectModel.Inc (JS.num 200))))
          (Some Sample.uid) (Sample.world "draft" 0) = (Resolved r, w')
        /\ stored_status Sample.pid w' = Some "estimation_prepared"
        /\ option_map ProjectModel.progress (stored_project Sample.pid w')
           = Some (JS.num 200)).
Proof.
  split; [reflexivity|]. split; [reflexivity|].
  do 2 eexists. split; [reflexivity|]. split; reflexivity.
Qed.

Example trim_sample :
  JS.trim "  Villa fit-out, phase 2 " = "Villa fit-out, phase 2"
  /\ JS.trim "   " = "".
Proof. split; reflexivity. Qed.



(** ** Progress-driven status changes (C8) *)

Lemma with_status_validate p s :
  ProjectModel.validate p = true ->
  ProjectModel.valid_status s = true ->
  ProjectModel.validate (ProjectModel.with_status s p) = true.
Proof.
  unfold ProjectModel.validate, ProjectModel.with_status, ProjectModel.apply_update.
  simpl. intros H Hs.
  repeat (apply andb_prop in H; destruct H as [H ?]).
  repeat match goal with E : _ = true |- _ => rewrite E; clear E end.
  reflexivity.
Qed.

Lemma advance_validate p :
  ProjectModel.validate p = true ->
  ProjectModel.validate
    (ProjectController.advance_work_started (ProjectController.advance_lpo_received p))
  = true.
Proof.
  intros H.
  assert (H1 : ProjectModel.validate (ProjectController.advance_lpo_received p) = true).
  { unfold ProjectController.advance_lpo_received.
    destruct (_ && _); [apply with_status_validate; [exact H|reflexivity]|exact H]. }
  unfold ProjectController.advance_work_started.
  destruct (_ && _); [apply with_status_validate; [exact H1|reflexivity]|exact H1].
Qed.

Lemma advance_id p :
  ProjectModel._id
    (ProjectController.advance_work_started (ProjectController.advance_lpo_received p))
  = ProjectModel._id p.
Proof.
  unfold ProjectController.advance_work_started, ProjectController.advance_lpo_received.
  repeat match goal with |- context [if ?c then _ else _] => destruct c end; reflexivity.
Qed.

Lemma stored_project_with_comments id cs w :
  stored_project id (with_comments cs w) = stored_project id w.
Proof. reflexivity. Qed.

Lemma updateProjectProgress_runs w id p newp comment userId :
  stored_project id w = Some p ->
  ProjectModel.validate p = true ->
  ProjectController.out_of_range newp = false ->
  exists r w',
    ProjectController.updateProjectProgress id (Some newp) comment userId w
    = (Resolved r, w')
    /\ statusCode r = 200%Z
    /\ stored_status id w' = Some (progress_outcome p newp).
Proof.
  intros Hf Hv Hr.
  unfold ProjectController.updateProjectProgress, bind, throw_if.
  rewrite Hr. simpl.
  pose proof Hf as Hf'. unfold stored_project in Hf'. rewrite Hf'.
  set (project := ProjectController.advance_work_started
                    (ProjectController.advance_lpo_received p)).
  pose proof (advance_validate p Hv) as Hv2. fold project in Hv2.
  unfold Project.save. rewrite Hv2. unfold write.
  set (w1 := with_projects (Project.replace project (projects w)) w).
  assert (Hf1 : stored_project id w1 = Some project).
  { unfold stored_project, w1. simpl.
    apply project_find_replace with (p := p); [exact Hf'|].
    unfold project. rewrite advance_id. eapply project_find_id; eauto. }
  match goal with
  | |- context [Project.findByIdAndUpdate id ?u false w1] =>
      destruct (findByIdAndUpdate_found id u false w1 project Hf1 eq_refl eq_refl eq_refl)
        as [Hrun Hst];
      rewrite Hrun
  end.
  match goal with
  | |- context [if ?c then Comment.create ?x else ret tt] =>
      destruct c; unfold Comment.create, write, ret
  end.
  - do 2 eexists. split; [reflexivity|]. split; [reflexivity|].
    unfold stored_status. rewrite stored_project_with_comments, Hst.
    unfold progress_outcome. fold project. simpl.
    destruct (_ && _); reflexivity.
  - do 2 eexists. split; [reflexivity|]. split; [reflexivity|].
    unfold stored_status. rewrite Hst.
    unfold progress_outcome. fold project. simpl.
    destruct (_ && _); reflexivity.
Qed.

Lemma progress_outcome_complete p newp :
  JS.eqb newp (JS.num 100) = true -> progress_outcome p newp = "work_completed".
Proof.
  intros E. unfold progress_outcome.
  rewrite E. simpl.
  destruct (String.eqb_spec
              (ProjectModel.status
                 (ProjectController.advance_work_started
                    (ProjectController.advance_lpo_received p))) "work_completed");
    simpl; [assumption|reflexivity].
Qed.

Lemma progress_outcome_advanced p newp :
  JS.eqb newp (JS.num 100) = false ->
  progress_outcome p newp
  = ProjectModel.status
      (ProjectController.advance_work_started (ProjectController.advance_lpo_received p)).
Proof.
  intros H. unfold progress_outcome.
  rewrite H. reflexivity.
Qed.

Lemma advanced_status p :
  JS.leb (JS.num 0) (ProjectModel.progress p) = true ->
  let advanced :=
    ProjectModel.status
      (ProjectController.advance_work_started (ProjectController.advance_lpo_received p)) in
  (ProjectModel.status p = "lpo_received" ->
     JS.eqb (ProjectModel.progress p) (JS.num 0) = true -> advanced = "work_started")
  /\ (ProjectModel.status p = "lpo_received" ->
       JS.ltb (JS.num 0) (ProjectModel.progress p) = true -> advanced = "in_progress")
  /\ (ProjectModel.status p = "work_started" ->
       JS.ltb (JS.num 0) (ProjectModel.progress p) = true -> advanced = "in_progress")
  /\ (ProjectModel.status p = "work_started" ->
       JS.eqb (ProjectModel.progress p) (JS.num 0) = true -> advanced = "work_started")
  /\ (ProjectModel.status p <> "lpo_received" ->
       ProjectModel.status p <> "work_started" -> advanced = ProjectModel.status p).
Proof.
  intros Hge advanced. subst advanced.
  unfold ProjectController.advance_work_started, ProjectController.advance_lpo_received.
  rewrite Hge. simpl.
  repeat split.
  - intros Hs Hp. rewrite Hs. simpl. rewrite (zero_not_positive _ Hp). reflexivity.
  - intros Hs Hp. rewrite Hs. simpl. rewrite Hp. reflexivity.
  - intros Hs Hp. rewrite Hs. simpl. rewrite Hs.
    rewrite Hp. reflexivity.
  - intros Hs Hp. rewrite Hs. simpl. rewrite Hs, (zero_not_positive _ Hp). simpl. exact Hs.
  - intros H1 H2.
    destruct (String.eqb_spec (ProjectModel.status p) "lpo_received"); [contradiction|].
    destruct (String.eqb_spec (ProjectModel.status p) "work_started"); [contradiction|].
    rewrite andb_false_r. reflexivity.
Qed.

Lemma validate_progress_nonneg p :
  ProjectModel.validate p = true -> JS.leb (JS.num 0) (ProjectModel.progress p) = true.
Proof.
  unfold ProjectModel.validate, ProjectModel.valid_progress. intros H.
  repeat (apply andb_prop in H; destruct H as [H ?]).
  match goal with E : (JS.leb _ _ && JS.leb _ _) = true |- _ =>
    apply andb_prop in E; destruct E as [E _]; exact E end.
Qed.

(** The table never lists the targets these changes reach from most
    sources. *)
Lemma table_lpo_received to :
  ProjectController.isTransitionAllowed "lpo_received" to = false.
Proof. reflexivity. Qed.

Lemma table_work_completed from :
  from <> "in_progress" -> from <> "quality_check" ->
  ProjectController.isTransitionAllowed from "work_completed" = false.
Proof.
  intros H1 H2. unfold ProjectController.isTransitionAllowed.
  unfold ProjectController.validStatusTransitions, ProjectController.own_property.
  repeat match goal with
         | |- context [if (?k =? from) then _ else _] =>
             destruct (String.eqb_spec k from); [subst; try reflexivity; congruence|]
         end.
  reflexivity.
Qed.

(** C8, as amended.  For every call to [updateProjectProgress] with a
    progress within 0..100 on an existing project whose stored document
    passes the schema validators, the call answers 200 and: if the new
    progress equals 100 the stored status becomes [work_completed];
    otherwise a stored [lpo_received] becomes [work_started] when the stored
    progress is 0 and [in_progress] when the stored progress is positive, a
    stored [work_started] becomes [in_progress] when the stored progress is
    positive and stays otherwise, and any other status stays.  None of this
    looks at the table: it lists no target for [lpo_received], and
    [work_completed] only from [in_progress] and [quality_check]. *)
Theorem progress_update_auto_advance :
  forall (w : World) (id : ObjectId) (p : ProjectModel.IProject) (newp : JS.number)
         (comment : option string) (userId : option ObjectId),
    stored_project id w = Some p ->
    ProjectModel.validate p = true ->
    ProjectController.out_of_range newp = false ->
    (exists r w',
        ProjectController.updateProjectProgress id (Some newp) comment userId w
        = (Resolved r, w')
        /\ statusCode r = 200%Z
        /\ (JS.eqb newp (JS.num 100) = true ->
            stored_status id w' = Some "work_completed")
        /\ (JS.eqb newp (JS.num 100) = false ->
            (ProjectModel.status p = "lpo_received" ->
               JS.eqb (ProjectModel.progress p) (JS.num 0) = true ->
               stored_status id w' = Some "work_started")
            /\ (ProjectModel.status p = "lpo_received" ->
                JS.ltb (JS.num 0) (ProjectModel.progress p) = true ->
                stored_status id w' = Some "in_progress")
            /\ (ProjectModel.status p = "work_started" ->
                JS.ltb (JS.num 0) (ProjectModel.progress p) = true ->
                stored_status id w' = Some "in_progress")
            /\ (ProjectModel.status p = "work_started" ->
                JS.eqb (ProjectModel.progress p) (JS.num 0) = true ->
                stored_status id w' = Some "work_started")
            /\ (ProjectModel.status p <> "lpo_received" ->
                ProjectModel.status p <> "work_started" ->
                stored_status id w' = Some (ProjectModel.status p))))
    /\ (forall to, ProjectController.isTransitionAllowed "lpo_received" to = false)
    /\ (forall from, from <> "in_progress" -> from <> "quality_check" ->
          ProjectController.isTransitionAllowed from "work_completed" = false).
Proof.
  intros w id p newp comment userId Hf Hv Hr.
  split; [|split; [exact table_lpo_received | exact table_work_completed]].
  destruct (updateProjectProgress_runs w id p newp comment userId Hf Hv Hr)
    as (r & w' & Hrun & Hcode & Hst).
  exists r, w'. split; [exact Hrun|]. split; [exact Hcode|]. split.
  - intros H100. rewrite Hst, (progress_outcome_complete p newp H100). reflexivity.
  - intros Hn. rewrite Hst, (progress_outcome_advanced p newp Hn).
    destruct (advanced_status p (validate_progress_nonneg p Hv))
      as (A & B & C & D & E).
    repeat split; intros; f_equal; auto.
Qed.

Lemma progress_update_auto_advance_witness :
  exists r w',
    ProjectController.updateProjectProgress Sample.pid (Some (JS.num 100)) None
      (Some Sample.uid) (Sample.world "draft" 0) = (Resolved r, w')
    /\ statusCode r = 200%Z
    /\ stored_status Sample.pid w' = Some "work_completed".
Proof.
  destruct (progress_update_auto_advance (Sample.world "draft" 0) Sample.pid
              (Sample.project_in "draft" 0) (JS.num 100) None (Some Sample.uid)
              eq_refl eq_refl eq_refl) as [(r & w' & Hrun & Hcode & H100 & _) _].
  exists r, w'. split; [exact Hrun|]. split; [exact Hcode|].
  apply H100. reflexivity.
Defined.

(** C8 as stated fails: a project stored as [lpo_received] with progress 30
    that is updated to progress 40 is left [in_progress], both assignments
    having fired on the loaded document; it is never stored as
    [work_started]. *)
Lemma progress_update_cascades :
  stored_status Sample.pid (Sample.world "lpo_received" 30) = Some "lpo_received"
  /\ stored_status Sample.pid
       (snd (ProjectController.updateProjectProgress Sample.pid (Some (JS.num 40)) None
               (Some Sample.uid) (Sample.world "lpo_received" 30)))
     = Some "in_progress".
Proof. split; reflexivity. Qed.

(** The second assignment tests the progress the document was loaded with,
    not the requested one: a [work_started] project at progress 0 that is
    updated to 50 stays [work_started]. *)
Fact progress_update_tests_stored_progress :
  stored_status Sample.pid
    (snd (ProjectController.updateProjectProgress Sample.pid (Some (JS.num 50)) None
            (Some Sample.uid) (Sample.world "work_started" 0)))
  = Some "work_started".
Proof. reflexivity. Qed.

(** A project whose status lies outside the schema enumeration, as
    [approveEstimation] leaves it, fails [project.save()]: the 100% rule
    does not reach the collection. *)
Fact progress_update_enum_drift :
  ProjectController.updateProjectProgress Sample.pid (Some (JS.num 100)) None
    (Some Sample.uid) (Sample.world "quotation_approved" 0)
  = (Rejected (ValidationError "Project"), Sample.world "quotation_approved" 0).
Proof. reflexivity. Qed.

(** ** Best-effort notification (C9) *)

Lemma with_assignedTo_validate a p :
  ProjectModel.validate (ProjectModel.with_assignedTo a p) = ProjectModel.validate p.
Proof. reflexivity. Qed.

Lemma with_console_error_app l1 l2 w :
  with_console_error (console_error (with_console_error (console_error w ++ l1) w) ++ l2)
                     (with_console_error (console_error w ++ l1) w)
  = with_console_error (console_error w ++ l1 ++ l2) w.
Proof. unfold with_console_error. simpl. rewrite <- app_assoc. reflexivity. Qed.

Lemma with_console_error_nil w :
  with_console_error (console_error w ++ []) w = w.
Proof. unfold with_console_error. rewrite app_nil_r. destruct w; reflexivity. Qed.

Lemma send_all_spec ext mails : forall n w,
  EstimationController.send_all ext n mails w
  = (Resolved (all_sent ext n mails),
     with_console_error (console_error w ++ transport_errors ext n mails) w).
Proof.
  induction mails as [|m rest IH]; intros n w; simpl.
  - unfold ret. rewrite with_console_error_nil. reflexivity.
  - unfold bind, try_catch, Mailer.sendEmail.
    destruct (sendMail ext n m); simpl.
    + rewrite IH. reflexivity.
    + unfold bind, console_error_log, write, throw, ret. simpl.
      rewrite IH, with_console_error_app. reflexivity.
Qed.

Lemma assignProject_runs ext w id engineerId p engineer :
  id <> "" -> engineerId <> "" ->
  stored_project id w = Some p ->
  ProjectModel.validate p = true ->
  find (fun u => UserModel._id u =? engineerId) (users w) = Some engineer ->
  let mail := mkEmail (UserModel.email engineer)
                      ("Project Assignment: " ++ ProjectModel.projectName p) in
  let assigned := Project.replace (ProjectModel.with_assignedTo engineerId p) (projects w) in
  ProjectController.assignProject ext id (Some engineerId) w
  = if sendMail ext 0 mail
    then (Resolved (mkApiResponse 200 tt
                      "Project assigned and notification sent successfully"),
          with_projects assigned w)
    else (Resolved (mkApiResponse 200 tt
                      "Project assigned successfully but notification email failed to send"),
          with_console_error
            (console_error w ++ ["Error sending email:"; "Email sending failed:"])
            (with_projects assigned w)).
Proof.
  intros Hid Heng Hf Hv Hu mail assigned.
  subst mail assigned.
  unfold ProjectController.assignProject, bind, throw_if.
  apply truthy_string_true in Hid. apply truthy_string_true in Heng.
  rewrite Hid, Heng. simpl.
  unfold stored_project in Hf. rewrite Hf, Hu.
  unfold Project.save. rewrite with_assignedTo_validate, Hv.
  unfold write, try_catch, bind, Mailer.sendEmail.
  destruct (sendMail ext 0 _); [reflexivity|].
  unfold console_error_log, bind, write, throw, ret. simpl.
  unfold with_console_error. simpl. rewrite <- app_assoc. reflexivity.
Qed.

Lemma pre_save_id e :
  EstimationModel._id (EstimationModel.pre_save e) = EstimationModel._id e.
Proof. reflexivity. Qed.

Lemma same_opt_refl a : EstimationModel.same_opt a a = true.
Proof. destruct a; simpl; [apply String.eqb_refl|reflexivity]. Qed.

(** [save] of a valid document that keeps its indexed keys. *)
Lemma estimation_save_ok w e old :
  stored_estimation (EstimationModel._id e) w = Some old ->
  EstimationModel.validate e = true ->
  EstimationModel.project old = EstimationModel.project e ->
  EstimationModel.estimationNumber old = EstimationModel.estimationNumber e ->
  Estimation.save e w
  = (Resolved (EstimationModel.pre_save e),
     with_estimations (Estimation.replace (EstimationModel.pre_save e) (estimations w)) w)
  /\ stored_estimation (EstimationModel._id e)
       (with_estimations
          (Estimation.replace (EstimationModel.pre_save e) (estimations w)) w)
     = Some (EstimationModel.pre_save e).
Proof.
  intros Hf Hv Hp Hn. unfold Estimation.save. rewrite Hv.
  unfold bind, read, write, ret.
  unfold EstimationModel.unique_on_write. rewrite pre_save_id.
  unfold stored_estimation in Hf. rewrite Hf.
  change (EstimationModel.project (EstimationModel.pre_save e))
    with (EstimationModel.project e).
  change (EstimationModel.estimationNumber (EstimationModel.pre_save e))
    with (EstimationModel.estimationNumber e).
  rewrite Hp, Hn, same_opt_refl, String.eqb_refl. simpl.
  split; [reflexivity|].
  unfold stored_estimation. simpl.
  apply estimation_find_replace with (e := old); [exact Hf|reflexivity].
Qed.

Lemma with_project_same e :
  EstimationController.with_project (EstimationModel.project e) e = e.
Proof. destruct e; reflexivity. Qed.

(** The state of the collections after a successful check, whatever the
    transport does. *)
Lemma markAsChecked_true_runs ext w id e pid p userId comment :
  userId <> "" ->
  stored_estimation id w = Some e ->
  EstimationModel.isChecked e = false ->
  EstimationModel.project e = Some pid ->
  stored_project pid w = Some p ->
  EstimationModel.validate e = true ->
  let checked :=
    EstimationModel.pre_save
      (EstimationController.with_check true (Some userId)
         (if JS.truthy JS.truthy_string comment then comment
          else EstimationModel.approvalComment e) e) in
  let mails :=
    map (fun admin => mkEmail (UserModel.email admin)
                        ("Estimation Checked: " ++ EstimationModel.estimationNumber checked))
        (filter (fun u => UserModel.role u =? "super_admin") (users w)) in
  exists r w',
    EstimationController.markAsChecked ext id comment (Some true) (Some userId) w
    = (Resolved r, w')
    /\ statusCode r = 200%Z
    /\ estimations w' = Estimation.replace checked (estimations w)
    /\ stored_estimation id w' = Some checked
    /\ projects w' = projects w
    /\ console_error w'
       = (console_error w ++ transport_errors ext 0 mails
          ++ (if all_sent ext 0 mails then []
              else ["Failed to send notification email to super admin:"]))%list.
Proof.
  intros Hu Hf Hc Hp Hfp Hv checked mails.
  unfold EstimationController.markAsChecked, bind, throw_if.
  apply truthy_string_true in Hu. rewrite Hu. cbn [negb]. unfold ret at 1.
  unfold Estimation.findById, read.
  pose proof Hf as Hf'. unfold stored_estimation in Hf'. rewrite Hf'.
  rewrite Hp. unfold Project.findById, read.
  pose proof Hfp as Hfp'. unfold stored_project in Hfp'. rewrite Hfp'.
  rewrite (project_find_id _ _ _ Hfp').
  rewrite Hc. cbn [andb]. unfold ret at 1.
  unfold Comment.create, write.
  set (w1 := with_comments _ w).
  match goal with |- context [Estimation.save ?d w1] => set (doc := d) end.
  assert (Hid : EstimationModel._id doc = id)
    by (unfold doc; simpl; eapply estimation_find_id; eauto).
  assert (Hf1 : stored_estimation (EstimationModel._id doc) w1 = Some e)
    by (rewrite Hid; exact Hf).
  destruct (estimation_save_ok w1 doc e Hf1 Hv eq_refl eq_refl) as [Hrun Hst].
  rewrite Hrun. unfold ret at 1. unfold User.find_role, User.findById, read.
  rewrite send_all_spec. rewrite Hid in Hst.
  subst checked mails. fold doc.
  change (users (with_estimations
                   (Estimation.replace (EstimationModel.pre_save doc) (estimations w1)) w1))
    with (users w).
  destruct (all_sent ext 0 _) eqn:Hsent.
  - unfold ret. do 2 eexists. split; [reflexivity|].
    split; [reflexivity|]. split; [reflexivity|].
    split; [exact Hst|]. split; [reflexivity|].
    cbn [console_error with_console_error with_estimations with_comments].
    rewrite app_nil_r. reflexivity.
  - unfold console_error_log, write, ret. do 2 eexists. split; [reflexivity|].
    split; [reflexivity|]. split; [reflexivity|].
    split; [exact Hst|]. split; [reflexivity|].
    cbn [console_error with_console_error with_estimations with_comments].
    rewrite <- app_assoc. reflexivity.
Qed.

Lemma check_mails_number w userId comment e :
  map (fun admin => mkEmail (UserModel.email admin)
                      ("Estimation Checked: "
                       ++ EstimationModel.estimationNumber
                            (EstimationModel.pre_save
                               (EstimationController.with_check true (Some userId)
                                  comment e))))
      (filter (fun u => UserModel.role u =? "super_admin") (users w))
  = check_notifications w (EstimationModel.estimationNumber e).
Proof. reflexivity. Qed.

(** C9.  When the SMTP transport fails during [assignProject] (the one
    notification to the engineer) or during [markAsChecked] with
    [isChecked = true] (any of the notifications to the super admins), the
    failure is written to [console.error], the assignment, respectively the
    checked flag, stays in the collection exactly as the handler wrote it,
    and the handler answers 200. *)
Theorem mail_failure_is_absorbed :
  forall (ext : Collaborators) (w : World),
    (forall (id engineerId : ObjectId) (p : ProjectModel.IProject)
            (engineer : UserModel.IUser),
        id <> "" -> engineerId <> "" ->
        stored_project id w = Some p ->
        ProjectModel.validate p = true ->
        find (fun u => UserModel._id u =? engineerId) (users w) = Some engineer ->
        sendMail ext 0 (mkEmail (UserModel.email engineer)
                          ("Project Assignment: " ++ ProjectModel.projectName p)) = false ->
        exists r w',
          ProjectController.assignProject ext id (Some engineerId) w = (Resolved r, w')
          /\ statusCode r = 200%Z
          /\ In "Email sending failed:" (console_error w')
          /\ projects w'
             = Project.replace (ProjectModel.with_assignedTo engineerId p) (projects w)
          /\ option_map ProjectModel.assignedTo (stored_project id w')
             = Some (Some engineerId))
    /\ (forall (id : ObjectId) (e : EstimationModel.IEstimation) (pid : ObjectId)
               (p : ProjectModel.IProject) (userId : ObjectId) (comment : option string),
           userId <> "" ->
           stored_estimation id w = Some e ->
           EstimationModel.isChecked e = false ->
           EstimationModel.project e = Some pid ->
           stored_project pid w = Some p ->
           EstimationModel.validate e = true ->
           all_sent ext 0 (check_notifications w (EstimationModel.estimationNumber e))
           = false ->
           exists r w',
             EstimationController.markAsChecked ext id comment (Some true) (Some userId) w
             = (Resolved r, w')
             /\ statusCode r = 200%Z
             /\ In "Failed to send notification email to super admin:" (console_error w')
             /\ option_map EstimationModel.isChecked (stored_estimation id w') = Some true
             /\ option_map EstimationModel.checkedBy (stored_estimation id w')
                = Some (Some userId)).
Proof.
  intros ext w. split.
  - intros id engineerId p engineer Hid Heng Hf Hv Hu Hfail.
    pose proof (assignProject_runs ext w id engineerId p engineer Hid Heng Hf Hv Hu) as Hrun.
    cbv zeta in Hrun. rewrite Hfail in Hrun.
    do 2 eexists. split; [exact Hrun|]. split; [reflexivity|].
    split; [|split].
    + cbn [console_error with_console_error]. apply in_or_app. right. right. left.
      reflexivity.
    + reflexivity.
    + unfold stored_project. cbn [projects with_console_error with_projects].
      rewrite (project_find_replace id (projects w) p
                 (ProjectModel.with_assignedTo engineerId p) Hf).
      * reflexivity.
      * simpl. eapply project_find_id; eauto.
  - intros id e pid p userId comment Hu Hf Hc Hp Hfp Hv Hfail.
    destruct (markAsChecked_true_runs ext w id e pid p userId comment Hu Hf Hc Hp Hfp Hv)
      as (r & w' & Hrun & Hcode & Hest & Hst & _ & Hlog).
    rewrite check_mails_number in Hlog. rewrite Hfail in Hlog.
    exists r, w'. split; [exact Hrun|]. split; [exact Hcode|]. split; [|split].
    + rewrite Hlog. apply in_or_app. right. apply in_or_app. right. left. reflexivity.
    + rewrite Hst. reflexivity.
    + rewrite Hst. reflexivity.
Qed.

Lemma mail_failure_is_absorbed_witness :
  exists r w',
    EstimationController.markAsChecked Sample.ext_mail_down Sample.eid None (Some true)
      (Some Sample.uid) (Sample.estimated "estimation_prepared" false false)
    = (Resolved r, w')
    /\ statusCode r = 200%Z
    /\ In "Failed to send notification email to super admin:" (console_error w')
    /\ option_map EstimationModel.isChecked (stored_estimation Sample.eid w') = Some true
    /\ option_map EstimationModel.checkedBy (stored_estimation Sample.eid w')
       = Some (Some Sample.uid).
Proof.
  assert (Hu : Sample.uid <> "") by discriminate.
  destruct (mail_failure_is_absorbed Sample.ext_mail_down
              (Sample.estimated "estimation_prepared" false false)) as [_ H].
  exact (H Sample.eid (Sample.estimation_in false false) Sample.pid
           (Sample.project_in "estimation_prepared" 0) Sample.uid None
           Hu eq_refl eq_refl eq_refl eq_refl eq_refl eq_refl).
Defined.

(** ** Invoice data (C3) *)

Lemma generateInvoiceData_prefix ext w projectId p :
  projectId <> "" ->
  ObjectId_isValid ext projectId = true ->
  stored_project projectId w = Some p ->
  (quotation_of projectId w = None ->
     ProjectController.generateInvoiceData ext projectId w
     = (Rejected (ApiError 404 "Quotation not found for this project"), w))
  /\ (forall q, quotation_of projectId w = Some q ->
         lpo_of projectId w = None ->
         ProjectController.generateInvoiceData ext projectId w
         = (Rejected (ApiError 404 "LPO not found for this project"), w))
  /\ (forall q l, quotation_of projectId w = Some q ->
         lpo_of projectId w = Some l ->
         QuotationModel.items q = [] ->
         ProjectController.generateInvoiceData ext projectId w
         = (Rejected (ApiError 400 "Quotation items are required"), w)).
Proof.
  intros Hid Hvalid Hf.
  apply truthy_string_true in Hid. unfold stored_project in Hf.
  repeat split.
  - intros Hq. unfold quotation_of in Hq.
    unfold ProjectController.generateInvoiceData, bind, throw_if.
    rewrite Hid, Hvalid. cbn [negb orb]. unfold ret at 1.
    unfold Project.findById, read. rewrite Hf.
    unfold Client.findById, read.
    destruct (ProjectModel.createdBy p), (ProjectModel.assignedTo p);
      unfold User.findById, Quotation.findOne, read, ret; rewrite Hq; reflexivity.
  - intros q Hq Hl. unfold quotation_of in Hq. unfold lpo_of in Hl.
    unfold ProjectController.generateInvoiceData, bind, throw_if.
    rewrite Hid, Hvalid. cbn [negb orb]. unfold ret at 1.
    unfold Project.findById, read. rewrite Hf.
    unfold Client.findById, read.
    destruct (ProjectModel.createdBy p), (ProjectModel.assignedTo p);
      unfold User.findById, Quotation.findOne, LPO.findOne, read, ret;
      rewrite Hq, Hl; reflexivity.
  - intros q l Hq Hl Hitems. unfold quotation_of in Hq. unfold lpo_of in Hl.
    unfold ProjectController.generateInvoiceData, bind, throw_if.
    rewrite Hid, Hvalid. cbn [negb orb]. unfold ret at 1.
    unfold Project.findById, read. rewrite Hf.
    unfold Client.findById, read.
    destruct (ProjectModel.createdBy p), (ProjectModel.assignedTo p);
      unfold User.findById, Quotation.findOne, LPO.findOne, read, ret;
      rewrite Hq, Hl, Hitems; reflexivity.
Qed.

Lemma generateInvoiceData_success ext w projectId p q l c u creator :
  projectId <> "" ->
  ObjectId_isValid ext projectId = true ->
  stored_project projectId w = Some p ->
  quotation_of projectId w = Some q ->
  lpo_of projectId w = Some l ->
  QuotationModel.items q <> [] ->
  stored_client (ProjectModel.client p) w = Some c ->
  ProjectModel.createdBy p = Some u ->
  stored_user u w = Some creator ->
  exists r,
    ProjectController.generateInvoiceData ext projectId w = (Resolved r, w)
    /\ statusCode r = 200%Z
    /\ ProjectController.totalReceivable (ProjectController.summary (data r))
       = ProjectController.or_number (QuotationModel.netAmount q).
Proof.
  intros Hid Hvalid Hf Hq Hl Hitems Hc Hu Hcr.
  apply truthy_string_true in Hid.
  unfold stored_project in Hf. unfold quotation_of in Hq. unfold lpo_of in Hl.
  unfold stored_client in Hc. unfold stored_user in Hcr.
  assert (Hlen : Nat.eqb (List.length (QuotationModel.items q)) 0 = false)
    by (destruct (QuotationModel.items q); [congruence|reflexivity]).
  unfold ProjectController.generateInvoiceData, bind, throw_if.
  rewrite Hid, Hvalid. cbn [negb orb]. unfold ret at 1.
  unfold Project.findById, read. rewrite Hf.
  unfold Client.findById, read. rewrite Hc, Hu.
  unfold User.findById, read. rewrite Hcr.
  destruct (ProjectModel.assignedTo p);
    unfold Quotation.findOne, LPO.findOne, read, ret; rewrite Hq, Hl, Hlen;
    eexists; (split; [reflexivity|]); (split; [reflexivity|]);
    cbn [data ProjectController.summary ProjectController.totalReceivable];
    reflexivity.
Qed.

(** What the handler requires, guard after guard.  For a valid id of an
    existing project, [generateInvoiceData] fails with 404 "Quotation not
    found for this project" when the project has no quotation, with 404
    "LPO not found for this project" when it has a quotation but no LPO,
    and with 400 "Quotation items are required" when it has both and the
    quotation has no line item; when it has both, at least one line item,
    and the client and creator of the project still exist, it answers 200
    and [summary.totalReceivable] is [quotation.netAmount || 0]. *)
Lemma generateInvoiceData_guards :
  forall (ext : Collaborators) (w : World) (projectId : ObjectId)
         (p : ProjectModel.IProject),
    projectId <> "" ->
    ObjectId_isValid ext projectId = true ->
    stored_project projectId w = Some p ->
    (quotation_of projectId w = None ->
       ProjectController.generateInvoiceData ext projectId w
       = (Rejected (ApiError 404 "Quotation not found for this project"), w))
    /\ (forall q, quotation_of projectId w = Some q ->
          lpo_of projectId w = None ->
          ProjectController.generateInvoiceData ext projectId w
          = (Rejected (ApiError 404 "LPO not found for this project"), w))
    /\ (forall q l, quotation_of projectId w = Some q ->
          lpo_of projectId w = Some l ->
          QuotationModel.items q = [] ->
          ProjectController.generateInvoiceData ext projectId w
          = (Rejected (ApiError 400 "Quotation items are required"), w))
    /\ (forall q l c u creator,
          quotation_of projectId w = Some q ->
          lpo_of projectId w = Some l ->
          QuotationModel.items q <> [] ->
          stored_client (ProjectModel.client p) w = Some c ->
          ProjectModel.createdBy p = Some u ->
          stored_user u w = Some creator ->
          exists r,
            ProjectController.generateInvoiceData ext projectId w = (Resolved r, w)
            /\ statusCode r = 200%Z
            /\ ProjectController.totalReceivable (ProjectController.summary (data r))
               = ProjectController.or_number (QuotationModel.netAmount q)).
Proof.
  intros ext w projectId p Hid Hvalid Hf.
  destruct (generateInvoiceData_prefix ext w projectId p Hid Hvalid Hf) as (A & B & C).
  split; [exact A|]. split; [exact B|]. split; [exact C|].
  intros q l c u creator Hq Hl Hitems Hc Hu Hcr.
  eapply generateInvoiceData_success; eauto.
Qed.

Example generateInvoiceData_sample :
  exists r,
    ProjectController.generateInvoiceData Sample.ext Sample.pid Sample.invoiceable
    = (Resolved r, Sample.invoiceable)
    /\ statusCode r = 200%Z
    /\ ProjectController.totalReceivable (ProjectController.summary (data r))
       = JS.num 1050.
Proof. eexists. repeat split; reflexivity. Qed.

(** C3.  The code breaks the claim by a slip: the populated client (and
    the populated creator) of the project is dereferenced without a guard.
    Once [deleteClient], which looks at no project, has removed the client,
    the project of the sample has a quotation, an LPO and a quotation
    item, every requirement the claim states, and the request ends in a
    [TypeError], answered with 500, where the claim has it succeed. *)
Theorem invoice_data_fails_without_client :
  stored_project Sample.pid Sample.invoiceable_without_client
  = Some (Sample.project_in "work_completed" 100)
  /\ (exists q l,
        quotation_of Sample.pid Sample.invoiceable_without_client = Some q
        /\ lpo_of Sample.pid Sample.invoiceable_without_client = Some l
        /\ QuotationModel.items q <> [])
  /\ ProjectController.generateInvoiceData Sample.ext Sample.pid
       Sample.invoiceable_without_client
     = (Rejected (TypeError "Cannot read properties of null (reading 'clientName')"),
        Sample.invoiceable_without_client).
Proof.
  split; [reflexivity|]. split; [|reflexivity].
  do 2 eexists. split; [reflexivity|]. split; [reflexivity|]. discriminate.
Qed.
(** ** Checking and approving an estimation (C10, C4) *)

Lemma table_never_targets_draft from :
  ProjectController.isTransitionAllowed from "draft" = false.
Proof.
  unfold ProjectController.isTransitionAllowed.
  unfold ProjectController.validStatusTransitions, ProjectController.own_property.
  repeat match goal with
         | |- context [if (?k =? from) then _ else _] =>
             destruct (String.eqb_spec k from); [reflexivity|]
         end.
  reflexivity.
Qed.

Lemma markAsChecked_false_runs ext w id e pid p userId comment :
  userId <> "" ->
  stored_estimation id w = Some e ->
  EstimationModel.project e = Some pid ->
  stored_project pid w = Some p ->
  EstimationModel.validate e = true ->
  exists r w',
    EstimationController.markAsChecked ext id comment (Some false) (Some userId) w
    = (Resolved r, w')
    /\ statusCode r = 200%Z
    /\ stored_status pid w' = Some "draft"
    /\ option_map EstimationModel.isChecked (stored_estimation id w') = Some false.
Proof.
  intros Hu Hf Hp Hfp Hv.
  unfold EstimationController.markAsChecked, bind, throw_if.
  apply truthy_string_true in Hu. rewrite Hu. cbn [negb]. unfold ret at 1.
  unfold Estimation.findById, read.
  pose proof Hf as Hf'. unfold stored_estimation in Hf'. rewrite Hf'.
  rewrite Hp. unfold Project.findById at 1. unfold read.
  pose proof Hfp as Hfp'. unfold stored_project in Hfp'. rewrite Hfp'.
  rewrite (project_find_id _ _ _ Hfp').
  rewrite andb_false_r. unfold ret at 1.
  unfold Comment.create, write.
  set (w1 := with_comments _ w).
  match goal with |- context [Estimation.save ?d w1] => set (doc := d) end.
  assert (Hid : EstimationModel._id doc = id)
    by (unfold doc; simpl; eapply estimation_find_id; eauto).
  assert (Hf1 : stored_estimation (EstimationModel._id doc) w1 = Some e)
    by (rewrite Hid; exact Hf).
  destruct (estimation_save_ok w1 doc e Hf1 Hv eq_refl eq_refl) as [Hrun Hst].
  rewrite Hrun. rewrite Hid in Hst. cbn [negb].
  set (w2 := with_estimations _ w1) in *.
  unfold EstimationController.update_project_of, bind.
  assert (Hfp2 : stored_project pid w2 = Some p) by exact Hfp.
  match goal with
  | |- context [Project.findByIdAndUpdate pid ?u false w2] =>
      destruct (findByIdAndUpdate_found pid u false w2 p Hfp2 eq_refl eq_refl eq_refl)
        as [Hupd Hstp];
      rewrite Hupd
  end.
  unfold ret. do 2 eexists. split; [reflexivity|]. split; [reflexivity|]. split.
  - unfold stored_status. rewrite Hstp. reflexivity.
  - unfold stored_estimation in *. cbn [estimations with_projects].
    rewrite Hst. reflexivity.
Qed.

(** C10.  For every existing estimation whose project exists (the stored
    estimation passing its schema, as every estimation written through
    [save] does), [markAsChecked] with [isChecked = false] by an
    authenticated user answers 200 and leaves the project in [draft],
    whatever its status was; the table is not consulted, and no edge of the
    table leads to [draft]. *)
Theorem rejected_check_resets_project_to_draft :
  forall (ext : Collaborators) (w : World) (id : ObjectId)
         (e : EstimationModel.IEstimation) (pid : ObjectId)
         (p : ProjectModel.IProject) (userId : ObjectId) (comment : option string),
    userId <> "" ->
    stored_estimation id w = Some e ->
    EstimationModel.project e = Some pid ->
    stored_project pid w = Some p ->
    EstimationModel.validate e = true ->
    (exists r w',
        EstimationController.markAsChecked ext id comment (Some false) (Some userId) w
        = (Resolved r, w')
        /\ statusCode r = 200%Z
        /\ stored_status pid w' = Some "draft")
    /\ ProjectController.isTransitionAllowed (ProjectModel.status p) "draft" = false
    /\ (forall from, ProjectController.isTransitionAllowed from "draft" = false).
Proof.
  intros ext w id e pid p userId comment Hu Hf Hp Hfp Hv. split.
  - destruct (markAsChecked_false_runs ext w id e pid p userId comment Hu Hf Hp Hfp Hv)
      as (r & w' & Hrun & Hcode & Hst & _).
    exists r, w'. auto.
  - split; [apply table_never_targets_draft | exact table_never_targets_draft].
Qed.

Lemma rejected_check_resets_project_to_draft_witness :
  exists r w',
    EstimationController.markAsChecked Sample.ext Sample.eid None (Some false)
      (Some Sample.admin_id) (Sample.estimated "in_progress" true true)
    = (Resolved r, w')
    /\ statusCode r = 200%Z
    /\ stored_status Sample.pid w' = Some "draft".
Proof.
  assert (Hu : Sample.admin_id <> "") by discriminate.
  destruct (rejected_check_resets_project_to_draft Sample.ext
              (Sample.estimated "in_progress" true true) Sample.eid
              (Sample.estimation_in true true) Sample.pid
              (Sample.project_in "in_progress" 0) Sample.admin_id None
              Hu eq_refl eq_refl eq_refl eq_refl) as [H _].
  exact H.
Defined.

Lemma approveEstimation_unchecked w id e userId comment isApproved_ :
  userId <> "" ->
  stored_estimation id w = Some e ->
  EstimationModel.isChecked e = false ->
  exists msg,
    EstimationController.approveEstimation id comment isApproved_ (Some userId) w
    = (Rejected (ApiError 400 msg), w).
Proof.
  intros Hu Hf Hc.
  unfold EstimationController.approveEstimation, bind, throw_if.
  apply truthy_string_true in Hu. rewrite Hu. cbn [negb]. unfold ret at 1.
  destruct isApproved_ as [approve|]; [|eexists; reflexivity].
  unfold Estimation.findById, read. unfold stored_estimation in Hf. rewrite Hf, Hc.
  eexists. reflexivity.
Qed.

Lemma approveEstimation_again w id e userId comment :
  userId <> "" ->
  stored_estimation id w = Some e ->
  EstimationModel.isApproved e = true ->
  exists msg,
    EstimationController.approveEstimation id comment (Some true) (Some userId) w
    = (Rejected (ApiError 400 msg), w).
Proof.
  intros Hu Hf Ha.
  unfold EstimationController.approveEstimation, bind, throw_if.
  apply truthy_string_true in Hu. rewrite Hu. cbn [negb]. unfold ret at 1.
  unfold Estimation.findById, read. unfold stored_estimation in Hf. rewrite Hf, Ha.
  destruct (EstimationModel.isChecked e); eexists; reflexivity.
Qed.

Lemma approveEstimation_approves w id e userId comment :
  userId <> "" ->
  stored_estimation id w = Some e ->
  EstimationModel.isChecked e = true ->
  EstimationModel.isApproved e = false ->
  EstimationModel.validate e = true ->
  exists r w',
    EstimationController.approveEstimation id comment (Some true) (Some userId) w
    = (Resolved r, w')
    /\ statusCode r = 200%Z
    /\ option_map EstimationModel.isApproved (stored_estimation id w') = Some true
    /\ option_map EstimationModel.approvedBy (stored_estimation id w')
       = Some (Some userId)
    /\ EstimationModel.isApproved (data r) = true
    /\ EstimationModel.approvedBy (data r) = Some userId.
Proof.
  intros Hu Hf Hc Ha Hv.
  unfold EstimationController.approveEstimation, bind, throw_if.
  apply truthy_string_true in Hu. rewrite Hu. cbn [negb]. unfold ret at 1.
  unfold Estimation.findById, read.
  pose proof Hf as Hf'. unfold stored_estimation in Hf'. rewrite Hf', Hc, Ha.
  cbn [negb andb]. unfold ret at 1. unfold ret at 1.
  unfold Comment.create, write.
  set (w1 := with_comments _ w).
  match goal with |- context [Estimation.save ?d w1] => set (doc := d) end.
  assert (Hid : EstimationModel._id doc = id)
    by (unfold doc; simpl; eapply estimation_find_id; eauto).
  assert (Hf1 : stored_estimation (EstimationModel._id doc) w1 = Some e)
    by (rewrite Hid; exact Hf).
  destruct (estimation_save_ok w1 doc e Hf1 Hv eq_refl eq_refl) as [Hrun Hst].
  rewrite Hrun. rewrite Hid in Hst.
  set (w2 := with_estimations _ w1) in *.
  assert (Hkeep : forall u w3,
             snd (EstimationController.update_project_of
                    (EstimationModel.project e) u w2) = w3 ->
             stored_estimation id w3 = stored_estimation id w2).
  { intros u w3 <-. unfold EstimationController.update_project_of.
    destruct (EstimationModel.project e) as [pid|]; [|reflexivity].
    unfold bind, Project.findByIdAndUpdate. cbn [andb].
    destruct (ProjectModel.conflicting u); [reflexivity|].
    unfold bind, Project.findById, read.
    destruct (find _ (projects w2));
      [destruct (Project.unique_on_update _ _ _)|]; reflexivity. }
  match goal with
  | |- context [EstimationController.update_project_of ?r ?u w2] =>
      pose proof (Hkeep u _ eq_refl) as Hk;
      destruct (EstimationController.update_project_of r u w2) as [o w3] eqn:Hupd
  end.
  assert (Ho : exists x, o = Resolved x).
  { unfold EstimationController.update_project_of in Hupd.
    destruct (EstimationModel.project e) as [pid|].
    - unfold bind, Project.findByIdAndUpdate in Hupd. cbn [andb] in Hupd.
      unfold bind, Project.findById, read in Hupd.
      cbn [Project.unique_on_update ProjectModel.set_projectNumber ProjectModel.conflicting
         ProjectModel.set_progress ProjectModel.op_progress] in Hupd.
      destruct (find _ (projects w2)); inversion Hupd; eexists; reflexivity.
    - inversion Hupd. eexists; reflexivity. }
  destruct Ho as [x ->]. cbn [snd] in Hk.
  unfold ret. do 2 eexists. split; [reflexivity|]. split; [reflexivity|].
  rewrite Hk, Hst. repeat split; reflexivity.
Qed.

(** C4.  For an authenticated user and an existing estimation:
    [approveEstimation] fails with a 400 error when [isChecked] is false;
    it fails with a 400 error when the estimation is already approved and
    [isApproved = true] is requested; and when [isChecked] is true and
    [isApproved] is false (the stored estimation passing its schema, as
    every estimation written through [save] does), requesting approval
    answers 200, sets [isApproved] to true and [approvedBy] to the acting
    user. *)
Theorem approval_requires_check :
  forall (w : World) (id : ObjectId) (e : EstimationModel.IEstimation)
         (userId : ObjectId) (comment : option string),
    userId <> "" ->
    stored_estimation id w = Some e ->
    (EstimationModel.isChecked e = false ->
       forall isApproved_,
       exists msg,
         EstimationController.approveEstimation id comment isApproved_ (Some userId) w
         = (Rejected (ApiError 400 msg), w))
    /\ (EstimationModel.isApproved e = true ->
          exists msg,
            EstimationController.approveEstimation id comment (Some true) (Some userId) w
            = (Rejected (ApiError 400 msg), w))
    /\ (EstimationModel.isChecked e = true ->
          EstimationModel.isApproved e = false ->
          EstimationModel.validate e = true ->
          exists r w',
            EstimationController.approveEstimation id comment (Some true) (Some userId) w
            = (Resolved r, w')
            /\ statusCode r = 200%Z
            /\ option_map EstimationModel.isApproved (stored_estimation id w') = Some true
            /\ option_map EstimationModel.approvedBy (stored_estimation id w')
               = Some (Some userId)).
Proof.
  intros w id e userId comment Hu Hf. split; [|split].
  - intros Hc isApproved_. eapply approveEstimation_unchecked; eauto.
  - intros Ha. eapply approveEstimation_again; eauto.
  - intros Hc Ha Hv.
    destruct (approveEstimation_approves w id e userId comment Hu Hf Hc Ha Hv)
      as (r & w' & Hrun & Hcode & H1 & H2 & _).
    exists r, w'. auto.
Qed.

Lemma approval_requires_check_witness :
  exists r w',
    EstimationController.approveEstimation Sample.eid None (Some true)
      (Some Sample.admin_id) (Sample.estimated "estimation_prepared" true false)
    = (Resolved r, w')
    /\ statusCode r = 200%Z
    /\ option_map EstimationModel.isApproved (stored_estimation Sample.eid w') = Some true
    /\ option_map EstimationModel.approvedBy (stored_estimation Sample.eid w')
       = Some (Some Sample.admin_id).
Proof.
  assert (Hu : Sample.admin_id <> "") by discriminate.
  destruct (approval_requires_check (Sample.estimated "estimation_prepared" true false)
              Sample.eid (Sample.estimation_in true false) Sample.admin_id None
              Hu eq_refl) as (_ & _ & H).
  exact (H eq_refl eq_refl eq_refl).
Defined.

(** ** Editing an estimation (C5) *)

Lemma retotal_items_resolved msg items :
  forallb (fun i => JS.truthy_string (ItemInput.uom i)) items = true ->
  EstimationController.retotal_items msg items
  = Resolved (map EstimationController.retotal_item items).
Proof.
  induction items as [|i rest IH]; simpl; [reflexivity|].
  intros H. apply andb_prop in H. destruct H as [Hi Hrest].
  rewrite Hi, (IH Hrest). reflexivity.
Qed.

Lemma retotal_items_rejected msg items :
  forallb (fun i => JS.truthy_string (ItemInput.uom i)) items = false ->
  EstimationController.retotal_items msg items = Rejected (ApiError 400 msg).
Proof.
  induction items as [|i rest IH]; simpl; [discriminate|].
  destruct (JS.truthy_string (ItemInput.uom i)); simpl; [|reflexivity].
  intros H. rewrite (IH H). reflexivity.
Qed.

Lemma retotal_opt_resolved msg o :
  lines_with_uom o = true ->
  EstimationController.retotal_opt msg o
  = Resolved (option_map (map EstimationController.retotal_item) o).
Proof.
  destruct o as [items|]; simpl; [|reflexivity].
  intros H. rewrite (retotal_items_resolved msg items H). reflexivity.
Qed.

Lemma retotal_opt_rejected msg o :
  lines_with_uom o = false ->
  EstimationController.retotal_opt msg o = Rejected (ApiError 400 msg).
Proof.
  destruct o as [items|]; simpl; [|discriminate].
  intros H. rewrite (retotal_items_rejected msg items H). reflexivity.
Qed.

(** [save] of a valid document that the unique indexes accept. *)
Lemma estimation_save_unique w e old :
  stored_estimation (EstimationModel._id e) w = Some old ->
  EstimationModel.validate e = true ->
  EstimationModel.unique_on_write (estimations w) e = true ->
  Estimation.save e w
  = (Resolved (EstimationModel.pre_save e),
     with_estimations (Estimation.replace (EstimationModel.pre_save e) (estimations w)) w)
  /\ stored_estimation (EstimationModel._id e)
       (with_estimations
          (Estimation.replace (EstimationModel.pre_save e) (estimations w)) w)
     = Some (EstimationModel.pre_save e).
Proof.
  intros Hf Hv Hu. unfold Estimation.save. rewrite Hv.
  unfold bind, read, write, ret.
  change (EstimationModel.unique_on_write (estimations w) (EstimationModel.pre_save e))
    with (EstimationModel.unique_on_write (estimations w) e).
  rewrite Hu. split; [reflexivity|].
  unfold stored_estimation. simpl.
  apply estimation_find_replace with (e := old); [exact Hf|reflexivity].
Qed.

Lemma updateEstimation_approved w id e u :
  stored_estimation id w = Some e ->
  EstimationModel.isApproved e = true ->
  EstimationController.updateEstimation id u w
  = (Rejected (ApiError 400 "Cannot update approved estimation"), w).
Proof.
  intros Hf Ha. unfold EstimationController.updateEstimation, bind, throw_if.
  unfold Estimation.findById, read. unfold stored_estimation in Hf.
  rewrite Hf, Ha. reflexivity.
Qed.

Lemma updateEstimation_without_uom w id e u :
  stored_estimation id w = Some e ->
  EstimationModel.isApproved e = false ->
  lines_with_uom (EstimationController.upd_materials u)
  && lines_with_uom (EstimationController.upd_termsAndConditions u) = false ->
  exists msg,
    EstimationController.updateEstimation id u w = (Rejected (ApiError 400 msg), w).
Proof.
  intros Hf Ha Hu. unfold EstimationController.updateEstimation, bind, throw_if.
  unfold Estimation.findById, read. unfold stored_estimation in Hf.
  rewrite Hf, Ha. unfold ret at 1.
  destruct (lines_with_uom (EstimationController.upd_materials u)) eqn:Hm.
  - simpl in Hu. rewrite (retotal_opt_resolved _ _ Hm), (retotal_opt_rejected _ _ Hu).
    eexists. reflexivity.
  - rewrite (retotal_opt_rejected _ _ Hm). eexists. reflexivity.
Qed.

Lemma updateEstimation_saves w id e u :
  stored_estimation id w = Some e ->
  EstimationModel.isApproved e = false ->
  lines_with_uom (EstimationController.upd_materials u) = true ->
  lines_with_uom (EstimationController.upd_termsAndConditions u) = true ->
  let doc :=
    EstimationController.set
      (option_map (map EstimationController.retotal_item)
                  (EstimationController.upd_materials u))
      (option_map (map EstimationController.retotal_item)
                  (EstimationController.upd_termsAndConditions u))
      (option_map EstimationController.retotal_labour (EstimationController.upd_labour u))
      u
      (if EstimationModel.isChecked e
       then EstimationController.with_check false None None e else e) in
  EstimationModel.validate doc = true ->
  EstimationModel.unique_on_write (estimations w) doc = true ->
  exists r w',
    EstimationController.updateEstimation id u w = (Resolved r, w')
    /\ statusCode r = 200%Z
    /\ stored_estimation id w' = Some (EstimationModel.pre_save doc).
Proof.
  intros Hf Ha Hm Ht doc Hv Hu.
  unfold EstimationController.updateEstimation, bind, throw_if.
  unfold Estimation.findById, read.
  pose proof Hf as Hf'. unfold stored_estimation in Hf'.
  rewrite Hf', Ha. unfold ret at 1.
  rewrite (retotal_opt_resolved _ _ Hm), (retotal_opt_resolved _ _ Ht).
  unfold EstimationController.lift, ret at 1. unfold ret at 1.
  fold doc.
  assert (Hid : EstimationModel._id doc = id).
  { unfold doc. unfold EstimationController.set. cbn [EstimationModel._id].
    destruct (EstimationModel.isChecked e); simpl; eapply estimation_find_id; eauto. }
  assert (Hf1 : stored_estimation (EstimationModel._id doc) w = Some e)
    by (rewrite Hid; exact Hf).
  destruct (estimation_save_unique w doc e Hf1 Hv Hu) as [Hrun Hst].
  rewrite Hrun. rewrite Hid in Hst.
  unfold ret. do 2 eexists. split; [reflexivity|]. split; [reflexivity|]. exact Hst.
Qed.

(** A body may carry [isChecked] itself, which [set] applies after the
    reset: the estimation is then saved as checked. *)
Fact update_can_set_check :
  option_map EstimationModel.isChecked
    (stored_estimation Sample.eid
       (snd (EstimationController.updateEstimation Sample.eid
               (EstimationController.mkUpdateBody None None None None None None None
                  None None None None None None None None (Some Sample.uid) None
                  (Some true) None None)
               (Sample.estimated "estimation_prepared" true false))))
  = Some true.
Proof. reflexivity. Qed.

(** C5, as amended.  [updateEstimation] on an approved estimation fails
    with 400 "Cannot update approved estimation" and writes nothing.  On an
    estimation that is checked and not approved: a body with a material or
    terms line that names no unit of measure is rejected with 400 and the
    estimation stays checked; a body whose material and terms lines all name
    one, that carries neither [isChecked] nor [checkedBy], and whose
    resulting document passes the schema validators and the unique indexes,
    is saved with 200, [isChecked] reset to false and [checkedBy] cleared. *)
Theorem update_resets_check :
  forall (w : World) (id : ObjectId) (e : EstimationModel.IEstimation)
         (u : EstimationController.UpdateEstimationBody),
    stored_estimation id w = Some e ->
    (EstimationModel.isApproved e = true ->
       EstimationController.updateEstimation id u w
       = (Rejected (ApiError 400 "Cannot update approved estimation"), w))
    /\ (EstimationModel.isApproved e = false ->
        EstimationModel.isChecked e = true ->
        (lines_with_uom (EstimationController.upd_materials u)
         && lines_with_uom (EstimationController.upd_termsAndConditions u) = false ->
         exists msg,
           EstimationController.updateEstimation id u w
           = (Rejected (ApiError 400 msg), w))
        /\ (lines_with_uom (EstimationController.upd_materials u) = true ->
            lines_with_uom (EstimationController.upd_termsAndConditions u) = true ->
            EstimationController.upd_isChecked u = None ->
            EstimationController.upd_checkedBy u = None ->
            let doc :=
              EstimationController.set
                (option_map (map EstimationController.retotal_item)
                            (EstimationController.upd_materials u))
                (option_map (map EstimationController.retotal_item)
                            (EstimationController.upd_termsAndConditions u))
                (option_map EstimationController.retotal_labour
                            (EstimationController.upd_labour u))
                u (EstimationController.with_check false None None e) in
            EstimationModel.validate doc = true ->
            EstimationModel.unique_on_write (estimations w) doc = true ->
            exists r w',
              EstimationController.updateEstimation id u w = (Resolved r, w')
              /\ statusCode r = 200%Z
              /\ option_map EstimationModel.isChecked (stored_estimation id w')
                 = Some false
              /\ option_map EstimationModel.checkedBy (stored_estimation id w')
                 = Some None)).
Proof.
  intros w id e u Hf. split.
  - intros Ha. apply updateEstimation_approved with (e := e); assumption.
  - intros Ha Hc. split.
    + intros Hu. eapply updateEstimation_without_uom; eauto.
    + intros Hm Ht Hic Hcb doc Hv Huniq.
      pose proof (updateEstimation_saves w id e u Hf Ha Hm Ht) as H.
      rewrite Hc in H. cbv zeta in H. fold doc in H.
      destruct (H Hv Huniq) as (r & w' & Hrun & Hcode & Hst).
      exists r, w'. split; [exact Hrun|]. split; [exact Hcode|].
      rewrite Hst. unfold doc, EstimationController.set.
      cbn [option_map EstimationModel.pre_save EstimationModel.isChecked
           EstimationModel.checkedBy].
      rewrite Hic, Hcb. split; reflexivity.
Qed.

Lemma update_resets_check_witness :
  exists r w',
    EstimationController.updateEstimation Sample.eid
      (Sample.update_with (Some [Sample.cable_by_metre]))
      (Sample.estimated "estimation_prepared" true false)
    = (Resolved r, w')
    /\ statusCode r = 200%Z
    /\ option_map EstimationModel.isChecked (stored_estimation Sample.eid w') = Some false
    /\ option_map EstimationModel.checkedBy (stored_estimation Sample.eid w') = Some None.
Proof.
  destruct (update_resets_check (Sample.estimated "estimation_prepared" true false)
              Sample.eid (Sample.estimation_in true false)
              (Sample.update_with (Some [Sample.cable_by_metre])) eq_refl) as [_ H].
  destruct (H eq_refl eq_refl) as [_ Hok].
  exact (Hok eq_refl eq_refl eq_refl eq_refl eq_refl eq_refl).
Defined.

(** C5 as stated fails: on a checked, unapproved estimation a body whose
    material line names no unit of measure is refused with 400, nothing is
    written, and the estimation is still checked. *)
Lemma update_without_uom_keeps_check :
  EstimationController.updateEstimation Sample.eid
    (Sample.update_with (Some [Sample.cable_without_uom]))
    (Sample.estimated "estimation_prepared" true false)
  = (Rejected (ApiError 400 "UOM is required for material items"),
     Sample.estimated "estimation_prepared" true false)
  /\ option_map EstimationModel.isChecked
       (stored_estimation Sample.eid (Sample.estimated "estimation_prepared" true false))
     = Some true.
Proof. split; reflexivity. Qed.

(** ** Derived amounts of an estimation (C2) *)

(** The totals of validated lines are numbers that are not negative, so
    [item.total || 0] adds what [item.total] would and the running sum
    never turns negative, [-0] or [NaN]. *)
Lemma valid_item_total i :
  EstimationModel.valid_item i = true ->
  exists t, EstimationItem.total i = Some t /\ JS.leb (JS.num 0) t = true.
Proof.
  unfold EstimationModel.valid_item. intros H.
  apply andb_prop in H. destruct H as [_ H].
  destruct (EstimationItem.total i) as [t|]; [|discriminate].
  exists t. split; [reflexivity|exact H].
Qed.

Lemma valid_labour_total i :
  EstimationModel.valid_labour i = true ->
  exists t, LabourItem.total i = Some t /\ JS.leb (JS.num 0) t = true.
Proof.
  unfold EstimationModel.valid_labour. intros H.
  apply andb_prop in H. destruct H as [_ H].
  destruct (LabourItem.total i) as [t|]; [|discriminate].
  exists t. split; [reflexivity|exact H].
Qed.

Lemma itemsTotal_from items : forall a,
  sign_is false (Prim2SF a) ->
  forallb EstimationModel.valid_item items = true ->
  fold_left
    (fun s i => (s + JS.or_else JS.truthy_number (EstimationItem.total i) (JS.num 0))%float)
    items a
  = fold_left PrimFloat.add (map item_total items) a
  /\ sign_is false (Prim2SF (fold_left PrimFloat.add (map item_total items) a)).
Proof.
  induction items as [|x l IH]; intros a Ha Hv; cbn [fold_left map].
  - split; [reflexivity|exact Ha].
  - cbn [forallb] in Hv. apply andb_prop in Hv. destruct Hv as [Hx Hl].
    destruct (valid_item_total x Hx) as (t & Ht & Hpos).
    assert (Hi : item_total x = t) by (unfold item_total; rewrite Ht; reflexivity).
    rewrite Hi, Ht, (add_or_zero a t Ha Hpos).
    apply IH; [apply add_plus; assumption|exact Hl].
Qed.

Lemma labourTotal_from items : forall a,
  sign_is false (Prim2SF a) ->
  forallb EstimationModel.valid_labour items = true ->
  fold_left
    (fun s i => (s + JS.or_else JS.truthy_number (LabourItem.total i) (JS.num 0))%float)
    items a
  = fold_left PrimFloat.add (map labour_item_total items) a
  /\ sign_is false (Prim2SF (fold_left PrimFloat.add (map labour_item_total items) a)).
Proof.
  induction items as [|x l IH]; intros a Ha Hv; cbn [fold_left map].
  - split; [reflexivity|exact Ha].
  - cbn [forallb] in Hv. apply andb_prop in Hv. destruct Hv as [Hx Hl].
    destruct (valid_labour_total x Hx) as (t & Ht & Hpos).
    assert (Hi : labour_item_total x = t) by (unfold labour_item_total; rewrite Ht; reflexivity).
    rewrite Hi, Ht, (add_or_zero a t Ha Hpos).
    apply IH; [apply add_plus; assumption|exact Hl].
Qed.

Lemma itemsTotal_sum items :
  forallb EstimationModel.valid_item items = true ->
  EstimationModel.itemsTotal items = sum (map item_total items)
  /\ sign_is false (Prim2SF (sum (map item_total items))).
Proof. intros H. exact (itemsTotal_from items (JS.num 0) zero_plus H). Qed.

Lemma labourTotal_sum items :
  forallb EstimationModel.valid_labour items = true ->
  EstimationModel.labourTotal items = sum (map labour_item_total items)
  /\ sign_is false (Prim2SF (sum (map labour_item_total items))).
Proof. intros H. exact (labourTotal_from items (JS.num 0) zero_plus H). Qed.

Lemma validate_lines e :
  EstimationModel.validate e = true ->
  forallb EstimationModel.valid_item (EstimationModel.materials e) = true
  /\ forallb EstimationModel.valid_labour (EstimationModel.labour e) = true
  /\ forallb EstimationModel.valid_item (EstimationModel.termsAndConditions e) = true.
Proof.
  unfold EstimationModel.validate. intros H.
  repeat (apply andb_prop in H; destruct H as [H ?]).
  repeat split; assumption.
Qed.

(** What the hook leaves in a document that has passed validation. *)
Lemma pre_save_amount_sign e :
  EstimationModel.validate e = true ->
  EstimationModel.estimatedAmount (EstimationModel.pre_save e)
  = sum_of_item_totals (EstimationModel.pre_save e)
  /\ sign_is false
       (Prim2SF (EstimationModel.estimatedAmount (EstimationModel.pre_save e))).
Proof.
  intros Hv. destruct (validate_lines e Hv) as (Hm & Hl & Ht).
  destruct (itemsTotal_sum _ Hm) as [Em Sm].
  destruct (labourTotal_sum _ Hl) as [El Sl].
  destruct (itemsTotal_sum _ Ht) as [Et St].
  unfold sum_of_item_totals.
  cbn [EstimationModel.pre_save EstimationModel.estimatedAmount
       EstimationModel.materials EstimationModel.labour
       EstimationModel.termsAndConditions].
  rewrite Em, El, Et. split; [reflexivity|].
  apply add_plus_plus; [apply add_plus_plus|]; assumption.
Qed.



Lemma save_resolved e w saved w' :
  Estimation.save e w = (Resolved saved, w') ->
  saved = EstimationModel.pre_save e
  /\ w' = with_estimations (Estimation.replace saved (estimations w)) w
  /\ EstimationModel.validate e = true.
Proof.
  unfold Estimation.save.
  destruct (EstimationModel.validate e); [|discriminate].
  unfold bind, read, write, ret.
  destruct (EstimationModel.unique_on_write _ _); [|discriminate].
  intros H. inversion H. auto.
Qed.







(** Whatever [save] writes passes the schema again: the stored estimations
    are valid documents. *)
Lemma pre_save_validate e :
  EstimationModel.validate e = true ->
  EstimationModel.validate (EstimationModel.pre_save e) = true.
Proof.
  intros H. pose proof H as Hv.
  destruct (pre_save_amount_sign e Hv) as [_ Hsign].
  apply plus_nonneg in Hsign.
  unfold EstimationModel.validate in H.
  repeat (apply andb_prop in H; destruct H as [H ?]).
  unfold EstimationModel.validate.
  cbn [EstimationModel.pre_save EstimationModel.project EstimationModel.estimationNumber
       EstimationModel.workStartDate EstimationModel.workEndDate
       EstimationModel.paymentDueBy EstimationModel.materials EstimationModel.labour
       EstimationModel.termsAndConditions EstimationModel.quotationAmount
       EstimationModel.commissionAmount EstimationModel.preparedBy] in *.
  rewrite Hsign.
  repeat match goal with E : _ = true |- _ => rewrite E; clear E end.
  reflexivity.
Qed.

Fact save_keeps_schema e w saved w' :
  Estimation.save e w = (Resolved saved, w') ->
  EstimationModel.validate saved = true.
Proof.
  intros H. destruct (save_resolved e w saved w' H) as (-> & _ & Hv).
  apply pre_save_validate. exact Hv.
Qed.

(** *** What every write of an estimation establishes *)

Section Preservation.
Context {P : World -> Prop}.

Lemma preserves_ret {A} (a : A) : preserves P (ret a).
Proof. intros w o w' H HP. inversion H; subst. exact HP. Qed.

Lemma preserves_throw {A} (e : Error) : preserves P (@throw A e).
Proof. intros w o w' H HP. inversion H; subst. exact HP. Qed.

Lemma preserves_read {A} (f : World -> A) : preserves P (read f).
Proof. intros w o w' H HP. inversion H; subst. exact HP. Qed.

Lemma preserves_write (f : World -> World) :
  (forall w, P w -> P (f w)) -> preserves P (write f).
Proof. intros Hf w o w' H HP. inversion H; subst. apply Hf. exact HP. Qed.

Lemma preserves_bind {A B} (m : Async A) (k : A -> Async B) :
  preserves P m -> (forall a, preserves P (k a)) -> preserves P (bind m k).
Proof.
  intros Hm Hk w o w' H HP. unfold bind in H.
  destruct (m w) as [[a|e] w1] eqn:E.
  - eapply Hk; [exact H|]. eapply Hm; eauto.
  - inversion H; subst. eapply Hm; eauto.
Qed.

Lemma preserves_try_catch {A} (m : Async A) (h : Error -> Async A) :
  preserves P m -> (forall e, preserves P (h e)) -> preserves P (try_catch m h).
Proof.
  intros Hm Hh w o w' H HP. unfold try_catch in H.
  destruct (m w) as [[a|e] w1] eqn:E.
  - inversion H; subst. eapply Hm; eauto.
  - eapply Hh; [exact H|]. eapply Hm; eauto.
Qed.

Lemma preserves_throw_if (c : bool) (e : Error) : preserves P (throw_if c e).
Proof. destruct c; [apply preserves_throw | apply preserves_ret]. Qed.

Lemma preserves_lift {A} (o : Outcome A) : preserves P (EstimationController.lift o).
Proof. destruct o; [apply preserves_ret | apply preserves_throw]. Qed.

End Preservation.

(** One step of a structural proof that a handler preserves a property. *)
Ltac preserve_step :=
  first
    [ apply preserves_ret
    | apply preserves_throw
    | apply preserves_throw_if
    | apply preserves_read
    | apply preserves_lift
    | apply preserves_bind; [|intro]
    | apply preserves_try_catch; [|intro]
    | match goal with
      | |- preserves _ (match ?x with _ => _ end) => destruct x
      | |- preserves _ (if ?c then _ else _) => destruct c
      end ].

Section EstimationInvariant.
Context (Q : EstimationModel.IEstimation -> Prop).
Hypothesis hook_establishes :
  forall e, EstimationModel.validate e = true -> Q (EstimationModel.pre_save e).

Let Inv := all_estimations Q.

Lemma all_replace e w :
  Q e -> Inv w -> Inv (with_estimations (Estimation.replace e (estimations w)) w).
Proof.
  intros He H. unfold Inv, all_estimations in *. cbn [estimations with_estimations].
  induction H as [|d l Hd Hl IH]; simpl; [constructor|].
  constructor; [|exact IH]. destruct (_ =? _); assumption.
Qed.

Lemma all_insert e w :
  Q e -> Inv w -> Inv (with_estimations (estimations w ++ [e]) w).
Proof.
  intros He H. unfold Inv, all_estimations in *. cbn [estimations with_estimations].
  apply Forall_app. split; [exact H|]. constructor; [exact He|constructor].
Qed.

Lemma all_delete id w :
  Inv w ->
  Inv (with_estimations
       (filter (fun e => negb (EstimationModel._id e =? id)) (estimations w)) w).
Proof.
  intros H. unfold Inv, all_estimations in *. cbn [estimations with_estimations].
  induction H as [|d l Hd Hl IH]; simpl; [constructor|].
  destruct (negb _); [constructor|]; assumption.
Qed.

Lemma all_elsewhere (f : World -> World) :
  (forall w, estimations (f w) = estimations w) -> forall w, Inv w -> Inv (f w).
Proof. intros Hf w H. unfold Inv, all_estimations in *. rewrite Hf. exact H. Qed.

Lemma save_preserves e : preserves Inv (Estimation.save e).
Proof.
  unfold Estimation.save. destruct (EstimationModel.validate e) eqn:Hv;
    [|apply preserves_throw].
  repeat preserve_step.
  apply preserves_write. intros w. apply all_replace, hook_establishes, Hv.
Qed.

Lemma create_preserves mk : preserves Inv (Estimation.create mk).
Proof.
  unfold Estimation.create.
  apply preserves_bind; [apply preserves_read|intros n].
  apply preserves_bind;
    [apply preserves_write; apply all_elsewhere; reflexivity|intros _].
  destruct (EstimationModel.validate _) eqn:Hv; [|apply preserves_throw].
  repeat preserve_step.
  apply preserves_write. intros w. apply all_insert, hook_establishes, Hv.
Qed.

Lemma project_update_preserves id u rv :
  preserves Inv (Project.findByIdAndUpdate id u rv).
Proof.
  unfold Project.findByIdAndUpdate, Project.findById.
  repeat preserve_step.
  apply preserves_write. apply all_elsewhere. reflexivity.
Qed.

Lemma send_all_preserves ext mails : forall n,
  preserves Inv (EstimationController.send_all ext n mails).
Proof.
  induction mails as [|m rest IH]; intros n; simpl; [apply preserves_ret|].
  apply preserves_bind.
  - apply preserves_try_catch; [|intro; apply preserves_ret].
    unfold Mailer.sendEmail, console_error_log. repeat preserve_step.
    apply preserves_write. apply all_elsewhere. reflexivity.
  - intros sent. apply preserves_bind; [apply IH|intro; apply preserves_ret].
Qed.

Lemma handlers_preserve ext : kept_by_every_handler ext Inv.
Proof.
  unfold kept_by_every_handler. repeat split.
  - intros body userId. unfold EstimationController.createEstimation, Estimation.findOne.
    repeat first
      [ apply create_preserves
      | apply project_update_preserves
      | preserve_step ].
  - intros id comment isApproved_ userId.
    unfold EstimationController.approveEstimation, EstimationController.update_project_of,
      Estimation.findById, Comment.create.
    repeat first
      [ apply save_preserves
      | apply project_update_preserves
      | apply preserves_write; apply all_elsewhere; reflexivity
      | preserve_step ].
  - intros id comment isChecked_ userId.
    unfold EstimationController.markAsChecked, EstimationController.update_project_of,
      Estimation.findById, Project.findById, User.find_role, User.findById,
      Comment.create, console_error_log.
    repeat first
      [ apply save_preserves
      | apply project_update_preserves
      | apply send_all_preserves
      | apply preserves_write; apply all_elsewhere; reflexivity
      | preserve_step ].
  - intros id updateData.
    unfold EstimationController.updateEstimation, Estimation.findById.
    repeat first [ apply save_preserves | preserve_step ].
  - intros id.
    unfold EstimationController.deleteEstimation, Estimation.findById,
      Estimation.findByIdAndDelete.
    repeat first
      [ apply preserves_write; intros w; apply all_delete
      | preserve_step ].
  - intros req.
    unfold QuotationController.createQuotation, Quotation.findOne, Estimation.findOne,
      QuotationController.generateQuotationNumber, Quotation.countDocuments.
    repeat first
      [ apply project_update_preserves
      | apply preserves_write; apply all_elsewhere; reflexivity
      | preserve_step ].
Qed.

End EstimationInvariant.

(** The stored estimations stay valid documents: the hypothesis that a
    stored estimation passes its schema, made for the approval and for the
    check, holds of every estimation these handlers have written. *)
Fact handlers_keep_schema ext : kept_by_every_handler ext estimations_valid.
Proof. apply handlers_preserve. exact pre_save_validate. Qed.


(** The products and the sums are those of JavaScript: binary64 values,
    rounded where the exact result has no representation and overflowing
    to [Infinity].  94906267 x 94906267 is stored as 9007199515875288, one
    less than the product of the integers. *)
Fact totals_are_rounded :
  (exists ms,
      EstimationController.check_items "" 
        [ItemInput.mk "Cable" "m" (Some (JS.num 94906267)) (Some (JS.num 94906267)) None]
      = Resolved ms
      /\ map ItemInput.total ms = [Some (JS.num 9007199515875288)])
  /\ (94906267 * 94906267 = 9007199515875289)%Z
  /\ JS.eqb (JS.num 1 / JS.num 10 + JS.num 2 / JS.num 10)%float
            (JS.num 3 / JS.num 10)%float = false.
Proof.
  split; [eexists; split; reflexivity|]. split; reflexivity.
Qed.



(** ** One estimation per project (C6) *)

(** The guard on the required members of a creation body: they are
    tested for truthiness, so an empty project, a date of 0 and a term of
    payment of 0 count as missing. *)
Lemma required_members_present projectId workStart workEnd valid due :
  projectId <> "" ->
  workStart <> 0%Z -> workEnd <> 0%Z -> valid <> 0%Z ->
  JS.truthy_number due = true ->
  negb (JS.truthy_string projectId)
  || (workStart =? 0)%Z || (workEnd =? 0)%Z || (valid =? 0)%Z
  || negb (JS.truthy_number due) = false.
Proof.
  intros Hp Hs He Hv Hd. apply truthy_string_true in Hp.
  apply Z.eqb_neq in Hs. apply Z.eqb_neq in He. apply Z.eqb_neq in Hv.
  rewrite Hp, Hs, He, Hv, Hd. reflexivity.
Qed.

Lemma createEstimation_duplicate ext w body userId projectId existing :
  EstimationController.body_project body = Some projectId ->
  estimation_of projectId w = Some existing ->
  exists msg,
    EstimationController.createEstimation ext body userId w
    = (Rejected (ApiError 400 msg), w)
    /\ (forall workStart workEnd valid due,
          projectId <> "" ->
          EstimationController.body_workStartDate body = Some workStart ->
          EstimationController.body_workEndDate body = Some workEnd ->
          EstimationController.body_validUntil body = Some valid ->
          EstimationController.body_paymentDueBy body = Some due ->
          workStart <> 0%Z -> workEnd <> 0%Z -> valid <> 0%Z ->
          JS.truthy_number due = true ->
          msg = "Only one estimation is allowed per project. Update the existing estimation instead.").
Proof.
  intros Hp He. unfold EstimationController.createEstimation. rewrite Hp.
  destruct (EstimationController.body_workStartDate body) as [ws|];
    [|eexists; split; [reflexivity|intros; discriminate]].
  destruct (EstimationController.body_workEndDate body) as [we|];
    [|eexists; split; [reflexivity|intros; discriminate]].
  destruct (EstimationController.body_validUntil body) as [vu|];
    [|eexists; split; [reflexivity|intros; discriminate]].
  destruct (EstimationController.body_paymentDueBy body) as [due|];
    [|eexists; split; [reflexivity|intros; discriminate]].
  unfold bind, throw_if.
  destruct (negb (JS.truthy_string projectId) || _ || _ || _
            || negb (JS.truthy_number due)) eqn:Hguard.
  - eexists. split; [reflexivity|].
    intros ws' we' vu' due' Hne Hws Hwe Hvu Hd Hs0 He0 Hv0 Hdue.
    inversion Hws; inversion Hwe; inversion Hvu; inversion Hd; subst.
    rewrite (required_members_present _ _ _ _ _ Hne Hs0 He0 Hv0 Hdue) in Hguard.
    discriminate.
  - unfold ret at 1. unfold Estimation.findOne, read.
    unfold estimation_of in He. rewrite He.
    eexists. split; [reflexivity|]. intros. reflexivity.
Qed.

Lemma createEstimation_missing_member ext body userId w :
  missing_required_member body ->
  EstimationController.createEstimation ext body userId w
  = (Rejected (ApiError 400 "Required fields are missing"), w).
Proof.
  intros Hmiss. unfold EstimationController.createEstimation.
  destruct (EstimationController.body_project body) as [projectId|] eqn:Hp;
    [|reflexivity].
  destruct (EstimationController.body_workStartDate body) as [ws|] eqn:Hws;
    [|reflexivity].
  destruct (EstimationController.body_workEndDate body) as [we|] eqn:Hwe;
    [|reflexivity].
  destruct (EstimationController.body_validUntil body) as [vu|] eqn:Hvu;
    [|reflexivity].
  destruct (EstimationController.body_paymentDueBy body) as [due|] eqn:Hdue;
    [|reflexivity].
  unfold bind, throw_if.
  assert (Hguard : negb (JS.truthy_string projectId)
                   || (ws =? 0)%Z || (we =? 0)%Z || (vu =? 0)%Z
                   || negb (JS.truthy_number due) = true).
  { unfold missing_required_member, falsy_date in Hmiss.
    rewrite Hp, Hws, Hwe, Hvu, Hdue in Hmiss.
    destruct Hmiss as [H|[H|[[H|H]|[[H|H]|[[H|H]|[H|(d & H & Hd)]]]]]];
      try discriminate; inversion H; subst;
      cbn [JS.truthy_string String.eqb negb orb Z.eqb];
      rewrite ?Hd, ?orb_true_r; reflexivity. }
  rewrite Hguard. reflexivity.
Qed.

Lemma find_none_filter {A} (f : A -> bool) l : find f l = None -> filter f l = [].
Proof.
  induction l as [|a l IH]; simpl; [reflexivity|].
  destruct (f a); [discriminate|exact IH].
Qed.

(** The only change [createEstimation] can make to the collection: one
    document appended, for a project that had none. *)
Lemma createEstimation_estimations ext body userId w o w' :
  EstimationController.createEstimation ext body userId w = (o, w') ->
  estimations w' = estimations w
  \/ exists projectId e,
       estimation_of projectId w = None
       /\ EstimationModel.project e = Some projectId
       /\ estimations w' = (estimations w ++ [e])%list.
Proof.
  intros H. unfold EstimationController.createEstimation in H.
  destruct (EstimationController.body_project body) as [projectId|];
    [|inversion H; left; reflexivity].
  destruct (EstimationController.body_workStartDate body) as [ws|];
    [|inversion H; left; reflexivity].
  destruct (EstimationController.body_workEndDate body) as [we|];
    [|inversion H; left; reflexivity].
  destruct (EstimationController.body_validUntil body) as [vu|];
    [|inversion H; left; reflexivity].
  destruct (EstimationController.body_paymentDueBy body) as [due|];
    [|inversion H; left; reflexivity].
  unfold bind, throw_if in H.
  destruct (negb (JS.truthy_string projectId) || _ || _ || _
            || negb (JS.truthy_number due));
    [inversion H; left; reflexivity|].
  unfold ret at 1 in H. unfold Estimation.findOne, read in H.
  destruct (find _ (estimations w)) eqn:Hfind; [inversion H; left; reflexivity|].
  unfold EstimationController.lift in H.
  destruct (EstimationController.check_items _ (EstimationController.or_nil
              (EstimationController.body_materials body))) as [ms|];
    [|inversion H; left; reflexivity].
  unfold ret at 1 in H.
  destruct (EstimationController.check_labour _ _) as [ls|];
    [|inversion H; left; reflexivity].
  unfold ret at 1 in H.
  destruct (EstimationController.check_items _ (EstimationController.or_nil
              (EstimationController.body_termsAndConditions body))) as [ts|];
    [|inversion H; left; reflexivity].
  unfold ret at 1 in H.
  destruct (_ && _ && _); [inversion H; left; reflexivity|].
  unfold ret at 1 in H. unfold Estimation.create, bind, read, write in H.
  match type of H with context [EstimationModel.validate ?d] => set (doc := d) in H end.
  destruct (EstimationModel.validate doc); [|inversion H; left; reflexivity].
  cbn [estimations with_next_oid] in H.
  destruct (EstimationModel.unique_on_insert (estimations w) (EstimationModel.pre_save doc));
    [|inversion H; left; reflexivity].
  unfold ret at 1 in H. unfold Project.findByIdAndUpdate in H. cbn [andb] in H.
  unfold bind, Project.findById, read, write, ret in H.
  cbn [Project.unique_on_update ProjectModel.set_projectNumber ProjectModel.conflicting
         ProjectModel.set_progress ProjectModel.op_progress] in H.
  right. exists projectId, (EstimationModel.pre_save doc).
  split; [exact Hfind|]. split; [reflexivity|].
  match type of H with context [find ?f (projects ?W)] =>
    destruct (find f (projects W)) end; inversion H; reflexivity.
Qed.

Lemma same_opt_some_true a b :
  EstimationModel.same_opt (Some a) (Some b) = true -> a = b.
Proof. simpl. apply String.eqb_eq. Qed.

Lemma createEstimation_keeps_at_most_one ext body userId w :
  (forall projectId, (List.length (estimations_for projectId w) <= 1)%nat) ->
  forall projectId,
    (List.length
       (estimations_for projectId
          (snd (EstimationController.createEstimation ext body userId w))) <= 1)%nat.
Proof.
  intros Hinv pid.
  destruct (EstimationController.createEstimation ext body userId w) as [o w'] eqn:Hrun.
  cbn [snd].
  destruct (createEstimation_estimations ext body userId w o w' Hrun)
    as [Hsame | (projectId & e & Hnone & Hproj & Happ)].
  - unfold estimations_for in *. rewrite Hsame. apply Hinv.
  - unfold estimations_for in *. rewrite Happ, filter_app. simpl. rewrite Hproj.
    destruct (EstimationModel.same_opt (Some projectId) (Some pid)) eqn:E.
    + apply same_opt_some_true in E. subst pid.
      unfold estimation_of in Hnone. rewrite (find_none_filter _ _ Hnone). simpl. lia.
    + rewrite app_nil_r. apply Hinv.
Qed.

(** *** No project gets a second estimation, whatever the handler *)

Lemma string_of_nat_inj n m : JS.string_of_nat n = JS.string_of_nat m -> n = m.
Proof.
  unfold JS.string_of_nat. intros H.
  assert (Hnn : forall k, Nat.to_uint k <> Decimal.Nil).
  { intros k. rewrite <- (DecimalNat.Unsigned.of_to k) at 1. rewrite DecimalNat.Unsigned.to_of.
    apply DecimalFacts.unorm_nonnil. }
  apply (f_equal NilZero.uint_of_string) in H.
  rewrite !NilZero.usu in H by apply Hnn.
  inversion H as [H']. apply (f_equal Nat.of_uint) in H'.
  now rewrite !DecimalNat.Unsigned.of_to in H'.
Qed.

Lemma oid_inj n m : "oid" ++ JS.string_of_nat n = "oid" ++ JS.string_of_nat m -> n = m.
Proof. simpl. intros H. inversion H. apply string_of_nat_inj. assumption. Qed.

Lemma same_opt_true a b : EstimationModel.same_opt a b = true <-> a = b.
Proof.
  destruct a as [x|], b as [y|]; simpl; split; intros H; try congruence.
  - apply String.eqb_eq in H. congruence.
  - inversion H. apply String.eqb_refl.
Qed.

Lemma replace_ids e l :
  map EstimationModel._id (Estimation.replace e l) = map EstimationModel._id l.
Proof.
  induction l as [|d l IH]; simpl; [reflexivity|]. rewrite IH. f_equal.
  destruct (String.eqb_spec (EstimationModel._id d) (EstimationModel._id e)); congruence.
Qed.

Lemma replace_in e l x :
  In x (Estimation.replace e l) ->
  (x = e /\ In (EstimationModel._id e) (map EstimationModel._id l)) \/ In x l.
Proof.
  induction l as [|d l IH]; simpl; [tauto|]. intros [H|H].
  - destruct (String.eqb_spec (EstimationModel._id d) (EstimationModel._id e)).
    + left. split; [congruence|]. left. assumption.
    + right. left. assumption.
  - destruct (IH H) as [[H1 H2]|H1]; [left; split; [assumption|right; assumption]|].
    right. right. assumption.
Qed.

(** With distinct identifiers, replacing by identifier touches one
    document. *)
Lemma replace_absent e l :
  ~ In (EstimationModel._id e) (map EstimationModel._id l) ->
  Estimation.replace e l = l.
Proof.
  induction l as [|d l IH]; simpl; intros H; [reflexivity|].
  destruct (String.eqb_spec (EstimationModel._id d) (EstimationModel._id e)) as [E|E].
  - exfalso. apply H. left. exact E.
  - f_equal. apply IH. intros F. apply H. right. exact F.
Qed.

Lemma count_replace f e l :
  NoDup (map EstimationModel._id l) ->
  forall old,
    find (fun d => EstimationModel._id d =? EstimationModel._id e) l = Some old ->
    (List.length (filter f (Estimation.replace e l))
     + (if f old then 1 else 0)
     = List.length (filter f l) + (if f e then 1 else 0))%nat.
Proof.
  induction l as [|d l IH]; simpl; intros Hnd old Hfind; [discriminate|].
  inversion Hnd as [|? ? Hnotin Hnd']; subst.
  destruct (String.eqb_spec (EstimationModel._id d) (EstimationModel._id e)) as [E|E].
  - inversion Hfind; subst old.
    rewrite replace_absent by (rewrite <- E; exact Hnotin).
    destruct (f e), (f d); simpl; lia.
  - specialize (IH Hnd' old Hfind). destruct (f d); simpl; lia.
Qed.

Lemma project_free_rest e l pid :
  EstimationModel.project_free l e = true ->
  EstimationModel.project e = Some pid ->
  ~ In (EstimationModel._id e) (map EstimationModel._id l) ->
  filter (fun d => EstimationModel.same_opt (EstimationModel.project d) (Some pid)) l = [].
Proof.
  intros Hfree Hpid. unfold EstimationModel.project_free in Hfree.
  induction l as [|x l IH]; intros Hnotin; [reflexivity|].
  cbn [forallb] in Hfree. apply andb_prop in Hfree. destruct Hfree as [Hx Hl].
  cbn [filter].
  destruct (EstimationModel.same_opt (EstimationModel.project x) (Some pid)) eqn:Sx.
  - exfalso. apply same_opt_true in Sx.
    rewrite Sx, Hpid, same_opt_refl in Hx. cbn [negb] in Hx.
    rewrite orb_false_r in Hx. apply String.eqb_eq in Hx.
    apply Hnotin. left. exact Hx.
  - apply IH; [exact Hl|]. intros F. apply Hnotin. right. exact F.
Qed.

Lemma project_free_count e l pid :
  EstimationModel.project_free l e = true ->
  EstimationModel.project e = Some pid ->
  forall old,
    NoDup (map EstimationModel._id l) ->
    find (fun d => EstimationModel._id d =? EstimationModel._id e) l = Some old ->
    (List.length
       (filter (fun d => EstimationModel.same_opt (EstimationModel.project d) (Some pid)) l)
     <= (if EstimationModel.same_opt (EstimationModel.project old) (Some pid)
         then 1 else 0))%nat.
Proof.
  intros Hfree Hpid.
  induction l as [|d l IH]; intros old Hnd Hfind; [discriminate|].
  cbn [map] in Hnd. inversion Hnd as [|? ? Hnotin Hnd']; subst.
  pose proof Hfree as Hfree'. unfold EstimationModel.project_free in Hfree'.
  cbn [forallb] in Hfree'. apply andb_prop in Hfree'. destruct Hfree' as [Hd Hl].
  cbn [find] in Hfind. cbn [filter].
  destruct (String.eqb_spec (EstimationModel._id d) (EstimationModel._id e)) as [E|E].
  - inversion Hfind; subst old.
    rewrite (project_free_rest e l pid Hl Hpid) by (rewrite <- E; exact Hnotin).
    destruct (EstimationModel.same_opt (EstimationModel.project d) (Some pid));
      cbn [List.length]; lia.
  - rewrite orb_false_l in Hd. apply negb_true_iff in Hd.
    destruct (EstimationModel.same_opt (EstimationModel.project d) (Some pid)) eqn:Sd.
    + apply same_opt_true in Sd. rewrite Sd, Hpid, same_opt_refl in Hd. discriminate.
    + apply IH; assumption.
Qed.

Lemma keyed_replace e w :
  EstimationModel.unique_on_write (estimations w) e = true ->
  estimations_keyed w ->
  estimations_keyed (with_estimations (Estimation.replace e (estimations w)) w).
Proof.
  intros Hu [[Hnd Hfresh] Hone]. split; [split|].
  - cbn [estimations with_estimations]. rewrite replace_ids. exact Hnd.
  - cbn [estimations with_estimations next_oid]. intros x n Hx Hn.
    destruct (replace_in e (estimations w) x Hx) as [[-> Hin]|Hin].
    + apply in_map_iff in Hin. destruct Hin as (d & Hd & Hdin).
      rewrite <- Hd. apply Hfresh; assumption.
    + apply Hfresh; assumption.
  - intros pid. unfold estimations_for. cbn [estimations with_estimations].
    specialize (Hone pid). unfold estimations_for in Hone.
    unfold EstimationModel.unique_on_write in Hu.
    destruct (find (fun d => EstimationModel._id d =? EstimationModel._id e)
                   (estimations w)) as [old|] eqn:Hfind.
    + pose proof (count_replace
                    (fun d => EstimationModel.same_opt (EstimationModel.project d) (Some pid))
                    e (estimations w) Hnd old Hfind) as Hc.
      cbv beta in Hc.
      apply andb_prop in Hu. destruct Hu as [Hp _].
      apply orb_prop in Hp. destruct Hp as [Hsame|Hfree].
      * apply same_opt_true in Hsame. rewrite Hsame in Hc.
        destruct (EstimationModel.same_opt (EstimationModel.project e) (Some pid)); lia.
      * destruct (EstimationModel.same_opt (EstimationModel.project e) (Some pid)) eqn:Se.
        -- apply same_opt_true in Se.
           pose proof (project_free_count e (estimations w) pid Hfree Se old Hnd Hfind).
           destruct (EstimationModel.same_opt (EstimationModel.project old) (Some pid)); lia.
        -- destruct (EstimationModel.same_opt (EstimationModel.project old) (Some pid)); lia.
    + rewrite replace_absent; [exact Hone|].
      intros Hin. apply in_map_iff in Hin. destruct Hin as (d & Hd & Hdin).
      apply (find_none _ _ Hfind) in Hdin. rewrite Hd, String.eqb_refl in Hdin.
      discriminate.
Qed.

Lemma keyed_elsewhere w w' :
  estimations w' = estimations w ->
  (next_oid w <= next_oid w')%nat ->
  estimations_keyed w -> estimations_keyed w'.
Proof.
  intros He Hn [[Hnd Hfresh] Hone]. split; [split|].
  - rewrite He. exact Hnd.
  - intros e n Hin Hle. rewrite He in Hin. apply Hfresh; [exact Hin|lia].
  - intros pid. unfold estimations_for. rewrite He. apply Hone.
Qed.

Lemma delete_ids id (l : list EstimationModel.IEstimation) :
  NoDup (map EstimationModel._id l) ->
  NoDup (map EstimationModel._id
           (filter (fun e => negb (EstimationModel._id e =? id)) l)).
Proof.
  induction l as [|d l IH]; intros Hnd; [constructor|].
  cbn [map] in Hnd. inversion Hnd as [|? ? Hnotin Hnd']; subst.
  cbn [filter]. destruct (negb _); [|apply IH; exact Hnd'].
  cbn [map]. constructor; [|apply IH; exact Hnd'].
  intros Hin. apply Hnotin. apply in_map_iff in Hin.
  destruct Hin as (x & Hx & Hxin). apply filter_In in Hxin.
  apply in_map_iff. exists x. tauto.
Qed.

Lemma filter_filter_length {A} (f g : A -> bool) l :
  (List.length (filter f (filter g l)) <= List.length (filter f l))%nat.
Proof.
  induction l as [|d l IH]; [apply Nat.le_refl|].
  cbn [filter]. destruct (g d); cbn [filter]; destruct (f d); cbn [List.length]; lia.
Qed.

Lemma keyed_delete id w :
  estimations_keyed w ->
  estimations_keyed
    (with_estimations
       (filter (fun e => negb (EstimationModel._id e =? id)) (estimations w)) w).
Proof.
  intros [[Hnd Hfresh] Hone]. split; [split|].
  - cbn [estimations with_estimations]. apply delete_ids. exact Hnd.
  - cbn [estimations with_estimations next_oid]. intros e n Hin Hle.
    apply filter_In in Hin. apply Hfresh; tauto.
  - intros pid. specialize (Hone pid). unfold estimations_for in *.
    cbn [estimations with_estimations].
    eapply Nat.le_trans; [apply filter_filter_length|exact Hone].
Qed.

Lemma keyed_insert e w :
  EstimationModel.unique_on_insert (estimations w) e = true ->
  EstimationModel._id e = "oid" ++ JS.string_of_nat (next_oid w) ->
  estimations_keyed w ->
  estimations_keyed
    (with_estimations (estimations w ++ [e]) (with_next_oid (S (next_oid w)) w)).
Proof.
  intros Hu Hid [[Hnd Hfresh] Hone].
  assert (Hnew : ~ In (EstimationModel._id e) (map EstimationModel._id (estimations w))).
  { intros Hin. apply in_map_iff in Hin. destruct Hin as (d & Hd & Hdin).
    apply (Hfresh d (next_oid w) Hdin (Nat.le_refl _)). congruence. }
  split; [split|].
  - cbn [estimations with_estimations with_next_oid]. rewrite map_app.
    apply NoDup_app; [exact Hnd|repeat constructor; intros []|].
    intros x Hx [Hx'|[]]. apply Hnew. cbn [map] in Hx'. congruence.
  - cbn [estimations with_estimations with_next_oid next_oid]. intros x n Hin Hle.
    apply in_app_or in Hin. destruct Hin as [Hin|[<-|[]]].
    + apply Hfresh; [exact Hin|lia].
    + rewrite Hid. intros F. apply oid_inj in F. lia.
  - intros pid. specialize (Hone pid). unfold estimations_for in *.
    cbn [estimations with_estimations with_next_oid]. rewrite filter_app, length_app.
    cbn [filter].
    destruct (EstimationModel.same_opt (EstimationModel.project e) (Some pid)) eqn:Se.
    + apply same_opt_true in Se.
      unfold EstimationModel.unique_on_insert in Hu. apply andb_prop in Hu.
      destruct Hu as [Hfree _].
      rewrite (project_free_rest e (estimations w) pid Hfree Se Hnew).
      cbn [List.length]. lia.
    + cbn [List.length]. lia.
Qed.

Lemma save_keeps_keyed e : preserves estimations_keyed (Estimation.save e).
Proof.
  intros w o w' H HP. unfold Estimation.save in H.
  destruct (EstimationModel.validate e); [|inversion H; subst; exact HP].
  unfold bind, read, write, ret, throw in H.
  destruct (EstimationModel.unique_on_write (estimations w) (EstimationModel.pre_save e))
    eqn:Hu; inversion H; subst; [|exact HP].
  apply keyed_replace; assumption.
Qed.

Lemma create_keeps_keyed mk :
  (forall id, EstimationModel._id (mk id) = id) ->
  preserves estimations_keyed (Estimation.create mk).
Proof.
  intros Hmk w o w' H HP. unfold Estimation.create in H.
  unfold bind, read, write, ret, throw in H. cbv zeta in H.
  assert (Hbump : estimations_keyed (with_next_oid (S (next_oid w)) w)).
  { apply (keyed_elsewhere w); [reflexivity|cbn [next_oid with_next_oid]; lia|exact HP]. }
  destruct (EstimationModel.validate _); [|inversion H; subst; exact Hbump].
  cbn [estimations with_next_oid] in H.
  destruct (EstimationModel.unique_on_insert _ _) eqn:Hu; inversion H; subst;
    [|exact Hbump].
  apply (keyed_insert _ w); [exact Hu| |exact HP].
  rewrite pre_save_id. apply Hmk.
Qed.

Ltac elsewhere_step :=
  apply preserves_write; intros ? ?;
  eapply keyed_elsewhere; [reflexivity|cbn; lia|eassumption].

(** Drawing a fresh identifier moves the counter forward. *)
Lemma fresh_oid_keeps_keyed {B} (k : nat -> Async B) :
  (forall n, preserves estimations_keyed (k n)) ->
  preserves estimations_keyed
    (n <- read next_oid ;; write (fun w => with_next_oid (S n) w) ;;; k n).
Proof.
  intros Hk w o w' H HP. unfold bind, read, write in H. cbn [fst snd] in H.
  eapply Hk; [exact H|].
  apply (keyed_elsewhere w); [reflexivity|cbn [next_oid with_next_oid]; lia|exact HP].
Qed.

Lemma project_update_keeps_keyed id u rv :
  preserves estimations_keyed (Project.findByIdAndUpdate id u rv).
Proof.
  unfold Project.findByIdAndUpdate, Project.findById.
  repeat preserve_step. elsewhere_step.
Qed.

Lemma send_all_keeps_keyed ext mails : forall n,
  preserves estimations_keyed (EstimationController.send_all ext n mails).
Proof.
  induction mails as [|m rest IH]; intros n; simpl; [apply preserves_ret|].
  apply preserves_bind.
  - apply preserves_try_catch; [|intro; apply preserves_ret].
    unfold Mailer.sendEmail, console_error_log. repeat preserve_step.
    elsewhere_step.
  - intros sent. apply preserves_bind; [apply IH|intro; apply preserves_ret].
Qed.

(** Every handler keeps each project at no more than one estimation. *)
Lemma handlers_keep_keyed ext : kept_by_every_handler ext estimations_keyed.
Proof.
  unfold kept_by_every_handler.
  split; [|split; [|split; [|split; [|split]]]].
  - intros body userId. unfold EstimationController.createEstimation, Estimation.findOne.
    repeat first
      [ apply create_keeps_keyed; reflexivity
      | apply project_update_keeps_keyed
      | preserve_step ].
  - intros id comment isApproved_ userId.
    unfold EstimationController.approveEstimation, EstimationController.update_project_of,
      Estimation.findById, Comment.create.
    repeat first
      [ apply save_keeps_keyed
      | apply project_update_keeps_keyed
      | elsewhere_step
      | preserve_step ].
  - intros id comment isChecked_ userId.
    unfold EstimationController.markAsChecked, EstimationController.update_project_of,
      Estimation.findById, Project.findById, User.find_role, User.findById,
      Comment.create, console_error_log.
    repeat first
      [ apply save_keeps_keyed
      | apply project_update_keeps_keyed
      | apply send_all_keeps_keyed
      | elsewhere_step
      | preserve_step ].
  - intros id updateData.
    unfold EstimationController.updateEstimation, Estimation.findById.
    repeat first [ apply save_keeps_keyed | preserve_step ].
  - intros id.
    unfold EstimationController.deleteEstimation, Estimation.findById,
      Estimation.findByIdAndDelete.
    repeat first
      [ apply preserves_write; intros w; apply keyed_delete
      | preserve_step ].
  - intros req.
    unfold QuotationController.createQuotation, Quotation.findOne, Estimation.findOne,
      QuotationController.generateQuotationNumber, Quotation.countDocuments.
    repeat first
      [ apply project_update_keeps_keyed
      | apply fresh_oid_keeps_keyed; intro
      | elsewhere_step
      | preserve_step ].
Qed.

(** The sample world is keyed. *)
Fact sample_keyed :
  estimations_keyed (Sample.estimated "estimation_prepared" false false).
Proof.
  split; [split|].
  - repeat constructor. intros [].
  - intros e n [<-|[]] _. discriminate.
  - intros projectId. unfold estimations_for.
    cbn [estimations Sample.estimated with_estimations filter].
    destruct (EstimationModel.same_opt _ _); cbn [List.length]; lia.
Qed.

(** C6, as amended.  [createEstimation] for a project that already has an
    estimation fails with a 400 error and writes nothing, so the existing
    estimation is untouched; when the required members of the body are
    truthy (a project identifier that is not empty, three dates and a
    payment term that are numbers other than 0) the message is "Only one
    estimation is allowed per project. Update the existing estimation
    instead.", and a body that lacks a required member, or holds a falsy
    one, is answered with "Required fields are missing" before any
    estimation is looked up.  And whatever the body, [createEstimation]
    keeps every project at no more than one estimation; under the unique
    index on [project] so does every other handler, the collection handing
    out identifiers it has not handed out before. *)
Theorem one_estimation_per_project :
  forall (ext : Collaborators) (w : World)
         (body : EstimationController.CreateEstimationBody) (userId : option ObjectId),
    (forall projectId existing,
        EstimationController.body_project body = Some projectId ->
        estimation_of projectId w = Some existing ->
        exists msg,
          EstimationController.createEstimation ext body userId w
          = (Rejected (ApiError 400 msg), w)
          /\ (forall workStart workEnd valid due,
                projectId <> "" ->
                EstimationController.body_workStartDate body = Some workStart ->
                EstimationController.body_workEndDate body = Some workEnd ->
                EstimationController.body_validUntil body = Some valid ->
                EstimationController.body_paymentDueBy body = Some due ->
                workStart <> 0%Z -> workEnd <> 0%Z -> valid <> 0%Z ->
                JS.truthy_number due = true ->
                msg = "Only one estimation is allowed per project. Update the existing estimation instead."))
    /\ (missing_required_member body ->
        EstimationController.createEstimation ext body userId w
        = (Rejected (ApiError 400 "Required fields are missing"), w))
    /\ ((forall projectId, (List.length (estimations_for projectId w) <= 1)%nat) ->
        forall projectId,
          (List.length
             (estimations_for projectId
                (snd (EstimationController.createEstimation ext body userId w))) <= 1)%nat)
    /\ kept_by_every_handler ext estimations_keyed.
Proof.
  intros ext w body userId. split; [|split; [|split]].
  - intros projectId existing Hp He.
    eapply createEstimation_duplicate; eauto.
  - apply createEstimation_missing_member.
  - apply createEstimation_keeps_at_most_one.
  - apply handlers_keep_keyed.
Qed.

Lemma one_estimation_per_project_witness :
  exists msg,
    EstimationController.createEstimation Sample.ext Sample.creation_body
      (Some Sample.uid) (Sample.estimated "estimation_prepared" false false)
    = (Rejected (ApiError 400 msg), Sample.estimated "estimation_prepared" false false)
    /\ msg = "Only one estimation is allowed per project. Update the existing estimation instead.".
Proof.
  destruct (one_estimation_per_project Sample.ext
              (Sample.estimated "estimation_prepared" false false)
              Sample.creation_body (Some Sample.uid)) as [H _].
  destruct (H Sample.pid (Sample.estimation_in false false) eq_refl eq_refl)
    as (msg & Hrun & Hmsg).
  exists msg. split; [exact Hrun|].
  apply (Hmsg 100%Z 200%Z 300%Z (JS.num 30)); try reflexivity; discriminate.
Defined.

(** C6 as stated fails: the message of the 400 error does not contain
    "already has". *)
Lemma duplicate_estimation_message :
  exists msg,
    EstimationController.createEstimation Sample.ext Sample.creation_body
      (Some Sample.uid) (Sample.estimated "estimation_prepared" false false)
    = (Rejected (ApiError 400 msg), Sample.estimated "estimation_prepared" false false)
    /\ JS.str_includes "already has" msg = false.
Proof.
  exists "Only one estimation is allowed per project. Update the existing estimation instead.".
  split; reflexivity.
Qed.

(** ** Totals of a quotation (C7) *)

Lemma subtotal_of_sum items :
  QuotationController.subtotal_of items
  = sum (map QuotationController.item_totalPrice items).
Proof.
  unfold QuotationController.subtotal_of, sum.
  generalize (JS.num 0).
  induction items as [|x l IH]; intros a; simpl; [reflexivity|apply IH].
Qed.

Lemma processItem_line ext fs i index x :
  QuotationController.processItem ext fs i index = Resolved x ->
  quotation_line_of i x.
Proof.
  unfold QuotationController.processItem. intros Hx.
  destruct (find _ fs).
  - destruct (uploadItemImage ext f); [|discriminate].
    inversion Hx. repeat split.
  - inversion Hx. repeat split.
Qed.

Lemma processItems_lines ext fs items : forall index l,
  QuotationController.processItems ext fs index items = Resolved l ->
  Forall2 quotation_line_of items l.
Proof.
  induction items as [|i rest IH]; simpl; intros index l H.
  - inversion H. constructor.
  - destruct (QuotationController.processItem ext fs i index) as [x|] eqn:Hx;
      [|discriminate].
    destruct (QuotationController.processItems ext fs (S index) rest) as [l'|] eqn:Hl;
      [|discriminate].
    inversion H; subst l. constructor; [|eapply IH; eauto].
    eapply processItem_line; eauto.
Qed.

Lemma line_priced i x : quotation_line_of i x -> priced_quotation_item x.
Proof. intros (_ & Hq & Hu & Ht). do 2 eexists. eauto. Qed.

Lemma lines_priced items l :
  Forall2 quotation_line_of items l -> Forall priced_quotation_item l.
Proof.
  induction 1; constructor; eauto using line_priced.
Qed.

(** The item totals of stored lines are the products of the request. *)
Lemma lines_totals items l :
  Forall2 quotation_line_of items l ->
  map QuotationController.item_totalPrice l
  = map (fun i => (QuotationController.item_quantity i
                   * QuotationController.item_unitPrice i)%float) items.
Proof.
  induction 1 as [|i x items l (_ & _ & _ & Ht) _ IH]; simpl; [reflexivity|].
  rewrite IH. unfold QuotationController.item_totalPrice at 1. rewrite Ht.
  reflexivity.
Qed.

(** A successful [createQuotation]: what the stored quotation holds. *)
Lemma createQuotation_resolved ext req w r w' :
  QuotationController.createQuotation ext req w = (Resolved r, w') ->
  exists jsonData,
    QuotationController.body_data req = Some jsonData
    /\ statusCode r = 201%Z
    /\ In (data r) (quotations w')
    /\ QuotationModel.project (data r) = Some (QuotationController.data_project jsonData)
    /\ Forall2 quotation_line_of (requested_items jsonData) (QuotationModel.items (data r))
    /\ QuotationModel.vatPercentage (data r) = requested_vat jsonData
    /\ QuotationModel.subtotal (data r)
       = Some (sum (map QuotationController.item_totalPrice (QuotationModel.items (data r))))
    /\ QuotationModel.vatAmount (data r)
       = Some (sum (map QuotationController.item_totalPrice (QuotationModel.items (data r)))
               * (QuotationModel.vatPercentage (data r) / JS.num 100))%float
    /\ QuotationModel.total (data r)
       = Some (sum (map QuotationController.item_totalPrice (QuotationModel.items (data r)))
               + sum (map QuotationController.item_totalPrice (QuotationModel.items (data r)))
                 * (QuotationModel.vatPercentage (data r) / JS.num 100))%float.
Proof.
  intros H. unfold QuotationController.createQuotation in H.
  destruct (QuotationController.files req) as [fs|]; [|discriminate].
  destruct (QuotationController.body_data req) as [jsonData|]; [|discriminate].
  exists jsonData. split; [reflexivity|].
  unfold requested_items, requested_vat.
  destruct (QuotationController.data_items jsonData) as [|items_|]; [| |discriminate].
  all: unfold bind, throw_if, Quotation.findOne, Estimation.findOne, read in H.
  all: destruct (find _ (quotations w)); [discriminate|].
  all: cbn [JS.is_nullish negb] in H; unfold ret at 1 in H.
  all: unfold EstimationController.lift in H.
  all: match type of H with
       | context [QuotationController.processItems ?E ?F 0 ?its] =>
           destruct (QuotationController.processItems E F 0 its) as [l|] eqn:Hl;
           [|discriminate]
       end.
  all: unfold ret at 1 in H.
  all: unfold QuotationController.generateQuotationNumber, bind,
         Quotation.countDocuments, read, write in H.
  all: unfold ret at 1 in H; unfold Project.findByIdAndUpdate in H; cbn [andb] in H.
  all: unfold bind, Project.findById, read, write, ret in H.
  all: cbn [Project.unique_on_update ProjectModel.set_projectNumber ProjectModel.conflicting
         ProjectModel.set_progress ProjectModel.op_progress] in H.
  all: match type of H with context [find ?f (projects ?W)] =>
         destruct (find f (projects W)) end.
  all: inversion H; subst r w'.
  all: cbn [data statusCode QuotationModel.items QuotationModel.subtotal
            QuotationModel.vatAmount QuotationModel.total QuotationModel.vatPercentage
            QuotationModel.project
            quotations with_quotations with_next_oid with_projects].
  all: split; [reflexivity|].
  all: split; [apply in_or_app; right; left; reflexivity|].
  all: split; [reflexivity|].
  all: split; [exact (processItems_lines ext fs _ 0 l Hl)|].
  all: split; [reflexivity|].
  all: rewrite <- subtotal_of_sum; repeat split; reflexivity.
Qed.

(** The arithmetic is that of binary64, each operation rounded to the
    nearest number: three units at 0.1 are stored as the number next above
    0.3, and 0.1 + 0.2 + 0.3 summed from 0 in order as the number next
    above 0.6. *)
Fact quotation_totals_are_rounded :
  (JS.num 3 * (JS.num 1 / JS.num 10))%float <> (JS.num 3 / JS.num 10)%float
  /\ (exists x,
        QuotationController.processItem Sample.ext []
          (QuotationController.mkItemData None (JS.num 3) (JS.num 1 / JS.num 10)%float) 0
        = Resolved x
        /\ QuotationModel.totalPrice x = Some (JS.num 3 * (JS.num 1 / JS.num 10))%float
        /\ QuotationModel.totalPrice x <> Some (JS.num 3 / JS.num 10)%float)
  /\ sum [(JS.num 1 / JS.num 10); (JS.num 2 / JS.num 10); (JS.num 3 / JS.num 10)]%float
     <> (JS.num 6 / JS.num 10)%float.
Proof.
  assert (H3 : (JS.num 3 * (JS.num 1 / JS.num 10))%float <> (JS.num 3 / JS.num 10)%float).
  { intros H. apply (f_equal Prim2SF) in H. vm_compute in H. discriminate. }
  split; [exact H3|]. split.
  - eexists. split; [reflexivity|]. split; [reflexivity|].
    cbn [QuotationModel.totalPrice]. intros H. apply H3. exact (f_equal (fun o => match o with Some x => x | None => JS.num 0 end) H).
  - intros H. apply (f_equal Prim2SF) in H. vm_compute in H. discriminate.
Qed.

(** C7.  For every quotation [createQuotation] creates, the stored items
    are the lines of the request in their order, each with its description,
    quantity and unitPrice and with [totalPrice] = quantity x unitPrice; the
    stored VAT percentage is the requested one (5 when the request names
    none); the stored [subtotal] is the sum of the item [totalPrice] values,
    which is the sum of the products of the request, [vatAmount] is subtotal
    x (vatPercentage / 100) and [total] is subtotal + vatAmount, in the
    arithmetic of the code's numbers; items totalling 1000 with a VAT
    percentage of 5 give a VAT amount of 50 and a total of 1050. *)
Theorem quotation_totals_derived :
  (forall (ext : Collaborators) (req : QuotationController.Request) (w : World)
          (r : ApiResponse QuotationModel.IQuotation) (w' : World),
      QuotationController.createQuotation ext req w = (Resolved r, w') ->
      exists jsonData,
        QuotationController.body_data req = Some jsonData
        /\ In (data r) (quotations w')
        /\ QuotationModel.project (data r)
           = Some (QuotationController.data_project jsonData)
        /\ Forall2 quotation_line_of (requested_items jsonData)
             (QuotationModel.items (data r))
        /\ Forall priced_quotation_item (QuotationModel.items (data r))
        /\ QuotationModel.vatPercentage (data r) = requested_vat jsonData
        /\ exists subtotal_ vatAmount_,
             subtotal_ = sum (map QuotationController.item_totalPrice
                                  (QuotationModel.items (data r)))
             /\ subtotal_
                = sum (map (fun i => (QuotationController.item_quantity i
                                      * QuotationController.item_unitPrice i)%float)
                           (requested_items jsonData))
             /\ vatAmount_
                = (subtotal_ * (QuotationModel.vatPercentage (data r) / JS.num 100))%float
             /\ QuotationModel.subtotal (data r) = Some subtotal_
             /\ QuotationModel.vatAmount (data r) = Some vatAmount_
             /\ QuotationModel.total (data r) = Some (subtotal_ + vatAmount_)%float)
  /\ (forall items : list QuotationModel.Item,
         QuotationController.subtotal_of items = JS.num 1000 ->
         QuotationController.vatAmount_of (QuotationController.subtotal_of items) (JS.num 5)
         = JS.num 50
         /\ (QuotationController.subtotal_of items
             + QuotationController.vatAmount_of (QuotationController.subtotal_of items)
                 (JS.num 5))%float
            = JS.num 1050)
  /\ (exists r w',
         QuotationController.createQuotation Sample.ext Sample.quotation_request
           (Sample.world "estimation_prepared" 0) = (Resolved r, w')
         /\ QuotationModel.subtotal (data r) = Some (JS.num 1000)
         /\ QuotationModel.vatPercentage (data r) = JS.num 5
         /\ QuotationModel.vatAmount (data r) = Some (JS.num 50)
         /\ QuotationModel.total (data r) = Some (JS.num 1050)).
Proof.
  split; [|split].
  - intros ext req w r w' H.
    destruct (createQuotation_resolved ext req w r w' H)
      as (jsonData & Hbody & _ & Hin & Hproj & Hlines & Hvat & Hsub & Hva & Htot).
    exists jsonData. split; [exact Hbody|]. split; [exact Hin|].
    split; [exact Hproj|]. split; [exact Hlines|].
    split; [exact (lines_priced _ _ Hlines)|]. split; [exact Hvat|].
    do 2 eexists. split; [reflexivity|].
    split; [rewrite (lines_totals _ _ Hlines); reflexivity|].
    split; [reflexivity|].
    split; [exact Hsub|]. split; [exact Hva|exact Htot].
  - intros items H. rewrite H. unfold QuotationController.vatAmount_of.
    split; reflexivity.
  - do 2 eexists. split; [vm_compute; reflexivity|].
    cbn [data QuotationModel.subtotal QuotationModel.vatPercentage
         QuotationModel.vatAmount QuotationModel.total].
    repeat split; reflexivity.
Qed.

Lemma quotation_totals_derived_witness :
  exists r w',
    QuotationController.createQuotation Sample.ext Sample.quotation_request
      (Sample.world "estimation_prepared" 0) = (Resolved r, w')
    /\ In (data r) (quotations w')
    /\ Forall2 quotation_line_of
         [QuotationController.mkItemData (Some "Wiring") (JS.num 10) (JS.num 100)]
         (QuotationModel.items (data r))
    /\ QuotationModel.total (data r) = Some (JS.num 1050).
Proof.
  destruct quotation_totals_derived as [H _].
  destruct (QuotationController.createQuotation Sample.ext Sample.quotation_request
              (Sample.world "estimation_prepared" 0)) as [o w'] eqn:Hrun.
  destruct o as [r|e]; [|vm_compute in Hrun; discriminate].
  exists r, w'. split; [reflexivity|].
  destruct (H Sample.ext Sample.quotation_request (Sample.world "estimation_prepared" 0)
              r w' Hrun)
    as (jsonData & Hbody & Hin & _ & Hlines & _ & Hvat & s_ & v_ & Hs & Hs' & Hv & _ & _ & Ht).
  inversion Hbody; subst jsonData.
  split; [exact Hin|]. split; [exact Hlines|].
  rewrite Ht, Hv, Hvat, Hs'. reflexivity.
Defined.
(** * Further properties of the handlers *)

(** ** The [pre("save")] hook and [save] *)

Lemma replace_idempotent e l :
  Estimation.replace e (Estimation.replace e l) = Estimation.replace e l.
Proof.
  unfold Estimation.replace. rewrite map_map. apply map_ext. intros d.
  destruct (EstimationModel._id d =? EstimationModel._id e) eqn:E.
  - rewrite String.eqb_refl. reflexivity.
  - rewrite E. reflexivity.
Qed.

Lemma pre_save_twice e :
  EstimationModel.pre_save (EstimationModel.pre_save e) = EstimationModel.pre_save e.
Proof.
  unfold EstimationModel.pre_save.
  cbn [EstimationModel._id EstimationModel.project EstimationModel.estimationNumber
       EstimationModel.workStartDate EstimationModel.workEndDate
       EstimationModel.validUntil EstimationModel.paymentDueBy EstimationModel.subject
       EstimationModel.materials EstimationModel.labour
       EstimationModel.termsAndConditions EstimationModel.estimatedAmount
       EstimationModel.quotationAmount EstimationModel.commissionAmount
       EstimationModel.profit EstimationModel.preparedBy EstimationModel.checkedBy
       EstimationModel.approvedBy EstimationModel.isChecked EstimationModel.isApproved
       EstimationModel.approvalComment].
  f_equal.
  destruct (EstimationModel.quotationAmount e) as [q|]; [|reflexivity].
  destruct (JS.truthy_number q); reflexivity.
Qed.

Lemma find_replace_self e l :
  find (fun d => EstimationModel._id d =? EstimationModel._id e) (Estimation.replace e l)
  = match find (fun d => EstimationModel._id d =? EstimationModel._id e) l with
    | Some _ => Some e
    | None => None
    end.
Proof.
  induction l as [|d l IH]; [reflexivity|]. cbn [Estimation.replace map find].
  destruct (EstimationModel._id d =? EstimationModel._id e) eqn:E.
  - rewrite String.eqb_refl. reflexivity.
  - rewrite E. exact IH.
Qed.

(** X1.  [save] is idempotent: saving again the document a successful
    [save] has returned succeeds, returns the same document and leaves the
    collection as the first [save] left it; in particular the hook applied
    to its own result changes nothing. *)
Theorem save_again_changes_nothing :
  forall (e saved : EstimationModel.IEstimation) (w w' : World),
    Estimation.save e w = (Resolved saved, w') ->
    Estimation.save saved w' = (Resolved saved, w')
    /\ EstimationModel.pre_save saved = saved.
Proof.
  intros e saved w w' H.
  destruct (save_resolved e w saved w' H) as (Hs & Hw & Hv).
  subst saved. split; [|apply pre_save_twice].
  unfold Estimation.save.
  rewrite (pre_save_validate e Hv), pre_save_twice.
  unfold bind, read, write, ret. rewrite Hw.
  cbn [estimations with_estimations projects quotations lpos clients users comments
       console_error next_oid].
  unfold EstimationModel.unique_on_write.
  rewrite find_replace_self.
  destruct (find _ (estimations w));
    [rewrite same_opt_refl, String.eqb_refl; cbn [orb andb]|];
    cbn [estimations with_estimations];
    rewrite replace_idempotent; reflexivity.
Qed.

Lemma save_again_changes_nothing_witness :
  exists saved w',
    Estimation.save (Sample.estimation_in false false)
      (Sample.estimated "estimation_prepared" false false) = (Resolved saved, w')
    /\ Estimation.save saved w' = (Resolved saved, w').
Proof.
  exists (EstimationModel.pre_save (Sample.estimation_in false false)).
  eexists. split; [reflexivity|].
  apply (save_again_changes_nothing (Sample.estimation_in false false) _
           (Sample.estimated "estimation_prepared" false false) _ eq_refl).
Defined.

Lemma check_items_rejected msg items e :
  EstimationController.check_items msg items = Rejected e -> e = ApiError 400 msg.
Proof.
  induction items as [|i rest IH]; cbn [EstimationController.check_items];
    [discriminate|].
  destruct (ItemInput.quantity i), (ItemInput.unitPrice i);
    try (intros H; inversion H; reflexivity).
  destruct (_ || _); [intros H; inversion H; reflexivity|].
  destruct (EstimationController.check_items msg rest); [discriminate|].
  intros H. inversion H; subst. apply IH. reflexivity.
Qed.

Lemma check_labour_rejected msg items e :
  EstimationController.check_labour msg items = Rejected e -> e = ApiError 400 msg.
Proof.
  induction items as [|i rest IH]; cbn [EstimationController.check_labour];
    [discriminate|].
  destruct (LabourItem.days i), (LabourItem.price i);
    try (intros H; inversion H; reflexivity).
  destruct (negb _); [intros H; inversion H; reflexivity|].
  destruct (EstimationController.check_labour msg rest); [discriminate|].
  intros H. inversion H; subst. apply IH. reflexivity.
Qed.

(** ** Creating an estimation *)

(** A successful [createEstimation]: the worlds before and after. *)
Lemma createEstimation_shape ext body userId w r w' :
  EstimationController.createEstimation ext body userId w = (Resolved r, w') ->
  exists projectId,
    EstimationController.body_project body = Some projectId
    /\ estimation_of projectId w = None
    /\ EstimationModel.project (data r) = Some projectId
    /\ EstimationModel.isChecked (data r) = false
    /\ EstimationModel.isApproved (data r) = false
    /\ estimations w' = (estimations w ++ [data r])%list
    /\ projects w'
       = match stored_project projectId w with
         | Some p =>
             Project.replace (ProjectModel.with_status "estimation_prepared" p) (projects w)
         | None => projects w
         end
    /\ quotations w' = quotations w
    /\ lpos w' = lpos w
    /\ clients w' = clients w
    /\ users w' = users w
    /\ comments w' = comments w.
Proof.
  intros H. unfold EstimationController.createEstimation in H.
  destruct (EstimationController.body_project body) as [projectId|]; [|discriminate].
  destruct (EstimationController.body_workStartDate body) as [ws|]; [|discriminate].
  destruct (EstimationController.body_workEndDate body) as [we|]; [|discriminate].
  destruct (EstimationController.body_validUntil body) as [vu|]; [|discriminate].
  destruct (EstimationController.body_paymentDueBy body) as [due|]; [|discriminate].
  unfold bind, throw_if in H.
  destruct (negb (JS.truthy_string projectId) || _ || _ || _
            || negb (JS.truthy_number due));
    [discriminate|].
  unfold ret at 1 in H. unfold Estimation.findOne, read in H.
  destruct (find _ (estimations w)) eqn:Hfind; [discriminate|].
  unfold EstimationController.lift in H.
  destruct (EstimationController.check_items _ (EstimationController.or_nil
              (EstimationController.body_materials body))) as [ms|]; [|discriminate].
  unfold ret at 1 in H.
  destruct (EstimationController.check_labour _ _) as [ls|]; [|discriminate].
  unfold ret at 1 in H.
  destruct (EstimationController.check_items _ (EstimationController.or_nil
              (EstimationController.body_termsAndConditions body))) as [ts|];
    [|discriminate].
  unfold ret at 1 in H.
  destruct (_ && _ && _); [discriminate|].
  unfold ret at 1 in H. unfold Estimation.create, bind, read, write in H.
  match type of H with context [EstimationModel.validate ?d] => set (doc := d) in H end.
  destruct (EstimationModel.validate doc); [|discriminate].
  cbn [estimations with_next_oid] in H.
  destruct (EstimationModel.unique_on_insert (estimations w) (EstimationModel.pre_save doc));
    [|discriminate].
  unfold ret at 1 in H. unfold Project.findByIdAndUpdate in H. cbn [andb] in H.
  unfold bind, Project.findById, read, write, ret in H.
  cbn [Project.unique_on_update ProjectModel.set_projectNumber ProjectModel.conflicting
         ProjectModel.set_progress ProjectModel.op_progress] in H.
  cbn [projects with_estimations with_next_oid] in H.
  exists projectId. split; [reflexivity|]. split; [exact Hfind|].
  unfold stored_project.
  destruct (find _ (projects w)); inversion H; subst r w'; cbn; auto 12.
Qed.

Lemma table_targets_estimation_prepared from :
  ProjectController.isTransitionAllowed from "estimation_prepared" = true ->
  from = "draft".
Proof.
  unfold ProjectController.isTransitionAllowed.
  unfold ProjectController.validStatusTransitions, ProjectController.own_property.
  repeat match goal with
         | |- context [if (?k =? from) then _ else _] =>
             destruct (String.eqb_spec k from);
             [subst; cbn; intros; try reflexivity; discriminate|]
         end.
  discriminate.
Qed.

(** X2.  [createEstimation] moves the project to [estimation_prepared]
    whatever its status was, although the table lists that target for
    [draft] alone; and it does not look the project up: for a project that
    is not stored the estimation is created all the same and no project is
    touched. *)
Theorem createEstimation_sets_status :
  forall (ext : Collaborators) (body : EstimationController.CreateEstimationBody)
         (userId : option ObjectId) (w : World)
         (r : ApiResponse EstimationModel.IEstimation) (w' : World)
         (projectId : ObjectId),
    EstimationController.createEstimation ext body userId w = (Resolved r, w') ->
    EstimationController.body_project body = Some projectId ->
    In (data r) (estimations w')
    /\ EstimationModel.project (data r) = Some projectId
    /\ (forall p, stored_project projectId w = Some p ->
          stored_status projectId w' = Some "estimation_prepared"
          /\ (ProjectModel.status p <> "draft" ->
              ProjectController.isTransitionAllowed (ProjectModel.status p)
                "estimation_prepared" = false))
    /\ (stored_project projectId w = None -> projects w' = projects w).
Proof.
  intros ext body userId w r w' projectId H Hp.
  destruct (createEstimation_shape ext body userId w r w' H)
    as (pid & Hp' & _ & Hproj & _ & _ & Hest & Hprojects & _).
  rewrite Hp in Hp'. inversion Hp'; subst pid.
  split; [rewrite Hest; apply in_or_app; right; apply in_eq|].
  split; [exact Hproj|]. split.
  - intros p Hs. rewrite Hs in Hprojects. split.
    + unfold stored_status, stored_project. rewrite Hprojects.
      unfold stored_project in Hs.
      rewrite (project_find_replace projectId (projects w) p
                 (ProjectModel.with_status "estimation_prepared" p) Hs).
      * reflexivity.
      * cbn. eapply project_find_id; eauto.
    + intros Hne. destruct (ProjectController.isTransitionAllowed _ _) eqn:E;
        [|reflexivity].
      apply table_targets_estimation_prepared in E. contradiction.
  - intros Hs. rewrite Hs in Hprojects. exact Hprojects.
Qed.

Lemma createEstimation_sets_status_witness :
  exists r w',
    EstimationController.createEstimation Sample.ext Sample.creation_body
      (Some Sample.uid) (Sample.world "cancelled" 0) = (Resolved r, w')
    /\ stored_status Sample.pid w' = Some "estimation_prepared".
Proof.
  do 2 eexists. split; [reflexivity|].
  eapply (createEstimation_sets_status Sample.ext Sample.creation_body
            (Some Sample.uid) (Sample.world "cancelled" 0) _ _ Sample.pid
            eq_refl eq_refl).
  reflexivity.
Defined.

(** X3.  A refusal of [createEstimation] writes nothing: whenever the
    handler rejects with an [ApiError] the status is 400 and the world is
    the one it started from; a body whose required members are truthy (a
    project identifier that is not empty, three dates and a payment term
    that are numbers other than 0) and that has no line at all, for a
    project without estimation, is refused with "At least one item
    (materials, labour, or terms) is required"; a body with a date of 0 is
    refused with "Required fields are missing" whatever else it holds. *)
Theorem createEstimation_refusal_writes_nothing :
  forall (ext : Collaborators) (body : EstimationController.CreateEstimationBody)
         (userId : option ObjectId) (w : World),
    (forall code msg w',
        EstimationController.createEstimation ext body userId w
        = (Rejected (ApiError code msg), w') ->
        code = 400%Z /\ w' = w)
    /\ (forall projectId workStart workEnd valid due,
          EstimationController.body_project body = Some projectId ->
          EstimationController.body_workStartDate body = Some workStart ->
          EstimationController.body_workEndDate body = Some workEnd ->
          EstimationController.body_validUntil body = Some valid ->
          EstimationController.body_paymentDueBy body = Some due ->
          projectId <> "" ->
          workStart <> 0%Z -> workEnd <> 0%Z -> valid <> 0%Z ->
          JS.truthy_number due = true ->
          estimation_of projectId w = None ->
          EstimationController.or_nil (EstimationController.body_materials body) = [] ->
          EstimationController.or_nil (EstimationController.body_labour body) = [] ->
          EstimationController.or_nil (EstimationController.body_termsAndConditions body)
          = [] ->
          EstimationController.createEstimation ext body userId w
          = (Rejected (ApiError 400
                         "At least one item (materials, labour, or terms) is required"),
             w))
    /\ (EstimationController.body_workStartDate body = Some 0%Z
        \/ EstimationController.body_workEndDate body = Some 0%Z
        \/ EstimationController.body_validUntil body = Some 0%Z ->
        EstimationController.createEstimation ext body userId w
        = (Rejected (ApiError 400 "Required fields are missing"), w)).
Proof.
  intros ext body userId w. split; [|split].
  - intros code msg w' H. unfold EstimationController.createEstimation in H.
    destruct (EstimationController.body_project body) as [projectId|];
      [|inversion H; auto].
    destruct (EstimationController.body_workStartDate body) as [ws|];
      [|inversion H; auto].
    destruct (EstimationController.body_workEndDate body) as [we|];
      [|inversion H; auto].
    destruct (EstimationController.body_validUntil body) as [vu|];
      [|inversion H; auto].
    destruct (EstimationController.body_paymentDueBy body) as [due|];
      [|inversion H; auto].
    unfold bind, throw_if in H.
    destruct (negb (JS.truthy_string projectId) || _ || _ || _
            || negb (JS.truthy_number due));
      [inversion H; auto|].
    unfold ret at 1 in H. unfold Estimation.findOne, read in H.
    destruct (find _ (estimations w)); [inversion H; auto|].
    unfold EstimationController.lift in H.
    destruct (EstimationController.check_items _ (EstimationController.or_nil
                (EstimationController.body_materials body))) as [ms|e1] eqn:Hms.
    2:{ apply check_items_rejected in Hms. subst e1. inversion H; auto. }
    unfold ret at 1 in H.
    destruct (EstimationController.check_labour _ _) as [ls|e2] eqn:Hls.
    2:{ apply check_labour_rejected in Hls. subst e2. inversion H; auto. }
    unfold ret at 1 in H.
    destruct (EstimationController.check_items _ (EstimationController.or_nil
                (EstimationController.body_termsAndConditions body))) as [ts|e3] eqn:Hts.
    2:{ apply check_items_rejected in Hts. subst e3. inversion H; auto. }
    unfold ret at 1 in H.
    destruct (_ && _ && _); [inversion H; auto|].
    unfold ret at 1 in H. unfold Estimation.create, bind, read, write in H.
    match type of H with context [EstimationModel.validate ?d] => set (doc := d) in H end.
    destruct (EstimationModel.validate doc); [|discriminate].
    cbn [estimations with_next_oid] in H.
    destruct (EstimationModel.unique_on_insert (estimations w)
                (EstimationModel.pre_save doc)); [|discriminate].
    unfold ret at 1 in H. unfold Project.findByIdAndUpdate in H. cbn [andb] in H.
    unfold bind, Project.findById, read, write, ret in H.
    cbn [Project.unique_on_update ProjectModel.set_projectNumber ProjectModel.conflicting
         ProjectModel.set_progress ProjectModel.op_progress] in H.
    match type of H with context [find ?f (projects ?W)] =>
      destruct (find f (projects W)) end; discriminate.
  - intros projectId ws we vu due Hp Hws Hwe Hvu Hdue Hid Hs0 He0 Hv0 Hnz Hnone Hm Hl Ht.
    unfold EstimationController.createEstimation.
    rewrite Hp, Hws, Hwe, Hvu, Hdue, Hm, Hl, Ht.
    unfold bind, throw_if.
    rewrite (required_members_present _ _ _ _ _ Hid Hs0 He0 Hv0 Hnz).
    unfold ret at 1. unfold Estimation.findOne, read.
    unfold estimation_of in Hnone. rewrite Hnone. reflexivity.
  - intros Hzero. unfold EstimationController.createEstimation.
    destruct (EstimationController.body_project body) as [projectId|]; [|reflexivity].
    destruct (EstimationController.body_workStartDate body) as [ws|]; [|reflexivity].
    destruct (EstimationController.body_workEndDate body) as [we|]; [|reflexivity].
    destruct (EstimationController.body_validUntil body) as [vu|]; [|reflexivity].
    destruct (EstimationController.body_paymentDueBy body) as [due|]; [|reflexivity].
    unfold bind, throw_if.
    assert (Hguard : negb (JS.truthy_string projectId)
                     || (ws =? 0)%Z || (we =? 0)%Z || (vu =? 0)%Z
                     || negb (JS.truthy_number due) = true).
    { destruct Hzero as [H|[H|H]]; inversion H; subst;
        cbn [Z.eqb]; rewrite ?orb_true_r; reflexivity. }
    rewrite Hguard. reflexivity.
Qed.

Lemma createEstimation_refusal_writes_nothing_witness :
  EstimationController.createEstimation Sample.ext
    (EstimationController.mkCreateBody (Some Sample.pid) (Some 100%Z) (Some 200%Z)
       (Some 300%Z) (Some (JS.num 30)) None (Some []) None None None None)
    (Some Sample.uid) (Sample.world "draft" 0)
  = (Rejected (ApiError 400
                 "At least one item (materials, labour, or terms) is required"),
     Sample.world "draft" 0).
Proof.
  destruct (createEstimation_refusal_writes_nothing Sample.ext
              (EstimationController.mkCreateBody (Some Sample.pid) (Some 100%Z)
                 (Some 200%Z) (Some 300%Z) (Some (JS.num 30)) None (Some []) None
                 None None None)
              (Some Sample.uid) (Sample.world "draft" 0)) as (_ & H & _).
  apply (H Sample.pid 100%Z 200%Z 300%Z (JS.num 30));
    try reflexivity; discriminate.
Defined.

(** ** Approving and rejecting an estimation *)

(** [approveEstimation] on a checked estimation that passes its schema. *)
Lemma approveEstimation_runs w id e pid p userId comment approve :
  userId <> "" ->
  stored_estimation id w = Some e ->
  EstimationModel.isChecked e = true ->
  EstimationModel.isApproved e && approve = false ->
  EstimationModel.validate e = true ->
  EstimationModel.project e = Some pid ->
  stored_project pid w = Some p ->
  let verdict := if approve then "quotation_approved" else "quotation_rejected" in
  let entry :=
    CommentModel.mkComment
      (CommentModel.Text
         (JS.or_else JS.truthy_string comment
            ("Estimation " ++ (if approve then "approved" else "rejected"))))
      (Some userId) (Some pid) (if approve then "approval" else "rejection") None in
  exists r w',
    EstimationController.approveEstimation id comment (Some approve) (Some userId) w
    = (Resolved r, w')
    /\ statusCode r = 200%Z
    /\ stored_estimation id w' = Some (data r)
    /\ EstimationModel.isApproved (data r) = approve
    /\ EstimationModel.approvedBy (data r) = (if approve then Some userId else None)
    /\ stored_project pid w'
       = Some (ProjectModel.apply_update
                 (ProjectModel.mkUpdate (Some verdict) None (Some userId)) p)
    /\ comments w' = (comments w ++ [entry])%list
    /\ users w' = users w.
Proof.
  intros Hu Hf Hc Ha Hv Hp Hfp verdict entry.
  unfold EstimationController.approveEstimation, bind, throw_if.
  apply truthy_string_true in Hu. rewrite Hu. cbn [negb]. unfold ret at 1.
  unfold Estimation.findById, read.
  pose proof Hf as Hf'. unfold stored_estimation in Hf'. rewrite Hf', Hc, Ha.
  cbn [negb]. unfold ret at 1. unfold ret at 1.
  unfold Comment.create, write. rewrite Hp. fold entry.
  set (w1 := with_comments _ w).
  match goal with |- context [Estimation.save ?d w1] => set (doc := d) end.
  assert (Hid : EstimationModel._id doc = id)
    by (unfold doc; simpl; eapply estimation_find_id; eauto).
  assert (Hf1 : stored_estimation (EstimationModel._id doc) w1 = Some e)
    by (rewrite Hid; exact Hf).
  destruct (estimation_save_ok w1 doc e Hf1 Hv eq_refl eq_refl) as [Hrun Hst].
  rewrite Hrun. rewrite Hid in Hst.
  set (w2 := with_estimations _ w1) in *.
  unfold EstimationController.update_project_of, bind.
  assert (Hfp2 : stored_project pid w2 = Some p) by exact Hfp.
  match goal with
  | |- context [Project.findByIdAndUpdate pid ?u false w2] =>
      destruct (findByIdAndUpdate_found pid u false w2 p Hfp2 eq_refl eq_refl eq_refl) as [Hupd Hstp];
      rewrite Hupd
  end.
  unfold ret. do 2 eexists. split; [reflexivity|]. split; [reflexivity|].
  cbn [data]. split.
  { unfold stored_estimation in *. cbn [estimations with_projects]. exact Hst. }
  split; [reflexivity|]. split; [reflexivity|]. split; [exact Hstp|].
  split; reflexivity.
Qed.

(** X4.  Rejecting through [approveEstimation]: on a checked estimation,
    approved or not, [isApproved = false] answers 200, stores
    [isApproved = false] with no approver, logs one [rejection] comment for
    the project and leaves the project in [quotation_rejected], a status the
    schema of the project does not list. *)
Theorem rejection_withdraws_approval :
  forall (w : World) (id : ObjectId) (e : EstimationModel.IEstimation)
         (pid : ObjectId) (p : ProjectModel.IProject) (userId : ObjectId)
         (comment : option string),
    userId <> "" ->
    stored_estimation id w = Some e ->
    EstimationModel.isChecked e = true ->
    EstimationModel.validate e = true ->
    EstimationModel.project e = Some pid ->
    stored_project pid w = Some p ->
    exists r w',
      EstimationController.approveEstimation id comment (Some false) (Some userId) w
      = (Resolved r, w')
      /\ statusCode r = 200%Z
      /\ option_map EstimationModel.isApproved (stored_estimation id w') = Some false
      /\ option_map EstimationModel.approvedBy (stored_estimation id w') = Some None
      /\ stored_status pid w' = Some "quotation_rejected"
      /\ ProjectModel.valid_status "quotation_rejected" = false
      /\ comments w'
         = (comments w
            ++ [CommentModel.mkComment
                  (CommentModel.Text
                     (JS.or_else JS.truthy_string comment "Estimation rejected"))
                  (Some userId) (Some pid) "rejection" None])%list.
Proof.
  intros w id e pid p userId comment Hu Hf Hc Hv Hp Hfp.
  destruct (approveEstimation_runs w id e pid p userId comment false
              Hu Hf Hc (andb_false_r _) Hv Hp Hfp)
    as (r & w' & Hrun & Hcode & Hst & Ha & Hby & Hproj & Hcom & _).
  exists r, w'. split; [exact Hrun|]. split; [exact Hcode|].
  rewrite Hst. cbn [option_map]. rewrite Ha, Hby.
  split; [reflexivity|]. split; [reflexivity|].
  split; [unfold stored_status; rewrite Hproj; reflexivity|].
  split; [reflexivity|exact Hcom].
Qed.

Lemma rejection_withdraws_approval_witness :
  exists r w',
    EstimationController.approveEstimation Sample.eid None (Some false)
      (Some Sample.admin_id) (Sample.estimated "quotation_approved" true true)
    = (Resolved r, w')
    /\ option_map EstimationModel.isApproved (stored_estimation Sample.eid w')
       = Some false
    /\ stored_status Sample.pid w' = Some "quotation_rejected".
Proof.
  destruct (rejection_withdraws_approval
              (Sample.estimated "quotation_approved" true true) Sample.eid
              (Sample.estimation_in true true) Sample.pid
              (Sample.project_in "quotation_approved" 0) Sample.admin_id None)
    as (r & w' & Hrun & _ & Ha & _ & Hs & _);
    try reflexivity; try discriminate.
  exists r, w'. auto.
Defined.

(** ** A status outside the schema *)

Lemma invalid_status_fails_validation p :
  ProjectModel.valid_status (ProjectModel.status p) = false ->
  ProjectModel.validate p = false.
Proof.
  intros H. unfold ProjectModel.validate. rewrite H.
  rewrite andb_false_r. reflexivity.
Qed.

Lemma invalid_status_not_advanced p :
  ProjectModel.valid_status (ProjectModel.status p) = false ->
  ProjectController.advance_work_started (ProjectController.advance_lpo_received p) = p.
Proof.
  intros H.
  assert (H1 : (ProjectModel.status p =? "lpo_received") = false).
  { destruct (String.eqb_spec (ProjectModel.status p) "lpo_received") as [E|];
      [rewrite E in H; discriminate|reflexivity]. }
  assert (H2 : (ProjectModel.status p =? "work_started") = false).
  { destruct (String.eqb_spec (ProjectModel.status p) "work_started") as [E|];
      [rewrite E in H; discriminate|reflexivity]. }
  unfold ProjectController.advance_lpo_received. rewrite H1, andb_false_r.
  unfold ProjectController.advance_work_started. rewrite H2, andb_false_r.
  reflexivity.
Qed.

(** A project whose stored status the schema does not list can no longer
    be saved. *)
Lemma outside_enum_stuck ext w id p :
  stored_project id w = Some p ->
  ProjectModel.valid_status (ProjectModel.status p) = false ->
  (forall engineerId engineer,
      id <> "" -> engineerId <> "" ->
      stored_user engineerId w = Some engineer ->
      ProjectController.assignProject ext id (Some engineerId) w
      = (Rejected (ValidationError "Project"), w))
  /\ (forall x comment userId,
        ProjectController.out_of_range x = false ->
        ProjectController.updateProjectProgress id (Some x) comment userId w
        = (Rejected (ValidationError "Project"), w)).
Proof.
  intros Hs Hbad. pose proof Hs as Hs'. unfold stored_project in Hs'. split.
  - intros engineerId engineer Hid He Hu.
    unfold ProjectController.assignProject, bind, throw_if.
    apply truthy_string_true in Hid. apply truthy_string_true in He.
    rewrite Hid, He. cbn [negb orb]. unfold ret at 1.
    unfold Project.findById, read. rewrite Hs'.
    unfold User.findById, read. unfold stored_user in Hu. rewrite Hu.
    unfold Project.save. rewrite with_assignedTo_validate.
    rewrite (invalid_status_fails_validation p Hbad). reflexivity.
  - intros x comment userId Hx.
    unfold ProjectController.updateProjectProgress, bind, throw_if.
    rewrite Hx. unfold ret at 1. unfold Project.findById, read. rewrite Hs'.
    rewrite (invalid_status_not_advanced p Hbad).
    unfold Project.save. rewrite (invalid_status_fails_validation p Hbad).
    reflexivity.
Qed.

(** X5.  Once [approveEstimation] has answered, the project of the
    estimation is in [quotation_approved] or [quotation_rejected], which the
    schema of the project does not list; from then on [assignProject] and
    [updateProjectProgress], which save the whole document, reject with a
    validation error and write nothing. *)
Theorem approved_project_cannot_be_saved :
  forall (ext : Collaborators) (w : World) (id : ObjectId)
         (e : EstimationModel.IEstimation) (pid : ObjectId)
         (p : ProjectModel.IProject) (userId : ObjectId) (comment : option string)
         (approve : bool),
    userId <> "" ->
    stored_estimation id w = Some e ->
    EstimationModel.isChecked e = true ->
    EstimationModel.isApproved e && approve = false ->
    EstimationModel.validate e = true ->
    EstimationModel.project e = Some pid ->
    stored_project pid w = Some p ->
    exists r w',
      EstimationController.approveEstimation id comment (Some approve) (Some userId) w
      = (Resolved r, w')
      /\ stored_status pid w'
         = Some (if approve then "quotation_approved" else "quotation_rejected")
      /\ (forall engineerId engineer,
             pid <> "" -> engineerId <> "" ->
             stored_user engineerId w = Some engineer ->
             ProjectController.assignProject ext pid (Some engineerId) w'
             = (Rejected (ValidationError "Project"), w'))
      /\ (forall x note by_,
             ProjectController.out_of_range x = false ->
             ProjectController.updateProjectProgress pid (Some x) note by_ w'
             = (Rejected (ValidationError "Project"), w')).
Proof.
  intros ext w id e pid p userId comment approve Hu Hf Hc Ha Hv Hp Hfp.
  destruct (approveEstimation_runs w id e pid p userId comment approve
              Hu Hf Hc Ha Hv Hp Hfp)
    as (r & w' & Hrun & _ & _ & _ & _ & Hproj & _ & Husers).
  exists r, w'. split; [exact Hrun|].
  split; [unfold stored_status; rewrite Hproj; reflexivity|].
  assert (Hbad : ProjectModel.valid_status
                   (ProjectModel.status
                      (ProjectModel.apply_update
                         (ProjectModel.mkUpdate
                            (Some (if approve then "quotation_approved"
                                   else "quotation_rejected")) None (Some userId)) p))
                 = false)
    by (destruct approve; reflexivity).
  destruct (outside_enum_stuck ext w' pid _ Hproj Hbad) as [Hassign Hprogress].
  split.
  - intros engineerId engineer Hpid He Hsu. eapply Hassign; eauto.
    unfold stored_user in *. rewrite Husers. exact Hsu.
  - exact Hprogress.
Qed.

Lemma approved_project_cannot_be_saved_witness :
  exists r w',
    EstimationController.approveEstimation Sample.eid None (Some true)
      (Some Sample.admin_id) (Sample.estimated "estimation_prepared" true false)
    = (Resolved r, w')
    /\ stored_status Sample.pid w' = Some "quotation_approved"
    /\ ProjectController.assignProject Sample.ext Sample.pid (Some Sample.uid) w'
       = (Rejected (ValidationError "Project"), w').
Proof.
  destruct (approved_project_cannot_be_saved Sample.ext
              (Sample.estimated "estimation_prepared" true false) Sample.eid
              (Sample.estimation_in true false) Sample.pid
              (Sample.project_in "estimation_prepared" 0) Sample.admin_id None true)
    as (r & w' & Hrun & Hs & Hassign & _);
    try reflexivity; try discriminate.
  exists r, w'. split; [exact Hrun|]. split; [exact Hs|].
  apply (Hassign Sample.uid Sample.engineer); try reflexivity; discriminate.
Defined.

(** ** Editing and deleting an estimation *)

Lemma save_rejected e w err w' :
  Estimation.save e w = (Rejected err, w') -> w' = w.
Proof.
  unfold Estimation.save.
  destruct (EstimationModel.validate e); [|intros H; inversion H; reflexivity].
  unfold bind, read, write, ret.
  destruct (EstimationModel.unique_on_write _ _); [discriminate|].
  intros H. inversion H. reflexivity.
Qed.

(** X6.  [updateEstimation] cannot approve: whatever the body holds, a
    successful update stores the document of the response under the same
    identifier, still not approved and with the approver it had; and an
    update that is rejected, for whatever reason, writes nothing. *)
Theorem update_never_approves :
  forall (w : World) (id : ObjectId) (e : EstimationModel.IEstimation)
         (u : EstimationController.UpdateEstimationBody)
         (o : Outcome (ApiResponse EstimationModel.IEstimation)) (w' : World),
    stored_estimation id w = Some e ->
    EstimationController.updateEstimation id u w = (o, w') ->
    match o with
    | Resolved r =>
        stored_estimation id w' = Some (data r)
        /\ EstimationModel._id (data r) = id
        /\ EstimationModel.isApproved e = false
        /\ EstimationModel.isApproved (data r) = false
        /\ EstimationModel.approvedBy (data r) = EstimationModel.approvedBy e
    | Rejected _ => w' = w
    end.
Proof.
  intros w id e u o w' Hf H.
  pose proof (estimation_find_id _ _ _ Hf) as Hid.
  unfold EstimationController.updateEstimation, bind in H.
  unfold Estimation.findById, read in H.
  pose proof Hf as Hf'. unfold stored_estimation in Hf'. rewrite Hf' in H.
  unfold throw_if in H.
  destruct (EstimationModel.isApproved e) eqn:Ha; [inversion H; reflexivity|].
  unfold ret at 1 in H. unfold EstimationController.lift in H.
  destruct (EstimationController.retotal_opt _ (EstimationController.upd_materials u))
    as [ms|]; [|inversion H; reflexivity].
  unfold ret at 1 in H.
  destruct (EstimationController.retotal_opt _
              (EstimationController.upd_termsAndConditions u))
    as [ts|]; [|inversion H; reflexivity].
  unfold ret at 1 in H.
  match type of H with context [Estimation.save ?d w] => set (doc := d) in H end.
  assert (Hdoc : EstimationModel._id doc = id
                 /\ EstimationModel.isApproved doc = false
                 /\ EstimationModel.approvedBy doc = EstimationModel.approvedBy e).
  { unfold doc. destruct (EstimationModel.isChecked e); cbn; auto. }
  destruct Hdoc as (Hdid & Hda & Hdb).
  destruct (Estimation.save doc w) as [[saved|err] w1] eqn:Hsave.
  - destruct (save_resolved doc w saved w1 Hsave) as (Hs & Hw & _).
    inversion H; subst o w'. cbn [data]. subst saved.
    split.
    { rewrite Hw. unfold stored_estimation. cbn [estimations with_estimations].
      apply estimation_find_replace with (e := e); [exact Hf'|].
      rewrite pre_save_id. exact Hdid. }
    rewrite pre_save_id. cbn [EstimationModel.pre_save EstimationModel.isApproved
                               EstimationModel.approvedBy].
    auto.
  - apply save_rejected in Hsave. inversion H; subst. reflexivity.
Qed.

Lemma update_never_approves_witness :
  exists r w',
    EstimationController.updateEstimation Sample.eid
      (EstimationController.mkUpdateBody None None None None None None None
         None None None None None None None None None (Some Sample.admin_id)
         None (Some true) None)
      (Sample.estimated "estimation_prepared" true false)
    = (Resolved r, w')
    /\ stored_estimation Sample.eid w' = Some (data r)
    /\ EstimationModel.isApproved (data r) = false
    /\ EstimationModel.approvedBy (data r) = None.
Proof.
  match goal with |- context [EstimationController.updateEstimation _ ?b ?W] =>
    pose proof (update_never_approves W Sample.eid (Sample.estimation_in true false) b)
      as H;
    destruct (EstimationController.updateEstimation Sample.eid b W) as [o w'] eqn:Hrun
  end.
  specialize (H o w' eq_refl eq_refl).
  assert (Ho : exists r, o = Resolved r)
    by (vm_compute in Hrun; inversion Hrun; eexists; reflexivity).
  destruct Ho as [r ->]. destruct H as (H1 & _ & _ & H2 & H3).
  exists r, w'. auto.
Defined.

Lemma find_filter_other {A} (f g : A -> bool) (l : list A) :
  (forall a, f a = true -> g a = true) ->
  find f (filter g l) = find f l.
Proof.
  intros Hfg. induction l as [|a l IH]; [reflexivity|].
  cbn [filter find]. destruct (g a) eqn:G.
  - cbn [find]. destruct (f a); [reflexivity|exact IH].
  - destruct (f a) eqn:F; [apply Hfg in F; congruence|exact IH].
Qed.

Lemma find_filter_removed {A} (f : A -> bool) (l : list A) :
  find f (filter (fun a => negb (f a)) l) = None.
Proof.
  induction l as [|a l IH]; [reflexivity|].
  cbn [filter]. destruct (f a) eqn:F; cbn [negb]; [exact IH|].
  cbn [find]. rewrite F. exact IH.
Qed.

(** X7.  [deleteEstimation] refuses an approved estimation with 400 and
    writes nothing; otherwise it answers 200, the estimation is gone, every
    other estimation is as it was, and no project is touched: the project
    keeps the status the estimation gave it. *)
Theorem deleteEstimation_removes_one :
  forall (w : World) (id : ObjectId) (e : EstimationModel.IEstimation),
    stored_estimation id w = Some e ->
    (EstimationModel.isApproved e = true ->
       EstimationController.deleteEstimation id w
       = (Rejected (ApiError 400 "Cannot delete approved estimation"), w))
    /\ (EstimationModel.isApproved e = false ->
          exists w',
            EstimationController.deleteEstimation id w
            = (Resolved (mkApiResponse 200 tt "Estimation deleted successfully"), w')
            /\ stored_estimation id w' = None
            /\ (forall other, other <> id ->
                  stored_estimation other w' = stored_estimation other w)
            /\ projects w' = projects w).
Proof.
  intros w id e Hf. pose proof Hf as Hf'. unfold stored_estimation in Hf'.
  unfold EstimationController.deleteEstimation, bind, Estimation.findById, read.
  rewrite Hf'. unfold throw_if. split; intros Ha; rewrite Ha; [reflexivity|].
  unfold ret at 1. unfold Estimation.findByIdAndDelete, write, ret.
  eexists. split; [reflexivity|].
  unfold stored_estimation. cbn [estimations with_estimations projects].
  split; [apply find_filter_removed|]. split; [|reflexivity].
  intros other Hne. apply find_filter_other. intros a Ha'.
  apply String.eqb_eq in Ha'. apply negb_true_iff.
  apply String.eqb_neq. congruence.
Qed.

Lemma deleteEstimation_removes_one_witness :
  exists w',
    EstimationController.deleteEstimation Sample.eid
      (Sample.estimated "estimation_prepared" true false)
    = (Resolved (mkApiResponse 200 tt "Estimation deleted successfully"), w')
    /\ stored_estimation Sample.eid w' = None
    /\ stored_status Sample.pid w' = Some "estimation_prepared".
Proof.
  destruct (deleteEstimation_removes_one
              (Sample.estimated "estimation_prepared" true false) Sample.eid
              (Sample.estimation_in true false) eq_refl) as [_ H].
  destruct (H eq_refl) as (w' & Hrun & Hgone & _ & Hp).
  exists w'. split; [exact Hrun|]. split; [exact Hgone|].
  unfold stored_status, stored_project. rewrite Hp. reflexivity.
Defined.

(** ** Quotations: numbers, creation, lookup and deletion *)

(** A successful [createQuotation]: the worlds before and after. *)
Lemma createQuotation_shape ext req w r w' :
  QuotationController.createQuotation ext req w = (Resolved r, w') ->
  exists jsonData,
    QuotationController.body_data req = Some jsonData
    /\ quotation_of (QuotationController.data_project jsonData) w = None
    /\ QuotationModel.project (data r) = Some (QuotationController.data_project jsonData)
    /\ QuotationModel.quotationNumber (data r)
       = "QTN-" ++ JS.string_of_nat (getFullYear ext) ++ "-"
         ++ JS.padStart 4 (JS.string_of_nat (List.length (quotations w) + 1))
    /\ QuotationModel.estimation (data r)
       = option_map EstimationModel._id
           (estimation_of (QuotationController.data_project jsonData) w)
    /\ QuotationModel.preparedBy (data r) = QuotationController.userId req
    /\ quotations w' = (quotations w ++ [data r])%list
    /\ projects w'
       = match stored_project (QuotationController.data_project jsonData) w with
         | Some p => Project.replace (ProjectModel.with_status "quotation_sent" p) (projects w)
         | None => projects w
         end
    /\ estimations w' = estimations w
    /\ users w' = users w.
Proof.
  intros H. unfold QuotationController.createQuotation in H.
  destruct (QuotationController.files req) as [fs|]; [|discriminate].
  destruct (QuotationController.body_data req) as [jsonData|]; [|discriminate].
  exists jsonData. split; [reflexivity|].
  destruct (QuotationController.data_items jsonData) as [|items_|]; [| |discriminate].
  all: unfold bind, throw_if, Quotation.findOne, Estimation.findOne, read in H.
  all: unfold quotation_of, estimation_of, stored_project.
  all: destruct (find _ (quotations w)); [discriminate|].
  all: cbn [JS.is_nullish negb] in H; unfold ret at 1 in H.
  all: unfold EstimationController.lift in H.
  all: match type of H with
       | context [QuotationController.processItems ?E ?F 0 ?its] =>
           destruct (QuotationController.processItems E F 0 its) as [l|] eqn:Hl;
           [|discriminate]
       end.
  all: unfold ret at 1 in H.
  all: unfold QuotationController.generateQuotationNumber, bind,
         Quotation.countDocuments, read, write in H.
  all: unfold ret at 1 in H; unfold Project.findByIdAndUpdate in H; cbn [andb] in H.
  all: unfold bind, Project.findById, read, write, ret in H.
  all: cbn [ProjectModel.conflicting ProjectModel.set_progress
            ProjectModel.op_progress] in H.
  all: cbn [projects with_quotations with_next_oid] in H.
  all: destruct (find _ (projects w)); inversion H; subst r w'.
  all: cbn [data]; repeat split; reflexivity.
Qed.

Lemma decode_zeros j s :
  NilEmpty.uint_of_string (JS.repeat_string "0" j ++ s)
  = option_map (Nat.iter j Decimal.D0) (NilEmpty.uint_of_string s).
Proof.
  induction j as [|j IH]; cbn [JS.repeat_string Nat.iter].
  - cbn. destruct (NilEmpty.uint_of_string s); reflexivity.
  - cbn [append NilEmpty.uint_of_string]. rewrite IH.
    destruct (NilEmpty.uint_of_string s); reflexivity.
Qed.

Lemma of_uint_zeros j d : Nat.of_uint (Nat.iter j Decimal.D0 d) = Nat.of_uint d.
Proof. induction j as [|j IH]; [reflexivity|]. cbn [Nat.iter]. exact IH. Qed.

Lemma to_uint_nonnil k : Nat.to_uint k <> Decimal.Nil.
Proof.
  rewrite <- (DecimalNat.Unsigned.of_to k) at 1. rewrite DecimalNat.Unsigned.to_of.
  apply DecimalFacts.unorm_nonnil.
Qed.

(** Reading a zero-padded decimal back. *)
Lemma decode_padStart width k :
  option_map Nat.of_uint
    (NilEmpty.uint_of_string (JS.padStart width (JS.string_of_nat k)))
  = Some k.
Proof.
  unfold JS.padStart. rewrite decode_zeros. unfold JS.string_of_nat.
  pose proof (to_uint_nonnil k) as Hk.
  assert (E : NilZero.string_of_uint (Nat.to_uint k)
              = NilEmpty.string_of_uint (Nat.to_uint k))
    by (destruct (Nat.to_uint k); [contradiction|reflexivity..]).
  rewrite E, NilEmpty.usu. cbn [option_map].
  rewrite of_uint_zeros, DecimalNat.Unsigned.of_to. reflexivity.
Qed.

Lemma padStart_inj width n m :
  JS.padStart width (JS.string_of_nat n) = JS.padStart width (JS.string_of_nat m) ->
  n = m.
Proof.
  intros H.
  pose proof (decode_padStart width n) as Hn. rewrite H, decode_padStart in Hn.
  congruence.
Qed.

Lemma append_inj_l (a b c : string) : a ++ b = a ++ c -> b = c.
Proof. induction a as [|x a IH]; cbn; intros H; [exact H|]. inversion H. auto. Qed.

(** X8.  The number of a quotation is the count of stored quotations plus
    one, zero-padded to four digits after the year: [createQuotation] stamps
    the new quotation with it and adds one document, and two worlds give
    the same number exactly when they hold the same number of quotations;
    so numbers repeat once a quotation has been deleted. *)
Theorem quotation_number_follows_count :
  forall (ext : Collaborators) (w : World),
    (forall req r w',
        QuotationController.createQuotation ext req w = (Resolved r, w') ->
        QuotationController.generateQuotationNumber ext w
        = (Resolved (QuotationModel.quotationNumber (data r)), w)
        /\ List.length (quotations w') = S (List.length (quotations w)))
    /\ (forall w2,
          fst (QuotationController.generateQuotationNumber ext w)
          = fst (QuotationController.generateQuotationNumber ext w2)
          <-> List.length (quotations w) = List.length (quotations w2)).
Proof.
  intros ext w. split.
  - intros req r w' H.
    destruct (createQuotation_shape ext req w r w' H)
      as (j & _ & _ & _ & Hn & _ & _ & Hq & _).
    split.
    + rewrite Hn. reflexivity.
    + rewrite Hq, length_app. cbn [List.length]. lia.
  - intros w2. unfold QuotationController.generateQuotationNumber, bind,
      Quotation.countDocuments, read, ret. cbn [fst]. split.
    + intros H. inversion H as [H'].
      apply append_inj_l in H'. inversion H' as [H''].
      apply padStart_inj in H''. lia.
    + intros ->. reflexivity.
Qed.

Lemma quotation_number_follows_count_witness :
  exists r w',
    QuotationController.createQuotation Sample.ext Sample.quotation_request
      (Sample.world "estimation_prepared" 0) = (Resolved r, w')
    /\ QuotationModel.quotationNumber (data r) = "QTN-2025-0001"
    /\ List.length (quotations w') = 1%nat.
Proof.
  destruct (QuotationController.createQuotation Sample.ext Sample.quotation_request
              (Sample.world "estimation_prepared" 0)) as [o w'] eqn:Hrun.
  assert (Ho : exists r, o = Resolved r)
    by (vm_compute in Hrun; inversion Hrun; eexists; reflexivity).
  destruct Ho as [r ->].
  destruct (quotation_number_follows_count Sample.ext
              (Sample.world "estimation_prepared" 0)) as [H _].
  destruct (H _ _ _ Hrun) as [Hn Hl].
  exists r, w'. split; [reflexivity|]. split; [|exact Hl].
  assert (Hg : QuotationController.generateQuotationNumber Sample.ext
                 (Sample.world "estimation_prepared" 0)
               = (Resolved "QTN-2025-0001", Sample.world "estimation_prepared" 0))
    by reflexivity.
  rewrite Hg in Hn. inversion Hn. reflexivity.
Defined.

Lemma find_app_none {A} (f : A -> bool) l l' :
  find f l = None -> find f (l ++ l') = find f l'.
Proof.
  induction l as [|a l IH]; [reflexivity|]. cbn [find app].
  destruct (f a); [discriminate|exact IH].
Qed.

Lemma find_app_some {A} (f : A -> bool) l l' a :
  find f l = Some a -> find f (l ++ l') = Some a.
Proof.
  induction l as [|b l IH]; [discriminate|]. cbn [find app].
  destruct (f b); [auto|exact IH].
Qed.

(** [getQuotationByProject] on a project that has a quotation. *)
Lemma getQuotationByProject_found projectId w q :
  quotation_of projectId w = Some q ->
  QuotationHandlers.getQuotationByProject projectId w
  = (Resolved
       (mkApiResponse 200
          (QuotationHandlers.mkPopulated q
             (match QuotationModel.project q with
              | Some p => stored_project p w
              | None => None
              end)
             (match QuotationModel.preparedBy q with
              | Some u => stored_user u w
              | None => None
              end))
          "Quotation retrieved"), w).
Proof.
  intros H. unfold QuotationHandlers.getQuotationByProject, bind, Quotation.findOne, read.
  unfold quotation_of in H. rewrite H.
  unfold ProjectHandlers.populate_user, stored_project, stored_user.
  destruct (QuotationModel.project q), (QuotationModel.preparedBy q); reflexivity.
Qed.

(** X9.  A quotation can be read back: once [createQuotation] has answered,
    [getQuotationByProject] for the project of the request answers 200 with
    the quotation of that response and writes nothing; before the creation
    it answered 404.  The creation leaves a stored project in
    [quotation_sent] whatever its status was. *)
Theorem created_quotation_is_found :
  forall (ext : Collaborators) (req : QuotationController.Request) (w : World)
         (r : ApiResponse QuotationModel.IQuotation) (w' : World)
         (jsonData : QuotationController.QuotationData),
    QuotationController.createQuotation ext req w = (Resolved r, w') ->
    QuotationController.body_data req = Some jsonData ->
    let projectId := QuotationController.data_project jsonData in
    QuotationHandlers.getQuotationByProject projectId w
    = (Rejected (ApiError 404 "Quotation not found"), w)
    /\ (exists found,
           QuotationHandlers.getQuotationByProject projectId w'
           = (Resolved (mkApiResponse 200 found "Quotation retrieved"), w')
           /\ QuotationHandlers.doc found = data r
           /\ QuotationHandlers.populated_project found = stored_project projectId w')
    /\ (forall p, stored_project projectId w = Some p ->
          stored_status projectId w' = Some "quotation_sent").
Proof.
  intros ext req w r w' jsonData H Hb projectId.
  destruct (createQuotation_shape ext req w r w' H)
    as (j & Hj & Hnone & Hproj & _ & _ & _ & Hq & Hp & _).
  rewrite Hb in Hj. inversion Hj; subst j. fold projectId in Hnone, Hproj, Hp.
  split; [|split].
  - unfold QuotationHandlers.getQuotationByProject, bind, Quotation.findOne, read.
    unfold quotation_of in Hnone. rewrite Hnone. reflexivity.
  - assert (Hfound : quotation_of projectId w' = Some (data r)).
    { unfold quotation_of in *. rewrite Hq, (find_app_none _ _ _ Hnone).
      cbn [find]. rewrite Hproj, String.eqb_refl. reflexivity. }
    eexists. split; [apply getQuotationByProject_found; exact Hfound|].
    cbn [QuotationHandlers.doc QuotationHandlers.populated_project].
    rewrite Hproj. split; reflexivity.
  - intros p Hs. rewrite Hs in Hp.
    unfold stored_status, stored_project. rewrite Hp.
    unfold stored_project in Hs.
    rewrite (project_find_replace projectId (projects w) p
               (ProjectModel.with_status "quotation_sent" p) Hs).
    + reflexivity.
    + cbn. eapply project_find_id; eauto.
Qed.

Lemma created_quotation_is_found_witness :
  exists r w' found,
    QuotationController.createQuotation Sample.ext Sample.quotation_request
      (Sample.world "on_hold" 0) = (Resolved r, w')
    /\ QuotationHandlers.getQuotationByProject Sample.pid w'
       = (Resolved (mkApiResponse 200 found "Quotation retrieved"), w')
    /\ QuotationHandlers.doc found = data r
    /\ stored_status Sample.pid w' = Some "quotation_sent".
Proof.
  destruct (QuotationController.createQuotation Sample.ext Sample.quotation_request
              (Sample.world "on_hold" 0)) as [o w'] eqn:Hrun.
  assert (Ho : exists r, o = Resolved r)
    by (vm_compute in Hrun; inversion Hrun; eexists; reflexivity).
  destruct Ho as [r ->].
  destruct (created_quotation_is_found Sample.ext Sample.quotation_request
              (Sample.world "on_hold" 0) r w' _ Hrun eq_refl)
    as (_ & (found & Hget & Hdoc & _) & Hs).
  exists r, w', found. split; [reflexivity|]. split; [exact Hget|].
  split; [exact Hdoc|]. apply (Hs (Sample.project_in "on_hold" 0)). reflexivity.
Defined.

(** [deleteQuotation] once the quotation has been looked up. *)
Lemma deleteQuotation_runs del id w q :
  find (fun x => QuotationModel._id x =? id) (quotations w) = Some q ->
  let w1 := with_quotations
              (filter (fun x => negb (QuotationModel._id x =? id)) (quotations w)) w in
  QuotationHandlers.deleteQuotation del id w
  = match QuotationHandlers.delete_images del (QuotationModel.items q) with
    | Rejected e => (Rejected e, w1)
    | Resolved _ =>
        (Resolved (mkApiResponse 200 tt "Quotation deleted"),
         match QuotationModel.project q with
         | Some pid =>
             match stored_project pid w with
             | Some p =>
                 with_projects
                   (Project.replace (ProjectModel.with_status "estimation_prepared" p)
                      (projects w)) w1
             | None => w1
             end
         | None => w1
         end)
    end.
Proof.
  intros H w1.
  unfold QuotationHandlers.deleteQuotation, QuotationHandlers.findByIdAndDelete,
    bind, read, write.
  rewrite H. unfold ret at 1. fold w1.
  unfold EstimationController.lift.
  destruct (QuotationHandlers.delete_images del (QuotationModel.items q)) as [[]|e];
    [|reflexivity].
  unfold ret at 1. unfold EstimationController.update_project_of.
  destruct (QuotationModel.project q) as [pid|]; [|reflexivity].
  unfold bind, Project.findByIdAndUpdate.
  cbn [andb ProjectModel.conflicting ProjectModel.set_progress ProjectModel.op_progress].
  unfold bind, Project.findById, read, write, ret, stored_project.
  change (projects w1) with (projects w).
  destruct (find _ (projects w)); reflexivity.
Qed.

(** X10.  [deleteQuotation] removes the quotation before anything else:
    when the deletion of every image goes through it answers 200 and the
    project of the quotation is left in [estimation_prepared] whatever its
    status was; when the deletion of an image fails the request is rejected
    with that failure, the quotation is gone all the same and the project
    keeps its status. *)
Theorem deleteQuotation_resets_project :
  forall (del : string -> Outcome unit) (id : ObjectId) (w : World)
         (q : QuotationModel.IQuotation) (pid : ObjectId) (p : ProjectModel.IProject),
    find (fun x => QuotationModel._id x =? id) (quotations w) = Some q ->
    QuotationModel.project q = Some pid ->
    stored_project pid w = Some p ->
    (QuotationHandlers.delete_images del (QuotationModel.items q) = Resolved tt ->
       exists w',
         QuotationHandlers.deleteQuotation del id w
         = (Resolved (mkApiResponse 200 tt "Quotation deleted"), w')
         /\ find (fun x => QuotationModel._id x =? id) (quotations w') = None
         /\ stored_status pid w' = Some "estimation_prepared")
    /\ (forall e,
          QuotationHandlers.delete_images del (QuotationModel.items q) = Rejected e ->
          exists w',
            QuotationHandlers.deleteQuotation del id w = (Rejected e, w')
            /\ find (fun x => QuotationModel._id x =? id) (quotations w') = None
            /\ stored_status pid w' = Some (ProjectModel.status p)).
Proof.
  intros del id w q pid p Hf Hp Hs.
  pose proof (deleteQuotation_runs del id w q Hf) as Hrun. cbv zeta in Hrun.
  rewrite Hp, Hs in Hrun. split.
  - intros Hd. rewrite Hd in Hrun. eexists. split; [exact Hrun|].
    cbn [quotations with_projects with_quotations].
    split; [apply find_filter_removed|].
    unfold stored_status, stored_project. cbn [projects with_projects].
    unfold stored_project in Hs.
    rewrite (project_find_replace pid (projects w) p
               (ProjectModel.with_status "estimation_prepared" p) Hs).
    + reflexivity.
    + cbn. eapply project_find_id; eauto.
  - intros e Hd. rewrite Hd in Hrun. eexists. split; [exact Hrun|].
    cbn [quotations with_quotations].
    split; [apply find_filter_removed|].
    unfold stored_status. change (stored_project pid (with_quotations _ w))
      with (stored_project pid w). rewrite Hs. reflexivity.
Qed.

Lemma deleteQuotation_resets_project_witness :
  exists w',
    QuotationHandlers.deleteQuotation (fun _ => Resolved tt)
      "650000000000000000000006" Sample.invoiceable
    = (Resolved (mkApiResponse 200 tt "Quotation deleted"), w')
    /\ stored_status Sample.pid w' = Some "estimation_prepared".
Proof.
  destruct (deleteQuotation_resets_project (fun _ => Resolved tt)
              "650000000000000000000006" Sample.invoiceable
              (Sample.quotation_with [Sample.wiring] (Some (JS.num 1050)))
              Sample.pid (Sample.project_in "work_completed" 100)
              eq_refl eq_refl eq_refl) as [H _].
  destruct (H eq_refl) as (w' & Hrun & _ & Hs).
  exists w'. split; [exact Hrun|exact Hs].
Defined.

(** [markAsChecked] with [isChecked = false]: what is stored afterwards. *)
Lemma markAsChecked_false_shape ext w id e pid p userId comment :
  userId <> "" ->
  stored_estimation id w = Some e ->
  EstimationModel.project e = Some pid ->
  stored_project pid w = Some p ->
  EstimationModel.validate e = true ->
  exists r w',
    EstimationController.markAsChecked ext id comment (Some false) (Some userId) w
    = (Resolved r, w')
    /\ stored_status pid w' = Some "draft"
    /\ stored_estimation id w' = Some (data r)
    /\ EstimationModel.project (data r) = Some pid.
Proof.
  intros Hu Hf Hp Hfp Hv.
  unfold EstimationController.markAsChecked, bind, throw_if.
  apply truthy_string_true in Hu. rewrite Hu. cbn [negb]. unfold ret at 1.
  unfold Estimation.findById, read.
  pose proof Hf as Hf'. unfold stored_estimation in Hf'. rewrite Hf'.
  rewrite Hp. unfold Project.findById at 1. unfold read.
  pose proof Hfp as Hfp'. unfold stored_project in Hfp'. rewrite Hfp'.
  rewrite (project_find_id _ _ _ Hfp').
  rewrite andb_false_r. unfold ret at 1.
  unfold Comment.create, write.
  set (w1 := with_comments _ w).
  match goal with |- context [Estimation.save ?d w1] => set (doc := d) end.
  assert (Hid : EstimationModel._id doc = id)
    by (unfold doc; simpl; eapply estimation_find_id; eauto).
  assert (Hf1 : stored_estimation (EstimationModel._id doc) w1 = Some e)
    by (rewrite Hid; exact Hf).
  destruct (estimation_save_ok w1 doc e Hf1 Hv eq_refl eq_refl) as [Hrun Hst].
  rewrite Hrun. rewrite Hid in Hst. cbn [negb].
  set (w2 := with_estimations _ w1) in *.
  unfold EstimationController.update_project_of, bind.
  assert (Hfp2 : stored_project pid w2 = Some p) by exact Hfp.
  match goal with
  | |- context [Project.findByIdAndUpdate pid ?u false w2] =>
      destruct (findByIdAndUpdate_found pid u false w2 p Hfp2 eq_refl eq_refl eq_refl) as [Hupd Hstp];
      rewrite Hupd
  end.
  unfold ret. do 2 eexists. split; [reflexivity|]. split.
  - unfold stored_status. rewrite Hstp. reflexivity.
  - cbn [data].
    assert (Hsame : EstimationController.with_project (Some pid)
                      (EstimationModel.pre_save doc) = EstimationModel.pre_save doc).
    { rewrite <- Hp.
      change (EstimationModel.project e)
        with (EstimationModel.project (EstimationModel.pre_save doc)).
      apply with_project_same. }
    rewrite Hsame. split.
    + unfold stored_estimation in *. cbn [estimations with_projects]. exact Hst.
    + cbn. exact Hp.
Qed.

Lemma deleteProject_in_draft w id p :
  stored_project id w = Some p ->
  ProjectModel.status p = "draft" ->
  exists w',
    ProjectHandlers.deleteProject id w
    = (Resolved (mkApiResponse 200 tt "Project deleted successfully"), w')
    /\ stored_project id w' = None
    /\ estimations w' = estimations w.
Proof.
  intros Hs Hst. pose proof Hs as Hs'. unfold stored_project in Hs'.
  unfold ProjectHandlers.deleteProject, bind, Project.findById, read.
  rewrite Hs'. unfold throw_if. rewrite Hst.
  cbn [String.eqb Ascii.eqb Bool.eqb negb andb].
  unfold ret at 1. unfold ProjectHandlers.findByIdAndDelete, write, ret.
  eexists. split; [reflexivity|].
  unfold stored_project. cbn [projects with_projects estimations].
  split; [apply find_filter_removed|reflexivity].
Qed.

(** ** Reading, creating and deleting a project *)

(** [getProject] on a stored project. *)
Lemma getProject_found id w p :
  stored_project id w = Some p ->
  let user_of ref := match ref with Some u => stored_user u w | None => None end in
  ProjectHandlers.getProject id w
  = (Resolved
       (mkApiResponse 200
          (ProjectHandlers.mkProjectDetails p
             (stored_client (ProjectModel.client p) w)
             (user_of (ProjectModel.createdBy p))
             (user_of (ProjectModel.updatedBy p))
             (user_of (ProjectModel.assignedTo p))
             (option_map EstimationModel._id (estimation_of id w))
             (option_map QuotationModel._id (quotation_of id w))
             (option_map LPOModel._id (lpo_of id w))
             (match estimation_of id w with
              | Some e => EstimationModel.isChecked e
              | None => false
              end)
             (match estimation_of id w with
              | Some e => EstimationModel.isApproved e
              | None => false
              end))
          "Project retrieved successfully"), w).
Proof.
  intros H user_of.
  unfold ProjectHandlers.getProject, bind, Project.findById, read.
  unfold stored_project in H. rewrite H.
  unfold Client.findById, read, ProjectHandlers.populate_user, user_of, stored_user.
  destruct (ProjectModel.createdBy p), (ProjectModel.updatedBy p),
    (ProjectModel.assignedTo p); reflexivity.
Qed.

(** X11.  [getProject] never writes; it answers 404 for a project that is
    not stored; and it reports the estimation of the project: right after a
    successful [createEstimation] for a stored project it answers 200 with
    the identifier of the new estimation, both flags false and the status
    [estimation_prepared], where before it reported no estimation. *)
Theorem getProject_reports_estimation :
  (forall id w o w', ProjectHandlers.getProject id w = (o, w') -> w' = w)
  /\ (forall id w,
        stored_project id w = None ->
        ProjectHandlers.getProject id w
        = (Rejected (ApiError 404 "Project not found"), w))
  /\ (forall ext body userId w r w' projectId p,
        EstimationController.createEstimation ext body userId w = (Resolved r, w') ->
        EstimationController.body_project body = Some projectId ->
        stored_project projectId w = Some p ->
        exists before after,
          ProjectHandlers.getProject projectId w
          = (Resolved (mkApiResponse 200 before "Project retrieved successfully"), w)
          /\ ProjectHandlers.estimationId before = None
          /\ ProjectHandlers.getProject projectId w'
             = (Resolved (mkApiResponse 200 after "Project retrieved successfully"), w')
          /\ ProjectHandlers.estimationId after = Some (EstimationModel._id (data r))
          /\ ProjectHandlers.details_isChecked after = false
          /\ ProjectHandlers.details_isApproved after = false
          /\ ProjectModel.status (ProjectHandlers.details_project after)
             = "estimation_prepared").
Proof.
  split; [|split].
  - intros id w o w' H. destruct (stored_project id w) as [p|] eqn:Hs.
    + rewrite (getProject_found id w p Hs) in H. inversion H. reflexivity.
    + unfold ProjectHandlers.getProject, bind, Project.findById, read in H.
      unfold stored_project in Hs. rewrite Hs in H. inversion H. reflexivity.
  - intros id w Hs.
    unfold ProjectHandlers.getProject, bind, Project.findById, read.
    unfold stored_project in Hs. rewrite Hs. reflexivity.
  - intros ext body userId w r w' projectId p H Hb Hs.
    destruct (createEstimation_shape ext body userId w r w' H)
      as (pid & Hb' & Hnone & Hproj & Hc & Ha & Hest & Hprojects & _).
    rewrite Hb in Hb'. inversion Hb'; subst pid. rewrite Hs in Hprojects.
    assert (Hs' : stored_project projectId w'
                  = Some (ProjectModel.with_status "estimation_prepared" p)).
    { unfold stored_project in *. rewrite Hprojects.
      apply project_find_replace with (p := p); [exact Hs|].
      cbn. eapply project_find_id; eauto. }
    assert (He' : estimation_of projectId w' = Some (data r)).
    { unfold estimation_of in *. rewrite Hest, (find_app_none _ _ _ Hnone).
      cbn [find]. rewrite Hproj, same_opt_refl. reflexivity. }
    do 2 eexists.
    split; [apply (getProject_found projectId w p Hs)|].
    cbn [ProjectHandlers.estimationId]. rewrite Hnone.
    split; [reflexivity|].
    split; [apply (getProject_found projectId w' _ Hs')|].
    cbn [ProjectHandlers.estimationId ProjectHandlers.details_isChecked
         ProjectHandlers.details_isApproved ProjectHandlers.details_project].
    rewrite He'. cbn [option_map]. rewrite Hc, Ha. repeat split; reflexivity.
Qed.

(** X12.  [deleteProject] refuses with 400 a project that has left [draft]
    and writes nothing; a [draft] project is removed, every other project
    is as it was, and nothing else is deleted with it: estimations,
    quotations and comments stay. *)
Theorem deleteProject_only_in_draft :
  forall (w : World) (id : ObjectId) (p : ProjectModel.IProject),
    stored_project id w = Some p ->
    (ProjectModel.status p <> "draft" ->
       ProjectHandlers.deleteProject id w
       = (Rejected (ApiError 400 "Cannot delete project that has already started"), w))
    /\ (ProjectModel.status p = "draft" ->
          exists w',
            ProjectHandlers.deleteProject id w
            = (Resolved (mkApiResponse 200 tt "Project deleted successfully"), w')
            /\ stored_project id w' = None
            /\ (forall other, other <> id ->
                  stored_project other w' = stored_project other w)
            /\ estimations w' = estimations w
            /\ quotations w' = quotations w
            /\ comments w' = comments w).
Proof.
  intros w id p Hs. pose proof Hs as Hs'. unfold stored_project in Hs'.
  unfold ProjectHandlers.deleteProject, bind, Project.findById, read.
  rewrite Hs'. unfold throw_if. split; intros Hst.
  - apply String.eqb_neq in Hst. rewrite Hst. reflexivity.
  - rewrite Hst. cbn [String.eqb Ascii.eqb Bool.eqb negb andb].
    unfold ret at 1. unfold ProjectHandlers.findByIdAndDelete, write, ret.
    eexists. split; [reflexivity|].
    unfold stored_project.
    cbn [projects with_projects estimations quotations comments].
    split; [apply find_filter_removed|].
    split; [|repeat split; reflexivity].
    intros other Hne. apply find_filter_other. intros a Ha.
    apply String.eqb_eq in Ha. apply negb_true_iff.
    apply String.eqb_neq. congruence.
Qed.

Lemma deleteProject_only_in_draft_witness :
  exists w',
    ProjectHandlers.deleteProject Sample.pid (Sample.estimated "draft" false false)
    = (Resolved (mkApiResponse 200 tt "Project deleted successfully"), w')
    /\ stored_project Sample.pid w' = None
    /\ estimations w' = [Sample.estimation_in false false].
Proof.
  destruct (deleteProject_only_in_draft (Sample.estimated "draft" false false)
              Sample.pid (Sample.project_in "draft" 0) eq_refl) as [_ H].
  destruct (H eq_refl) as (w' & Hrun & Hgone & _ & He & _).
  exists w'. split; [exact Hrun|]. split; [exact Hgone|]. rewrite He. reflexivity.
Defined.

(** X13.  A rejected check and a deletion compose: when [markAsChecked]
    with [isChecked = false] has answered, the project is in [draft] again,
    whatever it was, so [deleteProject] removes it, and the estimation stays
    in the collection with a reference to a project that no longer
    exists. *)
Theorem rejected_check_allows_orphaning :
  forall (ext : Collaborators) (w : World) (id : ObjectId)
         (e : EstimationModel.IEstimation) (pid : ObjectId)
         (p : ProjectModel.IProject) (userId : ObjectId) (comment : option string),
    userId <> "" ->
    stored_estimation id w = Some e ->
    EstimationModel.project e = Some pid ->
    stored_project pid w = Some p ->
    EstimationModel.validate e = true ->
    exists r w' w'' left,
      EstimationController.markAsChecked ext id comment (Some false) (Some userId) w
      = (Resolved r, w')
      /\ ProjectHandlers.deleteProject pid w'
         = (Resolved (mkApiResponse 200 tt "Project deleted successfully"), w'')
      /\ stored_project pid w'' = None
      /\ stored_estimation id w'' = Some left
      /\ EstimationModel.project left = Some pid.
Proof.
  intros ext w id e pid p userId comment Hu Hf Hp Hfp Hv.
  destruct (markAsChecked_false_shape ext w id e pid p userId comment Hu Hf Hp Hfp Hv)
    as (r & w' & Hrun & Hst & Hse & Hproj).
  revert Hst. unfold stored_status.
  destruct (stored_project pid w') as [p'|] eqn:Hs'; [|discriminate].
  cbn [option_map]. intros Hst. inversion Hst as [Hdraft].
  destruct (deleteProject_in_draft w' pid p' Hs' Hdraft) as (w'' & Hdel & Hgone & He).
  exists r, w', w'', (data r). split; [exact Hrun|]. split; [exact Hdel|].
  split; [exact Hgone|].
  unfold stored_estimation in *. rewrite He. split; [exact Hse|exact Hproj].
Qed.

Lemma rejected_check_allows_orphaning_witness :
  exists r w' w'' left,
    EstimationController.markAsChecked Sample.ext Sample.eid None (Some false)
      (Some Sample.admin_id) (Sample.estimated "in_progress" true true)
    = (Resolved r, w')
    /\ ProjectHandlers.deleteProject Sample.pid w'
       = (Resolved (mkApiResponse 200 tt "Project deleted successfully"), w'')
    /\ stored_project Sample.pid w'' = None
    /\ stored_estimation Sample.eid w'' = Some left
    /\ EstimationModel.project left = Some Sample.pid.
Proof.
  apply (rejected_check_allows_orphaning Sample.ext
           (Sample.estimated "in_progress" true true) Sample.eid
           (Sample.estimation_in true true) Sample.pid
           (Sample.project_in "in_progress" 0) Sample.admin_id None);
    try reflexivity; discriminate.
Defined.

Lemma getProject_reports_estimation_witness :
  exists r w' after,
    EstimationController.createEstimation Sample.ext Sample.creation_body
      (Some Sample.uid) (Sample.world "draft" 0) = (Resolved r, w')
    /\ ProjectHandlers.getProject Sample.pid w'
       = (Resolved (mkApiResponse 200 after "Project retrieved successfully"), w')
    /\ ProjectHandlers.estimationId after = Some (EstimationModel._id (data r)).
Proof.
  destruct (EstimationController.createEstimation Sample.ext Sample.creation_body
              (Some Sample.uid) (Sample.world "draft" 0)) as [o w'] eqn:Hrun.
  assert (Ho : exists r, o = Resolved r)
    by (vm_compute in Hrun; inversion Hrun; eexists; reflexivity).
  destruct Ho as [r ->].
  destruct getProject_reports_estimation as (_ & _ & H).
  destruct (H Sample.ext Sample.creation_body (Some Sample.uid)
              (Sample.world "draft" 0) r w' Sample.pid (Sample.project_in "draft" 0)
              Hrun eq_refl eq_refl)
    as (before & after & _ & _ & Hget & Hid & _).
  exists r, w', after. auto.
Defined.

(** A successful [createProject]. *)
Lemma createProject_shape trim gen body userId w r w' :
  ProjectHandlers.createProject trim gen body userId w = (Resolved r, w') ->
  statusCode r = 201%Z
  /\ projects w' = (projects w ++ [data r])%list
  /\ ProjectModel._id (data r) = "oid" ++ JS.string_of_nat (next_oid w)
  /\ ProjectModel.status (data r) = "draft"
  /\ ProjectModel.progress (data r) = JS.num 0
  /\ ProjectModel.projectNumber (data r) = trim (gen w)
  /\ ProjectModel.createdBy (data r) = userId
  /\ ProjectModel.assignedTo (data r) = None
  /\ ProjectModel.validate (data r) = true
  /\ ProjectHandlers.number_free (projects w) (data r) = true
  /\ (exists c, stored_client (ProjectModel.client (data r)) w = Some c)
  /\ estimations w' = estimations w
  /\ quotations w' = quotations w
  /\ lpos w' = lpos w.
Proof.
  intros H. unfold ProjectHandlers.createProject in H.
  destruct (ProjectHandlers.new_projectName body) as [name|]; [|discriminate].
  destruct (ProjectHandlers.new_client body) as [cl|]; [|discriminate].
  destruct (ProjectHandlers.new_siteAddress body) as [addr|]; [|discriminate].
  destruct (ProjectHandlers.new_siteLocation body) as [loc|]; [|discriminate].
  unfold bind, throw_if in H.
  destruct (_ || _ || _ || _); [discriminate|].
  unfold ret at 1 in H. unfold Client.findById, read in H.
  destruct (find _ (clients w)) as [c|] eqn:Hc; [|discriminate].
  unfold ProjectHandlers.create, bind, read, write in H.
  match type of H with context [ProjectModel.validate ?d] => set (doc := d) in H end.
  destruct (ProjectModel.validate doc) eqn:Hv; [|discriminate].
  cbn [projects with_next_oid] in H.
  destruct (ProjectHandlers.number_free (projects w) doc) eqn:Hn; [|discriminate].
  unfold ret in H. inversion H; subst r w'. cbn [data statusCode].
  split; [reflexivity|]. split; [reflexivity|]. split; [reflexivity|].
  split; [reflexivity|]. split; [reflexivity|]. split; [reflexivity|].
  split; [reflexivity|]. split; [reflexivity|]. split; [exact Hv|].
  split; [exact Hn|]. split; [exists c; exact Hc|]. repeat split; reflexivity.
Qed.

(** X14.  [createProject] creates drafts: a successful call answers 201,
    appends one project whose status is [draft], whose progress is 0, whose
    number is the generated one, whose client is a stored client and which
    passes the schema; a refusal with an [ApiError] (400 for a missing
    member, 404 for an unknown client) writes nothing. *)
Theorem createProject_creates_draft :
  forall (trim : string -> string) (generateProjectNumber : World -> string)
         (body : ProjectHandlers.CreateProjectBody) (userId : option ObjectId)
         (w : World),
    (forall r w',
        ProjectHandlers.createProject trim generateProjectNumber body userId w
        = (Resolved r, w') ->
        statusCode r = 201%Z
        /\ projects w' = (projects w ++ [data r])%list
        /\ ProjectModel.status (data r) = "draft"
        /\ ProjectModel.progress (data r) = JS.num 0
        /\ ProjectModel.projectNumber (data r) = trim (generateProjectNumber w)
        /\ ProjectModel.validate (data r) = true
        /\ (exists c, stored_client (ProjectModel.client (data r)) w = Some c))
    /\ (forall code msg w',
          ProjectHandlers.createProject trim generateProjectNumber body userId w
          = (Rejected (ApiError code msg), w') ->
          w' = w /\ (code = 400%Z \/ code = 404%Z)).
Proof.
  intros trim gen body userId w. split.
  - intros r w' H.
    destruct (createProject_shape trim gen body userId w r w' H)
      as (H1 & H2 & _ & H4 & H5 & H6 & _ & _ & H9 & _ & H11 & _).
    auto 10.
  - intros code msg w' H. unfold ProjectHandlers.createProject in H.
    destruct (ProjectHandlers.new_projectName body) as [name|];
      [|inversion H; auto].
    destruct (ProjectHandlers.new_client body) as [cl|]; [|inversion H; auto].
    destruct (ProjectHandlers.new_siteAddress body) as [addr|]; [|inversion H; auto].
    destruct (ProjectHandlers.new_siteLocation body) as [loc|]; [|inversion H; auto].
    unfold bind, throw_if in H.
    destruct (_ || _ || _ || _); [inversion H; auto|].
    unfold ret at 1 in H. unfold Client.findById, read in H.
    destruct (find _ (clients w)) as [c|]; [|inversion H; auto].
    unfold ProjectHandlers.create, bind, read, write in H.
    match type of H with context [ProjectModel.validate ?d] => set (doc := d) in H end.
    destruct (ProjectModel.validate doc); [|discriminate].
    cbn [projects with_next_oid] in H.
    destruct (ProjectHandlers.number_free (projects w) doc); discriminate.
Qed.

Lemma createProject_creates_draft_witness :
  exists r w',
    ProjectHandlers.createProject (fun s => s) (fun _ => "PRJ-2025-0002")
      (ProjectHandlers.mkCreateProjectBody (Some "Warehouse") None (Some Sample.cid)
         (Some "Plot 9") (Some "Sharjah"))
      (Some Sample.uid) (Sample.world "draft" 0)
    = (Resolved r, w')
    /\ ProjectModel.status (data r) = "draft"
    /\ projects w' = [Sample.project_in "draft" 0; data r].
Proof.
  match goal with |- context [ProjectHandlers.createProject ?t ?g ?b ?u ?W] =>
    destruct (ProjectHandlers.createProject t g b u W) as [o w'] eqn:Hrun;
    destruct (createProject_creates_draft t g b u W) as [H _]
  end.
  assert (Ho : exists r, o = Resolved r)
    by (vm_compute in Hrun; inversion Hrun; eexists; reflexivity).
  destruct Ho as [r ->].
  destruct (H r w' Hrun) as (_ & Hp & Hs & _).
  exists r, w'. split; [reflexivity|]. split; [exact Hs|exact Hp].
Defined.

Lemma filter_keeps_all {A} (f : A -> bool) (l : list A) :
  find f l = None -> filter (fun a => negb (f a)) l = l.
Proof.
  induction l as [|a l IH]; [reflexivity|]. cbn [find filter].
  destruct (f a); cbn [negb]; [discriminate|]. intros H. f_equal. auto.
Qed.

(** X15.  A project that has just been created can be taken back: when the
    collection holds no project under the new identifier, [deleteProject]
    on the project [createProject] has returned answers 200 and the
    collection of projects is the one before the creation. *)
Theorem created_project_can_be_deleted :
  forall (trim : string -> string) (generateProjectNumber : World -> string)
         (body : ProjectHandlers.CreateProjectBody) (userId : option ObjectId)
         (w : World) (r : ApiResponse ProjectModel.IProject) (w' : World),
    ProjectHandlers.createProject trim generateProjectNumber body userId w
    = (Resolved r, w') ->
    stored_project (ProjectModel._id (data r)) w = None ->
    stored_project (ProjectModel._id (data r)) w' = Some (data r)
    /\ exists w'',
         ProjectHandlers.deleteProject (ProjectModel._id (data r)) w'
         = (Resolved (mkApiResponse 200 tt "Project deleted successfully"), w'')
         /\ projects w'' = projects w.
Proof.
  intros trim gen body userId w r w' H Hnone.
  destruct (createProject_shape trim gen body userId w r w' H)
    as (_ & Hp & _ & Hs & _).
  assert (Hfound : stored_project (ProjectModel._id (data r)) w' = Some (data r)).
  { unfold stored_project in *. rewrite Hp, (find_app_none _ _ _ Hnone).
    cbn [find]. rewrite String.eqb_refl. reflexivity. }
  split; [exact Hfound|].
  unfold ProjectHandlers.deleteProject, bind, Project.findById, read.
  unfold stored_project in Hfound. rewrite Hfound. unfold throw_if. rewrite Hs.
  cbn [String.eqb Ascii.eqb Bool.eqb negb andb].
  unfold ret at 1. unfold ProjectHandlers.findByIdAndDelete, write, ret.
  eexists. split; [reflexivity|].
  cbn [projects with_projects]. rewrite Hp, filter_app. cbn [filter].
  rewrite String.eqb_refl. cbn [negb]. rewrite app_nil_r.
  apply filter_keeps_all. exact Hnone.
Qed.

Lemma created_project_can_be_deleted_witness :
  exists r w' w'',
    ProjectHandlers.createProject (fun s => s) (fun _ => "PRJ-2025-0002")
      (ProjectHandlers.mkCreateProjectBody (Some "Warehouse") None (Some Sample.cid)
         (Some "Plot 9") (Some "Sharjah"))
      (Some Sample.uid) (Sample.world "in_progress" 40)
    = (Resolved r, w')
    /\ ProjectHandlers.deleteProject (ProjectModel._id (data r)) w'
       = (Resolved (mkApiResponse 200 tt "Project deleted successfully"), w'')
    /\ projects w'' = projects (Sample.world "in_progress" 40).
Proof.
  match goal with |- context [ProjectHandlers.createProject ?t ?g ?b ?u ?W] =>
    destruct (ProjectHandlers.createProject t g b u W) as [o w'] eqn:Hrun;
    pose proof (created_project_can_be_deleted t g b u W) as H
  end.
  assert (Ho : exists r, o = Resolved r
                         /\ ProjectModel._id (data r) = "oid0")
    by (vm_compute in Hrun; inversion Hrun; eexists; split; reflexivity).
  destruct Ho as (r & -> & Hid).
  destruct (H r w' Hrun) as (_ & w'' & Hdel & Hp).
  { rewrite Hid. reflexivity. }
  exists r, w', w''. split; [reflexivity|]. split; [exact Hdel|exact Hp].
Defined.

(** ** The log of progress updates *)

Lemma advance_progress p :
  ProjectModel.progress
    (ProjectController.advance_work_started (ProjectController.advance_lpo_received p))
  = ProjectModel.progress p.
Proof.
  unfold ProjectController.advance_work_started, ProjectController.advance_lpo_received.
  destruct (_ && _); cbn; destruct (_ && _); reflexivity.
Qed.

(** What [updateProjectProgress] appends to the comments. *)
Lemma updateProjectProgress_log w id p newp comment userId :
  stored_project id w = Some p ->
  ProjectModel.validate p = true ->
  ProjectController.out_of_range newp = false ->
  let entry :=
    CommentModel.mkComment
      (match comment with
       | Some c =>
           if JS.truthy_string c then CommentModel.Text c
           else CommentModel.ProgressUpdated (ProjectModel.progress p) newp
       | None => CommentModel.ProgressUpdated (ProjectModel.progress p) newp
       end)
      userId (Some id) "progress_update" (Some newp) in
  exists r w',
    ProjectController.updateProjectProgress id (Some newp) comment userId w
    = (Resolved r, w')
    /\ comments w'
       = (comments w
          ++ (if JS.truthy JS.truthy_string comment
                 || negb (JS.eqb newp (ProjectModel.progress p))
              then [entry] else []))%list
    /\ users w' = users w.
Proof.
  intros Hf Hv Hr entry.
  unfold ProjectController.updateProjectProgress, bind, throw_if.
  rewrite Hr. unfold ret at 1. unfold Project.findById at 1. unfold read.
  pose proof Hf as Hf'. unfold stored_project in Hf'. rewrite Hf'.
  cbv zeta. rewrite advance_progress. fold entry.
  set (project := ProjectController.advance_work_started
                    (ProjectController.advance_lpo_received p)).
  pose proof (advance_validate p Hv) as Hv2. fold project in Hv2.
  unfold Project.save. rewrite Hv2. unfold write.
  set (w1 := with_projects (Project.replace project (projects w)) w).
  assert (Hf1 : stored_project id w1 = Some project).
  { unfold stored_project, w1. cbn [projects with_projects].
    apply project_find_replace with (p := p); [exact Hf'|].
    unfold project. rewrite advance_id. eapply project_find_id; eauto. }
  match goal with
  | |- context [Project.findByIdAndUpdate id ?u false w1] =>
      destruct (findByIdAndUpdate_found id u false w1 project Hf1 eq_refl eq_refl eq_refl) as [Hrun Hst];
      rewrite Hrun
  end.
  destruct (JS.truthy JS.truthy_string comment
            || negb (JS.eqb newp (ProjectModel.progress p)));
    unfold Comment.create, write, ret; do 2 eexists;
    (split; [reflexivity|]); cbn [comments users with_comments with_projects];
    [split; reflexivity|rewrite app_nil_r; split; reflexivity].
Qed.

Lemma progress_updates_of projectId w :
  ProjectHandlers.getProjectProgressUpdates projectId w
  = (Resolved
       (mkApiResponse 200
          (map (fun c => (c, match CommentModel.user c with
                             | Some u => stored_user u w
                             | None => None
                             end))
               (rev (filter (ProjectHandlers.is_progress_update projectId)
                            (comments w))))
          "Project progress updates retrieved successfully"), w).
Proof. reflexivity. Qed.

(** X16.  A progress update is logged and can be read back.  When
    [updateProjectProgress] has answered, [getProjectProgressUpdates] for
    the project lists what it listed before, preceded, when the request
    carried a comment or changed the progress (the new number is not [===]
    the stored one), by one new entry that records the new progress and the
    acting user; a request without comment that repeats the stored progress
    adds nothing to the log. *)
Theorem progress_update_is_logged :
  forall (w : World) (id : ObjectId) (p : ProjectModel.IProject) (newp : JS.number)
         (comment : option string) (userId : option ObjectId),
    stored_project id w = Some p ->
    ProjectModel.validate p = true ->
    ProjectController.out_of_range newp = false ->
    exists r w' before after,
      ProjectController.updateProjectProgress id (Some newp) comment userId w
      = (Resolved r, w')
      /\ ProjectHandlers.getProjectProgressUpdates id w
         = (Resolved (mkApiResponse 200 before
                        "Project progress updates retrieved successfully"), w)
      /\ ProjectHandlers.getProjectProgressUpdates id w'
         = (Resolved (mkApiResponse 200 after
                        "Project progress updates retrieved successfully"), w')
      /\ (JS.truthy JS.truthy_string comment = true
          \/ JS.eqb newp (ProjectModel.progress p) = false ->
          exists entry,
            after = (entry, match userId with
                            | Some u => stored_user u w
                            | None => None
                            end) :: before
            /\ CommentModel.progress entry = Some newp
            /\ CommentModel.user entry = userId
            /\ CommentModel.project entry = Some id)
      /\ (JS.truthy JS.truthy_string comment = false ->
          JS.eqb newp (ProjectModel.progress p) = true -> after = before).
Proof.
  intros w id p newp comment userId Hf Hv Hr.
  destruct (updateProjectProgress_log w id p newp comment userId Hf Hv Hr)
    as (r & w' & Hrun & Hc & Hu).
  exists r, w'. do 2 eexists. split; [exact Hrun|].
  split; [apply progress_updates_of|]. split; [apply progress_updates_of|].
  unfold stored_user. rewrite Hc, Hu. split.
  - intros Hyes.
    assert (E : JS.truthy JS.truthy_string comment
                || negb (JS.eqb newp (ProjectModel.progress p)) = true).
    { destruct Hyes as [Hyes|Hyes]; [rewrite Hyes; reflexivity|].
      rewrite Hyes. apply orb_true_r. }
    rewrite E. eexists. rewrite filter_app. cbn [filter].
    unfold ProjectHandlers.is_progress_update at 2.
    cbn [CommentModel.project CommentModel.actionType].
    rewrite String.eqb_refl. cbn [String.eqb Ascii.eqb Bool.eqb andb].
    rewrite rev_app_distr. cbn [rev app map CommentModel.user].
    split; [reflexivity|]. cbn. auto.
  - intros Hno Heq.
    rewrite Hno, Heq. cbn [negb orb].
    rewrite app_nil_r. reflexivity.
Qed.

Lemma progress_update_is_logged_witness :
  exists r w' entry,
    ProjectController.updateProjectProgress Sample.pid (Some (JS.num 40)) None
      (Some Sample.uid) (Sample.world "in_progress" 30)
    = (Resolved r, w')
    /\ ProjectHandlers.getProjectProgressUpdates Sample.pid w'
       = (Resolved (mkApiResponse 200 [(entry, Some Sample.engineer)]
                      "Project progress updates retrieved successfully"), w')
    /\ CommentModel.progress entry = Some (JS.num 40).
Proof.
  destruct (progress_update_is_logged (Sample.world "in_progress" 30) Sample.pid
              (Sample.project_in "in_progress" 30) (JS.num 40) None (Some Sample.uid)
              eq_refl eq_refl eq_refl)
    as (r & w' & before & after & Hrun & Hb & Ha & Hyes & _).
  destruct Hyes as (entry & He & Hp & _); [right; reflexivity|].
  rewrite progress_updates_of in Hb. inversion Hb as [Hbefore].
  exists r, w', entry. split; [exact Hrun|]. split; [|exact Hp].
  rewrite Ha, He, <- Hbefore. reflexivity.
Defined.

(** ** Reading estimations *)

Lemma populate_all_docs l : forall w,
  exists ps,
    EstimationHandlers.populate_all l w = (Resolved ps, w)
    /\ map EstimationHandlers.doc ps = l.
Proof.
  induction l as [|e l IH]; intros w; cbn [EstimationHandlers.populate_all].
  - exists []. split; reflexivity.
  - destruct (IH w) as (ps & Hps & Hdocs).
    unfold bind, EstimationHandlers.populate, ProjectHandlers.populate_user.
    unfold bind, User.findById, read, ret.
    destruct (EstimationModel.preparedBy e), (EstimationModel.checkedBy e),
      (EstimationModel.approvedBy e); rewrite Hps;
      eexists; (split; [reflexivity|]); cbn [map EstimationHandlers.doc];
      rewrite Hdocs; reflexivity.
Qed.

Lemma getEstimationsByProject_docs projectId status_ w :
  exists listed,
    EstimationHandlers.getEstimationsByProject projectId status_ w
    = (Resolved (mkApiResponse 200 listed "Estimations retrieved successfully"), w)
    /\ map EstimationHandlers.doc listed
       = rev (filter (EstimationHandlers.matches projectId status_) (estimations w)).
Proof.
  unfold EstimationHandlers.getEstimationsByProject, bind, read.
  destruct (populate_all_docs
              (rev (filter (EstimationHandlers.matches projectId status_)
                           (estimations w))) w) as (ps & Hps & Hdocs).
  rewrite Hps. exists ps. split; [reflexivity|exact Hdocs].
Qed.

Lemma matches_unfiltered projectId e :
  EstimationHandlers.matches projectId None e
  = EstimationModel.same_opt (EstimationModel.project e) (Some projectId).
Proof. unfold EstimationHandlers.matches. apply andb_true_r. Qed.

(** X17.  [getEstimationsByProject] never writes and always answers 200.
    Without a status it lists exactly the stored estimations of the
    project; [checked] keeps those that are checked, [pending] those that
    are not, [approved] those that are approved, so every estimation of the
    project is listed under exactly one of [checked] and [pending]; any
    other status is ignored; and when no project has two estimations the
    list has at most one entry. *)
Theorem estimations_listed_by_status :
  forall (projectId : ObjectId) (w : World),
    exists every checked pending approved,
      EstimationHandlers.getEstimationsByProject projectId None w
      = (Resolved (mkApiResponse 200 every "Estimations retrieved successfully"), w)
      /\ EstimationHandlers.getEstimationsByProject projectId (Some "checked") w
         = (Resolved (mkApiResponse 200 checked "Estimations retrieved successfully"), w)
      /\ EstimationHandlers.getEstimationsByProject projectId (Some "pending") w
         = (Resolved (mkApiResponse 200 pending "Estimations retrieved successfully"), w)
      /\ EstimationHandlers.getEstimationsByProject projectId (Some "approved") w
         = (Resolved (mkApiResponse 200 approved "Estimations retrieved successfully"), w)
      /\ (forall e,
             In e (map EstimationHandlers.doc every)
             <-> In e (estimations w) /\ EstimationModel.project e = Some projectId)
      /\ (forall e,
             In e (map EstimationHandlers.doc checked)
             <-> In e (map EstimationHandlers.doc every)
                 /\ EstimationModel.isChecked e = true)
      /\ (forall e,
             In e (map EstimationHandlers.doc pending)
             <-> In e (map EstimationHandlers.doc every)
                 /\ EstimationModel.isChecked e = false)
      /\ (forall e,
             In e (map EstimationHandlers.doc approved)
             <-> In e (map EstimationHandlers.doc every)
                 /\ EstimationModel.isApproved e = true)
      /\ (forall s, s <> "checked" -> s <> "pending" -> s <> "approved" ->
             EstimationHandlers.getEstimationsByProject projectId (Some s) w
             = EstimationHandlers.getEstimationsByProject projectId None w)
      /\ (one_per_project w -> (List.length every <= 1)%nat).
Proof.
  intros projectId w.
  destruct (getEstimationsByProject_docs projectId None w) as (every & He & Hde).
  destruct (getEstimationsByProject_docs projectId (Some "checked") w)
    as (checked & Hc & Hdc).
  destruct (getEstimationsByProject_docs projectId (Some "pending") w)
    as (pending & Hp & Hdp).
  destruct (getEstimationsByProject_docs projectId (Some "approved") w)
    as (approved & Ha & Hda).
  exists every, checked, pending, approved.
  split; [exact He|]. split; [exact Hc|]. split; [exact Hp|]. split; [exact Ha|].
  assert (Hin : forall e,
             In e (map EstimationHandlers.doc every)
             <-> In e (estimations w) /\ EstimationModel.project e = Some projectId).
  { intros e. rewrite Hde, <- in_rev, filter_In, matches_unfiltered, same_opt_true.
    reflexivity. }
  assert (Hsub : forall s flag,
             (forall e, EstimationHandlers.matches projectId (Some s) e
                        = EstimationModel.same_opt (EstimationModel.project e)
                            (Some projectId) && flag e) ->
             forall listed,
               map EstimationHandlers.doc listed
               = rev (filter (EstimationHandlers.matches projectId (Some s))
                             (estimations w)) ->
               forall e, In e (map EstimationHandlers.doc listed)
                         <-> In e (map EstimationHandlers.doc every) /\ flag e = true).
  { intros s flag Hm listed Hl e.
    rewrite Hl, <- in_rev, filter_In, Hm, andb_true_iff, Hin, same_opt_true. tauto. }
  split; [exact Hin|].
  split.
  { apply (Hsub "checked" EstimationModel.isChecked); [|exact Hdc].
    intros e. unfold EstimationHandlers.matches. cbn. rewrite !andb_true_r.
    reflexivity. }
  split.
  { intros e.
    rewrite (Hsub "pending" (fun x => negb (EstimationModel.isChecked x)));
      [rewrite negb_true_iff; reflexivity| |exact Hdp].
    intros x. unfold EstimationHandlers.matches. cbn. reflexivity. }
  split.
  { apply (Hsub "approved" EstimationModel.isApproved); [|exact Hda].
    intros e. unfold EstimationHandlers.matches. cbn. rewrite !andb_true_r.
    reflexivity. }
  split.
  { intros s H1 H2 H3.
    unfold EstimationHandlers.getEstimationsByProject, bind, read.
    assert (E : forall e, EstimationHandlers.matches projectId (Some s) e
                          = EstimationHandlers.matches projectId None e).
    { intros e. unfold EstimationHandlers.matches.
      apply String.eqb_neq in H1. apply String.eqb_neq in H2.
      apply String.eqb_neq in H3. rewrite H1, H2, H3. reflexivity. }
    rewrite (filter_ext _ _ E). reflexivity. }
  intros Hone. specialize (Hone projectId). unfold estimations_for in Hone.
  rewrite <- (length_map EstimationHandlers.doc), Hde, length_rev.
  rewrite (filter_ext _ _ (matches_unfiltered projectId)). exact Hone.
Qed.

Lemma estimations_listed_by_status_witness :
  exists every,
    EstimationHandlers.getEstimationsByProject Sample.pid None
      (Sample.estimated "estimation_prepared" false false)
    = (Resolved (mkApiResponse 200 every "Estimations retrieved successfully"),
       Sample.estimated "estimation_prepared" false false)
    /\ (List.length every <= 1)%nat.
Proof.
  destruct (estimations_listed_by_status Sample.pid
              (Sample.estimated "estimation_prepared" false false))
    as (every & checked & pending & approved & He & _ & _ & _ & _ & _ & _ & _ & _ & H).
  exists every. split; [exact He|]. apply H. apply sample_keyed.
Defined.

Lemma populate_runs e w :
  exists p,
    EstimationHandlers.populate e w = (Resolved p, w)
    /\ EstimationHandlers.doc p = e.
Proof.
  unfold EstimationHandlers.populate, ProjectHandlers.populate_user, bind.
  unfold User.findById, read, ret.
  destruct (EstimationModel.preparedBy e), (EstimationModel.checkedBy e),
    (EstimationModel.approvedBy e); eexists; split; reflexivity.
Qed.

(** X18.  [getEstimationDetails] never writes.  It answers 404 for an
    estimation that is not stored and 400 "Client information not found"
    when the project of the estimation is not stored; when the project is
    stored it answers 200 with the estimation and whatever the client
    lookup gives, which is no client at all once the client has been
    deleted. *)
Theorem estimation_details_tolerate_missing_client :
  (forall id w o w', EstimationHandlers.getEstimationDetails id w = (o, w') -> w' = w)
  /\ (forall id w,
        stored_estimation id w = None ->
        EstimationHandlers.getEstimationDetails id w
        = (Rejected (ApiError 404 "Estimation not found"), w))
  /\ (forall id w e pid,
        stored_estimation id w = Some e ->
        EstimationModel.project e = Some pid ->
        (stored_project pid w = None ->
           EstimationHandlers.getEstimationDetails id w
           = (Rejected (ApiError 400 "Client information not found"), w))
        /\ (forall p,
              stored_project pid w = Some p ->
              ProjectModel.client p <> "" ->
              exists details,
                EstimationHandlers.getEstimationDetails id w
                = (Resolved (mkApiResponse 200 details "Estimation details retrieved"), w)
                /\ EstimationHandlers.doc (EstimationHandlers.of_estimation details) = e
                /\ EstimationHandlers.of_project details = p
                /\ EstimationHandlers.of_client details
                   = stored_client (ProjectModel.client p) w)).
Proof.
  split; [|split].
  - intros id w o w' H.
    unfold EstimationHandlers.getEstimationDetails, bind, Estimation.findById, read in H.
    destruct (find _ (estimations w)) as [e|]; [|inversion H; reflexivity].
    assert (Hproj : exists pr,
               match EstimationModel.project e with
               | Some p => Project.findById p
               | None => ret None
               end w = (Resolved pr, w)).
    { destruct (EstimationModel.project e); eexists; reflexivity. }
    destruct Hproj as [pr Hpr]. rewrite Hpr in H.
    destruct (populate_runs e w) as (pe & Hpe & _). rewrite Hpe in H.
    destruct pr as [p|]; [|inversion H; reflexivity].
    unfold throw_if in H.
    destruct (negb (JS.truthy_string (ProjectModel.client p)));
      inversion H; reflexivity.
  - intros id w Hs.
    unfold EstimationHandlers.getEstimationDetails, bind, Estimation.findById, read.
    unfold stored_estimation in Hs. rewrite Hs. reflexivity.
  - intros id w e pid Hs Hp.
    unfold EstimationHandlers.getEstimationDetails, bind, Estimation.findById, read.
    unfold stored_estimation in Hs. rewrite Hs, Hp.
    unfold Project.findById, read.
    destruct (populate_runs e w) as (pe & Hpe & Hdoc). rewrite Hpe.
    unfold stored_project. split.
    + intros Hnone. rewrite Hnone. reflexivity.
    + intros p Hsome Hc. rewrite Hsome. unfold throw_if.
      apply truthy_string_true in Hc. rewrite Hc. cbn [negb].
      unfold ret at 1. unfold Client.findById, read, ret.
      eexists. split; [reflexivity|].
      cbn [EstimationHandlers.of_estimation EstimationHandlers.of_project
           EstimationHandlers.of_client].
      split; [exact Hdoc|]. split; reflexivity.
Qed.

Lemma estimation_details_tolerate_missing_client_witness :
  exists details,
    EstimationHandlers.getEstimationDetails Sample.eid
      (with_estimations [Sample.estimation_in true true]
         Sample.invoiceable_without_client)
    = (Resolved (mkApiResponse 200 details "Estimation details retrieved"),
       with_estimations [Sample.estimation_in true true]
         Sample.invoiceable_without_client)
    /\ EstimationHandlers.of_client details = None.
Proof.
  destruct estimation_details_tolerate_missing_client as (_ & _ & H).
  destruct (H Sample.eid
              (with_estimations [Sample.estimation_in true true]
                 Sample.invoiceable_without_client)
              (Sample.estimation_in true true) Sample.pid eq_refl eq_refl)
    as [_ Hfound].
  destruct (Hfound (Sample.project_in "work_completed" 100) eq_refl)
    as (details & Hrun & _ & _ & Hc); [discriminate|].
  exists details. split; [exact Hrun|]. rewrite Hc. reflexivity.
Defined.

(** ** Pagination *)

Lemma ceil_quotient_bounds (total_ : nat) (limit_ : Z) :
  (0 < limit_)%Z ->
  ((Listing.ceil_quotient total_ limit_ - 1) * limit_ < Z.of_nat total_
   <= Listing.ceil_quotient total_ limit_ * limit_)%Z.
Proof.
  intros Hl. unfold Listing.ceil_quotient, Qceiling.
  destruct limit_ as [|p|p]; try lia.
  set (a := Z.of_nat total_).
  assert (E : Qfloor (- (inject_Z a / inject_Z (Z.pos p))) = ((- a) / Z.pos p)%Z).
  { unfold Qdiv, Qinv, inject_Z, Qmult, Qopp, Qfloor. cbn [Qnum Qden].
    rewrite Z.mul_1_r. rewrite Pos.mul_1_l. reflexivity. }
  rewrite E.
  pose proof (Z.div_mod (- a) (Z.pos p) ltac:(lia)) as Hdm.
  pose proof (Z.mod_pos_bound (- a) (Z.pos p) ltac:(lia)) as Hb.
  nia.
Qed.

Lemma or_default_nonzero parsed d : d <> 0%Z -> Listing.or_default parsed d <> 0%Z.
Proof.
  intros Hd. unfold Listing.or_default. destruct parsed as [n|]; [|exact Hd].
  destruct (Z.eqb_spec n 0); assumption.
Qed.

Lemma list_projects_pagination count find_page filter_ q w r w' :
  Listing.list_projects count find_page filter_ q w = (Resolved r, w') ->
  w' = w
  /\ statusCode r = 200%Z
  /\ snd (data r)
     = Listing.pagination (count filter_ w)
         (Listing.or_default (Listing.query_page q) 1)
         (Listing.or_default (Listing.query_limit q) 10).
Proof.
  unfold Listing.list_projects, bind, read. cbv zeta.
  destruct (find_page _ _ _ w); [|discriminate].
  unfold ret. intros H. inversion H. repeat split; reflexivity.
Qed.

(** X19.  The pagination block of [getProjects] and [getEngineerProjects]
    is consistent.  Neither handler writes; the page and the limit they
    report are never 0, a missing, unreadable or zero value giving way to 1
    and 10; whenever the limit is positive, [totalPages] is the least number
    of pages of that size holding [total] entries, and [hasNextPage] holds
    exactly when the page comes before [totalPages]; [hasPreviousPage] holds
    exactly when the page is beyond the first.  [getEngineerProjects]
    answers 401 without a user. *)
Theorem pagination_is_consistent :
  forall (countDocuments : Listing.Filter -> World -> nat)
         (find_page : Listing.Filter -> Z -> Z -> World
                      -> Outcome (list ProjectModel.IProject))
         (q : Listing.Query) (w : World),
    (forall userId r w',
        Listing.getProjects countDocuments find_page q w = (Resolved r, w')
        \/ Listing.getEngineerProjects countDocuments find_page userId q w
           = (Resolved r, w') ->
        let block := snd (data r) in
        w' = w
        /\ Listing.page block = Listing.or_default (Listing.query_page q) 1
        /\ Listing.limit block = Listing.or_default (Listing.query_limit q) 10
        /\ Listing.page block <> 0%Z
        /\ Listing.limit block <> 0%Z
        /\ (Listing.hasPreviousPage block = true <-> (1 < Listing.page block)%Z)
        /\ ((0 < Listing.limit block)%Z ->
            ((Listing.totalPages block - 1) * Listing.limit block
             < Z.of_nat (Listing.total block)
             <= Listing.totalPages block * Listing.limit block)%Z
            /\ (Listing.hasNextPage block = true
                <-> (Listing.page block < Listing.totalPages block)%Z)))
    /\ Listing.getEngineerProjects countDocuments find_page None q w
       = (Rejected (ApiError 401 "Unauthorized access"), w).
Proof.
  intros count find_page q w. split; [|reflexivity].
  intros userId r w' H block.
  assert (Hshape : exists filter_,
             w' = w
             /\ block
                = Listing.pagination (count filter_ w)
                    (Listing.or_default (Listing.query_page q) 1)
                    (Listing.or_default (Listing.query_limit q) 10)).
  { destruct H as [H|H].
    - unfold Listing.getProjects in H.
      destruct (list_projects_pagination _ _ _ _ _ _ _ H) as (Hw & _ & Hb).
      eexists. split; [exact Hw|exact Hb].
    - unfold Listing.getEngineerProjects in H.
      destruct userId as [u|]; [|discriminate].
      unfold bind, throw_if in H.
      destruct (negb (JS.truthy_string u)); [discriminate|].
      unfold ret at 1 in H.
      destruct (list_projects_pagination _ _ _ _ _ _ _ H) as (Hw & _ & Hb).
      eexists. split; [exact Hw|exact Hb]. }
  destruct Hshape as (filter_ & Hw & Hb). rewrite Hb.
  cbn [Listing.pagination Listing.page Listing.limit Listing.total
       Listing.totalPages Listing.hasNextPage Listing.hasPreviousPage].
  split; [exact Hw|]. split; [reflexivity|]. split; [reflexivity|].
  split; [apply or_default_nonzero; discriminate|].
  split; [apply or_default_nonzero; discriminate|].
  split; [apply Z.ltb_lt|].
  intros Hl. pose proof (ceil_quotient_bounds (count filter_ w) _ Hl) as Hc.
  split; [exact Hc|]. rewrite Z.ltb_lt. nia.
Qed.

Lemma pagination_is_consistent_witness :
  exists r,
    Listing.getProjects (fun _ w => List.length (projects w))
      (fun _ _ _ w => Resolved (projects w))
      (Listing.mkQuery (Some 2%Z) (Some 0%Z) None None None)
      (Sample.world "draft" 0) = (Resolved r, Sample.world "draft" 0)
    /\ Listing.limit (snd (data r)) = 10%Z
    /\ (Listing.hasNextPage (snd (data r)) = true
        <-> (Listing.page (snd (data r)) < Listing.totalPages (snd (data r)))%Z).
Proof.
  eexists. split; [reflexivity|].
  destruct (pagination_is_consistent (fun _ w => List.length (projects w))
              (fun _ _ _ w => Resolved (projects w))
              (Listing.mkQuery (Some 2%Z) (Some 0%Z) None None None)
              (Sample.world "draft" 0)) as [Hp _].
  destruct (Hp None _ _ (or_introl eq_refl)) as (_ & _ & Hl & _ & _ & _ & Hpos).
  split; [exact Hl|]. apply Hpos. reflexivity.
Defined.

(** ** The payload of an invoice *)

Lemma map_index_length {A B} (f : A -> nat -> B) l : forall i,
  List.length (ProjectController.map_index f i l) = List.length l.
Proof.
  induction l as [|a l IH]; intros i; cbn [ProjectController.map_index List.length];
    [reflexivity|]. rewrite IH. reflexivity.
Qed.

Lemma map_index_nth {A B} (f : A -> nat -> B) l : forall i k a,
  nth_error l k = Some a ->
  nth_error (ProjectController.map_index f i l) k = Some (f a (i + k)%nat).
Proof.
  induction l as [|b l IH]; intros i k a H; [destruct k; discriminate|].
  destruct k as [|k]; cbn [nth_error ProjectController.map_index] in *.
  - inversion H. rewrite Nat.add_0_r. reflexivity.
  - rewrite (IH (S i) k a H). f_equal. f_equal. lia.
Qed.

(** The stub of [convertToWords] on [netAmount || 0]. *)
Lemma words_of_amount o :
  ProjectController.convertToWords (ProjectController.or_number o)
  = match o with
    | Some x => if JS.truthy_number x then " UAE Dirhams" else "Zero UAE Dirhams"
    | None => "Zero UAE Dirhams"
    end.
Proof.
  unfold ProjectController.convertToWords, ProjectController.or_number, JS.or_else.
  destruct o as [x|]; [|reflexivity].
  unfold JS.truthy, JS.truthy_number.
  destruct (JS.eqb x (JS.num 0)) eqn:Hzero; cbn [negb andb]; [reflexivity|].
  destruct (JS.eqb x x); [rewrite Hzero|]; reflexivity.
Qed.

(** X20.  When [generateInvoiceData] answers 200 it has written nothing,
    so the project keeps its status; the payload lists one product per
    quotation item, in the order of the quotation and numbered from 1, a
    missing description reading "N/A" and a missing or falsy number 0; the
    summary repeats the stored [subtotal] and [vatAmount] likewise; and the
    amount in words spells no number: it is "Zero UAE Dirhams" for an absent
    or falsy [netAmount] and " UAE Dirhams" for every other amount. *)
Theorem invoice_lists_quotation_items :
  forall (ext : Collaborators) (w : World) (projectId : ObjectId)
         (p : ProjectModel.IProject) (q : QuotationModel.IQuotation)
         (l : LPOModel.ILPO) (c : ClientModel.IClient) (u : ObjectId)
         (creator : UserModel.IUser),
    projectId <> "" ->
    ObjectId_isValid ext projectId = true ->
    stored_project projectId w = Some p ->
    quotation_of projectId w = Some q ->
    lpo_of projectId w = Some l ->
    QuotationModel.items q <> [] ->
    stored_client (ProjectModel.client p) w = Some c ->
    ProjectModel.createdBy p = Some u ->
    stored_user u w = Some creator ->
    exists r,
      ProjectController.generateInvoiceData ext projectId w = (Resolved r, w)
      /\ List.length (ProjectController.products (data r))
         = List.length (QuotationModel.items q)
      /\ (forall k item,
             nth_error (QuotationModel.items q) k = Some item ->
             exists line,
               nth_error (ProjectController.products (data r)) k = Some line
               /\ ProjectController.sno line = S k
               /\ ProjectController.product_description line
                  = JS.or_else JS.truthy_string (QuotationModel.description item) "N/A"
               /\ ProjectController.qty line
                  = match QuotationModel.quantity item with
                    | Some x => if JS.truthy_number x then x else JS.num 0
                    | None => JS.num 0
                    end
               /\ ProjectController.product_total line
                  = match QuotationModel.totalPrice item with
                    | Some x => if JS.truthy_number x then x else JS.num 0
                    | None => JS.num 0
                    end)
      /\ ProjectController.amount (ProjectController.summary (data r))
         = match QuotationModel.subtotal q with
           | Some x => if JS.truthy_number x then x else JS.num 0
           | None => JS.num 0
           end
      /\ ProjectController.vat (ProjectController.summary (data r))
         = match QuotationModel.vatAmount q with
           | Some x => if JS.truthy_number x then x else JS.num 0
           | None => JS.num 0
           end
      /\ ProjectController.amountInWords (data r)
         = match QuotationModel.netAmount q with
           | Some x =>
               if JS.truthy_number x then " UAE Dirhams" else "Zero UAE Dirhams"
           | None => "Zero UAE Dirhams"
           end.
Proof.
  intros ext w projectId p q l c u creator Hid Hvalid Hf Hq Hl Hitems Hc Hu Hcr.
  apply truthy_string_true in Hid.
  unfold stored_project in Hf. unfold quotation_of in Hq. unfold lpo_of in Hl.
  unfold stored_client in Hc. unfold stored_user in Hcr.
  assert (Hlen : Nat.eqb (List.length (QuotationModel.items q)) 0 = false)
    by (destruct (QuotationModel.items q); [congruence|reflexivity]).
  unfold ProjectController.generateInvoiceData, bind, throw_if.
  rewrite Hid, Hvalid. cbn [negb orb]. unfold ret at 1.
  unfold Project.findById, read. rewrite Hf.
  unfold Client.findById, read. rewrite Hc, Hu.
  unfold User.findById, read. rewrite Hcr.
  destruct (ProjectModel.assignedTo p);
    unfold Quotation.findOne, LPO.findOne, read, ret; rewrite Hq, Hl, Hlen;
    eexists; (split; [reflexivity|]);
    cbn [data ProjectController.summary ProjectController.amount
         ProjectController.vat ProjectController.products
         ProjectController.amountInWords];
    (split; [apply map_index_length|]);
    (split;
     [intros k item Hk; eexists;
      split; [apply (map_index_nth _ _ 0 k item Hk)|];
      cbn [ProjectController.sno ProjectController.product_description
           ProjectController.qty ProjectController.product_total];
      unfold ProjectController.or_number, JS.or_else;
      split; [lia|]; repeat split; reflexivity|]);
    (split; [reflexivity|]); (split; [reflexivity|]);
    apply words_of_amount.
Qed.

Lemma invoice_lists_quotation_items_witness :
  exists r,
    ProjectController.generateInvoiceData Sample.ext Sample.pid Sample.invoiceable
    = (Resolved r, Sample.invoiceable)
    /\ List.length (ProjectController.products (data r)) = 1%nat
    /\ ProjectController.amountInWords (data r) = " UAE Dirhams".
Proof.
  destruct (invoice_lists_quotation_items Sample.ext Sample.invoiceable Sample.pid
              (Sample.project_in "work_completed" 100)
              (Sample.quotation_with [Sample.wiring] (Some (JS.num 1050)))
              Sample.the_lpo Sample.the_client Sample.uid Sample.engineer)
    as (r & Hrun & Hlen & _ & _ & _ & Hwords);
    try reflexivity; try discriminate.
  exists r. split; [exact Hrun|]. split; [exact Hlen|]. exact Hwords.
Defined.

(** ** What a stored project can come to violate *)

Lemma validate_sound p :
  ProjectModel.validate p = true -> sound_apart_from_status p = true.
Proof. intros H. apply with_status_validate; [exact H|reflexivity]. Qed.

(** What an update must satisfy to keep a project sound: the paths it
    sets pass their validators,the status apart, and it applies no operator to
    [progress]. *)
Lemma sound_apply_update u p :
  sound_apart_from_status p = true ->
  ProjectModel.validate_update
    (ProjectModel.mkFullUpdate
       (ProjectModel.set_projectName u) (ProjectModel.set_projectDescription u)
       (ProjectModel.set_client u) (ProjectModel.set_siteAddress u)
       (ProjectModel.set_siteLocation u) None (ProjectModel.set_projectNumber u)
       (ProjectModel.set_progress u) (ProjectModel.set_createdBy u)
       (ProjectModel.set_updatedBy u) (ProjectModel.set_assignedTo u) None) = true ->
  ProjectModel.op_progress u = None ->
  sound_apart_from_status (ProjectModel.apply_update u p) = true.
Proof.
  unfold sound_apart_from_status, ProjectModel.with_status, ProjectModel.validate,
    ProjectModel.validate_update.
  cbn [ProjectModel.apply_update ProjectModel.projectName ProjectModel.projectDescription
       ProjectModel.client ProjectModel.siteAddress ProjectModel.siteLocation
       ProjectModel.status ProjectModel.progress ProjectModel.createdBy
       ProjectModel.projectNumber ProjectModel.set_status ProjectModel.set_progress
       ProjectModel.set_updatedBy ProjectModel.set_projectName
       ProjectModel.set_projectDescription ProjectModel.set_client
       ProjectModel.set_siteAddress ProjectModel.set_siteLocation
       ProjectModel.set_projectNumber ProjectModel.set_createdBy
       ProjectModel.set_assignedTo ProjectModel.op_progress
       ProjectModel.or_kept ProjectModel.or_kept_opt].
  intros H Hu Hop. rewrite Hop.
  repeat (apply andb_prop in H; destruct H as [H ?]).
  repeat (apply andb_prop in Hu; destruct Hu as [Hu ?]).
  unfold ProjectModel.required_if_set, ProjectModel.maxlength in *.
  destruct (ProjectModel.set_projectName u), (ProjectModel.set_projectDescription u),
    (ProjectModel.set_client u), (ProjectModel.set_siteAddress u),
    (ProjectModel.set_siteLocation u), (ProjectModel.set_projectNumber u),
    (ProjectModel.set_progress u), (ProjectModel.set_createdBy u);
    unfold ProjectModel.or_kept, ProjectModel.or_kept_opt;
    cbn [JS.is_nullish negb];
    repeat match goal with E : _ = true |- _ => rewrite E; clear E end;
    reflexivity.
Qed.

Lemma validate_update_apart u :
  ProjectModel.validate_update u = true ->
  ProjectModel.validate_update
    (ProjectModel.mkFullUpdate
       (ProjectModel.set_projectName u) (ProjectModel.set_projectDescription u)
       (ProjectModel.set_client u) (ProjectModel.set_siteAddress u)
       (ProjectModel.set_siteLocation u) None (ProjectModel.set_projectNumber u)
       (ProjectModel.set_progress u) (ProjectModel.set_createdBy u)
       (ProjectModel.set_updatedBy u) (ProjectModel.set_assignedTo u) None) = true.
Proof.
  unfold ProjectModel.validate_update.
  cbn [ProjectModel.set_status ProjectModel.set_progress ProjectModel.set_projectName
       ProjectModel.set_projectDescription ProjectModel.set_client
       ProjectModel.set_siteAddress ProjectModel.set_siteLocation
       ProjectModel.set_projectNumber].
  destruct (ProjectModel.set_status u) as [st|]; [|auto].
  destruct (ProjectModel.valid_status st); [auto|discriminate].
Qed.

Lemma sound_replace p w :
  sound_apart_from_status p = true ->
  projects_sound w ->
  projects_sound (with_projects (Project.replace p (projects w)) w).
Proof.
  intros Hp H. unfold projects_sound in *. cbn [projects with_projects].
  induction H as [|d l Hd Hl IH]; cbn [Project.replace map]; [constructor|].
  constructor; [|exact IH]. destruct (_ =? _); assumption.
Qed.

Lemma sound_elsewhere w w' :
  projects w' = projects w -> projects_sound w -> projects_sound w'.
Proof. unfold projects_sound. intros ->. auto. Qed.

Lemma sound_found id w p :
  projects_sound w -> stored_project id w = Some p ->
  sound_apart_from_status p = true.
Proof.
  unfold projects_sound, stored_project. intros H Hf.
  apply find_some in Hf. destruct Hf as [Hin _].
  rewrite Forall_forall in H. apply H. exact Hin.
Qed.

Lemma project_save_sound p : preserves projects_sound (Project.save p).
Proof.
  intros w o w' H HP. unfold Project.save in H.
  destruct (ProjectModel.validate p) eqn:Hv; [|inversion H; subst; exact HP].
  unfold write in H. inversion H; subst.
  apply sound_replace; [apply validate_sound; exact Hv|exact HP].
Qed.

Lemma project_update_sound id u rv :
  (rv = true /\ ProjectModel.op_progress u = None)
  \/ (exists s x by_,
        u = ProjectModel.mkUpdate s x by_
        /\ match x with
           | Some n => ProjectModel.valid_progress n = true
           | None => True
           end) ->
  preserves projects_sound (Project.findByIdAndUpdate id u rv).
Proof.
  intros Hu w o w' H HP. unfold Project.findByIdAndUpdate in H.
  destruct (rv && negb (ProjectModel.validate_update u)) eqn:Hrv;
    [inversion H; subst; exact HP|].
  destruct (ProjectModel.conflicting u); [inversion H; subst; exact HP|].
  unfold bind, Project.findById, read, write, ret in H.
  destruct (find _ (projects w)) as [p|] eqn:Hf; [|inversion H; subst; exact HP].
  destruct (Project.unique_on_update _ _ _); inversion H; subst; [|exact HP].
  apply sound_replace; [|exact HP].
  assert (Hp : sound_apart_from_status p = true) by (eapply sound_found; eauto).
  destruct Hu as [[-> Hop]|(s & x & by_ & -> & Hx)].
  - apply sound_apply_update; [exact Hp| |exact Hop].
    cbn [andb] in Hrv. apply negb_false_iff in Hrv.
    apply validate_update_apart. exact Hrv.
  - apply sound_apply_update; [exact Hp| |reflexivity].
    unfold ProjectModel.validate_update.
    cbn [ProjectModel.set_status ProjectModel.set_progress ProjectModel.set_projectName
         ProjectModel.set_projectDescription ProjectModel.set_client
         ProjectModel.set_siteAddress ProjectModel.set_siteLocation
         ProjectModel.set_projectNumber ProjectModel.required_if_set
         ProjectModel.maxlength andb].
    destruct x as [n|]; [rewrite Hx|]; reflexivity.
Qed.

Ltac sound_elsewhere_step :=
  apply preserves_write; intros ? ?;
  eapply sound_elsewhere; [reflexivity|eassumption].

Lemma estimation_save_sound e : preserves projects_sound (Estimation.save e).
Proof.
  unfold Estimation.save. destruct (EstimationModel.validate e); [|apply preserves_throw].
  repeat preserve_step. sound_elsewhere_step.
Qed.

Lemma send_all_sound ext mails : forall n,
  preserves projects_sound (EstimationController.send_all ext n mails).
Proof.
  induction mails as [|m rest IH]; intros n; simpl; [apply preserves_ret|].
  apply preserves_bind.
  - apply preserves_try_catch; [|intro; apply preserves_ret].
    unfold Mailer.sendEmail, console_error_log. repeat preserve_step.
    sound_elsewhere_step.
  - intros sent. apply preserves_bind; [apply IH|intro; apply preserves_ret].
Qed.

Ltac sound_step :=
  first
    [ apply project_save_sound
    | apply project_update_sound; right; do 3 eexists; split; [reflexivity|exact I]
    | apply estimation_save_sound
    | apply send_all_sound
    | sound_elsewhere_step
    | preserve_step ].

(** What an update operator in a body of [updateProject] does to a sound
    store: [$inc] by 200 on the progress of the sample project. *)
Lemma operator_breaks_soundness :
  ~ preserves projects_sound
      (ProjectController.updateProject Sample.trim Sample.pid
         (ProjectController.mkUpdateProjectBody None None None None None None None
            None None None (Some (ProjectModel.Inc (JS.num 200))))
         (Some Sample.uid)).
Proof.
  intros H.
  specialize (H (Sample.world "draft" 0) _ _ (surjective_pairing _)).
  assert (H0 : projects_sound (Sample.world "draft" 0)) by (repeat constructor).
  specialize (H H0). inversion H as [|p l Hp _]. discriminate Hp.
Qed.

(** X21.  The status is the only member of a stored project that the
    handlers let drift from the schema: if every stored project passes all
    the validators of the project schema other than the enumeration of
    [status] (required members, maximal lengths, a progress within 0..100),
    the same holds after any run, resolved or rejected, of a handler that
    writes projects, estimations or quotations, for [updateProject] with a
    body made of paths of the schema and for [updateProjectProgress] with a
    progress that is a number.  An update operator in the body of
    [updateProject] is not validated: [$inc] by 200 on the progress of a
    project at 0 stores a progress of 200. *)
Theorem only_the_status_drifts :
  forall (ext : Collaborators) (trim : string -> string)
         (generateProjectNumber : World -> string)
         (deleteFileFromS3 : string -> Outcome unit),
    (forall id body userId,
        ProjectController.body_progress_operator body = None ->
        preserves projects_sound (ProjectController.updateProject trim id body userId))
    /\ ~ preserves projects_sound
          (ProjectController.updateProject Sample.trim Sample.pid
             (ProjectController.mkUpdateProjectBody None None None None None None None
                None None None (Some (ProjectModel.Inc (JS.num 200))))
             (Some Sample.uid))
    /\ (forall id status_ userId,
          preserves projects_sound (ProjectController.updateProjectStatus id status_ userId))
    /\ (forall id progress_ comment userId,
          match progress_ with
          | Some x => JS.eqb x x = true
          | None => True
          end ->
          preserves projects_sound
            (ProjectController.updateProjectProgress id progress_ comment userId))
    /\ (forall id assignedTo_,
          preserves projects_sound (ProjectController.assignProject ext id assignedTo_))
    /\ (forall body userId,
          preserves projects_sound
            (ProjectHandlers.createProject trim generateProjectNumber body userId))
    /\ (forall id, preserves projects_sound (ProjectHandlers.deleteProject id))
    /\ (forall body userId,
          preserves projects_sound (EstimationController.createEstimation ext body userId))
    /\ (forall id comment isApproved_ userId,
          preserves projects_sound
            (EstimationController.approveEstimation id comment isApproved_ userId))
    /\ (forall id comment isChecked_ userId,
          preserves projects_sound
            (EstimationController.markAsChecked ext id comment isChecked_ userId))
    /\ (forall id updateData,
          preserves projects_sound (EstimationController.updateEstimation id updateData))
    /\ (forall id, preserves projects_sound (EstimationController.deleteEstimation id))
    /\ (forall req, preserves projects_sound (QuotationController.createQuotation ext req))
    /\ (forall id,
          preserves projects_sound (QuotationHandlers.deleteQuotation deleteFileFromS3 id)).
Proof.
  intros ext trim gen del.
  split; [|split; [|split; [|split; [|split; [|split; [|split; [|split;
    [|split; [|split; [|split; [|split; [|split]]]]]]]]]]]].
  - intros id body userId Hop.
    unfold ProjectController.updateProject, ProjectController.includes, Project.findById.
    repeat first
      [ apply project_update_sound; left; split; [reflexivity|exact Hop]
      | sound_step ].
  - exact operator_breaks_soundness.
  - intros id status_ userId.
    unfold ProjectController.updateProjectStatus, ProjectController.includes,
      Project.findById.
    repeat sound_step.
  - intros id progress_ comment userId Hnum.
    unfold ProjectController.updateProjectProgress.
    destruct progress_ as [x|]; [|apply preserves_throw].
    destruct (ProjectController.out_of_range x) eqn:Hx.
    + intros w o w' H HP. inversion H; subst. exact HP.
    + unfold Project.findById, Comment.create.
      repeat first
        [ apply project_update_sound; right; do 3 eexists;
          split; [reflexivity|apply out_of_range_valid; assumption]
        | sound_step ].
  - intros id assignedTo_.
    unfold ProjectController.assignProject, Project.findById, User.findById,
      Mailer.sendEmail, console_error_log.
    repeat sound_step.
  - intros body userId.
    unfold ProjectHandlers.createProject, Client.findById, ProjectHandlers.create.
    repeat first
      [ match goal with
        | |- preserves _ (if ProjectModel.validate ?d then _ else _) =>
            destruct (ProjectModel.validate d) eqn:Hv
        end
      | apply preserves_write; intros w HP; unfold projects_sound in *;
        cbn [projects with_projects]; apply Forall_app; split;
        [exact HP|constructor; [apply validate_sound; exact Hv|constructor]]
      | sound_step ].
  - intros id.
    unfold ProjectHandlers.deleteProject, Project.findById,
      ProjectHandlers.findByIdAndDelete.
    repeat first
      [ apply preserves_write; intros w HP; unfold projects_sound in *;
        cbn [projects with_projects]; apply Forall_forall; intros x Hx;
        apply filter_In in Hx; rewrite Forall_forall in HP; apply HP; tauto
      | sound_step ].
  - intros body userId.
    unfold EstimationController.createEstimation, Estimation.findOne, Estimation.create.
    repeat sound_step.
  - intros id comment isApproved_ userId.
    unfold EstimationController.approveEstimation, EstimationController.update_project_of,
      Estimation.findById, Comment.create.
    repeat sound_step.
  - intros id comment isChecked_ userId.
    unfold EstimationController.markAsChecked, EstimationController.update_project_of,
      Estimation.findById, Project.findById, User.find_role, User.findById,
      Comment.create, console_error_log.
    repeat sound_step.
  - intros id updateData.
    unfold EstimationController.updateEstimation, Estimation.findById.
    repeat sound_step.
  - intros id.
    unfold EstimationController.deleteEstimation, Estimation.findById,
      Estimation.findByIdAndDelete.
    repeat sound_step.
  - intros req.
    unfold QuotationController.createQuotation, Quotation.findOne, Estimation.findOne,
      QuotationController.generateQuotationNumber, Quotation.countDocuments.
    repeat sound_step.
  - intros id.
    unfold QuotationHandlers.deleteQuotation, QuotationHandlers.findByIdAndDelete,
      EstimationController.update_project_of.
    repeat sound_step.
Qed.

Lemma only_the_status_drifts_witness :
  projects_sound (Sample.world "quotation_sent" 0)
  /\ projects_sound
       (snd (ProjectController.updateProject Sample.trim Sample.pid
               (Sample.project_body (Some "lpo_received") (Some (JS.num 10)))
               (Some Sample.uid) (Sample.world "quotation_sent" 0)))
  /\ projects_sound
       (snd (ProjectController.updateProjectStatus Sample.pid (Some "quotation_approved")
               (Some Sample.uid) (Sample.world "quotation_sent" 0)))
  /\ projects_sound
       (snd (ProjectController.updateProjectProgress Sample.pid (Some (JS.num 40)) None
               (Some Sample.uid) (Sample.world "quotation_sent" 0))).
Proof.
  assert (H0 : projects_sound (Sample.world "quotation_sent" 0))
    by (repeat constructor).
  split; [exact H0|].
  destruct (only_the_status_drifts Sample.ext Sample.trim (fun _ => "PRJ")
              (fun _ => Resolved tt)) as (Hbody & _ & Hstatus & Hprogress & _).
  split; [|split].
  - eapply (Hbody Sample.pid
              (Sample.project_body (Some "lpo_received") (Some (JS.num 10)))
              (Some Sample.uid) eq_refl);
      [apply surjective_pairing|exact H0].
  - eapply Hstatus; [apply surjective_pairing|exact H0].
  - eapply (Hprogress Sample.pid (Some (JS.num 40)) None (Some Sample.uid) eq_refl);
      [apply surjective_pairing|exact H0].
Defined.
(** ** The two ways to change a status *)

(** X22.  [updateProject] and [updateProjectStatus] disagree on the
    statuses the schema does not list: for a transition the table allows
    towards such a status, [updateProject], which runs the update
    validators, rejects with a validation error and writes nothing,
    whatever else the body holds beside the status and a progress within
    0..100, while [updateProjectStatus] answers 200 and stores the
    status. *)
Theorem status_endpoints_disagree :
  forall (trim : string -> string) (w : World) (id : ObjectId)
         (p : ProjectModel.IProject) (to : string)
         (body : ProjectController.UpdateProjectBody) (userId : option ObjectId),
    stored_project id w = Some p ->
    to <> "" ->
    ProjectController.inherited (ProjectModel.status p) = false ->
    ProjectController.body_status body = Some to ->
    match ProjectController.body_progress body with
    | Some x => ProjectController.out_of_range x = false
    | None => True
    end ->
    ProjectController.isTransitionAllowed (ProjectModel.status p) to = true ->
    ProjectModel.valid_status to = false ->
    ProjectController.updateProject trim id body userId w
    = (Rejected (ValidationError "Project"), w)
    /\ exists r w',
         ProjectController.updateProjectStatus id (Some to) userId w = (Resolved r, w')
         /\ statusCode r = 200%Z
         /\ stored_status id w' = Some to.
Proof.
  intros trim w id p to body userId Hs Hto Hinh Hst Hrange Hallowed Hbad. split.
  - unfold ProjectController.updateProject, bind, Project.findById, read.
    pose proof Hs as Hs'. unfold stored_project in Hs'. rewrite Hs'.
    unfold throw_if.
    assert (Hr : match ProjectController.body_progress body with
                 | Some x => ProjectController.out_of_range x
                 | None => false
                 end = false)
      by (destruct (ProjectController.body_progress body); auto).
    rewrite Hr. unfold ret at 1. rewrite Hst.
    apply truthy_string_true in Hto. rewrite Hto.
    rewrite (includes_listed _ _ _ Hinh), Hallowed. cbn [negb]. unfold ret at 1.
    unfold Project.findByIdAndUpdate, ProjectModel.validate_update.
    cbn [ProjectController.cast_update ProjectModel.set_status].
    rewrite Hst, Hbad. reflexivity.
  - apply (updateProjectStatus_accepts w id p to userId Hs Hto Hinh Hallowed).
Qed.

Lemma status_endpoints_disagree_witness :
  ProjectController.updateProject Sample.trim Sample.pid
    (Sample.project_body (Some "contract_signed") None)
    (Some Sample.uid) (Sample.world "on_hold" 0)
  = (Rejected (ValidationError "Project"), Sample.world "on_hold" 0)
  \/ ProjectController.updateProject Sample.trim Sample.pid
       (Sample.project_body (Some "quotation_approved") None)
       (Some Sample.uid) (Sample.world "quotation_sent" 0)
     = (Rejected (ValidationError "Project"), Sample.world "quotation_sent" 0).
Proof.
  right.
  apply (status_endpoints_disagree Sample.trim (Sample.world "quotation_sent" 0)
           Sample.pid (Sample.project_in "quotation_sent" 0) "quotation_approved"
           (Sample.project_body (Some "quotation_approved") None)
           (Some Sample.uid));
    try reflexivity; try discriminate.
Defined.
(** ** Checking twice *)

(** A check of an estimation that is not checked, whether or not its
    project is still stored: the reference is read through [populate], the
    document is saved with the reference it holds. *)
Lemma markAsChecked_true_answers ext w id e userId comment :
  userId <> "" ->
  stored_estimation id w = Some e ->
  EstimationModel.isChecked e = false ->
  EstimationModel.validate e = true ->
  let checked :=
    EstimationModel.pre_save
      (EstimationController.with_check true (Some userId)
         (if JS.truthy JS.truthy_string comment then comment
          else EstimationModel.approvalComment e) e) in
  exists r w',
    EstimationController.markAsChecked ext id comment (Some true) (Some userId) w
    = (Resolved r, w')
    /\ statusCode r = 200%Z
    /\ stored_estimation id w' = Some checked
    /\ projects w' = projects w
    /\ List.length (comments w') = S (List.length (comments w)).
Proof.
  intros Hu Hf Hc Hv checked.
  unfold EstimationController.markAsChecked, bind, throw_if.
  apply truthy_string_true in Hu. rewrite Hu. cbn [negb]. unfold ret at 1.
  unfold Estimation.findById, read.
  pose proof Hf as Hf'. unfold stored_estimation in Hf'. rewrite Hf'.
  assert (Hpop : exists pr,
             match EstimationModel.project e with
             | Some p => Project.findById p
             | None => ret None
             end w = (Resolved pr, w))
    by (destruct (EstimationModel.project e); eexists; reflexivity).
  destruct Hpop as [pr Hpr]. rewrite Hpr.
  rewrite Hc. cbn [andb]. unfold ret at 1.
  unfold Comment.create, write.
  set (w1 := with_comments _ w).
  match goal with |- context [Estimation.save ?d w1] => set (doc := d) end.
  assert (Hid : EstimationModel._id doc = id)
    by (unfold doc; simpl; eapply estimation_find_id; eauto).
  assert (Hf1 : stored_estimation (EstimationModel._id doc) w1 = Some e)
    by (rewrite Hid; exact Hf).
  destruct (estimation_save_ok w1 doc e Hf1 Hv eq_refl eq_refl) as [Hrun Hst].
  rewrite Hrun. unfold ret at 1. unfold User.find_role, User.findById, read.
  rewrite Hid in Hst. subst checked. fold doc.
  assert (Hlen : List.length (comments w1) = S (List.length (comments w)))
    by (unfold w1; cbn [comments with_comments]; rewrite length_app, Nat.add_comm;
        reflexivity).
  destruct pr as [p|].
  - rewrite send_all_spec.
    destruct (all_sent ext 0 _);
      unfold console_error_log, write, ret; do 2 eexists;
      (split; [reflexivity|]); (split; [reflexivity|]);
      (split; [exact Hst|]); split; [reflexivity|exact Hlen|reflexivity|exact Hlen].
  - unfold ret at 1.
    destruct (Nat.eqb _ 0);
      unfold console_error_log, write, ret; do 2 eexists;
      (split; [reflexivity|]); (split; [reflexivity|]);
      (split; [exact Hst|]); split; [reflexivity|exact Hlen|reflexivity|exact Hlen].
Qed.

(** X23.  [markAsChecked] with [isChecked = true] refuses an estimation
    that is already checked with 400 and writes nothing, whether or not its
    project is still stored; on an estimation that is not checked and passes
    its schema it answers 200 and stores the flag, again whether or not the
    project is still stored, and no project is touched. *)
Theorem check_is_not_repeated :
  forall (ext : Collaborators) (w : World) (id : ObjectId)
         (e : EstimationModel.IEstimation) (userId : ObjectId)
         (comment : option string),
    userId <> "" ->
    stored_estimation id w = Some e ->
    (EstimationModel.isChecked e = true ->
       EstimationController.markAsChecked ext id comment (Some true) (Some userId) w
       = (Rejected (ApiError 400 "Estimation is already checked"), w))
    /\ (EstimationModel.isChecked e = false ->
        EstimationModel.validate e = true ->
        exists r w',
          EstimationController.markAsChecked ext id comment (Some true) (Some userId) w
          = (Resolved r, w')
          /\ statusCode r = 200%Z
          /\ option_map EstimationModel.isChecked (stored_estimation id w') = Some true
          /\ option_map EstimationModel.checkedBy (stored_estimation id w')
             = Some (Some userId)
          /\ projects w' = projects w).
Proof.
  intros ext w id e userId comment Hu Hf. split.
  - intros Hc.
    unfold EstimationController.markAsChecked, bind, throw_if.
    apply truthy_string_true in Hu. rewrite Hu. cbn [negb]. unfold ret at 1.
    unfold Estimation.findById, read.
    unfold stored_estimation in Hf. rewrite Hf.
    assert (Hpop : exists pr,
               match EstimationModel.project e with
               | Some p => Project.findById p
               | None => ret None
               end w = (Resolved pr, w))
      by (destruct (EstimationModel.project e); eexists; reflexivity).
    destruct Hpop as [pr Hpr]. rewrite Hpr.
    rewrite Hc. reflexivity.
  - intros Hc Hv.
    destruct (markAsChecked_true_answers ext w id e userId comment Hu Hf Hc Hv)
      as (r & w' & Hrun & Hcode & Hst & Hproj & _).
    exists r, w'. split; [exact Hrun|]. split; [exact Hcode|].
    rewrite Hst. split; [reflexivity|]. split; [reflexivity|exact Hproj].
Qed.

(** The project of the sample estimation is gone: the check is answered
    with 200 and the flag is stored all the same. *)
Example check_without_project :
  stored_project Sample.pid Sample.orphaned = None
  /\ exists r w',
       EstimationController.markAsChecked Sample.ext Sample.eid None (Some true)
         (Some Sample.admin_id) Sample.orphaned = (Resolved r, w')
       /\ statusCode r = 200%Z
       /\ option_map EstimationModel.isChecked (stored_estimation Sample.eid w')
          = Some true.
Proof.
  split; [reflexivity|].
  destruct (markAsChecked_true_answers Sample.ext Sample.orphaned Sample.eid
              (Sample.estimation_in false false) Sample.admin_id None)
    as (r & w' & Hrun & Hcode & Hst & _);
    [discriminate|reflexivity|reflexivity|reflexivity|].
  exists r, w'. rewrite Hst. repeat split; assumption || reflexivity.
Qed.

Lemma check_is_not_repeated_witness :
  EstimationController.markAsChecked Sample.ext Sample.eid None (Some true)
    (Some Sample.admin_id) (Sample.estimated "estimation_prepared" true false)
  = (Rejected (ApiError 400 "Estimation is already checked"),
     Sample.estimated "estimation_prepared" true false)
  /\ exists r w',
       EstimationController.markAsChecked Sample.ext Sample.eid None (Some true)
         (Some Sample.admin_id) Sample.orphaned = (Resolved r, w')
       /\ statusCode r = 200%Z
       /\ option_map EstimationModel.isChecked (stored_estimation Sample.eid w')
          = Some true
       /\ projects w' = [].
Proof.
  split.
  - destruct (check_is_not_repeated Sample.ext
                (Sample.estimated "estimation_prepared" true false) Sample.eid
                (Sample.estimation_in true false) Sample.admin_id None)
      as [H _]; [discriminate|reflexivity|].
    apply H. reflexivity.
  - destruct (check_is_not_repeated Sample.ext Sample.orphaned Sample.eid
                (Sample.estimation_in false false) Sample.admin_id None)
      as [_ H]; [discriminate|reflexivity|].
    destruct (H eq_refl eq_refl) as (r & w' & Hrun & Hcode & Hc & _ & Hp).
    exists r, w'. repeat split; assumption.
Defined.
(** ** Work-completion images *)

Lemma find_unique {A} (f : A -> bool) (l : list A) (d : A) :
  (exists x, In x l /\ f x = true) ->
  (forall x, In x l -> f x = true -> x = d) ->
  find f l = Some d.
Proof.
  intros (x & Hin & Hx) Hall.
  destruct (find f l) as [y|] eqn:Hf.
  - apply find_some in Hf. destruct Hf as [Hy Hfy]. f_equal. apply Hall; assumption.
  - apply (find_none _ _ Hf) in Hin. congruence.
Qed.

Lemma find_rev_none {A} (f : A -> bool) (l : list A) :
  find f l = None -> find f (rev l) = None.
Proof.
  intros H. destruct (find f (rev l)) as [y|] eqn:Hf; [|reflexivity].
  apply find_some in Hf. destruct Hf as [Hy Hfy]. apply in_rev in Hy.
  apply (find_none _ _ H) in Hy. congruence.
Qed.

(** The images [uploadWorkCompletionImages] pushes. *)
Lemma pushed_images fs : forall titles descriptions uploaded l s,
  WorkCompletion.new_images fs titles descriptions uploaded = Resolved l ->
  List.length titles = List.length fs ->
  exists pushed s1,
    WorkCompletion.with_ids l s = (Resolved pushed, s1)
    /\ WorkCompletion.completions s1 = WorkCompletion.completions s
    /\ map WorkCompletionModel.title pushed = titles
    /\ List.length pushed = List.length fs.
Proof.
  induction fs as [|f fs IH]; intros titles descriptions uploaded l s H Hlen.
  - cbn in H. inversion H; subst l. destruct titles; [|discriminate].
    exists [], s. repeat split.
  - cbn [WorkCompletion.new_images] in H.
    destruct uploaded as [|data_ uploaded]; [discriminate|].
    destruct (WorkCompletion.new_images fs (tl titles) (tl descriptions) uploaded)
      as [rest|] eqn:Hrest; [|discriminate].
    inversion H; subst l.
    destruct titles as [|t titles]; [discriminate|]. cbn [tl hd] in *.
    cbn [WorkCompletion.with_ids]. unfold WorkCompletion.and_then at 1.
    unfold WorkCompletion.fresh_id at 1.
    set (s0 := WorkCompletion.mkStore _ _).
    destruct (IH titles (tl descriptions) uploaded rest s0 Hrest)
      as (pushed & s1 & Hrun & Hc & Ht & Hl); [cbn in Hlen; lia|].
    unfold WorkCompletion.and_then. rewrite Hrun. unfold WorkCompletion.pure.
    do 2 eexists. split; [reflexivity|].
    split; [exact Hc|]. cbn [map WorkCompletionModel.title List.length].
    rewrite Ht, Hl. split; reflexivity.
Qed.

(** A successful [uploadWorkCompletionImages]: the record it went to and
    the collection it leaves. *)
Lemma upload_shape trim up projectId files titles descriptions userId s r s' :
  WorkCompletion.uploadWorkCompletionImages trim up projectId files titles
    descriptions userId s = (Resolved r, s') ->
  exists fs target base pushed,
    files = Some fs
    /\ projectId <> ""
    /\ (match find (fun c => WorkCompletionModel.project c =? projectId)
                   (WorkCompletion.completions s) with
        | Some found => target = found /\ base = WorkCompletion.completions s
        | None =>
            WorkCompletionModel.images target = []
            /\ WorkCompletionModel.project target = projectId
            /\ base = (WorkCompletion.completions s ++ [target])%list
        end)
    /\ WorkCompletionModel.createdBy target = userId
    /\ data r
       = WorkCompletionModel.with_images
           (WorkCompletionModel.images target ++ pushed) target
    /\ WorkCompletionModel.validate (data r) = true
    /\ WorkCompletion.completions s'
       = map (fun d => if WorkCompletionModel._id d =? WorkCompletionModel._id target
                       then data r else d) base
    /\ map WorkCompletionModel.title pushed = WorkCompletion.to_array titles
    /\ List.length pushed = List.length fs
    /\ fs <> [].
Proof.
  intros H. unfold WorkCompletion.uploadWorkCompletionImages in H.
  unfold WorkCompletion.and_then at 1 in H. unfold WorkCompletion.fail_if at 1 in H.
  destruct (JS.truthy_string projectId) eqn:Hpid; cbn [negb] in H; [|discriminate].
  apply truthy_string_true in Hpid.
  unfold WorkCompletion.pure at 1 in H.
  destruct files as [fs|]; [|discriminate].
  unfold WorkCompletion.and_then at 1 in H. unfold WorkCompletion.fail_if at 1 in H.
  destruct (Nat.eqb (List.length fs) 0) eqn:Hfs; [discriminate|].
  assert (Hsome : fs <> []) by (intros ->; discriminate).
  unfold WorkCompletion.pure at 1 in H. cbv zeta in H.
  unfold WorkCompletion.and_then at 1 in H. unfold WorkCompletion.fail_if at 1 in H.
  destruct (Nat.eqb (List.length (WorkCompletion.to_array titles)) (List.length fs))
    eqn:Hlen; cbn [negb] in H; [|discriminate].
  apply Nat.eqb_eq in Hlen.
  unfold WorkCompletion.pure at 1 in H.
  unfold WorkCompletion.and_then at 1 in H. unfold WorkCompletion.fail_if at 1 in H.
  destruct (existsb _ _); [discriminate|].
  unfold WorkCompletion.pure at 1 in H.
  unfold WorkCompletion.and_then at 1 in H. unfold WorkCompletion.findOne at 1 in H.
  unfold WorkCompletion.and_then at 1 in H.
  assert (Hrest : forall target s0,
             match up fs with
             | Resolved uploadResults =>
                 match WorkCompletion.success uploadResults,
                       WorkCompletion.uploadData uploadResults with
                 | true, Some uploaded =>
                     WorkCompletion.and_then
                       (WorkCompletion.lift
                          (WorkCompletion.new_images fs (WorkCompletion.to_array titles)
                             (WorkCompletion.to_array descriptions) uploaded))
                       (fun newImages =>
                        WorkCompletion.and_then (WorkCompletion.with_ids newImages)
                          (fun pushed =>
                           WorkCompletion.and_then
                             (WorkCompletion.save
                                (WorkCompletionModel.with_images
                                   (WorkCompletionModel.images target ++ pushed) target))
                             (fun saved =>
                              WorkCompletion.pure
                                (mkApiResponse 200 saved "Images uploaded successfully"))))
                 | _, _ => WorkCompletion.fail (ApiError 500 "Failed to upload images to S3")
                 end
             | Rejected e => WorkCompletion.fail e
             end s0 = (Resolved r, s') ->
             exists pushed,
               data r
               = WorkCompletionModel.with_images
                   (WorkCompletionModel.images target ++ pushed) target
               /\ WorkCompletionModel.validate (data r) = true
               /\ WorkCompletion.completions s'
                  = map (fun d => if WorkCompletionModel._id d
                                     =? WorkCompletionModel._id target
                                  then data r else d) (WorkCompletion.completions s0)
               /\ map WorkCompletionModel.title pushed = WorkCompletion.to_array titles
               /\ List.length pushed = List.length fs).
  { intros target s0 Hrun.
    destruct (up fs) as [results|]; [|discriminate].
    destruct (WorkCompletion.success results); [|discriminate].
    destruct (WorkCompletion.uploadData results) as [uploaded|]; [|discriminate].
    unfold WorkCompletion.and_then at 1 in Hrun. unfold WorkCompletion.lift in Hrun.
    destruct (WorkCompletion.new_images fs _ _ uploaded) as [l|] eqn:Hnew;
      [|discriminate].
    unfold WorkCompletion.pure at 1 in Hrun.
    destruct (pushed_images fs _ _ _ l s0 Hnew Hlen) as (pushed & s1 & Hids & Hc & Ht & Hl).
    unfold WorkCompletion.and_then at 1 in Hrun. rewrite Hids in Hrun.
    unfold WorkCompletion.and_then, WorkCompletion.save in Hrun.
    destruct (WorkCompletionModel.validate _) eqn:Hv; [|discriminate].
    unfold WorkCompletion.pure in Hrun. inversion Hrun; subst r s'.
    exists pushed. cbn [data WorkCompletion.completions]. rewrite Hc.
    split; [reflexivity|]. split; [exact Hv|]. split; [reflexivity|].
    split; [exact Ht|exact Hl]. }
  destruct (find _ (WorkCompletion.completions s)) as [existing|] eqn:Hfind.
  - destruct (WorkCompletionModel.createdBy existing) as [owner|] eqn:Howner;
      [|discriminate].
    destruct userId as [u|]; [|discriminate].
    destruct (String.eqb_spec owner u) as [->|]; cbn [negb] in H; [|discriminate].
    unfold WorkCompletion.pure at 1 in H.
    destruct (Hrest existing s H) as (pushed & Hd & Hv & Hc & Ht & Hl).
    exists fs, existing, (WorkCompletion.completions s), pushed.
    split; [reflexivity|]. split; [exact Hpid|]. split; [split; reflexivity|].
    split; [exact Howner|]. repeat split; auto.
  - unfold WorkCompletion.create, WorkCompletion.and_then, WorkCompletion.fresh_id in H.
    match type of H with context [WorkCompletionModel.validate ?c] =>
      set (target := c) in H end.
    destruct (WorkCompletionModel.validate target); [|discriminate].
    match type of H with context [WorkCompletion.mkStore ?l ?n] =>
      set (s0 := WorkCompletion.mkStore l n) in H end.
    destruct (Hrest target s0) as (pushed & Hd & Hv & Hc & Ht & Hl).
    { exact H. }
    exists fs, target, (WorkCompletion.completions s ++ [target])%list, pushed.
    split; [reflexivity|]. split; [exact Hpid|].
    split; [repeat split; reflexivity|]. split; [reflexivity|]. repeat split; auto.
Qed.

Lemma images_listed projectId s :
  projectId <> "" ->
  WorkCompletion.getProjectWorkCompletionImages projectId s
  = (Resolved
       match find (fun c => WorkCompletionModel.project c =? projectId)
                  (rev (WorkCompletion.completions s)) with
       | Some c =>
           mkApiResponse 200 (WorkCompletionModel.images c)
             "Work completion images retrieved successfully"
       | None => mkApiResponse 200 [] "No work completion images found"
       end, s).
Proof.
  intros H. apply truthy_string_true in H.
  unfold WorkCompletion.getProjectWorkCompletionImages, WorkCompletion.and_then,
    WorkCompletion.fail_if, WorkCompletion.findLatest, WorkCompletion.pure.
  rewrite H. cbn [negb]. destruct (find _ _); reflexivity.
Qed.

(** X24.  Uploaded images can be read back.  For a project with at most
    one work completion, once [uploadWorkCompletionImages] has answered,
    [getProjectWorkCompletionImages] lists the images it listed before
    followed by one new image per uploaded file, in the order of the files
    and under the titles of the request; the list is the one of the record
    in the response. *)
Theorem uploaded_images_are_listed :
  forall (trim : string -> string)
         (upload : list File -> Outcome WorkCompletion.UploadResults)
         (projectId : ObjectId) (files : option (list File))
         (titles descriptions : WorkCompletion.Field) (userId : option ObjectId)
         (s : WorkCompletion.Store)
         (r : ApiResponse WorkCompletionModel.IWorkCompletion)
         (s' : WorkCompletion.Store),
    single_for projectId s ->
    WorkCompletion.uploadWorkCompletionImages trim upload projectId files titles
      descriptions userId s = (Resolved r, s') ->
    exists before after pushed,
      WorkCompletion.getProjectWorkCompletionImages projectId s = (Resolved before, s)
      /\ WorkCompletion.getProjectWorkCompletionImages projectId s' = (Resolved after, s')
      /\ data after = (data before ++ pushed)%list
      /\ data after = WorkCompletionModel.images (data r)
      /\ map WorkCompletionModel.title pushed = WorkCompletion.to_array titles
      /\ Some (List.length pushed) = option_map (@List.length File) files.
Proof.
  intros trim up projectId files titles descriptions userId s r s' Hsingle H.
  destruct (upload_shape trim up projectId files titles descriptions userId s r s' H)
    as (fs & target & base & pushed & Hfiles & Hpid & Hfound & _ & Hd & _ & Hc & Ht & Hl & _).
  set (f := fun c => WorkCompletionModel.project c =? projectId) in *.
  assert (Hbefore : match find f (rev (WorkCompletion.completions s)) with
                    | Some c => WorkCompletionModel.images c
                    | None => []
                    end = WorkCompletionModel.images target).
  { destruct (find f (WorkCompletion.completions s)) as [found|] eqn:Hf.
    - destruct Hfound as [-> _].
      pose proof (find_some _ _ Hf) as [Hin Hfx].
      rewrite (find_unique f (rev (WorkCompletion.completions s)) found);
        [reflexivity| |].
      + exists found. split; [apply in_rev in Hin; exact Hin|exact Hfx].
      + intros x Hx Hfx'. apply in_rev in Hx.
        apply (Hsingle x found Hx Hin); apply String.eqb_eq; assumption.
    - destruct Hfound as (Himg & _ & _). rewrite (find_rev_none _ _ Hf), Himg.
      reflexivity. }
  assert (Htarget : In target base /\ f target = true
                    /\ forall y, In y base -> f y = true ->
                                 WorkCompletionModel._id y = WorkCompletionModel._id target).
  { destruct (find f (WorkCompletion.completions s)) as [found|] eqn:Hf.
    - destruct Hfound as [-> ->]. pose proof (find_some _ _ Hf) as [Hin Hfx].
      split; [exact Hin|]. split; [exact Hfx|].
      intros y Hy Hfy. f_equal.
      apply (Hsingle y found Hy Hin); apply String.eqb_eq; assumption.
    - destruct Hfound as (_ & Hp & ->).
      split; [apply in_or_app; right; apply in_eq|].
      split; [unfold f; rewrite Hp; apply String.eqb_refl|].
      intros y Hy Hfy. apply in_app_or in Hy. destruct Hy as [Hy|[<-|[]]];
        [|reflexivity]. apply (find_none _ _ Hf) in Hy. congruence. }
  destruct Htarget as (Hin & Hft & Hsame).
  assert (Hafter : find f (rev (WorkCompletion.completions s')) = Some (data r)).
  { rewrite Hc. apply find_unique.
    - exists (data r). split.
      + apply -> in_rev. apply in_map_iff. exists target.
        rewrite String.eqb_refl. split; [reflexivity|exact Hin].
      + rewrite Hd. exact Hft.
    - intros x Hx Hfx. apply in_rev in Hx. apply in_map_iff in Hx.
      destruct Hx as (y & Hy & Hyin).
      destruct (String.eqb_spec (WorkCompletionModel._id y)
                  (WorkCompletionModel._id target)) as [E|E]; [congruence|].
      subst x. exfalso. apply E. apply Hsame; assumption. }
  pose proof (images_listed projectId s Hpid) as Hb.
  pose proof (images_listed projectId s' Hpid) as Ha.
  fold f in Hb, Ha. rewrite Hafter in Ha.
  do 2 eexists. exists pushed.
  split; [exact Hb|]. split; [exact Ha|].
  cbn [data]. rewrite Hd.
  cbn [WorkCompletionModel.images WorkCompletionModel.with_images].
  split; [|split; [reflexivity|split; [exact Ht|rewrite Hfiles, Hl; reflexivity]]].
  f_equal. rewrite <- Hbefore.
  destruct (find f (rev (WorkCompletion.completions s))); reflexivity.
Qed.

Lemma uploaded_images_are_listed_witness :
  exists r s' after,
    WorkCompletion.uploadWorkCompletionImages (fun t => t)
      (fun fs => Resolved (WorkCompletion.mkUploadResults true
                             (Some (map (fun f => QuotationModel.mkUpload
                                                    ("https://storage/" ++ originalname f)
                                                    (originalname f)) fs))))
      Sample.pid (Some [mkFile "images" "site.png"]) (WorkCompletion.One "Before")
      WorkCompletion.Absent (Some Sample.uid)
      (WorkCompletion.mkStore
         [WorkCompletionModel.mkWorkCompletion "650000000000000000000008" Sample.pid []
            (Some Sample.uid)] 0)
    = (Resolved r, s')
    /\ WorkCompletion.getProjectWorkCompletionImages Sample.pid s' = (Resolved after, s')
    /\ map WorkCompletionModel.title (data after) = ["Before"].
Proof.
  match goal with
  | |- context [WorkCompletion.uploadWorkCompletionImages ?t ?u ?p ?f ?ti ?d ?us ?S] =>
      destruct (WorkCompletion.uploadWorkCompletionImages t u p f ti d us S)
        as [o s'] eqn:Hrun;
      pose proof (uploaded_images_are_listed t u p f ti d us S) as H
  end.
  assert (Ho : exists r, o = Resolved r)
    by (vm_compute in Hrun; inversion Hrun; eexists; reflexivity).
  destruct Ho as [r ->].
  destruct (H r s') as (before & after & pushed & Hb & Ha & Hdata & _ & Ht & _).
  { intros x y [<-|[]] [<-|[]] _ _. reflexivity. }
  { exact Hrun. }
  exists r, s', after. split; [reflexivity|]. split; [exact Ha|].
  rewrite Hdata, map_app, Ht.
  rewrite (images_listed Sample.pid _ ltac:(discriminate)) in Hb.
  inversion Hb. reflexivity.
Defined.

Lemma findIndex_splits imageId l : forall index image,
  WorkCompletion.findIndex imageId l = Some (index, image) ->
  exists front back,
    l = (front ++ image :: back)%list
    /\ WorkCompletionModel.image_id image = imageId
    /\ (forall x, In x front -> WorkCompletionModel.image_id x <> imageId)
    /\ WorkCompletion.splice index l = (front ++ back)%list.
Proof.
  induction l as [|i l IH]; intros index image H; [discriminate|].
  cbn [WorkCompletion.findIndex] in H.
  destruct (String.eqb_spec (WorkCompletionModel.image_id i) imageId) as [E|E].
  - inversion H; subst. exists [], l. repeat split; auto.
  - destruct (WorkCompletion.findIndex imageId l) as [[k img]|] eqn:Hf; [|discriminate].
    cbn in H. inversion H; subst.
    destruct (IH k image eq_refl) as (front & back & Hl & Hid & Hfront & Hs).
    exists (i :: front), back. cbn [app WorkCompletion.splice].
    rewrite <- Hl, Hs. repeat split; auto.
    intros x [<-|Hx]; auto.
Qed.

Lemma find_replaced id d l c :
  find (fun x => WorkCompletionModel._id x =? id) l = Some c ->
  WorkCompletionModel._id d = id ->
  find (fun x => WorkCompletionModel._id x =? id)
       (map (fun x => if WorkCompletionModel._id x =? id then d else x) l) = Some d.
Proof.
  intros H Hd. induction l as [|x l IH]; [discriminate|].
  cbn [find map] in *. destruct (WorkCompletionModel._id x =? id) eqn:E.
  - cbn [find]. rewrite Hd, String.eqb_refl. reflexivity.
  - rewrite E. exact (IH H).
Qed.

(** X25.  Deleting an image removes that image only.  When
    [deleteWorkCompletionImage] answers 200 the first image with the given
    identifier has been cut out of the record, the others keep their order,
    and the record is stored that way; the request came from the user who
    created the record and the deletion in the object store went through.
    A request that is rejected, for whatever reason (the deletion in the
    object store failing is one), leaves the store as it was. *)
Theorem deleted_image_is_cut_out :
  forall (deleteFileFromS3 : string -> Outcome bool)
         (workCompletionId imageId : ObjectId) (userId : option ObjectId)
         (s : WorkCompletion.Store)
         (o : Outcome (ApiResponse WorkCompletionModel.IWorkCompletion))
         (s' : WorkCompletion.Store),
    WorkCompletion.deleteWorkCompletionImage deleteFileFromS3 workCompletionId
      imageId userId s = (o, s') ->
    match o with
    | Resolved r =>
        exists record front image back,
          fst (WorkCompletion.findById workCompletionId s) = Resolved (Some record)
          /\ WorkCompletionModel.createdBy record = userId
          /\ WorkCompletionModel.images record = (front ++ image :: back)%list
          /\ WorkCompletionModel.image_id image = imageId
          /\ (forall x, In x front -> WorkCompletionModel.image_id x <> imageId)
          /\ deleteFileFromS3 (WorkCompletionModel.s3Key image) = Resolved true
          /\ WorkCompletionModel.images (data r) = (front ++ back)%list
          /\ fst (WorkCompletion.findById workCompletionId s') = Resolved (Some (data r))
    | Rejected e => s' = s
    end.
Proof.
  intros del wid imageId userId s o s' H.
  unfold WorkCompletion.deleteWorkCompletionImage, WorkCompletion.and_then,
    WorkCompletion.fail_if, WorkCompletion.findById, WorkCompletion.fail,
    WorkCompletion.pure in H.
  unfold WorkCompletion.findById. cbn [fst].
  destruct (negb (JS.truthy_string wid) || negb (JS.truthy_string imageId)).
  { inversion H; subst. reflexivity. }
  destruct (find (fun c => WorkCompletionModel._id c =? wid)
                 (WorkCompletion.completions s)) as [c|] eqn:Hfind.
  2:{ inversion H; subst. reflexivity. }
  destruct (WorkCompletionModel.createdBy c) as [owner|] eqn:Howner.
  2:{ inversion H; subst. reflexivity. }
  destruct userId as [u|].
  2:{ inversion H; subst. reflexivity. }
  destruct (String.eqb_spec owner u) as [->|Hne]; cbn [negb] in H.
  2:{ inversion H; subst. reflexivity. }
  destruct (WorkCompletion.findIndex imageId (WorkCompletionModel.images c))
    as [[index image]|] eqn:Hindex.
  2:{ inversion H; subst. reflexivity. }
  destruct (del (WorkCompletionModel.s3Key image)) as [[|]|e] eqn:Hdel.
  2,3: inversion H; subst; reflexivity.
  unfold WorkCompletion.save in H.
  destruct (WorkCompletionModel.validate _) in H.
  2:{ inversion H; subst. reflexivity. }
  inversion H; subst. cbn [data WorkCompletion.completions].
  destruct (findIndex_splits _ _ _ _ Hindex) as (front & back & Hl & Hid & Hfront & Hs).
  exists c, front, image, back.
  repeat split; auto.
  - assert (Hc : WorkCompletionModel._id c = wid)
      by (apply find_some in Hfind; destruct Hfind as [_ Hc];
          apply String.eqb_eq in Hc; exact Hc).
    f_equal. cbn [WorkCompletionModel._id WorkCompletionModel.with_images].
    rewrite Hc. apply find_replaced with (c := c); [exact Hfind|exact Hc].
Qed.

Lemma deleted_image_is_cut_out_witness :
  exists r s',
    WorkCompletion.deleteWorkCompletionImage (fun _ => Resolved true)
      "650000000000000000000008" "img2" (Some Sample.uid)
      (WorkCompletion.mkStore
         [WorkCompletionModel.mkWorkCompletion "650000000000000000000008" Sample.pid
            [WorkCompletionModel.mkImage "img1" "Before" "https://storage/a" "a" "";
             WorkCompletionModel.mkImage "img2" "After" "https://storage/b" "b" ""]
            (Some Sample.uid)] 0)
    = (Resolved r, s')
    /\ map WorkCompletionModel.title (WorkCompletionModel.images (data r)) = ["Before"].
Proof.
  match goal with
  | |- context [WorkCompletion.deleteWorkCompletionImage ?d ?w ?i ?u ?S] =>
      destruct (WorkCompletion.deleteWorkCompletionImage d w i u S) as [o s'] eqn:Hrun;
      pose proof (deleted_image_is_cut_out d w i u S o s' Hrun) as H
  end.
  assert (Ho : exists r, o = Resolved r)
    by (vm_compute in Hrun; inversion Hrun; eexists; reflexivity).
  destruct Ho as [r ->].
  destruct H as (record & front & image & back & Hf & _ & Himg & Hid & Hfront & _ & Hr & _).
  exists r, s'. split; [reflexivity|]. rewrite Hr.
  cbn in Hf. inversion Hf; subst record. cbn in Himg.
  destruct front as [|i1 front].
  - inversion Himg; subst. discriminate Hid.
  - inversion Himg as [[Hi1 Hrest]]. destruct front as [|i2 front].
    + inversion Hrest; subst. reflexivity.
    + inversion Hrest as [[Hi2 Hrest']]. exfalso. apply (Hfront i2).
      * right; left; reflexivity.
      * subst i2. 
        destruct front; [|destruct front]; discriminate.
Defined.

Lemma find_app_found {A} (f : A -> bool) (l l' : list A) (x : A) :
  find f l = Some x -> find f (l ++ l') = Some x.
Proof.
  induction l as [|a l IH]; [discriminate|]. cbn [find app].
  destruct (f a); auto.
Qed.

(** X26.  A second record hides the uploads.  [createWorkCompletion] does
    not look for a record of the project, so it answers 201 for a project
    that has one already.  From then on [uploadWorkCompletionImages]
    (a [findOne] without order: the record inserted first) and
    [getProjectWorkCompletionImages] (sorted by [createdAt], latest first)
    work on different records: an upload that succeeds adds its images to
    the older record, and the listing for the project stays empty. *)
Theorem second_record_hides_uploads :
  forall (trim : string -> string)
         (upload : list File -> Outcome WorkCompletion.UploadResults)
         (w : World) (projectId userId : ObjectId)
         (files : option (list File)) (titles descriptions : WorkCompletion.Field)
         (s : WorkCompletion.Store) (older : WorkCompletionModel.IWorkCompletion),
    store_keyed s ->
    projectId <> "" ->
    find (fun p => ProjectModel._id p =? projectId) (projects w) <> None ->
    fst (WorkCompletion.findOne projectId s) = Resolved (Some older) ->
    exists r1 s1,
      WorkCompletion.createWorkCompletion w (Some projectId) (Some userId) s
      = (Resolved r1, s1)
      /\ statusCode r1 = 201%Z
      /\ forall r2 s2,
           WorkCompletion.uploadWorkCompletionImages trim upload projectId files
             titles descriptions (Some userId) s1 = (Resolved r2, s2) ->
           WorkCompletionModel._id (data r2) = WorkCompletionModel._id older
           /\ WorkCompletionModel.images (data r2) <> []
           /\ exists listed,
               WorkCompletion.getProjectWorkCompletionImages projectId s2
               = (Resolved listed, s2)
               /\ data listed = [].
Proof.
  intros trim up w pid uid files titles descriptions s older [Hids Hfresh] Hpid Hproject
         Holder.
  unfold WorkCompletion.findOne in Holder. cbn [fst] in Holder.
  inversion Holder as [Hfind]. clear Holder.
  unfold WorkCompletion.createWorkCompletion, WorkCompletion.and_then,
    WorkCompletion.fail_if, WorkCompletion.create, WorkCompletion.fresh_id,
    WorkCompletion.pure.
  rewrite (proj2 (truthy_string_true pid) Hpid). cbn [negb].
  destruct (find _ (projects w)); [|congruence].
  unfold WorkCompletionModel.validate.
  cbn [WorkCompletionModel.project WorkCompletionModel.images
       WorkCompletionModel.createdBy forallb JS.is_nullish negb andb].
  rewrite (proj2 (truthy_string_true pid) Hpid). cbn [andb negb JS.is_nullish].
  unfold WorkCompletion.and_then.
  cbn [WorkCompletion.completions WorkCompletion.next_id].
  set (newer := WorkCompletionModel.mkWorkCompletion
                  ("oid" ++ JS.string_of_nat (WorkCompletion.next_id s)) pid []
                  (Some uid)).
  do 2 eexists. split; [reflexivity|]. split; [reflexivity|].
  intros r2 s2 Hrun.
  destruct (upload_shape _ _ _ _ _ _ _ _ _ _ Hrun)
    as (fs & target & base & pushed & _ & _ & Hfound & _ & Hd & _ & Hc & _ & Hl & Hfs).
  cbn [WorkCompletion.completions] in Hfound, Hc.
  rewrite (find_app_found _ _ [newer] _ Hfind) in Hfound.
  destruct Hfound as [-> ->].
  pose proof (find_some _ _ Hfind) as [Hin _].
  split; [rewrite Hd; reflexivity|]. split.
  { rewrite Hd. cbn [WorkCompletionModel.images WorkCompletionModel.with_images].
    intros E. apply app_eq_nil in E. destruct E as [_ ->].
    destruct fs; [congruence|discriminate]. }
  eexists. split; [apply (images_listed pid s2 Hpid)|].
  rewrite Hc, map_app, rev_app_distr. cbn [map rev app].
  assert (Hne : (WorkCompletionModel._id newer =? WorkCompletionModel._id older) = false).
  { apply String.eqb_neq. intros E. apply (Hfresh older (WorkCompletion.next_id s) Hin).
    - apply Nat.le_refl.
    - rewrite <- E. reflexivity. }
  rewrite Hne. cbn [find]. unfold newer at 1. cbn [WorkCompletionModel.project].
  rewrite String.eqb_refl. reflexivity.
Qed.

Lemma second_record_hides_uploads_witness :
  exists r1 s1 r2 s2 listed,
    WorkCompletion.createWorkCompletion (Sample.world "work_started" 0) (Some Sample.pid) (Some Sample.uid)
      (WorkCompletion.mkStore
         [WorkCompletionModel.mkWorkCompletion "650000000000000000000008" Sample.pid []
            (Some Sample.uid)] 0)
    = (Resolved r1, s1)
    /\ WorkCompletion.uploadWorkCompletionImages (fun t => t)
         (fun fs => Resolved (WorkCompletion.mkUploadResults true
                                (Some (map (fun f => QuotationModel.mkUpload
                                                       ("https://storage/" ++ originalname f)
                                                       (originalname f)) fs))))
         Sample.pid (Some [mkFile "images" "site.png"]) (WorkCompletion.One "Before")
         WorkCompletion.Absent (Some Sample.uid) s1
       = (Resolved r2, s2)
    /\ map WorkCompletionModel.title (WorkCompletionModel.images (data r2)) = ["Before"]
    /\ WorkCompletion.getProjectWorkCompletionImages Sample.pid s2 = (Resolved listed, s2)
    /\ data listed = [].
Proof.
  destruct (second_record_hides_uploads (fun t => t)
              (fun fs => Resolved (WorkCompletion.mkUploadResults true
                                     (Some (map (fun f => QuotationModel.mkUpload
                                                            ("https://storage/" ++ originalname f)
                                                            (originalname f)) fs))))
              (Sample.world "work_started" 0) Sample.pid Sample.uid
              (Some [mkFile "images" "site.png"]) (WorkCompletion.One "Before")
              WorkCompletion.Absent
              (WorkCompletion.mkStore
                 [WorkCompletionModel.mkWorkCompletion "650000000000000000000008"
                    Sample.pid [] (Some Sample.uid)] 0)
              (WorkCompletionModel.mkWorkCompletion "650000000000000000000008"
                 Sample.pid [] (Some Sample.uid)))
    as (r1 & s1 & Hcreate & _ & Hupload).
  - split.
    + intros x y [<-|[]] [<-|[]] _. reflexivity.
    + intros x n [<-|[]] _. cbn. discriminate.
  - discriminate.
  - vm_compute. discriminate.
  - reflexivity.
  - exists r1, s1.
    match goal with
    | |- context [WorkCompletion.uploadWorkCompletionImages ?t ?u ?p ?f ?ti ?d ?us s1] =>
        destruct (WorkCompletion.uploadWorkCompletionImages t u p f ti d us s1)
          as [o s2] eqn:Hrun
    end.
    assert (Ho : exists r, o = Resolved r /\
                   map WorkCompletionModel.title (WorkCompletionModel.images (data r))
                   = ["Before"]).
    { vm_compute in Hcreate. inversion Hcreate; subst s1.
      vm_compute in Hrun. inversion Hrun. eexists. split; reflexivity. }
    destruct Ho as (r2 & -> & Htitles).
    destruct (Hupload r2 s2 eq_refl) as (_ & _ & listed & Hlisted & Hempty).
    exists r2, s2, listed. repeat split; assumption.
Defined.

Lemma with_ids_runs l : forall s,
  exists pushed s1,
    WorkCompletion.with_ids l s = (Resolved pushed, s1)
    /\ WorkCompletion.completions s1 = WorkCompletion.completions s.
Proof.
  induction l as [|mk l IH]; intros s.
  - exists [], s. split; reflexivity.
  - cbn [WorkCompletion.with_ids].
    unfold WorkCompletion.and_then at 1. unfold WorkCompletion.fresh_id at 1.
    set (s0 := WorkCompletion.mkStore _ _).
    destruct (IH s0) as (pushed & s1 & Hrun & Hc).
    unfold WorkCompletion.and_then. rewrite Hrun. unfold WorkCompletion.pure.
    do 2 eexists. split; [reflexivity|exact Hc].
Qed.

Lemma upload_writes trim up projectId files titles descriptions userId s :
  written_for userId s
    (snd (WorkCompletion.uploadWorkCompletionImages trim up projectId files titles
            descriptions userId s)).
Proof.
  assert (Hnone : written_for userId s s)
    by (exists (WorkCompletion.completions s); split; left; reflexivity).
  unfold WorkCompletion.uploadWorkCompletionImages.
  unfold WorkCompletion.and_then at 1. unfold WorkCompletion.fail_if at 1.
  destruct (negb (JS.truthy_string projectId)); [exact Hnone|].
  unfold WorkCompletion.pure at 1.
  destruct files as [fs|]; [|exact Hnone].
  unfold WorkCompletion.and_then at 1. unfold WorkCompletion.fail_if at 1.
  destruct (Nat.eqb (List.length fs) 0); [exact Hnone|].
  unfold WorkCompletion.pure at 1. cbv zeta.
  unfold WorkCompletion.and_then at 1. unfold WorkCompletion.fail_if at 1.
  destruct (negb _); [exact Hnone|].
  unfold WorkCompletion.pure at 1.
  unfold WorkCompletion.and_then at 1. unfold WorkCompletion.fail_if at 1.
  destruct (existsb _ _); [exact Hnone|].
  unfold WorkCompletion.pure at 1.
  unfold WorkCompletion.and_then at 1. unfold WorkCompletion.findOne at 1.
  unfold WorkCompletion.and_then at 1.
  assert (Hrest : forall target s0,
             WorkCompletionModel.createdBy target = userId ->
             let s' :=
               snd (match up fs with
                    | Resolved uploadResults =>
                        match WorkCompletion.success uploadResults,
                              WorkCompletion.uploadData uploadResults with
                        | true, Some uploaded =>
                            WorkCompletion.and_then
                              (WorkCompletion.lift
                                 (WorkCompletion.new_images fs
                                    (WorkCompletion.to_array titles)
                                    (WorkCompletion.to_array descriptions) uploaded))
                              (fun newImages =>
                               WorkCompletion.and_then
                                 (WorkCompletion.with_ids newImages)
                                 (fun pushed =>
                                  WorkCompletion.and_then
                                    (WorkCompletion.save
                                       (WorkCompletionModel.with_images
                                          (WorkCompletionModel.images target ++ pushed)
                                          target))
                                    (fun saved =>
                                     WorkCompletion.pure
                                       (mkApiResponse 200 saved
                                          "Images uploaded successfully"))))
                        | _, _ =>
                            WorkCompletion.fail
                              (ApiError 500 "Failed to upload images to S3")
                        end
                    | Rejected e => WorkCompletion.fail e
                    end s0) in
             WorkCompletion.completions s' = WorkCompletion.completions s0
             \/ exists d,
                 WorkCompletionModel.createdBy d = userId
                 /\ WorkCompletion.completions s'
                    = map (fun x => if WorkCompletionModel._id x
                                       =? WorkCompletionModel._id target
                                    then d else x) (WorkCompletion.completions s0)).
  { intros target s0 Howner. cbv zeta.
    destruct (up fs) as [results|]; [|left; reflexivity].
    destruct (WorkCompletion.success results); [|left; reflexivity].
    destruct (WorkCompletion.uploadData results) as [uploaded|]; [|left; reflexivity].
    unfold WorkCompletion.and_then at 1. unfold WorkCompletion.lift.
    destruct (WorkCompletion.new_images fs _ _ uploaded) as [l|]; [|left; reflexivity].
    destruct (with_ids_runs l s0) as (pushed & s1 & Hids & Hc).
    unfold WorkCompletion.and_then, WorkCompletion.pure. cbv beta iota.
    rewrite Hids. unfold WorkCompletion.save.
    destruct (WorkCompletionModel.validate _).
    - right. eexists. split; [|cbn [snd WorkCompletion.completions]; rewrite Hc; reflexivity].
      exact Howner.
    - left. exact Hc. }
  destruct (find _ (WorkCompletion.completions s)) as [existing|] eqn:Hfind.
  - destruct (WorkCompletionModel.createdBy existing) as [owner|] eqn:Howner;
      [|exact Hnone].
    destruct userId as [u|]; [|exact Hnone].
    destruct (String.eqb_spec owner u) as [->|]; cbn [negb]; [|exact Hnone].
    unfold WorkCompletion.pure at 1.
    exists (WorkCompletion.completions s). split; [left; reflexivity|].
    destruct (Hrest existing s Howner) as [Hsame|(d & Hd & Hmap)].
    + left. exact Hsame.
    + right. exists existing, d. apply find_some in Hfind. destruct Hfind as [Hin _].
      repeat split; assumption.
  - unfold WorkCompletion.create, WorkCompletion.and_then at 1, WorkCompletion.fresh_id.
    match goal with |- context [WorkCompletionModel.validate ?c] =>
      set (target := c) end.
    destruct (WorkCompletionModel.validate target); [|exact Hnone].
    match goal with |- context [WorkCompletion.mkStore ?l ?n] =>
      set (s0 := WorkCompletion.mkStore l n) end.
    exists (WorkCompletion.completions s ++ [target])%list.
    split; [right; exists target; repeat split; reflexivity|].
    destruct (Hrest target s0 eq_refl) as [Hsame|(d & Hd & Hmap)].
    + left. exact Hsame.
    + right. exists target, d. repeat split; try assumption; try reflexivity.
      apply in_or_app. right. apply in_eq.
Qed.

Lemma delete_writes del workCompletionId imageId userId s :
  written_for userId s
    (snd (WorkCompletion.deleteWorkCompletionImage del workCompletionId imageId
            userId s)).
Proof.
  assert (Hnone : written_for userId s s)
    by (exists (WorkCompletion.completions s); split; left; reflexivity).
  unfold WorkCompletion.deleteWorkCompletionImage, WorkCompletion.and_then,
    WorkCompletion.fail_if, WorkCompletion.findById, WorkCompletion.fail,
    WorkCompletion.pure.
  destruct (negb _ || negb _); [exact Hnone|].
  destruct (find _ (WorkCompletion.completions s)) as [c|] eqn:Hfind; [|exact Hnone].
  destruct (WorkCompletionModel.createdBy c) as [owner|] eqn:Howner; [|exact Hnone].
  destruct userId as [u|]; [|exact Hnone].
  destruct (String.eqb_spec owner u) as [->|]; cbn [negb]; [|exact Hnone].
  destruct (WorkCompletion.findIndex _ _) as [[index image]|]; [|exact Hnone].
  destruct (del _) as [[|]|e]; try exact Hnone.
  unfold WorkCompletion.save. destruct (WorkCompletionModel.validate _); [|exact Hnone].
  exists (WorkCompletion.completions s). split; [left; reflexivity|].
  right. exists c. eexists. apply find_some in Hfind. destruct Hfind as [Hin _].
  split; [exact Hin|]. split; [exact Howner|]. split; [|reflexivity]. exact Howner.
Qed.

Lemma written_for_others userId s s' c :
  store_keyed s ->
  written_for userId s s' ->
  WorkCompletionModel.createdBy c <> userId ->
  In c (WorkCompletion.completions s) <-> In c (WorkCompletion.completions s').
Proof.
  intros [Hids Hfresh] (base & Hbase & Hwritten) Hother.
  assert (Hb : In c (WorkCompletion.completions s) <-> In c base).
  { destruct Hbase as [->|(t & Ht & _ & ->)]; [reflexivity|].
    split; intros H.
    - apply in_or_app. left. exact H.
    - apply in_app_or in H. destruct H as [H|[<-|[]]]; [exact H|]. contradiction. }
  rewrite Hb. destruct Hwritten as [->|(target & d & Hin & Ht & Hd & ->)]; [reflexivity|].
  rewrite in_map_iff. split.
  - intros H. exists c. split; [|exact H].
    destruct (String.eqb_spec (WorkCompletionModel._id c)
                (WorkCompletionModel._id target)) as [E|E]; [|reflexivity].
    exfalso. apply Hb in H.
    destruct Hbase as [->|(t & _ & Hid & ->)].
    + apply Hother. rewrite (Hids c target H Hin E). exact Ht.
    + apply in_app_or in Hin. destruct Hin as [Hin|[<-|[]]].
      * apply Hother. rewrite (Hids c target H Hin E). exact Ht.
      * apply (Hfresh c (WorkCompletion.next_id s) H (Nat.le_refl _)).
        rewrite E. exact Hid.
  - intros (x & Hx & Hxin).
    destruct (WorkCompletionModel._id x =? WorkCompletionModel._id target).
    + subst d. contradiction.
    + subst x. exact Hxin.
Qed.

(** X27.  Nobody touches another user's records.  Whatever the request
    and whatever the object store answers, [uploadWorkCompletionImages]
    and [deleteWorkCompletionImage], run for a user, leave the records
    created by anybody else exactly as they are: none is changed, none is
    removed and none is added. *)
Theorem other_users_records_stay :
  forall (trim : string -> string)
         (upload : list File -> Outcome WorkCompletion.UploadResults)
         (deleteFileFromS3 : string -> Outcome bool)
         (projectId workCompletionId imageId : ObjectId)
         (files : option (list File)) (titles descriptions : WorkCompletion.Field)
         (userId : option ObjectId) (s : WorkCompletion.Store)
         (c : WorkCompletionModel.IWorkCompletion),
    store_keyed s ->
    WorkCompletionModel.createdBy c <> userId ->
    (In c (WorkCompletion.completions s)
     <-> In c (WorkCompletion.completions
                 (snd (WorkCompletion.uploadWorkCompletionImages trim upload projectId
                         files titles descriptions userId s))))
    /\ (In c (WorkCompletion.completions s)
        <-> In c (WorkCompletion.completions
                    (snd (WorkCompletion.deleteWorkCompletionImage deleteFileFromS3
                            workCompletionId imageId userId s)))).
Proof.
  intros trim up del pid wid imageId files titles descriptions userId s c Hkeyed Hother.
  split.
  - apply (written_for_others userId); [exact Hkeyed| |exact Hother].
    apply upload_writes.
  - apply (written_for_others userId); [exact Hkeyed| |exact Hother].
    apply delete_writes.
Qed.

Lemma other_users_records_stay_witness :
  let theirs :=
    WorkCompletionModel.mkWorkCompletion "650000000000000000000008" Sample.pid
      [WorkCompletionModel.mkImage "img1" "Before" "https://storage/a" "a" ""]
      (Some Sample.admin_id) in
  let s := WorkCompletion.mkStore [theirs] 0 in
  fst (WorkCompletion.deleteWorkCompletionImage (fun _ => Resolved true)
         "650000000000000000000008" "img1" (Some Sample.uid) s)
  = Rejected (ApiError 403 "Not authorized to modify this work completion")
  /\ In theirs
       (WorkCompletion.completions
          (snd (WorkCompletion.deleteWorkCompletionImage (fun _ => Resolved true)
                  "650000000000000000000008" "img1" (Some Sample.uid) s))).
Proof.
  intros theirs s. split; [reflexivity|].
  apply (other_users_records_stay (fun t => t) (fun _ => Rejected (TypeError "unused"))
           (fun _ => Resolved true) Sample.pid "650000000000000000000008" "img1"
           None WorkCompletion.Absent WorkCompletion.Absent (Some Sample.uid) s theirs).
  - split.
    + intros x y [<-|[]] [<-|[]] _. reflexivity.
    + intros x n [<-|[]] _. cbn. discriminate.
  - cbn. discriminate.
  - left. reflexivity.
Defined.

Lemma find_app_new {A} (f : A -> bool) (l : list A) (x : A) :
  find f l = None -> f x = true -> find f (l ++ [x]) = Some x.
Proof.
  intros Hl Hx. induction l as [|a l IH]; cbn [find app].
  - rewrite Hx. reflexivity.
  - cbn [find] in Hl. destruct (f a); [discriminate|]. exact (IH Hl).
Qed.

(** X28.  A failed upload leaves a record behind.  For a project without
    a work completion, [uploadWorkCompletionImages] creates the record
    before it sends the files to the object store.  When the store then
    reports a failure the request is answered with the 500, but the empty
    record stays: it is the record of the project from then on, created by
    the user of the failed request. *)
Theorem failed_upload_leaves_record :
  forall (trim : string -> string)
         (upload : list File -> Outcome WorkCompletion.UploadResults)
         (projectId userId : ObjectId) (files : list File)
         (titles descriptions : WorkCompletion.Field)
         (s : WorkCompletion.Store) (results : WorkCompletion.UploadResults),
    projectId <> "" ->
    files <> [] ->
    List.length (WorkCompletion.to_array titles) = List.length files ->
    existsb (WorkCompletion.blank trim) (WorkCompletion.to_array titles) = false ->
    fst (WorkCompletion.findOne projectId s) = Resolved None ->
    upload files = Resolved results ->
    WorkCompletion.success results = false
    \/ WorkCompletion.uploadData results = None ->
    exists s' record,
      WorkCompletion.uploadWorkCompletionImages trim upload projectId (Some files)
        titles descriptions (Some userId) s
      = (Rejected (ApiError 500 "Failed to upload images to S3"), s')
      /\ WorkCompletion.completions s' = (WorkCompletion.completions s ++ [record])%list
      /\ WorkCompletionModel.images record = []
      /\ WorkCompletionModel.createdBy record = Some userId
      /\ fst (WorkCompletion.findOne projectId s') = Resolved (Some record).
Proof.
  intros trim up pid uid fs titles descriptions s results Hpid Hfs Hlen Hblank Hnone
         Hup Hfailed.
  unfold WorkCompletion.findOne in Hnone. cbn [fst] in Hnone.
  inversion Hnone as [Hfind]. clear Hnone.
  unfold WorkCompletion.uploadWorkCompletionImages.
  unfold WorkCompletion.and_then, WorkCompletion.fail_if, WorkCompletion.pure,
    WorkCompletion.findOne.
  rewrite (proj2 (truthy_string_true pid) Hpid). cbn [negb].
  assert (Hsome : Nat.eqb (List.length fs) 0 = false)
    by (destruct fs; [congruence|reflexivity]).
  rewrite Hsome, Hlen, Nat.eqb_refl, Hblank. cbn [negb]. rewrite Hfind.
  unfold WorkCompletion.create, WorkCompletion.and_then, WorkCompletion.fresh_id.
  unfold WorkCompletionModel.validate.
  cbn [WorkCompletionModel.project WorkCompletionModel.images
       WorkCompletionModel.createdBy forallb JS.is_nullish negb andb].
  rewrite (proj2 (truthy_string_true pid) Hpid). cbn [andb negb JS.is_nullish].
  cbn [WorkCompletion.completions WorkCompletion.next_id].
  rewrite Hup.
  set (record := WorkCompletionModel.mkWorkCompletion
                   ("oid" ++ JS.string_of_nat (WorkCompletion.next_id s)) pid []
                   (Some uid)).
  assert (Hout : (match WorkCompletion.success results,
                        WorkCompletion.uploadData results with
                  | true, Some uploaded =>
                      WorkCompletion.and_then
                        (WorkCompletion.lift
                           (WorkCompletion.new_images fs (WorkCompletion.to_array titles)
                              (WorkCompletion.to_array descriptions) uploaded))
                        (fun newImages =>
                         WorkCompletion.and_then (WorkCompletion.with_ids newImages)
                           (fun pushed =>
                            WorkCompletion.and_then
                              (WorkCompletion.save
                                 (WorkCompletionModel.with_images
                                    (WorkCompletionModel.images record ++ pushed) record))
                              (fun saved =>
                               WorkCompletion.pure
                                 (mkApiResponse 200 saved "Images uploaded successfully"))))
                  | _, _ =>
                      WorkCompletion.fail (ApiError 500 "Failed to upload images to S3")
                  end)
                 = WorkCompletion.fail (ApiError 500 "Failed to upload images to S3")).
  { destruct Hfailed as [-> | ->]; [reflexivity|].
    destruct (WorkCompletion.success results); reflexivity. }
  unfold WorkCompletion.and_then, WorkCompletion.pure in Hout.
  exists (WorkCompletion.mkStore (WorkCompletion.completions s ++ [record])
            (S (WorkCompletion.next_id s))), record.
  split.
  { match goal with |- ?f ?x = _ => change (f x) with
        ((match WorkCompletion.success results,
                        WorkCompletion.uploadData results with
                  | true, Some uploaded =>
                      WorkCompletion.and_then
                        (WorkCompletion.lift
                           (WorkCompletion.new_images fs (WorkCompletion.to_array titles)
                              (WorkCompletion.to_array descriptions) uploaded))
                        (fun newImages =>
                         WorkCompletion.and_then (WorkCompletion.with_ids newImages)
                           (fun pushed =>
                            WorkCompletion.and_then
                              (WorkCompletion.save
                                 (WorkCompletionModel.with_images
                                    (WorkCompletionModel.images record ++ pushed) record))
                              (fun saved =>
                               WorkCompletion.pure
                                 (mkApiResponse 200 saved "Images uploaded successfully"))))
                  | _, _ =>
                      WorkCompletion.fail (ApiError 500 "Failed to upload images to S3")
                  end) x) end.
    unfold WorkCompletion.and_then, WorkCompletion.pure. rewrite Hout. reflexivity. }
  cbn [WorkCompletion.completions fst].
  repeat split. f_equal. apply find_app_new; [exact Hfind|].
  apply String.eqb_refl.
Qed.

Lemma failed_upload_leaves_record_witness :
  exists s' record,
    WorkCompletion.uploadWorkCompletionImages (fun t => t)
      (fun _ => Resolved (WorkCompletion.mkUploadResults false None))
      Sample.pid (Some [mkFile "images" "site.png"]) (WorkCompletion.One "Before")
      WorkCompletion.Absent (Some Sample.uid) (WorkCompletion.mkStore [] 0)
    = (Rejected (ApiError 500 "Failed to upload images to S3"), s')
    /\ WorkCompletion.completions s' = [record]
    /\ WorkCompletionModel.createdBy record = Some Sample.uid.
Proof.
  destruct (failed_upload_leaves_record (fun t => t)
              (fun _ => Resolved (WorkCompletion.mkUploadResults false None))
              Sample.pid Sample.uid [mkFile "images" "site.png"]
              (WorkCompletion.One "Before") WorkCompletion.Absent
              (WorkCompletion.mkStore [] 0)
              (WorkCompletion.mkUploadResults false None))
    as (s' & record & Hrun & Hstore & _ & Howner & _).
  - discriminate.
  - discriminate.
  - reflexivity.
  - reflexivity.
  - reflexivity.
  - reflexivity.
  - left. reflexivity.
  - exists s', record. split; [exact Hrun|]. split; [exact Hstore|exact Howner].
Defined.

